(** * Device placement servers: a shallow embedding and its properties

    Two Express servers are embedded here.

    - [Clustered] is [src/server.js]: the devices of a school are spread
      over clusters of at most ten devices, the first three devices of a
      cluster being its hosts.
    - [Flat] is [src/unnamed/part_000]: one device list and one host list
      per school.

    Both keep their state in a module-level plain object [schoolData]
    and read it with [schoolData[schoolCode]].  A property read on a plain
    JavaScript object consults the object's own properties first and
    [Object.prototype] next, so the embedding keeps the two apart
    (module [Js]).  Every handler runs to completion before the next
    request is served, so a handler is a function from the store and the
    request to the new store and the response.

    What a handler reads from its environment is an argument of the
    request: the index drawn by [Math.random] and the clock reading.
    The two body fields of a registration are strings when present: the
    handlers take whatever JSON value [express.json] parsed, and fields
    holding a number, a boolean, [null], an array or an object, as well
    as bodies that do not parse to an object, are outside the embedding.
    Every statement below is about requests with string fields and the
    stores such requests reach.
    Counters are JavaScript numbers; they stay far below 2^53, where the
    arithmetic is exact, and are integers here.  Writing the snapshot
    file changes nothing a handler reads, so the handlers are embedded
    without it; the file, [saveData], [loadData] and [startServer] are
    added around them in [Persistent] and [FlatPersistent]. *)

From stdpp Require Import base strings list gmap pretty fin vector sorting.

(** ** Plain JavaScript objects used as maps *)

Module Js.

(** The function-valued properties that every plain object inherits from
    [Object.prototype] under Node.js. *)
Definition objectPrototypeFunctions : list string :=
  [ "constructor"; "hasOwnProperty"; "isPrototypeOf"; "propertyIsEnumerable";
    "toLocaleString"; "toString"; "valueOf";
    "__defineGetter__"; "__defineSetter__";
    "__lookupGetter__"; "__lookupSetter__" ].

(** What a read [obj[key]] can find when [key] is not an own property. *)
Inductive Inherited : Type :=
  | BuiltinFunction   (* one of [objectPrototypeFunctions] *)
  | ObjectPrototype   (* [obj["__proto__"]] is [Object.prototype] itself *)
  | NotANumber.       (* a property of [Object.prototype] holding [NaN] *)

Inductive Value (A : Type) : Type :=
  | Own (a : A)
  | FromPrototype (i : Inherited)
  | Undefined.
Arguments Own {A} a.
Arguments FromPrototype {A} i.
Arguments Undefined {A}.

Definition isMember (key : string) (names : list string) : bool :=
  existsb (String.eqb key) names.

(** [Object.prototype[key]].  [extra] lists the enumerable data
    properties that the program itself has added to [Object.prototype];
    in these programs their value is always [NaN]. *)
Definition prototypeGet (extra : list string) (key : string) : option Inherited :=
  if String.eqb key "__proto__" then Some ObjectPrototype
  else if isMember key objectPrototypeFunctions then Some BuiltinFunction
  else if isMember key extra then Some NotANumber
  else None.

(** [obj[key]], given the own property (if any) stored under [key]. *)
Definition get {A : Type} (extra : list string) (own : option A) (key : string) : Value A :=
  match own with
  | Some a => Own a
  | None =>
      match prototypeGet extra key with
      | Some i => FromPrototype i
      | None => Undefined
      end
  end.

(** Truthiness as tested by [if (v)] and [!v]: objects and functions are
    truthy, [NaN] and [undefined] are falsy. *)
Definition truthy {A : Type} (v : Value A) : bool :=
  match v with
  | Own _ => true
  | FromPrototype BuiltinFunction => true
  | FromPrototype ObjectPrototype => true
  | FromPrototype NotANumber => false
  | Undefined => false
  end.

(** A request field: absent ([undefined]) or a string; the empty string
    is the only falsy string.  The handlers test [!schoolCode] and
    [!deviceId] on any JSON value; only absent and string fields are
    embedded. *)
Definition truthyField (f : option string) : bool :=
  match f with
  | Some s => negb (String.eqb s "")
  | None => false
  end.

(** [v || null] on an optional string: [None] stands for [null]. *)
Definition orNull (v : option string) : option string :=
  match v with
  | Some s => if String.eqb s "" then None else Some s
  | None => None
  end.

(** [Array.prototype.findIndex]: the first index whose element satisfies
    [p], or [-1]. *)
Fixpoint findIndexFrom {A : Type} (p : A → bool) (i : Z) (l : list A) : Z :=
  match l with
  | [] => (-1)%Z
  | x :: rest => if p x then i else findIndexFrom p (i + 1)%Z rest
  end.

Definition findIndex {A : Type} (p : A → bool) (l : list A) : Z :=
  findIndexFrom p 0%Z l.

(** An object whose keys are not array indices enumerates its own
    properties in insertion order: an association list.  [objSet] is
    [obj[key] = v] (overwrite in place, or append), [objDelete] is
    [delete obj[key]]. *)
Fixpoint objGet {A : Type} (key : string) (obj : list (string * A)) : option A :=
  match obj with
  | [] => None
  | (k, v) :: rest => if String.eqb k key then Some v else objGet key rest
  end.

Fixpoint objSet {A : Type} (key : string) (v : A) (obj : list (string * A)) : list (string * A) :=
  match obj with
  | [] => [(key, v)]
  | (k, w) :: rest =>
      if String.eqb k key then (k, v) :: rest else (k, w) :: objSet key v rest
  end.

Fixpoint objDelete {A : Type} (key : string) (obj : list (string * A)) : list (string * A) :=
  match obj with
  | [] => []
  | (k, w) :: rest =>
      if String.eqb k key then rest else (k, w) :: objDelete key rest
  end.

(** How a block of statements ends: with a value or with an exception
    (always a [TypeError] here). *)
Inductive Completion (A : Type) : Type :=
  | Returned (a : A)
  | Thrown.
Arguments Returned {A} a.
Arguments Thrown {A}.

End Js.

(** ** The clustered server, [src/server.js] *)

Module Clustered.

Definition MAX_DEVICES_PER_CLUSTER : nat := 10.
Definition MAX_HOSTS_PER_CLUSTER : nat := 3.

Definition FREQUENCY_CHANNELS : vec Z 25 :=
  [# 5180; 5200; 5220; 5240; 5260; 5280; 5300; 5320;
     5500; 5520; 5540; 5560; 5580; 5600; 5620; 5640;
     5660; 5680; 5700; 5720; 5745; 5765; 5785; 5805; 5825 ]%Z.

(** [u] is [Math.floor(Math.random() * FREQUENCY_CHANNELS.length)], an
    index below 25 because [Math.random()] is below 1. *)
Definition getRandomFrequency (u : fin 25) : Z := FREQUENCY_CHANNELS !!! u.

Record Device : Type := {
  deviceId : string;
  registeredAt : string
}.

Record Cluster : Type := {
  clusterNumber : N;
  devices : list Device;
  hosts : list string;
  frequency : Z;
  createdAt : string
}.

(** [clusters] is an object keyed by cluster name.  Every name the
    program stores contains an underscore, so none is an array index and
    [for (... in school.clusters)] visits the own keys in insertion
    order. *)
Record School : Type := {
  clusters : list (string * Cluster);
  totalDevices : Z;
  lastClusterNumber : N
}.

(** The store: the own properties of [schoolData], and whether
    [Object.prototype.lastClusterNumber] has been written.  The statement
    [school.lastClusterNumber += 1] is the only write of the program that
    can land outside [schoolData]: it does when [school] is
    [Object.prototype], the value of [schoolData["__proto__"]]. *)
Record Store : Type := {
  schoolData : gmap string School;
  protoLastClusterNumber : bool
}.

Definition emptyStore : Store :=
  {| schoolData := ∅; protoLastClusterNumber := false |}.

Definition withSchoolData (σ : Store) (m : gmap string School) : Store :=
  {| schoolData := m; protoLastClusterNumber := protoLastClusterNumber σ |}.

(** The enumerable properties added to [Object.prototype] so far. *)
Definition prototypeExtras (σ : Store) : list string :=
  if protoLastClusterNumber σ then ["lastClusterNumber"] else [].

(** [schoolData[schoolCode]] *)
Definition getSchool (σ : Store) (schoolCode : string) : Js.Value School :=
  Js.get (prototypeExtras σ) (schoolData σ !! schoolCode) schoolCode.

(** [school.clusters[clusterName]] *)
Definition getCluster (σ : Store) (school : School) (clusterName : string) : Js.Value Cluster :=
  Js.get (prototypeExtras σ) (Js.objGet clusterName (clusters school)) clusterName.

(** The keys that [for (const clusterName in school.clusters)] visits
    after the own ones: the enumerable properties of [Object.prototype]
    that no own property shadows. *)
Definition inheritedKeys (σ : Store) (school : School) : list string :=
  filter (λ k, Js.isMember k (clusters school).*1 = false) (prototypeExtras σ).

(** [device => device.deviceId === deviceId], on string identifiers:
    [===] compares two strings by their contents. *)
Definition sameId (id : string) (device : Device) : bool :=
  String.eqb (deviceId device) id.

(** [cluster.devices.find(...)] returned a device. *)
Definition hasDevice (id : string) (c : Cluster) : bool :=
  match find (sameId id) (devices c) with
  | Some _ => true
  | None => false
  end.

(** First loop of [findOrCreateCluster] over the own clusters. *)
Fixpoint findExisting (id : string) (cs : list (string * Cluster)) : option (string * Cluster) :=
  match cs with
  | [] => None
  | (clusterName, cluster) :: rest =>
      if hasDevice id cluster then Some (clusterName, cluster)
      else findExisting id rest
  end.

(** Second loop of [findOrCreateCluster] over the own clusters. *)
Fixpoint findSpace (cs : list (string * Cluster)) : option (string * Cluster) :=
  match cs with
  | [] => None
  | (clusterName, cluster) :: rest =>
      if length (devices cluster) <? MAX_DEVICES_PER_CLUSTER
      then Some (clusterName, cluster)
      else findSpace rest
  end.

Record Found : Type := {
  clusterName : string;
  cluster : Cluster;
  isExisting : bool
}.

Definition newSchool : School :=
  {| clusters := []; totalDevices := 0; lastClusterNumber := 0 |}.

(** [if (!schoolData[schoolCode]) schoolData[schoolCode] = {...}] *)
Definition initSchool (σ : Store) (schoolCode : string) : Store :=
  if Js.truthy (getSchool σ schoolCode) then σ
  else withSchoolData σ (<[schoolCode := newSchool]> (schoolData σ)).

(** The part of [findOrCreateCluster] that runs once [school] is a
    school record.  At an inherited key the first loop reads
    [school.clusters[clusterName]], finds [NaN], and calling [find] on
    its missing [devices] throws. *)
Definition findOrCreateIn (σ : Store) (schoolCode id : string) (school : School)
    (u : fin 25) (now : string) : Store * Js.Completion Found :=
  match findExisting id (clusters school) with
  | Some (name, c) =>
      (σ, Js.Returned {| clusterName := name; cluster := c; isExisting := true |})
  | None =>
      match inheritedKeys σ school with
      | _ :: _ => (σ, Js.Thrown)
      | [] =>
          match findSpace (clusters school) with
          | Some (name, c) =>
              (σ, Js.Returned {| clusterName := name; cluster := c; isExisting := false |})
          | None =>
              let n := (lastClusterNumber school + 1)%N in
              let newClusterName := schoolCode +:+ "_" +:+ pretty n in
              let c := {| clusterNumber := n; devices := []; hosts := [];
                          frequency := getRandomFrequency u; createdAt := now |} in
              let school' := {| clusters := Js.objSet newClusterName c (clusters school);
                                totalDevices := totalDevices school;
                                lastClusterNumber := n |} in
              (withSchoolData σ (<[schoolCode := school']> (schoolData σ)),
               Js.Returned {| clusterName := newClusterName; cluster := c;
                              isExisting := false |})
          end
      end
  end.

(** [findOrCreateCluster(schoolCode, deviceId)].  When [school] is not a
    school record, [school.clusters] is [undefined]: both loops run zero
    times, [school.lastClusterNumber += 1] stores [NaN] in [school], and
    the assignment into [school.clusters] throws. *)
Definition findOrCreateCluster (σ : Store) (schoolCode id : string)
    (u : fin 25) (now : string) : Store * Js.Completion Found :=
  let σ1 := initSchool σ schoolCode in
  match getSchool σ1 schoolCode with
  | Js.Own school => findOrCreateIn σ1 schoolCode id school u now
  | Js.FromPrototype Js.ObjectPrototype =>
      ({| schoolData := schoolData σ1; protoLastClusterNumber := true |}, Js.Thrown)
  | Js.FromPrototype Js.BuiltinFunction => (σ1, Js.Thrown)
  | Js.FromPrototype Js.NotANumber => (σ1, Js.Thrown)
  | Js.Undefined => (σ1, Js.Thrown)
  end.

(** *** Responses *)

Record ClusterHosts : Type := {
  host1 : option string;
  host2 : option string;
  host3 : option string
}.

(** The body of a successful [POST /api/get-hosts].  An optional field
    is [None] when the property is never set or set to [undefined], which
    [res.json] leaves out. *)
Record Placement : Type := {
  p_schoolCode : string;
  p_clusterName : string;
  p_clusterNumber : N;
  p_deviceId : string;
  positionInCluster : Z;
  totalDevicesInCluster : nat;
  totalDevicesInSchool : Z;
  maxDevicesPerCluster : nat;
  p_frequency : Z;
  hostDeviceId : option string;
  host2DeviceId : option string;
  host3DeviceId : option string;
  role : string;
  message : string;
  clusterHosts : ClusterHosts;
  clusterDevices : list string
}.

Record ClusterSummary : Type := {
  cs_clusterNumber : N;
  cs_totalDevices : nat;
  cs_hosts : list string;
  cs_devices : list string;
  cs_isFull : bool;
  cs_createdAt : string;
  cs_frequency : Z
}.

Record SchoolInfo : Type := {
  si_schoolCode : string;
  si_totalDevices : Z;
  si_totalClusters : nat;
  si_lastClusterNumber : N;
  si_maxDevicesPerCluster : nat;
  si_clusters : list (string * ClusterSummary)
}.

Record ClusterInfo : Type := {
  ci_schoolCode : string;
  ci_clusterName : string;
  ci_clusterNumber : N;
  ci_totalDevices : nat;
  ci_maxDevices : nat;
  ci_isFull : bool;
  ci_hosts : list string;
  ci_devices : list Device;
  ci_createdAt : string;
  ci_frequency : Z
}.

Inductive Response : Type :=
  | BadRequest                      (* 400 *)
  | NotFound (msg : string)         (* 404 *)
  | InternalError                   (* 500, from the [catch] block *)
  | Placed (p : Placement)          (* 200 *)
  | SchoolFound (i : SchoolInfo)    (* 200 *)
  | ClusterFound (i : ClusterInfo)  (* 200 *)
  | ResetDone (msg : string)        (* 200 *)
  | Healthy (timestamp : string).   (* 200 *)

Definition isFull (c : Cluster) : bool :=
  MAX_DEVICES_PER_CLUSTER <=? length (devices c).

(** The fields set by the [if (deviceIndex === 0) ... else ...] chain. *)
Record RoleFields : Type := {
  rf_hostDeviceId : option string;
  rf_host2DeviceId : option string;
  rf_host3DeviceId : option string;
  rf_role : string;
  rf_message : string
}.

Definition roleFields (deviceIndex : Z) (id name : string) (hosts : list string)
    : RoleFields :=
  if (deviceIndex =? 0)%Z then
    {| rf_hostDeviceId := Some id;
       rf_host2DeviceId := None;
       rf_host3DeviceId := None;
       rf_role := "host1";
       rf_message := "You are the primary host for cluster " +:+ name |}
  else if (deviceIndex =? 1)%Z then
    {| rf_hostDeviceId := hosts !! 0;
       rf_host2DeviceId := Some id;
       rf_host3DeviceId := None;
       rf_role := "host2";
       rf_message := "You are the secondary host for cluster " +:+ name |}
  else if (deviceIndex =? 2)%Z then
    {| rf_hostDeviceId := hosts !! 0;
       rf_host2DeviceId := hosts !! 1;
       rf_host3DeviceId := Some id;
       rf_role := "host3";
       rf_message := "You are the tertiary host for cluster " +:+ name |}
  else
    {| rf_hostDeviceId := hosts !! 0;
       rf_host2DeviceId := hosts !! 1;
       rf_host3DeviceId := hosts !! 2;
       rf_role := "client";
       rf_message := "You are a client device in cluster " +:+ name |}.

(** The response object built at the end of [POST /api/get-hosts]. *)
Definition composeResponse (schoolCode id name : string) (c : Cluster)
    (schoolTotal : Z) : Placement :=
  let deviceIndex := Js.findIndex (sameId id) (devices c) in
  let fields := roleFields deviceIndex id name (hosts c) in
  {| p_schoolCode := schoolCode;
     p_clusterName := name;
     p_clusterNumber := clusterNumber c;
     p_deviceId := id;
     positionInCluster := (deviceIndex + 1)%Z;
     totalDevicesInCluster := length (devices c);
     totalDevicesInSchool := schoolTotal;
     maxDevicesPerCluster := MAX_DEVICES_PER_CLUSTER;
     p_frequency := frequency c;
     hostDeviceId := rf_hostDeviceId fields;
     host2DeviceId := rf_host2DeviceId fields;
     host3DeviceId := rf_host3DeviceId fields;
     role := rf_role fields;
     message := rf_message fields;
     clusterHosts := {| host1 := Js.orNull (hosts c !! 0);
                        host2 := Js.orNull (hosts c !! 1);
                        host3 := Js.orNull (hosts c !! 2) |};
     clusterDevices := deviceId <$> devices c |}.

(** The [if (!isExisting)] block, on the cluster object. *)
Definition addDevice (id now : string) (c : Cluster) : Cluster :=
  {| clusterNumber := clusterNumber c;
     devices := devices c ++ [{| deviceId := id; registeredAt := now |}];
     hosts := if length (hosts c) <? MAX_HOSTS_PER_CLUSTER
              then hosts c ++ [id] else hosts c;
     frequency := frequency c;
     createdAt := createdAt c |}.

(** The handler from the [if (!isExisting)] block on, given how
    [findOrCreateCluster] ended.  [cluster] aliases the object stored
    under [clusterName] in the school, so its mutation is written back
    there; [schoolData[schoolCode]] is read again for the counter. *)
Definition afterFind (sc d now : string) (found : Store * Js.Completion Found)
    : Store * Response :=
  match found with
  | (σ1, Js.Thrown) => (σ1, InternalError)
  | (σ1, Js.Returned f) =>
      match schoolData σ1 !! sc with
      | None => (σ1, InternalError)
      | Some school =>
          if isExisting f then
            (σ1, Placed (composeResponse sc d (clusterName f) (cluster f)
                           (totalDevices school)))
          else
            let c' := addDevice d now (cluster f) in
            let school' :=
              {| clusters := Js.objSet (clusterName f) c' (clusters school);
                 totalDevices := (totalDevices school + 1)%Z;
                 lastClusterNumber := lastClusterNumber school |} in
            (withSchoolData σ1 (<[sc := school']> (schoolData σ1)),
             Placed (composeResponse sc d (clusterName f) c' (totalDevices school')))
      end
  end.

(** [POST /api/get-hosts] *)
Definition postGetHosts (σ : Store) (schoolCode id : option string)
    (u : fin 25) (now : string) : Store * Response :=
  if negb (Js.truthyField schoolCode) || negb (Js.truthyField id)
  then (σ, BadRequest)
  else
    let sc := default "" schoolCode in
    let d := default "" id in
    afterFind sc d now (findOrCreateCluster σ sc d u now).

Definition summarize (c : Cluster) : ClusterSummary :=
  {| cs_clusterNumber := clusterNumber c;
     cs_totalDevices := length (devices c);
     cs_hosts := hosts c;
     cs_devices := deviceId <$> devices c;
     cs_isFull := isFull c;
     cs_createdAt := createdAt c;
     cs_frequency := frequency c |}.

(** [GET /api/school/:schoolCode].  A truthy value that is not a school
    record has no [clusters], and [Object.keys(undefined)] throws; an
    inherited key in the loop yields [NaN], whose [devices] is
    [undefined]. *)
Definition getSchoolInfo (σ : Store) (schoolCode : string) : Response :=
  match getSchool σ schoolCode with
  | Js.Own school =>
      match inheritedKeys σ school with
      | _ :: _ => InternalError
      | [] =>
          SchoolFound
            {| si_schoolCode := schoolCode;
               si_totalDevices := totalDevices school;
               si_totalClusters := length (clusters school);
               si_lastClusterNumber := lastClusterNumber school;
               si_maxDevicesPerCluster := MAX_DEVICES_PER_CLUSTER;
               si_clusters := prod_map id summarize <$> clusters school |}
      end
  | v => if Js.truthy v then InternalError else NotFound "School not found"
  end.

(** [GET /api/school/:schoolCode/cluster/:clusterNumber] *)
Definition getClusterInfo (σ : Store) (schoolCode number : string) : Response :=
  match getSchool σ schoolCode with
  | Js.Own school =>
      let name := schoolCode +:+ "_" +:+ number in
      match getCluster σ school name with
      | Js.Own c =>
          ClusterFound
            {| ci_schoolCode := schoolCode;
               ci_clusterName := name;
               ci_clusterNumber := clusterNumber c;
               ci_totalDevices := length (devices c);
               ci_maxDevices := MAX_DEVICES_PER_CLUSTER;
               ci_isFull := isFull c;
               ci_hosts := hosts c;
               ci_devices := devices c;
               ci_createdAt := createdAt c;
               ci_frequency := frequency c |}
      | v => if Js.truthy v then InternalError else NotFound "Cluster not found"
      end
  | v => if Js.truthy v then InternalError else NotFound "School not found"
  end.

(** [DELETE /api/school/:schoolCode].  [delete] of a property that is
    not an own property does nothing and does not throw. *)
Definition deleteSchool (σ : Store) (schoolCode : string) : Store * Response :=
  if Js.truthy (getSchool σ schoolCode) then
    (withSchoolData σ (delete schoolCode (schoolData σ)),
     ResetDone ("School " +:+ schoolCode +:+ " data reset successfully"))
  else (σ, NotFound "School not found").

(** [DELETE /api/school/:schoolCode/cluster/:clusterNumber] *)
Definition deleteCluster (σ : Store) (schoolCode number : string) : Store * Response :=
  match getSchool σ schoolCode with
  | Js.Own school =>
      let name := schoolCode +:+ "_" +:+ number in
      match getCluster σ school name with
      | Js.Own c =>
          let school' :=
            {| clusters := Js.objDelete name (clusters school);
               totalDevices := (totalDevices school - Z.of_nat (length (devices c)))%Z;
               lastClusterNumber := lastClusterNumber school |} in
          (withSchoolData σ (<[schoolCode := school']> (schoolData σ)),
           ResetDone ("Cluster " +:+ name +:+ " reset successfully"))
      | v => (σ, if Js.truthy v then InternalError else NotFound "Cluster not found")
      end
  | v => (σ, if Js.truthy v then InternalError else NotFound "School not found")
  end.

(** *** Requests and reachable stores *)

(** A [POST] carries the two body fields together with what the handler
    reads from its environment: the random channel index and the clock. *)
Inductive Request : Type :=
  | PostGetHosts (schoolCode id : option string) (u : fin 25) (now : string)
  | GetSchool (schoolCode : string)
  | GetCluster (schoolCode number : string)
  | DeleteSchool (schoolCode : string)
  | DeleteCluster (schoolCode number : string)
  | GetHealth (now : string).

Definition handle (σ : Store) (r : Request) : Store * Response :=
  match r with
  | PostGetHosts schoolCode id u now => postGetHosts σ schoolCode id u now
  | GetSchool schoolCode => (σ, getSchoolInfo σ schoolCode)
  | GetCluster schoolCode number => (σ, getClusterInfo σ schoolCode number)
  | DeleteSchool schoolCode => deleteSchool σ schoolCode
  | DeleteCluster schoolCode number => deleteCluster σ schoolCode number
  | GetHealth now => (σ, Healthy now)
  end.

Definition run (σ : Store) (rs : list Request) : Store :=
  foldl (λ s r, (handle s r).1) σ rs.

(** The stores a server started without a data file can be in. *)
Inductive reachable : Store → Prop :=
  | reachable_empty : reachable emptyStore
  | reachable_step σ r : reachable σ → reachable (handle σ r).1.

End Clustered.

(** ** The flat server, [src/unnamed/part_000] *)

Module Flat.

Record Device : Type := {
  deviceId : string;
  registeredAt : string
}.

Record School : Type := {
  devices : list Device;
  hosts : list string
}.

(** The own properties of [schoolData].  This server never writes through
    a value read from the prototype, so [Object.prototype] stays as the
    runtime made it. *)
Record Store : Type := {
  schoolData : gmap string School
}.

Definition emptyStore : Store := {| schoolData := ∅ |}.

(** [schoolData[schoolCode]] *)
Definition getSchool (σ : Store) (schoolCode : string) : Js.Value School :=
  Js.get [] (schoolData σ !! schoolCode) schoolCode.

Definition newSchool : School := {| devices := []; hosts := [] |}.

(** [if (!schoolData[schoolCode]) schoolData[schoolCode] = {...}] *)
Definition initSchool (σ : Store) (schoolCode : string) : Store :=
  if Js.truthy (getSchool σ schoolCode) then σ
  else {| schoolData := <[schoolCode := newSchool]> (schoolData σ) |}.

Record Hosts : Type := {
  host1 : option string;
  host2 : option string;
  host3 : option string
}.

Record Placement : Type := {
  p_schoolCode : string;
  p_deviceId : string;
  position : Z;
  totalDevices : nat;
  hostDeviceId : option string;
  host2DeviceId : option string;
  host3DeviceId : option string;
  role : string;
  message : string;
  p_hosts : Hosts
}.

Record SchoolInfo : Type := {
  si_schoolCode : string;
  si_totalDevices : nat;
  si_hosts : list string;
  si_devices : list Device
}.

Inductive Response : Type :=
  | BadRequest                    (* 400 *)
  | NotFound (msg : string)       (* 404 *)
  | InternalError                 (* 500, from the [catch] block *)
  | Placed (p : Placement)        (* 200 *)
  | SchoolFound (i : SchoolInfo)  (* 200 *)
  | ResetDone (msg : string)      (* 200 *)
  | Healthy (timestamp : string)  (* 200 *)
  | Pong (timestamp : string).    (* 200 *)

(** [device => device.deviceId === deviceId], on string identifiers:
    [===] compares two strings by their contents. *)
Definition sameId (id : string) (device : Device) : bool :=
  String.eqb (deviceId device) id.

(** The [if (existingDeviceIndex === -1)] block. *)
Definition addDevice (id now : string) (school : School) : School :=
  {| devices := devices school ++ [{| deviceId := id; registeredAt := now |}];
     hosts := if length (hosts school) <? 3
              then hosts school ++ [id] else hosts school |}.

(** The fields set by the [if (deviceIndex === 0) ... else ...] chain. *)
Record RoleFields : Type := {
  rf_hostDeviceId : option string;
  rf_host2DeviceId : option string;
  rf_host3DeviceId : option string;
  rf_role : string;
  rf_message : string
}.

Definition roleFields (deviceIndex : Z) (id : string) (hosts : list string)
    : RoleFields :=
  if (deviceIndex =? 0)%Z then
    {| rf_hostDeviceId := Some id;
       rf_host2DeviceId := None;
       rf_host3DeviceId := None;
       rf_role := "host1";
       rf_message := "You are the primary host" |}
  else if (deviceIndex =? 1)%Z then
    {| rf_hostDeviceId := hosts !! 0;
       rf_host2DeviceId := Some id;
       rf_host3DeviceId := None;
       rf_role := "host2";
       rf_message := "You are the secondary host" |}
  else if (deviceIndex =? 2)%Z then
    {| rf_hostDeviceId := hosts !! 0;
       rf_host2DeviceId := hosts !! 1;
       rf_host3DeviceId := Some id;
       rf_role := "host3";
       rf_message := "You are the tertiary host" |}
  else
    {| rf_hostDeviceId := hosts !! 0;
       rf_host2DeviceId := hosts !! 1;
       rf_host3DeviceId := hosts !! 2;
       rf_role := "client";
       rf_message := "You are a client device" |}.

(** The response object built at the end of [POST /api/get-hosts]. *)
Definition composeResponse (schoolCode id : string) (school : School) : Placement :=
  let deviceIndex := Js.findIndex (sameId id) (devices school) in
  let fields := roleFields deviceIndex id (hosts school) in
  {| p_schoolCode := schoolCode;
     p_deviceId := id;
     position := (deviceIndex + 1)%Z;
     totalDevices := length (devices school);
     hostDeviceId := rf_hostDeviceId fields;
     host2DeviceId := rf_host2DeviceId fields;
     host3DeviceId := rf_host3DeviceId fields;
     role := rf_role fields;
     message := rf_message fields;
     p_hosts := {| host1 := Js.orNull (hosts school !! 0);
                   host2 := Js.orNull (hosts school !! 1);
                   host3 := Js.orNull (hosts school !! 2) |} |}.

(** [POST /api/get-hosts].  [school] aliases the object stored under
    [schoolCode], so its mutation is written back there.  A truthy
    [schoolData[schoolCode]] that is not a school record has no
    [devices], and calling [findIndex] on [undefined] throws. *)
Definition postGetHosts (σ : Store) (schoolCode id : option string)
    (now : string) : Store * Response :=
  if negb (Js.truthyField schoolCode) || negb (Js.truthyField id)
  then (σ, BadRequest)
  else
    let sc := default "" schoolCode in
    let d := default "" id in
    let σ1 := initSchool σ sc in
    match getSchool σ1 sc with
    | Js.Own school =>
        let existingDeviceIndex := Js.findIndex (sameId d) (devices school) in
        if (existingDeviceIndex =? -1)%Z then
          let school' := addDevice d now school in
          ({| schoolData := <[sc := school']> (schoolData σ1) |},
           Placed (composeResponse sc d school'))
        else (σ1, Placed (composeResponse sc d school))
    | _ => (σ1, InternalError)
    end.

(** [GET /api/school/:schoolCode] *)
Definition getSchoolInfo (σ : Store) (schoolCode : string) : Response :=
  match getSchool σ schoolCode with
  | Js.Own school =>
      SchoolFound {| si_schoolCode := schoolCode;
                     si_totalDevices := length (devices school);
                     si_hosts := hosts school;
                     si_devices := devices school |}
  | v => if Js.truthy v then InternalError else NotFound "School not found"
  end.

(** [DELETE /api/school/:schoolCode] *)
Definition deleteSchool (σ : Store) (schoolCode : string) : Store * Response :=
  if Js.truthy (getSchool σ schoolCode) then
    ({| schoolData := delete schoolCode (schoolData σ) |},
     ResetDone ("School " +:+ schoolCode +:+ " data reset successfully"))
  else (σ, NotFound "School not found").

Inductive Request : Type :=
  | PostGetHosts (schoolCode id : option string) (now : string)
  | GetSchool (schoolCode : string)
  | DeleteSchool (schoolCode : string)
  | GetHealth (now : string)
  | GetPing (now : string).

Definition handle (σ : Store) (r : Request) : Store * Response :=
  match r with
  | PostGetHosts schoolCode id now => postGetHosts σ schoolCode id now
  | GetSchool schoolCode => (σ, getSchoolInfo σ schoolCode)
  | DeleteSchool schoolCode => deleteSchool σ schoolCode
  | GetHealth now => (σ, Healthy now)
  | GetPing now => (σ, Pong now)
  end.

Definition run (σ : Store) (rs : list Request) : Store :=
  foldl (λ s r, (handle s r).1) σ rs.

(** The stores a server started without a data file can be in. *)
Inductive reachable : Store → Prop :=
  | reachable_empty : reachable emptyStore
  | reachable_step σ r : reachable σ → reachable (handle σ r).1.

End Flat.

(** ** Specification-side definitions *)

(** The role table of the placement contract, indexed by the 0-based
    position [i] of the device in the resolved device list: the role and
    the three host slots of the response. *)
Definition roleTable (i : nat) (self : string) (hosts : list string)
    : string * option string * option string * option string :=
  match i with
  | 0 => ("host1", Some self, None, None)
  | 1 => ("host2", hosts !! 0, Some self, None)
  | 2 => ("host3", hosts !! 0, hosts !! 1, Some self)
  | _ => ("client", hosts !! 0, hosts !! 1, hosts !! 2)
  end.

(** [i] is the index of the first element of [l] satisfying [p]. *)
Definition firstIndex {A : Type} (p : A → bool) (l : list A) (i : nat) : Prop :=
  (∃ x, l !! i = Some x ∧ p x = true) ∧
  ∀ j y, j < i → l !! j = Some y → p y = false.

Module ClusteredInv.
Import Clustered.

(** Sum of the device-list lengths of a school's clusters. *)
Definition countDevices (cs : list (string * Cluster)) : Z :=
  foldr (λ e acc, (Z.of_nat (length (devices e.2)) + acc)%Z) 0%Z cs.

Definition clusterOk (schoolCode : string) (last : N) (e : string * Cluster) : Prop :=
  e.1 = schoolCode +:+ "_" +:+ pretty (clusterNumber e.2) ∧
  (1 ≤ clusterNumber e.2 ≤ last)%N ∧
  length (devices e.2) ≤ MAX_DEVICES_PER_CLUSTER ∧
  hosts e.2 = deviceId <$> take 3 (devices e.2) ∧
  frequency e.2 ∈ vec_to_list FREQUENCY_CHANNELS ∧
  Forall (λ device, deviceId device ≠ "") (devices e.2).

Definition schoolOk (schoolCode : string) (s : School) : Prop :=
  NoDup (clusters s).*1 ∧
  Forall (clusterOk schoolCode (lastClusterNumber s)) (clusters s) ∧
  totalDevices s = countDevices (clusters s).

Definition storeOk (σ : Store) : Prop :=
  ∀ schoolCode s, schoolData σ !! schoolCode = Some s → schoolOk schoolCode s.

(** The school a request names, if any. *)
Definition target (r : Request) : option string :=
  match r with
  | PostGetHosts schoolCode _ _ _ => schoolCode
  | GetSchool schoolCode | GetCluster schoolCode _
  | DeleteSchool schoolCode | DeleteCluster schoolCode _ => Some schoolCode
  | GetHealth _ => None
  end.

(** After [initSchool], [schoolData[schoolCode]] is a school record:
    either it was one already, or the read was falsy. *)
Definition servable (σ : Store) (schoolCode : string) : Prop :=
  is_Some (schoolData σ !! schoolCode) ∨ Js.truthy (getSchool σ schoolCode) = false.

Definition putSchool (σ : Store) (schoolCode : string) (s : School) : Store :=
  withSchoolData σ (<[schoolCode := s]> (schoolData σ)).

Definition lacks (id : string) (e : string * Cluster) : Prop :=
  hasDevice id e.2 = false.

Definition full (e : string * Cluster) : Prop :=
  MAX_DEVICES_PER_CLUSTER ≤ length (devices e.2).

(** The record [findOrCreateCluster] works on once [initSchool] has run:
    the stored school, or a fresh one. *)
Definition schoolOrNew (σ : Store) (schoolCode : string) : School :=
  default newSchool (schoolData σ !! schoolCode).

(** The device list of the cluster stored under [name] in school
    [schoolCode]; empty when there is no such cluster. *)
Definition deviceList (σ : Store) (schoolCode name : string) : list Device :=
  match Js.objGet name (clusters (schoolOrNew σ schoolCode)) with
  | Some c => devices c
  | None => []
  end.

(** Some cluster of the school already lists the device. *)
Definition knows (id : string) (school : School) : bool :=
  existsb (λ e, hasDevice id e.2) (clusters school).

(** What one request can do to the stored record of a school that is
    stored before and after it. *)
Inductive SchoolStep (sc : string) (s : School) : School → Prop :=
  | step_same : SchoolStep sc s s
  | step_add_device pre name c post id now :
      clusters s = pre ++ (name, c) :: post →
      name ∉ pre.*1 →
      SchoolStep sc s
        {| clusters := pre ++ (name, addDevice id now c) :: post;
           totalDevices := (totalDevices s + 1)%Z;
           lastClusterNumber := lastClusterNumber s |}
  | step_new_cluster id u now :
      SchoolStep sc s
        {| clusters :=
             clusters s ++
               [(sc +:+ "_" +:+ pretty (lastClusterNumber s + 1)%N,
                 addDevice id now
                   {| clusterNumber := (lastClusterNumber s + 1)%N;
                      devices := []; hosts := [];
                      frequency := getRandomFrequency u; createdAt := now |})];
           totalDevices := (totalDevices s + 1)%Z;
           lastClusterNumber := (lastClusterNumber s + 1)%N |}
  | step_delete_cluster pre name c post :
      clusters s = pre ++ (name, c) :: post →
      name ∉ pre.*1 →
      SchoolStep sc s
        {| clusters := pre ++ post;
           totalDevices := (totalDevices s - Z.of_nat (length (devices c)))%Z;
           lastClusterNumber := lastClusterNumber s |}.

(** Cluster number [n] of school [sc] has been handed out and is not in
    use: no cluster of the school carries it or the name built from it. *)
Definition retired (sc : string) (n : N) (s : School) : Prop :=
  (n ≤ lastClusterNumber s)%N ∧
  Forall (λ e, clusterNumber e.2 ≠ n ∧ e.1 ≠ sc +:+ "_" +:+ pretty n) (clusters s).

(** The five ways a well-formed [POST /api/get-hosts] can go. *)
Inductive PostOutcome (σ : Store) (sc id : string) (u : fin 25) (now : string)
    : Store → Response → Prop :=
  | post_not_a_school i :
      getSchool σ sc = Js.FromPrototype i →
      i ≠ Js.NotANumber →
      PostOutcome σ sc id u now
        {| schoolData := schoolData σ;
           protoLastClusterNumber :=
             match i with
             | Js.ObjectPrototype => true
             | _ => protoLastClusterNumber σ
             end |}
        InternalError
  | post_inherited_key :
      servable σ sc →
      Forall (lacks id) (clusters (schoolOrNew σ sc)) →
      inheritedKeys σ (schoolOrNew σ sc) ≠ [] →
      PostOutcome σ sc id u now (initSchool σ sc) InternalError
  | post_existing school pre name c post :
      schoolData σ !! sc = Some school →
      clusters school = pre ++ (name, c) :: post →
      Forall (lacks id) pre →
      hasDevice id c = true →
      PostOutcome σ sc id u now σ
        (Placed (composeResponse sc id name c (totalDevices school)))
  | post_space school pre name c post :
      schoolData σ !! sc = Some school →
      clusters school = pre ++ (name, c) :: post →
      Forall (lacks id) (clusters school) →
      inheritedKeys σ school = [] →
      Forall full pre →
      length (devices c) < MAX_DEVICES_PER_CLUSTER →
      PostOutcome σ sc id u now
        (putSchool σ sc
           {| clusters := pre ++ (name, addDevice id now c) :: post;
              totalDevices := (totalDevices school + 1)%Z;
              lastClusterNumber := lastClusterNumber school |})
        (Placed (composeResponse sc id name (addDevice id now c)
                   (totalDevices school + 1)%Z))
  | post_new_cluster school n name c :
      servable σ sc →
      school = schoolOrNew σ sc →
      Forall (lacks id) (clusters school) →
      inheritedKeys σ school = [] →
      Forall full (clusters school) →
      n = (lastClusterNumber school + 1)%N →
      name = sc +:+ "_" +:+ pretty n →
      c = addDevice id now
            {| clusterNumber := n; devices := []; hosts := [];
               frequency := getRandomFrequency u; createdAt := now |} →
      PostOutcome σ sc id u now
        (putSchool σ sc
           {| clusters := clusters school ++ [(name, c)];
              totalDevices := (totalDevices school + 1)%Z;
              lastClusterNumber := n |})
        (Placed (composeResponse sc id name c (totalDevices school + 1)%Z)).

End ClusteredInv.

Module FlatInv.
Import Flat.

Definition schoolOk (s : School) : Prop :=
  hosts s = deviceId <$> take 3 (devices s) ∧
  Forall (λ device, deviceId device ≠ "") (devices s).

Definition storeOk (σ : Store) : Prop :=
  ∀ schoolCode s, schoolData σ !! schoolCode = Some s → schoolOk s.

Definition target (r : Request) : option string :=
  match r with
  | PostGetHosts schoolCode _ _ => schoolCode
  | GetSchool schoolCode | DeleteSchool schoolCode => Some schoolCode
  | GetHealth _ | GetPing _ => None
  end.

Definition schoolOrNew (σ : Store) (schoolCode : string) : School :=
  default newSchool (schoolData σ !! schoolCode).

Definition servable (σ : Store) (schoolCode : string) : Prop :=
  is_Some (schoolData σ !! schoolCode) ∨ Js.truthy (getSchool σ schoolCode) = false.

Definition putSchool (σ : Store) (schoolCode : string) (s : School) : Store :=
  {| schoolData := <[schoolCode := s]> (schoolData σ) |}.

(** The device list of school [schoolCode]; empty when there is no
    such school. *)
Definition deviceList (σ : Store) (schoolCode : string) : list Device :=
  devices (schoolOrNew σ schoolCode).

(** The three ways a well-formed [POST /api/get-hosts] can go. *)
Inductive PostOutcome (σ : Store) (sc id now : string) : Store → Response → Prop :=
  | post_not_a_school i :
      getSchool σ sc = Js.FromPrototype i →
      PostOutcome σ sc id now σ InternalError
  | post_existing school :
      schoolData σ !! sc = Some school →
      Exists (λ device, sameId id device = true) (devices school) →
      PostOutcome σ sc id now σ (Placed (composeResponse sc id school))
  | post_new school :
      servable σ sc →
      school = schoolOrNew σ sc →
      Forall (λ device, sameId id device = false) (devices school) →
      PostOutcome σ sc id now
        (putSchool σ sc (addDevice id now school))
        (Placed (composeResponse sc id (addDevice id now school))).

End FlatInv.

(** ** Sample requests and stores *)

Module Sample.

Definition clock : string := "2025-01-01T00:00:00.000Z".

Definition place (schoolCode id : string) : Clustered.Request :=
  Clustered.PostGetHosts (Some schoolCode) (Some id) 0%fin clock.

Definition flatPlace (schoolCode id : string) : Flat.Request :=
  Flat.PostGetHosts (Some schoolCode) (Some id) clock.

(** Four devices of school ABC. *)
Definition four : list string := ["d1"; "d2"; "d3"; "d4"].

(** Eleven devices: one more than a cluster holds. *)
Definition eleven : list string :=
  ["d1"; "d2"; "d3"; "d4"; "d5"; "d6"; "d7"; "d8"; "d9"; "d10"; "d11"].

(** Ten devices: exactly what a cluster holds. *)
Definition ten : list string :=
  ["d1"; "d2"; "d3"; "d4"; "d5"; "d6"; "d7"; "d8"; "d9"; "d10"].

(** School ABC with one full cluster, after which one registration
    arrives for the school code __proto__. *)
Definition fullThenProto : Clustered.Store :=
  Clustered.run Clustered.emptyStore
    ((place "ABC" <$> ten) ++ [place "__proto__" "x"]).

Definition clustered (ids : list string) : Clustered.Store :=
  Clustered.run Clustered.emptyStore (place "ABC" <$> ids).

Definition flat (ids : list string) : Flat.Store :=
  Flat.run Flat.emptyStore (flatPlace "ABC" <$> ids).

End Sample.

(** ** Device and cluster listings *)

(** The device identifiers a school of the clustered server lists,
    cluster after cluster in enumeration order. *)
Definition clusteredDeviceIds (s : Clustered.School) : list string :=
  Clustered.clusters s ≫= λ e, Clustered.deviceId <$> Clustered.devices e.2.

(** The cluster numbers of a school in enumeration order. *)
Definition clusterNumbers (s : Clustered.School) : list N :=
  (λ e, Clustered.clusterNumber e.2) <$> Clustered.clusters s.

(** The device identifiers a school of the flat server lists. *)
Definition flatDeviceIds (s : Flat.School) : list string :=
  Flat.deviceId <$> Flat.devices s.

(** No identifier is listed twice in the school, and the cluster numbers
    increase along the enumeration order. *)
Definition listingOk (s : Clustered.School) : Prop :=
  NoDup (clusteredDeviceIds s) ∧ StronglySorted N.lt (clusterNumbers s).

Definition storeListingOk (σ : Clustered.Store) : Prop :=
  ∀ schoolCode s, Clustered.schoolData σ !! schoolCode = Some s → listingOk s.

(** What a device at the 1-based [position] of the identifier list [ids]
    is told: its role and the top-level host fields, which name the hosts
    up to its own position, all three for a client. *)
Definition rolesFromList (position : Z) (ids : list string)
    : string * option string * option string * option string :=
  if (position =? 1)%Z then ("host1", ids !! 0, None, None)
  else if (position =? 2)%Z then ("host2", ids !! 0, ids !! 1, None)
  else if (position =? 3)%Z then ("host3", ids !! 0, ids !! 1, ids !! 2)
  else ("client", ids !! 0, ids !! 1, ids !! 2).

(** Whether a string ends in a decimal digit, as every name built from a
    cluster number does and no key of [Object.prototype] does. *)
Fixpoint endsInDigit (s : string) : bool :=
  match s with
  | EmptyString => false
  | String c EmptyString => bool_decide (is_Some (Ascii.is_nat c))
  | String _ rest => endsInDigit rest
  end.

(** The body of a successful cluster query for cluster [c], addressed by
    the text [number]. *)
Definition clusterInfoOf (sc number : string) (c : Clustered.Cluster)
    : Clustered.ClusterInfo :=
  {| Clustered.ci_schoolCode := sc;
     Clustered.ci_clusterName := sc +:+ "_" +:+ number;
     Clustered.ci_clusterNumber := Clustered.clusterNumber c;
     Clustered.ci_totalDevices := length (Clustered.devices c);
     Clustered.ci_maxDevices := Clustered.MAX_DEVICES_PER_CLUSTER;
     Clustered.ci_isFull := Clustered.isFull c;
     Clustered.ci_hosts := Clustered.hosts c;
     Clustered.ci_devices := Clustered.devices c;
     Clustered.ci_createdAt := Clustered.createdAt c;
     Clustered.ci_frequency := Clustered.frequency c |}.

(** ** The data file

    Both programs keep a snapshot of [schoolData] in a JSON file: the
    handlers of [POST] and [DELETE] call [saveData] before they send
    their 200 response, and [startServer] calls [loadData] once.  The file is only ever written by [saveData], so its text is
    represented by the value [JSON.parse] makes of it: what
    [JSON.stringify] wrote for a store of strings, integers, arrays and
    objects parses back to an equal value, the cluster names, none of
    which is an array index, in the same order.  [JSON.stringify] visits
    own properties only, so nothing of [Object.prototype] reaches the
    file.  Each request's write is taken to finish before the next
    request is handled. *)

(** What [fs.writeFile] did: it wrote the text, or it failed and left the
    file as it was, or it failed and left text that does not parse. *)
Inductive WriteResult : Type :=
  | Written
  | FailedUntouched
  | FailedDamaged.

Module Persistent.
Import Clustered.

Inductive File : Type :=
  | NoFile
  | Unreadable
  | Snapshot (data : gmap string School).

Record Server : Type := {
  memory : Store;
  file : File
}.

(** [loadData]: the parsed file; the empty object when the file does not
    exist ([ENOENT]) and on any other error. *)
Definition loadData (f : File) : gmap string School :=
  match f with
  | Snapshot data => data
  | NoFile => ∅
  | Unreadable => ∅
  end.

(** [saveData]: an error of the write is logged and swallowed. *)
Definition saveData (w : WriteResult) (s : Server) : Server :=
  match w with
  | Written => {| memory := memory s; file := Snapshot (schoolData (memory s)) |}
  | FailedUntouched => s
  | FailedDamaged => {| memory := memory s; file := Unreadable |}
  end.

(** [startServer]: a new process, whose [Object.prototype] is as the
    runtime makes it, loads the file and listens. *)
Definition startServer (f : File) : Server :=
  {| memory := {| schoolData := loadData f; protoLastClusterNumber := false |};
     file := f |}.

(** The responses of the paths on which a handler has called [saveData]:
    a placement, and the two resets. *)
Definition saves (resp : Response) : bool :=
  match resp with
  | Placed _ | ResetDone _ => true
  | _ => false
  end.

Definition serve (s : Server) (r : Request) (w : WriteResult) : Server * Response :=
  let σ' := (handle (memory s) r).1 in
  let resp := (handle (memory s) r).2 in
  let s' := {| memory := σ'; file := file s |} in
  (if saves resp then saveData w s' else s', resp).

Inductive Event : Type :=
  | Serve (r : Request) (w : WriteResult)
  | Restart.

Definition step (s : Server) (e : Event) : Server :=
  match e with
  | Serve r w => (serve s r w).1
  | Restart => startServer (file s)
  end.

Definition runEvents (s : Server) (es : list Event) : Server := foldl step s es.

(** Every write of the run succeeded. *)
Definition writesSucceed (es : list Event) : Prop :=
  Forall (λ e, match e with Serve _ w => w = Written | Restart => True end) es.

(** The file and the memory hold the same schools, except that the
    memory may hold empty school records that the file lacks. *)
Definition upToDate (s : Server) : Prop :=
  ∀ k, loadData (file s) !! k = schoolData (memory s) !! k ∨
       (loadData (file s) !! k = None ∧ schoolData (memory s) !! k = Some newSchool).

End Persistent.

Module FlatPersistent.
Import Flat.

Inductive File : Type :=
  | NoFile
  | Unreadable
  | Snapshot (data : gmap string School).

Record Server : Type := {
  memory : Store;
  file : File
}.

(** [loadData] *)
Definition loadData (f : File) : gmap string School :=
  match f with
  | Snapshot data => data
  | NoFile => ∅
  | Unreadable => ∅
  end.

(** [saveData] *)
Definition saveData (w : WriteResult) (s : Server) : Server :=
  match w with
  | Written => {| memory := memory s; file := Snapshot (schoolData (memory s)) |}
  | FailedUntouched => s
  | FailedDamaged => {| memory := memory s; file := Unreadable |}
  end.

(** [startServer] *)
Definition startServer (f : File) : Server :=
  {| memory := {| schoolData := loadData f |}; file := f |}.

Definition saves (resp : Response) : bool :=
  match resp with
  | Placed _ | ResetDone _ => true
  | _ => false
  end.

Definition serve (s : Server) (r : Request) (w : WriteResult) : Server * Response :=
  let σ' := (handle (memory s) r).1 in
  let resp := (handle (memory s) r).2 in
  let s' := {| memory := σ'; file := file s |} in
  (if saves resp then saveData w s' else s', resp).

Inductive Event : Type :=
  | Serve (r : Request) (w : WriteResult)
  | Restart.

Definition step (s : Server) (e : Event) : Server :=
  match e with
  | Serve r w => (serve s r w).1
  | Restart => startServer (file s)
  end.

Definition runEvents (s : Server) (es : list Event) : Server := foldl step s es.

Definition writesSucceed (es : list Event) : Prop :=
  Forall (λ e, match e with Serve _ w => w = Written | Restart => True end) es.

End FlatPersistent.

(** ** Filling order *)

(** The shape of a school none of whose clusters was ever reset: the
    clusters are numbered 1, 2, ... in enumeration order up to
    [lastClusterNumber], none is empty, and all but the last hold ten
    devices. *)
Definition compact (s : Clustered.School) : Prop :=
  Clustered.lastClusterNumber s = N.of_nat (length (Clustered.clusters s)) ∧
  ∀ i e, Clustered.clusters s !! i = Some e →
    Clustered.clusterNumber e.2 = N.of_nat (S i) ∧
    1 ≤ length (Clustered.devices e.2) ∧
    (S i < length (Clustered.clusters s) → length (Clustered.devices e.2) = 10).

Definition storeCompact (σ : Clustered.Store) : Prop :=
  ∀ schoolCode s, Clustered.schoolData σ !! schoolCode = Some s → compact s.

(** ** Answers along a run *)

(** The responses to those requests of [rs] that name the school [sc],
    when [rs] is served in order from [σ]. *)
Fixpoint clusteredAnswersTo (sc : string) (σ : Clustered.Store)
    (rs : list Clustered.Request) : list Clustered.Response :=
  match rs with
  | [] => []
  | r :: rest =>
      let out := Clustered.handle σ r in
      if decide (ClusteredInv.target r = Some sc)
      then out.2 :: clusteredAnswersTo sc out.1 rest
      else clusteredAnswersTo sc out.1 rest
  end.

Fixpoint flatAnswersTo (sc : string) (σ : Flat.Store)
    (rs : list Flat.Request) : list Flat.Response :=
  match rs with
  | [] => []
  | r :: rest =>
      let out := Flat.handle σ r in
      if decide (FlatInv.target r = Some sc)
      then out.2 :: flatAnswersTo sc out.1 rest
      else flatAnswersTo sc out.1 rest
  end.

(** Two stores of the clustered server that a request for [sc] cannot
    tell apart: the same entry under [sc], and the same properties
    on [Object.prototype]. *)
Definition agreeOn (sc : string) (σ1 σ2 : Clustered.Store) : Prop :=
  Clustered.schoolData σ1 !! sc = Clustered.schoolData σ2 !! sc ∧
  Clustered.protoLastClusterNumber σ1 = Clustered.protoLastClusterNumber σ2.
(** ** Lemmas on the JavaScript primitives *)

Section JsLemmas.
Context {A : Type}.
Implicit Types (obj : list (string * A)) (key k : string) (v : A).

Lemma objGet_None key obj : Js.objGet key obj = None ↔ key ∉ obj.*1.
Proof.
  induction obj as [|[k w] rest IH]; simpl.
  - split; [intros _; apply not_elem_of_nil | done].
  - destruct (String.eqb_spec k key) as [->|Hne].
    + split; [done | intros H; destruct H; apply list_elem_of_here].
    + rewrite IH, not_elem_of_cons. simpl. intuition congruence.
Qed.

Lemma objGet_NoDup key obj v :
  NoDup obj.*1 → (key, v) ∈ obj → Js.objGet key obj = Some v.
Proof.
  induction obj as [|[k w] rest IH]; simpl; intros Hnd Hin.
  - by apply elem_of_nil in Hin.
  - apply NoDup_cons in Hnd as [Hk Hnd].
    apply elem_of_cons in Hin as [[= <- <-]|Hin].
    + by rewrite String.eqb_refl.
    + destruct (String.eqb_spec k key) as [->|Hne]; [|by apply IH].
      destruct Hk. apply list_elem_of_fmap. by exists (key, v).
Qed.

Lemma objSet_fresh key v obj :
  key ∉ obj.*1 → Js.objSet key v obj = obj ++ [(key, v)].
Proof.
  induction obj as [|[k w] rest IH]; simpl; [done|].
  rewrite not_elem_of_cons. intros [Hne Hnot].
  destruct (String.eqb_spec k key) as [->|_]; [done|].
  by rewrite IH.
Qed.

Lemma objGet_objSet_eq key v obj : Js.objGet key (Js.objSet key v obj) = Some v.
Proof.
  induction obj as [|[k w] rest IH]; simpl.
  - by rewrite String.eqb_refl.
  - destruct (String.eqb_spec k key) as [->|Hne]; simpl.
    + by rewrite String.eqb_refl.
    + by destruct (String.eqb_spec k key).
Qed.

Lemma objGet_objSet_ne key k v obj :
  k ≠ key → Js.objGet k (Js.objSet key v obj) = Js.objGet k obj.
Proof.
  intros Hne. induction obj as [|[k' w] rest IH]; simpl.
  - by destruct (String.eqb_spec key k).
  - destruct (String.eqb_spec k' key) as [->|Hne']; simpl.
    + by destruct (String.eqb_spec key k).
    + by rewrite IH.
Qed.

Lemma objGet_objDelete_eq key obj :
  NoDup obj.*1 → Js.objGet key (Js.objDelete key obj) = None.
Proof.
  induction obj as [|[k w] rest IH]; simpl; [done|].
  intros [Hk Hnd]%NoDup_cons.
  destruct (String.eqb_spec k key) as [->|Hne]; simpl.
  - by apply objGet_None.
  - destruct (String.eqb_spec k key); [done|]. by apply IH.
Qed.

Lemma objGet_objDelete_ne key k obj :
  k ≠ key → Js.objGet k (Js.objDelete key obj) = Js.objGet k obj.
Proof.
  intros Hne. induction obj as [|[k' w] rest IH]; simpl; [done|].
  destruct (String.eqb_spec k' key) as [->|Hne']; simpl.
  - by destruct (String.eqb_spec key k).
  - by rewrite IH.
Qed.

End JsLemmas.

Section JsSplit.
Context {A : Type}.
Implicit Types (obj pre post : list (string * A)) (key : string) (v : A).

Lemma objGet_split key obj v :
  Js.objGet key obj = Some v →
  ∃ pre post, obj = pre ++ (key, v) :: post ∧ key ∉ pre.*1.
Proof.
  induction obj as [|[k w] rest IH]; simpl; [done|].
  destruct (String.eqb_spec k key) as [->|Hne].
  - intros [= ->]. exists [], rest. split; [done | apply not_elem_of_nil].
  - intros (pre & post & -> & Hpre)%IH.
    exists ((k, w) :: pre), post. split; [done|].
    rewrite fmap_cons, not_elem_of_cons. simpl. split; congruence.
Qed.

Lemma objGet_app_fresh key pre v post :
  key ∉ pre.*1 → Js.objGet key (pre ++ (key, v) :: post) = Some v.
Proof.
  induction pre as [|[k w] pre IH]; simpl.
  - by rewrite String.eqb_refl.
  - rewrite not_elem_of_cons. intros [Hne Hpre].
    destruct (String.eqb_spec k key); [congruence | by apply IH].
Qed.

Lemma objSet_split key pre v v' post :
  key ∉ pre.*1 →
  Js.objSet key v' (pre ++ (key, v) :: post) = pre ++ (key, v') :: post.
Proof.
  induction pre as [|[k w] pre IH]; simpl.
  - by rewrite String.eqb_refl.
  - rewrite not_elem_of_cons. intros [Hne Hpre].
    destruct (String.eqb_spec k key); [congruence | by rewrite IH].
Qed.

Lemma objDelete_split key pre v post :
  key ∉ pre.*1 → Js.objDelete key (pre ++ (key, v) :: post) = pre ++ post.
Proof.
  induction pre as [|[k w] pre IH]; simpl.
  - by rewrite String.eqb_refl.
  - rewrite not_elem_of_cons. intros [Hne Hpre].
    destruct (String.eqb_spec k key); [congruence | by rewrite IH].
Qed.

Lemma NoDup_split_fresh key pre v post :
  NoDup (pre ++ (key, v) :: post).*1 → key ∉ pre.*1.
Proof.
  rewrite fmap_app, fmap_cons. simpl. intros Hnd Hin.
  apply NoDup_app in Hnd as (_ & Hdisj & _).
  apply (Hdisj key Hin), list_elem_of_here.
Qed.

Lemma findIndexFrom_spec (p : A → bool) (i : Z) (l : list A) :
  (Js.findIndexFrom p i l = (-1)%Z ∧ Forall (λ x, p x = false) l) ∨
  (∃ n, Js.findIndexFrom p i l = (i + Z.of_nat n)%Z ∧ firstIndex p l n).
Proof.
  revert i. induction l as [|x l IH]; intros i; simpl.
  - left. by split.
  - destruct (p x) eqn:Hpx.
    + right. exists 0. split; [lia|]. split; [by exists x | intros j y Hj; lia].
    + destruct (IH (i + 1)%Z) as [[-> Hall]|(n & -> & (y & Hy & Hpy) & Hmin)].
      * left. split; [done | by constructor].
      * right. exists (S n). split; [lia|]. split; [by exists y|].
        intros [|j] z Hj; simpl; [by intros [= <-]|].
        apply Hmin. lia.
Qed.

Lemma firstIndex_unique (p : A → bool) (l : list A) (i j : nat) :
  firstIndex p l i → firstIndex p l j → i = j.
Proof.
  intros [(x & Hx & Hpx) Hi] [(y & Hy & Hpy) Hj].
  destruct (Nat.lt_trichotomy i j) as [Hlt|[->|Hlt]]; [|done|].
  - specialize (Hj i x Hlt Hx). congruence.
  - specialize (Hi j y Hlt Hy). congruence.
Qed.

Lemma findIndex_present (p : A → bool) (l : list A) :
  Exists (λ x, p x = true) l →
  ∃ n, Js.findIndex p l = Z.of_nat n ∧ firstIndex p l n.
Proof.
  intros Hex. unfold Js.findIndex.
  destruct (findIndexFrom_spec p 0 l) as [[_ Hall]|(n & -> & Hn)].
  - apply Exists_exists in Hex as (x & Hin & Hpx).
    rewrite Forall_forall in Hall. rewrite (Hall x Hin) in Hpx. done.
  - exists n. split; [lia | done].
Qed.

Lemma findIndex_app_new (p : A → bool) (l : list A) (x : A) :
  Forall (λ y, p y = false) l → p x = true →
  Js.findIndex p (l ++ [x]) = Z.of_nat (length l) ∧
  firstIndex p (l ++ [x]) (length l).
Proof.
  intros Hall Hpx.
  assert (firstIndex p (l ++ [x]) (length l)) as Hfirst.
  { split.
    - exists x. split; [|done]. by rewrite lookup_app_r, Nat.sub_diag.
    - intros j y Hj Hy. rewrite lookup_app_l in Hy by done.
      rewrite Forall_forall in Hall. eapply Hall, list_elem_of_lookup_2, Hy. }
  split; [|done].
  destruct (findIndex_present p (l ++ [x])) as (n & -> & Hn).
  { apply Exists_app. right. by constructor. }
  f_equal. by eapply firstIndex_unique.
Qed.

End JsSplit.

(** ** The clustered server: lemmas on [findOrCreateCluster] *)

Section ClusteredLemmas.
Import Clustered ClusteredInv.
Implicit Types (σ : Store) (s school : School) (c : Cluster)
  (cs pre post : list (string * Cluster)) (id sc : string).

Lemma hasDevice_true id c :
  hasDevice id c = true ↔ Exists (λ device, sameId id device = true) (devices c).
Proof.
  unfold hasDevice. split.
  - destruct (find _ _) as [d|] eqn:Hfind; [|done]. intros _.
    apply find_some in Hfind as [Hin Hp].
    apply Exists_exists. exists d. split; [by apply list_elem_of_In | done].
  - intros (d & Hin & Hp)%Exists_exists.
    destruct (find _ _) eqn:Hfind; [done|].
    eapply find_none in Hfind; [|by apply list_elem_of_In].
    simpl in Hfind. congruence.
Qed.

Lemma hasDevice_false id c :
  hasDevice id c = false ↔ Forall (λ device, sameId id device = false) (devices c).
Proof.
  rewrite <-not_true_iff_false, hasDevice_true, <-Forall_Exists_neg.
  apply Forall_iff. intros d. by rewrite not_true_iff_false.
Qed.

Lemma findExisting_Some id cs name c :
  findExisting id cs = Some (name, c) →
  ∃ pre post, cs = pre ++ (name, c) :: post ∧ hasDevice id c = true ∧
    Forall (lacks id) pre.
Proof.
  induction cs as [|[k w] rest IH]; simpl; [done|].
  destruct (hasDevice id w) eqn:Hw.
  - intros [= -> ->]. by exists [], rest.
  - intros (pre & post & -> & Hc & Hpre)%IH.
    exists ((k, w) :: pre), post. split_and!; [done..|by constructor].
Qed.

Lemma findExisting_None id cs :
  findExisting id cs = None ↔ Forall (lacks id) cs.
Proof.
  induction cs as [|[k w] rest IH]; simpl; [by split|].
  rewrite Forall_cons. unfold lacks at 1. simpl. destruct (hasDevice id w); [|by rewrite IH; tauto].
  split; [done | by intros [? _]].
Qed.

Lemma findExisting_app id pre name c post :
  Forall (lacks id) pre → hasDevice id c = true →
  findExisting id (pre ++ (name, c) :: post) = Some (name, c).
Proof.
  induction 1 as [|[k w] pre Hw _ IH]; simpl; intros Hc.
  - by rewrite Hc.
  - unfold lacks in Hw. simpl in Hw. rewrite Hw. by apply IH.
Qed.

Lemma findSpace_Some cs name c :
  findSpace cs = Some (name, c) →
  ∃ pre post, cs = pre ++ (name, c) :: post ∧
    length (devices c) < MAX_DEVICES_PER_CLUSTER ∧ Forall full pre.
Proof.
  induction cs as [|[k w] rest IH]; simpl; [done|].
  destruct (Nat.ltb_spec (length (devices w)) MAX_DEVICES_PER_CLUSTER) as [Hlt|Hge].
  - intros [= -> ->]. by exists [], rest.
  - intros (pre & post & -> & Hc & Hpre)%IH.
    exists ((k, w) :: pre), post. split_and!; [done..|by constructor].
Qed.

Lemma findSpace_None cs :
  findSpace cs = None ↔ Forall full cs.
Proof.
  induction cs as [|[k w] rest IH]; simpl; [by split|].
  rewrite Forall_cons. unfold full at 1. simpl.
  destruct (Nat.ltb_spec (length (devices w)) MAX_DEVICES_PER_CLUSTER) as [Hlt|Hge].
  - split; [done | intros [? _]; lia].
  - rewrite IH. tauto.
Qed.

Lemma countDevices_app cs1 cs2 :
  countDevices (cs1 ++ cs2) = (countDevices cs1 + countDevices cs2)%Z.
Proof. induction cs1 as [|e cs1 IH]; simpl; [done|]. rewrite IH. lia. Qed.

Lemma countDevices_cons name c cs :
  countDevices ((name, c) :: cs) = (Z.of_nat (length (devices c)) + countDevices cs)%Z.
Proof. done. Qed.

Lemma clusterOk_mono sc last last' e :
  (last ≤ last')%N → clusterOk sc last e → clusterOk sc last' e.
Proof.
  unfold clusterOk. intros Hle (? & [? ?] & ? & ? & ? & ?).
  split_and!; try done; lia.
Qed.

(** A name built from a number above [last] is not used by any cluster
    numbered up to [last]. *)
Lemma fresh_name sc last cs (n : N) :
  Forall (clusterOk sc last) cs → (last < n)%N →
  (sc +:+ "_" +:+ pretty n) ∉ cs.*1.
Proof.
  intros Hall Hn ((name & c) & Hname & Hin)%list_elem_of_fmap. simpl in Hname.
  rewrite Forall_forall in Hall. destruct (Hall _ Hin) as (Heq & Hnum & _).
  simpl in Heq, Hnum. rewrite Heq in Hname.
  apply (inj (String.app sc)), (inj (String.app "_")), (inj pretty) in Hname. lia.
Qed.

Lemma addDevice_ok sc last name c id now :
  id ≠ "" → length (devices c) < MAX_DEVICES_PER_CLUSTER →
  clusterOk sc last (name, c) → clusterOk sc last (name, addDevice id now c).
Proof.
  unfold clusterOk, addDevice, MAX_DEVICES_PER_CLUSTER, MAX_HOSTS_PER_CLUSTER. simpl.
  intros Hid Hlen (Hname & Hnum & _ & Hhosts & Hfreq & Hids).
  split; [done|]. split; [done|]. split_and!; [ | |done| ].
  - rewrite length_app. simpl. lia.
  - rewrite Hhosts, length_fmap, length_take.
    destruct (Nat.ltb_spec (3 `min` length (devices c)) 3) as [Hlt|Hge].
    + rewrite !take_ge by (rewrite ?length_app; simpl; lia).
      by rewrite fmap_app.
    + by rewrite take_app_le by lia.
  - apply Forall_app. split; [done|]. by constructor.
Qed.

Lemma getRandomFrequency_channel u :
  getRandomFrequency u ∈ vec_to_list FREQUENCY_CHANNELS.
Proof. apply elem_of_vlookup. by exists u. Qed.

Lemma newCluster_ok sc (n : N) u now :
  (1 ≤ n)%N →
  clusterOk sc n (sc +:+ "_" +:+ pretty n,
    {| clusterNumber := n; devices := []; hosts := [];
       frequency := getRandomFrequency u; createdAt := now |}).
Proof.
  intros Hn. unfold clusterOk.
  split; [done|]. split; [simpl; lia|].
  split; [unfold MAX_DEVICES_PER_CLUSTER; simpl; lia|].
  split; [done|]. split; [|by constructor].
  apply getRandomFrequency_channel.
Qed.

End ClusteredLemmas.

(** ** The clustered server: what a request does *)

Section ClusteredOutcome.
Import Clustered ClusteredInv.
Implicit Types (σ : Store) (s school : School) (c : Cluster)
  (cs pre post : list (string * Cluster)) (id sc : string).

Lemma truthyField_Some sc : sc ≠ "" → Js.truthyField (Some sc) = true.
Proof. intros Hne. simpl. by destruct (String.eqb_spec sc ""). Qed.

Lemma store_eta σ :
  {| schoolData := schoolData σ; protoLastClusterNumber := protoLastClusterNumber σ |} = σ.
Proof. by destruct σ. Qed.

Lemma getSchool_own σ sc school :
  schoolData σ !! sc = Some school → getSchool σ sc = Js.Own school.
Proof. unfold getSchool. by intros ->. Qed.

Lemma getSchool_Own_inv σ sc school :
  getSchool σ sc = Js.Own school → schoolData σ !! sc = Some school.
Proof.
  unfold getSchool, Js.get. destruct (schoolData σ !! sc); [by intros [= ->]|].
  by destruct (Js.prototypeGet _ _).
Qed.

Lemma initSchool_own σ sc school :
  schoolData σ !! sc = Some school → initSchool σ sc = σ.
Proof. intros Hlook. unfold initSchool. by rewrite (getSchool_own _ _ _ Hlook). Qed.

Lemma inheritedKeys_putSchool σ sc s school :
  inheritedKeys (putSchool σ sc s) school = inheritedKeys σ school.
Proof. done. Qed.

Lemma postGetHosts_outcome σ sc id u now :
  storeOk σ → sc ≠ "" → id ≠ "" →
  PostOutcome σ sc id u now
    (postGetHosts σ (Some sc) (Some id) u now).1
    (postGetHosts σ (Some sc) (Some id) u now).2.
Proof.
  intros Hok Hsc Hid. unfold postGetHosts.
  rewrite !truthyField_Some by done. simpl.
  unfold afterFind, findOrCreateCluster, initSchool.
  destruct (schoolData σ !! sc) as [school|] eqn:Hlook.
  - (* the school is stored *)
    rewrite (getSchool_own _ _ _ Hlook). simpl.
    rewrite (getSchool_own _ _ _ Hlook).
    destruct (Hok _ _ Hlook) as (Hnd & Hcs & Htot).
    unfold findOrCreateIn.
    destruct (findExisting id (clusters school)) as [[name c]|] eqn:Hex.
    + simpl. rewrite Hlook. simpl.
      apply findExisting_Some in Hex as (pre & post & Hsplit & Hc & Hpre).
      by eapply post_existing.
    + apply findExisting_None in Hex.
      destruct (inheritedKeys σ school) as [|k ks] eqn:Hinh.
      2:{ simpl.
          assert (PostOutcome σ sc id u now (initSchool σ sc) InternalError) as Hout.
          { apply post_inherited_key; unfold schoolOrNew; rewrite ?Hlook; simpl;
              [by left; eexists | done | by rewrite Hinh]. }
          by rewrite (initSchool_own _ _ _ Hlook) in Hout. }
      destruct (findSpace (clusters school)) as [[name c]|] eqn:Hsp.
      * simpl. rewrite Hlook. simpl.
        apply findSpace_Some in Hsp as (pre & post & Hsplit & Hlen & Hpre).
        rewrite Hsplit, objSet_split by (eapply NoDup_split_fresh; by rewrite <-Hsplit).
        by eapply post_space.
      * apply findSpace_None in Hsp. simpl.
        rewrite lookup_insert_eq. simpl.
        set (n := (lastClusterNumber school + 1)%N).
        set (name := sc +:+ "_" +:+ pretty n).
        assert (name ∉ (clusters school).*1) as Hfresh
          by (eapply fresh_name; [done | lia]).
        rewrite (objSet_fresh _ _ _ Hfresh), objSet_split by done.
        unfold withSchoolData. simpl. rewrite insert_insert_eq.
        eapply (post_new_cluster _ _ _ _ _ school n name); try done;
          unfold schoolOrNew; rewrite ?Hlook; try done.
        by left; eexists.
  - (* no school is stored under this code *)
    assert (getSchool σ sc =
            match Js.prototypeGet (prototypeExtras σ) sc with
            | Some i => Js.FromPrototype i
            | None => Js.Undefined
            end) as Hget by (unfold getSchool, Js.get; by rewrite Hlook).
    assert (∀ st, schoolData st = <[sc := newSchool]> (schoolData σ) →
                  getSchool st sc = Js.Own newSchool) as Hnew.
    { intros st Hst. apply getSchool_own. rewrite Hst. apply lookup_insert_eq. }
    assert (Js.truthy (getSchool σ sc) = false →
            PostOutcome σ sc id u now
              (afterFind sc id now
                 (findOrCreateIn (putSchool σ sc newSchool) sc id newSchool u now)).1
              (afterFind sc id now
                 (findOrCreateIn (putSchool σ sc newSchool) sc id newSchool u now)).2)
      as Hfresh.
    { intros Hfalsy. unfold afterFind, findOrCreateIn. simpl.
      assert (initSchool σ sc = putSchool σ sc newSchool) as Hinit
        by (unfold initSchool; by rewrite Hfalsy).
      destruct (inheritedKeys (putSchool σ sc newSchool) newSchool) as [|k ks] eqn:Hinh.
      - simpl. rewrite lookup_insert_eq. simpl. rewrite !String.eqb_refl.
        unfold withSchoolData. simpl. rewrite !insert_insert_eq.
        eapply (post_new_cluster _ _ _ _ _ newSchool 1%N); try done;
          unfold schoolOrNew; rewrite ?Hlook; try done.
        by right.
      - simpl. rewrite <-Hinit.
        apply post_inherited_key; unfold schoolOrNew; rewrite ?Hlook; simpl;
          [by right | done | ].
        rewrite inheritedKeys_putSchool in Hinh. by rewrite Hinh. }
    destruct (Js.prototypeGet (prototypeExtras σ) sc) as [[| |]|] eqn:Hproto;
      rewrite Hget in *; simpl.
    + (* an inherited function *)
      rewrite Hget. simpl.
      assert (Js.BuiltinFunction ≠ Js.NotANumber) as Hne by done.
      pose proof (post_not_a_school σ sc id u now Js.BuiltinFunction Hget Hne) as Hout.
      by rewrite store_eta in Hout.
    + (* Object.prototype *)
      rewrite Hget. simpl.
      by apply (post_not_a_school _ _ _ _ _ Js.ObjectPrototype).
    + (* NaN is falsy: the school is created *)
      fold (putSchool σ sc newSchool).
      rewrite (Hnew (putSchool σ sc newSchool) eq_refl). by apply Hfresh.
    + fold (putSchool σ sc newSchool).
      rewrite (Hnew (putSchool σ sc newSchool) eq_refl). by apply Hfresh.
Qed.

End ClusteredOutcome.

(** ** The clustered server: the store invariant *)

Section ClusteredInvariant.
Import Clustered ClusteredInv.
Implicit Types (σ : Store) (s school : School) (c : Cluster)
  (cs pre post : list (string * Cluster)) (id sc : string).

Lemma truthyField_true (f : option string) :
  Js.truthyField f = true ↔ ∃ x : string, f = Some x ∧ x ≠ "".
Proof.
  destruct f as [x|]; simpl.
  - destruct (String.eqb_spec x ""); simpl; split; try done.
    + intros (? & [= <-] & ?). done.
    + intros _. by exists x.
  - split; [done | by intros (? & ? & ?)].
Qed.

(** Either the request is rejected and nothing changes, or both fields
    are non-empty strings. *)
Lemma postGetHosts_validation σ (schoolCode deviceId : option string) u now :
  (postGetHosts σ schoolCode deviceId u now = (σ, BadRequest) ∧
   (Js.truthyField schoolCode = false ∨ Js.truthyField deviceId = false)) ∨
  (∃ sc d, schoolCode = Some sc ∧ deviceId = Some d ∧ sc ≠ "" ∧ d ≠ "").
Proof.
  unfold postGetHosts.
  destruct (Js.truthyField schoolCode) eqn:Hsc; simpl; [|left; by auto].
  destruct (Js.truthyField deviceId) eqn:Hid; simpl; [|left; by auto].
  apply truthyField_true in Hsc as (sc & -> & ?).
  apply truthyField_true in Hid as (d & -> & ?).
  right. by exists sc, d.
Qed.

Lemma storeOk_empty : storeOk emptyStore.
Proof. intros sc s Hlook. simpl in Hlook. by rewrite lookup_empty in Hlook. Qed.

Lemma schoolOk_new sc : schoolOk sc newSchool.
Proof. split_and!; simpl; [apply NoDup_nil_2 | done | done]. Qed.

Lemma storeOk_putSchool σ sc s :
  storeOk σ → schoolOk sc s → storeOk (putSchool σ sc s).
Proof.
  intros Hok Hs sc' s'. unfold putSchool. simpl.
  rewrite lookup_insert. case_decide as Heq.
  - intros [= <-]. by subst.
  - apply Hok.
Qed.

Lemma storeOk_initSchool σ sc : storeOk σ → storeOk (initSchool σ sc).
Proof.
  intros Hok. unfold initSchool. destruct (Js.truthy _); [done|].
  apply storeOk_putSchool; [done | apply schoolOk_new].
Qed.

Lemma storeOk_flag σ b :
  storeOk σ → storeOk {| schoolData := schoolData σ; protoLastClusterNumber := b |}.
Proof. intros Hok sc s. apply Hok. Qed.

Lemma schoolOrNew_ok σ sc : storeOk σ → schoolOk sc (schoolOrNew σ sc).
Proof.
  intros Hok. unfold schoolOrNew.
  destruct (schoolData σ !! sc) as [s|] eqn:Hlook; simpl; [by apply Hok | apply schoolOk_new].
Qed.

Lemma PostOutcome_storeOk σ sc id u now σ' r :
  storeOk σ → id ≠ "" → PostOutcome σ sc id u now σ' r → storeOk σ'.
Proof.
  intros Hok Hid Hout. destruct Hout as
    [i Hget Hi
    |Hserv Hlacks Hinh
    |school pre name c post Hlook Hsplit Hpre Hc
    |school pre name c post Hlook Hsplit Hlacks Hinh Hfull Hlen
    |school n name c Hserv Hschool Hlacks Hinh Hfull Hn Hname Hc].
  - by apply storeOk_flag.
  - by apply storeOk_initSchool.
  - done.
  - apply storeOk_putSchool; [done|].
    destruct (Hok _ _ Hlook) as (Hnd & Hcs & Htot).
    rewrite Hsplit in Hnd, Hcs, Htot.
    split_and!; simpl.
    + by rewrite fmap_app, fmap_cons in *.
    + apply Forall_app in Hcs as [Hpre' [Hc' Hpost']%Forall_cons].
      apply Forall_app. split; [done|]. constructor; [|done].
      by apply addDevice_ok.
    + rewrite Htot, !countDevices_app, !countDevices_cons. simpl.
      rewrite length_app. simpl. lia.
  - apply storeOk_putSchool; [done|].
    pose proof (schoolOrNew_ok σ sc Hok) as (Hnd & Hcs & Htot).
    rewrite <-Hschool in Hnd, Hcs, Htot.
    assert (name ∉ (clusters school).*1) as Hfresh
      by (subst name; eapply fresh_name; [done | lia]).
    split_and!; simpl.
    + rewrite fmap_app. apply NoDup_app. split_and!; [done| |apply NoDup_singleton].
      intros x Hx ->%list_elem_of_singleton. done.
    + apply Forall_app. split.
      * eapply Forall_impl; [done|]. intros e. apply clusterOk_mono. lia.
      * constructor; [|done]. subst c name. apply addDevice_ok; [done| |].
        -- unfold MAX_DEVICES_PER_CLUSTER. simpl. lia.
        -- apply newCluster_ok. lia.
    + rewrite Htot, countDevices_app. subst c. simpl. lia.
Qed.

Lemma postGetHosts_storeOk σ (schoolCode deviceId : option string) u now :
  storeOk σ → storeOk (postGetHosts σ schoolCode deviceId u now).1.
Proof.
  intros Hok.
  destruct (postGetHosts_validation σ schoolCode deviceId u now)
    as [[-> _]|(sc & d & -> & -> & Hsc & Hd)]; [done|].
  eapply PostOutcome_storeOk; [done..|]. by apply postGetHosts_outcome.
Qed.

Lemma deleteSchool_storeOk σ sc : storeOk σ → storeOk (deleteSchool σ sc).1.
Proof.
  intros Hok. unfold deleteSchool. destruct (Js.truthy _); [|done].
  intros sc' s. simpl. rewrite lookup_delete. case_decide; [done | apply Hok].
Qed.

(** What a cluster reset does to the store. *)
Lemma deleteCluster_cases σ sc number :
  (∃ school pre c post,
      schoolData σ !! sc = Some school ∧
      clusters school = pre ++ (sc +:+ "_" +:+ number, c) :: post ∧
      ((sc +:+ "_" +:+ number) ∉ pre.*1) ∧
      Js.objDelete (sc +:+ "_" +:+ number) (clusters school) = pre ++ post ∧
      deleteCluster σ sc number =
        (putSchool σ sc
           {| clusters := pre ++ post;
              totalDevices := (totalDevices school - Z.of_nat (length (devices c)))%Z;
              lastClusterNumber := lastClusterNumber school |},
         ResetDone ("Cluster " +:+ (sc +:+ "_" +:+ number) +:+ " reset successfully"))) ∨
  ((deleteCluster σ sc number).1 = σ ∧
   ∀ msg, (deleteCluster σ sc number).2 ≠ ResetDone msg).
Proof.
  unfold deleteCluster.
  destruct (getSchool σ sc) as [school|i|] eqn:Hget;
    [|right; split; [done | intros msg; by destruct (Js.truthy _)]..].
  apply getSchool_Own_inv in Hget.
  unfold getCluster, Js.get.
  destruct (Js.objGet _ (clusters school)) as [c|] eqn:Hc.
  - left. apply objGet_split in Hc as (pre & post & Hsplit & Hpre).
    exists school, pre, c, post. split_and!; [done..| |].
    + rewrite Hsplit. by apply objDelete_split.
    + rewrite Hsplit at 1. by rewrite objDelete_split.
  - right. destruct (Js.prototypeGet _ _) as [i|]; simpl;
      (split; [done | intros msg; by repeat case_match]).
Qed.

Lemma deleteCluster_storeOk σ sc number :
  storeOk σ → storeOk (deleteCluster σ sc number).1.
Proof.
  intros Hok.
  destruct (deleteCluster_cases σ sc number)
    as [(school & pre & c & post & Hlook & Hsplit & Hpre & _ & ->)|[-> _]]; [|done].
  simpl. apply storeOk_putSchool; [done|].
  destruct (Hok _ _ Hlook) as (Hnd & Hcs & Htot).
  rewrite Hsplit in Hnd, Hcs, Htot.
  split_and!; simpl.
  - rewrite fmap_app, fmap_cons in Hnd. rewrite fmap_app.
    apply NoDup_app in Hnd as (Hnd1 & Hdisj & [_ Hnd2]%NoDup_cons).
    apply NoDup_app. split_and!; [done| |done].
    intros x Hx Hx'. apply (Hdisj x Hx). by apply list_elem_of_further.
  - apply Forall_app in Hcs as [Hpre' [_ Hpost']%Forall_cons].
    by apply Forall_app.
  - rewrite Htot, !countDevices_app, countDevices_cons. lia.
Qed.

Lemma handle_storeOk σ r : storeOk σ → storeOk (handle σ r).1.
Proof.
  intros Hok. destruct r; simpl; try done.
  - by apply postGetHosts_storeOk.
  - by apply deleteSchool_storeOk.
  - by apply deleteCluster_storeOk.
Qed.

Lemma reachable_storeOk σ : reachable σ → storeOk σ.
Proof.
  induction 1 as [|σ r _ IH]; [apply storeOk_empty | by apply handle_storeOk].
Qed.

Lemma run_reachable σ rs : reachable σ → reachable (run σ rs).
Proof.
  revert σ. induction rs as [|r rs IH]; intros σ Hr; simpl; [done|].
  apply IH. by constructor.
Qed.

End ClusteredInvariant.

(** ** The clustered server: successful placements *)

Section ClusteredPlaced.
Import Clustered ClusteredInv.
Implicit Types (σ : Store) (s school : School) (c : Cluster)
  (cs pre post : list (string * Cluster)) (id sc : string).

Lemma sameId_self id now :
  sameId id {| deviceId := id; registeredAt := now |} = true.
Proof. apply String.eqb_refl. Qed.

Lemma hasDevice_addDevice id now c : hasDevice id (addDevice id now c) = true.
Proof.
  apply hasDevice_true. simpl. apply Exists_app. right.
  constructor. apply sameId_self.
Qed.

Lemma take_min {A : Type} (n : nat) (l : list A) :
  take (n `min` length l) l = take n l.
Proof.
  destruct (Nat.le_ge_cases n (length l)) as [Hle|Hge].
  - by rewrite Nat.min_l.
  - by rewrite Nat.min_r, !take_ge by lia.
Qed.

Lemma postGetHosts_Placed_valid σ (schoolCode deviceId : option string) u now p :
  (postGetHosts σ schoolCode deviceId u now).2 = Placed p →
  ∃ sc d, schoolCode = Some sc ∧ deviceId = Some d ∧ sc ≠ "" ∧ d ≠ "".
Proof.
  intros Hp.
  destruct (postGetHosts_validation σ schoolCode deviceId u now) as [[Heq _]|H]; [|done].
  by rewrite Heq in Hp.
Qed.

(** A successful placement seen from the store it leaves behind: the
    resolved cluster is the first one holding the device, and the
    response is composed from it. *)
Lemma postGetHosts_Placed σ sc id u now p :
  storeOk σ → sc ≠ "" → id ≠ "" →
  (postGetHosts σ (Some sc) (Some id) u now).2 = Placed p →
  ∃ school' pre name c post,
    schoolData (postGetHosts σ (Some sc) (Some id) u now).1 !! sc = Some school' ∧
    schoolOk sc school' ∧
    clusters school' = pre ++ (name, c) :: post ∧
    Forall (lacks id) pre ∧
    hasDevice id c = true ∧
    Js.objGet name (clusters school') = Some c ∧
    p = composeResponse sc id name c (totalDevices school').
Proof.
  intros Hok Hsc Hid Hp.
  pose proof (postGetHosts_outcome σ sc id u now Hok Hsc Hid) as Hout.
  pose proof (PostOutcome_storeOk _ _ _ _ _ _ _ Hok Hid Hout) as Hok'.
  rewrite Hp in Hout.
  assert (∀ school' pre name c post,
    schoolData (postGetHosts σ (Some sc) (Some id) u now).1 !! sc = Some school' →
    clusters school' = pre ++ (name, c) :: post →
    Js.objGet name (clusters school') = Some c) as Hget.
  { intros school' pre name c post Hlook Hsplit.
    destruct (Hok' _ _ Hlook) as (Hnd & _).
    rewrite Hsplit in *. apply objGet_app_fresh. by eapply NoDup_split_fresh. }
  remember (postGetHosts σ (Some sc) (Some id) u now).1 as σ' eqn:Hσ'.
  inversion Hout as
    [| 
    |school pre name c post Hlook Hsplit Hpre Hc Hst
    |school pre name c post Hlook Hsplit Hlacks Hinh Hfull Hlen Hst
    |school n name c Hserv Hschool Hlacks Hinh Hfull Hn Hname Hc Hst]; subst.
  - exists school, pre, name, c, post. rewrite <-Hst in *.
    split_and!; try done; [by apply Hok | by eapply Hget].
  - eexists _, pre, name, _, post. rewrite <-Hst in *. simpl.
    rewrite lookup_insert_eq.
    split_and!; try done.
    + apply (Hok' sc). simpl. by rewrite lookup_insert_eq.
    + rewrite Hsplit in Hlacks. by apply Forall_app in Hlacks as [? _].
    + apply hasDevice_addDevice.
    + eapply (Hget _ pre _ _ post); [|done]. simpl. by rewrite lookup_insert_eq.
  - eexists _, (clusters (schoolOrNew σ sc)), _, _, []. rewrite <-Hst in *. simpl.
    rewrite lookup_insert_eq.
    split_and!; try done.
    + apply (Hok' sc). simpl. by rewrite lookup_insert_eq.
    + apply hasDevice_addDevice.
    + eapply (Hget _ (clusters (schoolOrNew σ sc)) _ _ []); [|done].
      simpl. by rewrite lookup_insert_eq.
Qed.

End ClusteredPlaced.

(** ** The flat server: what a request does, and the store invariant *)

Section FlatLemmas.
Import Flat FlatInv.
Implicit Types (σ : Store) (school : School) (id sc : string).

Lemma flat_getSchool_own σ sc school :
  schoolData σ !! sc = Some school → getSchool σ sc = Js.Own school.
Proof. unfold getSchool. by intros ->. Qed.

Lemma flat_getSchool_absent σ sc :
  schoolData σ !! sc = None →
  getSchool σ sc = match Js.prototypeGet [] sc with
                   | Some i => Js.FromPrototype i
                   | None => Js.Undefined
                   end.
Proof. unfold getSchool, Js.get. by intros ->. Qed.

Lemma prototypeGet_nil_truthy sc i :
  Js.prototypeGet [] sc = Some i →
  Js.truthy (Js.FromPrototype i : Js.Value School) = true.
Proof.
  unfold Js.prototypeGet. destruct (String.eqb sc "__proto__"); [by intros [= <-]|].
  destruct (Js.isMember sc Js.objectPrototypeFunctions); [by intros [= <-]|done].
Qed.

Lemma flat_postGetHosts_validation σ (schoolCode deviceId : option string) now :
  (postGetHosts σ schoolCode deviceId now = (σ, BadRequest) ∧
   (Js.truthyField schoolCode = false ∨ Js.truthyField deviceId = false)) ∨
  (∃ sc d, schoolCode = Some sc ∧ deviceId = Some d ∧ sc ≠ "" ∧ d ≠ "").
Proof.
  unfold postGetHosts.
  destruct (Js.truthyField schoolCode) eqn:Hsc; simpl; [|left; by auto].
  destruct (Js.truthyField deviceId) eqn:Hid; simpl; [|left; by auto].
  apply truthyField_true in Hsc as (sc & -> & ?).
  apply truthyField_true in Hid as (d & -> & ?).
  right. by exists sc, d.
Qed.

Lemma flat_findIndex_cases id school :
  (Js.findIndex (sameId id) (devices school) = (-1)%Z ∧
   Forall (λ device, sameId id device = false) (devices school)) ∨
  ((Js.findIndex (sameId id) (devices school) =? -1)%Z = false ∧
   Exists (λ device, sameId id device = true) (devices school)).
Proof.
  unfold Js.findIndex.
  destruct (findIndexFrom_spec (sameId id) 0 (devices school))
    as [[-> Hall]|(n & -> & (x & Hx & Hpx) & _)]; [by left|].
  right. split; [apply Z.eqb_neq; lia|]. apply Exists_exists. exists x.
  split; [by eapply list_elem_of_lookup_2 | done].
Qed.

Lemma flat_postGetHosts_outcome σ sc id now :
  sc ≠ "" → id ≠ "" →
  PostOutcome σ sc id now
    (postGetHosts σ (Some sc) (Some id) now).1
    (postGetHosts σ (Some sc) (Some id) now).2.
Proof.
  intros Hsc Hid. unfold postGetHosts.
  rewrite !truthyField_Some by done. simpl. unfold initSchool.
  destruct (schoolData σ !! sc) as [school|] eqn:Hlook.
  - rewrite (flat_getSchool_own _ _ _ Hlook). simpl.
    rewrite (flat_getSchool_own _ _ _ Hlook).
    destruct (flat_findIndex_cases id school) as [[-> Hall]|[-> Hex]]; simpl.
    + apply (post_new _ _ _ _ school); [by left; eexists | | done].
      unfold schoolOrNew. by rewrite Hlook.
    + by apply post_existing.
  - rewrite (flat_getSchool_absent _ _ Hlook).
    destruct (Js.prototypeGet [] sc) as [i|] eqn:Hproto.
    + rewrite (prototypeGet_nil_truthy _ _ Hproto).
      rewrite (flat_getSchool_absent _ _ Hlook), Hproto. simpl.
      apply (post_not_a_school _ _ _ _ i).
      by rewrite (flat_getSchool_absent _ _ Hlook), Hproto.
    + simpl. unfold getSchool. simpl. rewrite lookup_insert_eq. simpl.
      rewrite insert_insert_eq.
      apply (post_new _ _ _ _ newSchool); [right | | done].
      * by rewrite (flat_getSchool_absent _ _ Hlook), Hproto.
      * unfold schoolOrNew. by rewrite Hlook.
Qed.

Lemma flat_storeOk_empty : storeOk emptyStore.
Proof. intros sc s Hlook. simpl in Hlook. by rewrite lookup_empty in Hlook. Qed.

Lemma flat_addDevice_ok id now school :
  id ≠ "" → schoolOk school → schoolOk (addDevice id now school).
Proof.
  unfold schoolOk, addDevice. simpl. intros Hid [Hhosts Hids]. split.
  - rewrite Hhosts, length_fmap, length_take.
    destruct (Nat.ltb_spec (3 `min` length (devices school)) 3) as [Hlt|Hge].
    + rewrite !take_ge by (rewrite ?length_app; simpl; lia).
      by rewrite fmap_app.
    + by rewrite take_app_le by lia.
  - apply Forall_app. split; [done|]. by constructor.
Qed.

Lemma flat_storeOk_putSchool σ sc school :
  storeOk σ → schoolOk school → storeOk (putSchool σ sc school).
Proof.
  intros Hok Hs sc' s'. unfold putSchool. simpl.
  rewrite lookup_insert. case_decide; [by intros [= <-] | apply Hok].
Qed.

Lemma flat_schoolOrNew_ok σ sc : storeOk σ → schoolOk (schoolOrNew σ sc).
Proof.
  intros Hok. unfold schoolOrNew.
  destruct (schoolData σ !! sc) as [s|] eqn:Hlook; simpl; [by eapply Hok|].
  by split.
Qed.

Lemma flat_handle_storeOk σ r : storeOk σ → storeOk (handle σ r).1.
Proof.
  intros Hok. destruct r as [schoolCode deviceId now|sc|sc|now|now]; simpl; try done.
  - destruct (flat_postGetHosts_validation σ schoolCode deviceId now)
      as [[-> _]|(sc & d & -> & -> & Hsc & Hd)]; [done|].
    destruct (flat_postGetHosts_outcome σ sc d now Hsc Hd)
      as [i Hget|school Hlook Hex|school Hserv Hschool Hall]; [done..|].
    apply flat_storeOk_putSchool; [done|].
    apply flat_addDevice_ok; [done|]. subst school. by apply flat_schoolOrNew_ok.
  - unfold deleteSchool. destruct (Js.truthy _); [|done].
    intros sc' s. simpl. rewrite lookup_delete. case_decide; [done | apply Hok].
Qed.

Lemma flat_reachable_storeOk σ : reachable σ → storeOk σ.
Proof.
  induction 1 as [|σ r _ IH]; [apply flat_storeOk_empty | by apply flat_handle_storeOk].
Qed.

Lemma flat_run_reachable σ rs : reachable σ → reachable (run σ rs).
Proof.
  revert σ. induction rs as [|r rs IH]; intros σ Hr; simpl; [done|].
  apply IH. by constructor.
Qed.

End FlatLemmas.

(** ** Host prefix and device count *)

Section HostPrefix.

Lemma clustered_hosts_prefix σ sc school name c :
  Clustered.reachable σ →
  Clustered.schoolData σ !! sc = Some school →
  (name, c) ∈ Clustered.clusters school →
  Clustered.hosts c =
    Clustered.deviceId <$>
      take (3 `min` length (Clustered.devices c)) (Clustered.devices c) ∧
  length (Clustered.hosts c) ≤ 3.
Proof.
  intros Hreach Hlook Hin.
  destruct (reachable_storeOk σ Hreach _ _ Hlook) as (_ & Hcs & _).
  rewrite Forall_forall in Hcs. destruct (Hcs _ Hin) as (_ & _ & _ & Hhosts & _).
  simpl in Hhosts. rewrite take_min, Hhosts. split; [done|].
  rewrite length_fmap, length_take. lia.
Qed.

Lemma flat_hosts_prefix σ sc school :
  Flat.reachable σ →
  Flat.schoolData σ !! sc = Some school →
  Flat.hosts school =
    Flat.deviceId <$> take (3 `min` length (Flat.devices school)) (Flat.devices school) ∧
  length (Flat.hosts school) ≤ 3.
Proof.
  intros Hreach Hlook.
  destruct (flat_reachable_storeOk σ Hreach _ _ Hlook) as [Hhosts _].
  rewrite take_min, Hhosts. split; [done|].
  rewrite length_fmap, length_take. lia.
Qed.

End HostPrefix.


Section CountConsistency.
Import Clustered ClusteredInv.
Implicit Types (σ : Store) (s school : School) (c : Cluster)
  (cs pre post : list (string * Cluster)) (id sc : string).

Lemma knows_false id school :
  knows id school = false ↔ Forall (lacks id) (clusters school).
Proof.
  unfold knows, lacks. induction (clusters school) as [|e cs IH]; simpl.
  - by split.
  - rewrite orb_false_iff, Forall_cons, IH. done.
Qed.

Lemma knows_true_split id school pre name c post :
  clusters school = pre ++ (name, c) :: post → hasDevice id c = true →
  knows id school = true.
Proof.
  intros Hsplit Hc. apply not_false_iff_true. rewrite knows_false, Hsplit.
  intros [_ [Hlack _]%Forall_cons]%Forall_app. unfold lacks in Hlack. simpl in Hlack.
  congruence.
Qed.

Lemma PostOutcome_count σ sc id u now σ' p :
  PostOutcome σ sc id u now σ' (Placed p) →
  ∃ school',
    schoolData σ' !! sc = Some school' ∧
    totalDevices school' =
      (totalDevices (schoolOrNew σ sc) +
       (if knows id (schoolOrNew σ sc) then 0 else 1))%Z ∧
    totalDevicesInSchool p = totalDevices school'.
Proof.
  inversion 1 as
    [|
    |school pre name c post Hlook Hsplit Hpre Hc Hst
    |school pre name c post Hlook Hsplit Hlacks Hinh Hfull Hlen Hst
    |school n name c Hserv Hschool Hlacks Hinh Hfull Hn Hname Hc Hst]; subst.
  - exists school. unfold schoolOrNew. rewrite Hlook. simpl.
    rewrite (knows_true_split _ _ _ _ _ _ Hsplit Hc).
    split_and!; [done | lia | done].
  - eexists. simpl. rewrite lookup_insert_eq.
    unfold schoolOrNew. rewrite Hlook. simpl.
    apply knows_false in Hlacks. rewrite Hlacks. by split_and!.
  - eexists. simpl. rewrite lookup_insert_eq.
    apply knows_false in Hlacks. rewrite Hlacks. by split_and!.
Qed.

(** The counter after a successful placement: one more than before for a
    device the school did not know, unchanged otherwise. *)
Lemma placement_count σ sc id u now p :
  storeOk σ →
  (postGetHosts σ (Some sc) (Some id) u now).2 = Placed p →
  ∃ school',
    schoolData (postGetHosts σ (Some sc) (Some id) u now).1 !! sc = Some school' ∧
    totalDevices school' =
      (totalDevices (schoolOrNew σ sc) +
       (if knows id (schoolOrNew σ sc) then 0 else 1))%Z ∧
    totalDevicesInSchool p = totalDevices school'.
Proof.
  intros Hok Hp.
  destruct (postGetHosts_Placed_valid _ _ _ _ _ _ Hp)
    as (sc' & d & [= <-] & [= <-] & Hsc & Hid).
  pose proof (postGetHosts_outcome σ sc id u now Hok Hsc Hid) as Hout.
  rewrite Hp in Hout. by apply PostOutcome_count in Hout.
Qed.

End CountConsistency.


(** ** Roles by index *)

Section RoleTable.

Lemma orNull_lookup (hosts : list string) (k : nat) :
  Forall (λ h, h ≠ "") hosts → Js.orNull (hosts !! k) = hosts !! k.
Proof.
  intros Hall. destruct (hosts !! k) as [h|] eqn:Hk; simpl; [|done].
  rewrite Forall_forall in Hall.
  destruct (String.eqb_spec h ""); [|done].
  destruct (Hall h); [by eapply list_elem_of_lookup_2 | done].
Qed.

Lemma clustered_roleFields_table (i : nat) (id name : string) (hosts : list string) :
  let fields := Clustered.roleFields (Z.of_nat i) id name hosts in
  (Clustered.rf_role fields, Clustered.rf_hostDeviceId fields,
   Clustered.rf_host2DeviceId fields, Clustered.rf_host3DeviceId fields)
  = roleTable i id hosts.
Proof.
  unfold Clustered.roleFields.
  destruct i as [|[|[|i]]]; simpl; try done.
  by repeat (case_match; try lia).
Qed.

Lemma flat_roleFields_table (i : nat) (id : string) (hosts : list string) :
  let fields := Flat.roleFields (Z.of_nat i) id hosts in
  (Flat.rf_role fields, Flat.rf_hostDeviceId fields,
   Flat.rf_host2DeviceId fields, Flat.rf_host3DeviceId fields)
  = roleTable i id hosts.
Proof.
  unfold Flat.roleFields.
  destruct i as [|[|[|i]]]; simpl; try done.
  by repeat (case_match; try lia).
Qed.

End RoleTable.

Section ClusteredRoles.
Import Clustered ClusteredInv.
Implicit Types (σ : Store) (s school : School) (c : Cluster)
  (cs pre post : list (string * Cluster)) (id sc : string).

Lemma clusterOk_hosts_nonempty sc last e :
  clusterOk sc last e → Forall (λ h, h ≠ "") (hosts e.2).
Proof.
  intros (_ & _ & _ & -> & _ & Hids).
  apply Forall_fmap. by apply Forall_take.
Qed.

Lemma clustered_role_by_index σ sc id u now p :
  reachable σ →
  (postGetHosts σ (Some sc) (Some id) u now).2 = Placed p →
  ∃ school c i,
    schoolData (postGetHosts σ (Some sc) (Some id) u now).1 !! sc = Some school ∧
    Js.objGet (p_clusterName p) (clusters school) = Some c ∧
    firstIndex (sameId id) (devices c) i ∧
    positionInCluster p = (Z.of_nat i + 1)%Z ∧
    (role p, hostDeviceId p, host2DeviceId p, host3DeviceId p)
      = roleTable i id (hosts c) ∧
    clusterHosts p = {| host1 := hosts c !! 0;
                        host2 := hosts c !! 1;
                        host3 := hosts c !! 2 |} ∧
    clusterDevices p = deviceId <$> devices c.
Proof.
  intros Hreach Hp. pose proof (reachable_storeOk σ Hreach) as Hok.
  destruct (postGetHosts_Placed_valid _ _ _ _ _ _ Hp)
    as (sc' & d & [= <-] & [= <-] & Hsc & Hid).
  destruct (postGetHosts_Placed σ sc id u now p Hok Hsc Hid Hp)
    as (school & pre & name & c & post & Hlook & Hsok & Hsplit & Hpre & Hc & Hget & ->).
  destruct (findIndex_present (sameId id) (devices c)) as (i & Hfind & Hfirst);
    [by apply hasDevice_true|].
  exists school, c, i. simpl. rewrite Hfind.
  split_and!; try done.
  - apply clustered_roleFields_table.
  - destruct Hsok as (_ & Hcs & _). rewrite Forall_forall in Hcs.
    assert (Forall (λ h, h ≠ "") (hosts c)) as Hne.
    { apply (clusterOk_hosts_nonempty sc (lastClusterNumber school) (name, c)).
      apply Hcs. rewrite Hsplit. apply elem_of_app. right. apply list_elem_of_here. }
    by rewrite !orNull_lookup.
Qed.

(** A request that names another school code leaves this school's entry
    as it is. *)
Lemma clustered_frame_ok σ r sc :
  storeOk σ → target r ≠ Some sc →
  schoolData (handle σ r).1 !! sc = schoolData σ !! sc.
Proof.
  intros Hok Htarget.
  destruct r as [schoolCode deviceId u now|sc'|sc' number|sc'|sc' number|now];
    simpl in *; try done.
  - destruct (postGetHosts_validation σ schoolCode deviceId u now)
      as [[-> _]|(sc' & d & -> & -> & Hsc & Hd)]; [done|].
    assert (sc' ≠ sc) as Hne by congruence.
    destruct (postGetHosts_outcome σ sc' d u now Hok Hsc Hd); simpl; try done.
    + unfold initSchool. destruct (Js.truthy _); [done|]. simpl.
      by rewrite lookup_insert_ne.
    + by rewrite lookup_insert_ne.
    + by rewrite lookup_insert_ne.
  - unfold deleteSchool. destruct (Js.truthy _); [|done]. simpl.
    rewrite lookup_delete_ne; [done | congruence].
  - destruct (deleteCluster_cases σ sc' number)
      as [(school & pre & c & post & _ & _ & _ & _ & ->)|[-> _]]; [|done].
    simpl. rewrite lookup_insert_ne; [done | congruence].
Qed.

End ClusteredRoles.

Section FlatRoles.
Import Flat FlatInv.
Implicit Types (σ : Store) (school : School) (id sc : string).

Lemma flat_postGetHosts_Placed_valid σ (schoolCode deviceId : option string) now p :
  (postGetHosts σ schoolCode deviceId now).2 = Placed p →
  ∃ sc d, schoolCode = Some sc ∧ deviceId = Some d ∧ sc ≠ "" ∧ d ≠ "".
Proof.
  intros Hp.
  destruct (flat_postGetHosts_validation σ schoolCode deviceId now) as [[Heq _]|H]; [|done].
  by rewrite Heq in Hp.
Qed.

Lemma flat_sameId_self id now :
  sameId id {| deviceId := id; registeredAt := now |} = true.
Proof. apply String.eqb_refl. Qed.

Lemma flat_schoolOk_hosts_nonempty school :
  schoolOk school → Forall (λ h, h ≠ "") (hosts school).
Proof. intros [-> Hids]. apply Forall_fmap. by apply Forall_take. Qed.

(** A successful placement seen from the store it leaves behind. *)
Lemma flat_postGetHosts_Placed σ sc id now p :
  storeOk σ →
  (postGetHosts σ (Some sc) (Some id) now).2 = Placed p →
  ∃ school,
    schoolData (postGetHosts σ (Some sc) (Some id) now).1 !! sc = Some school ∧
    schoolOk school ∧
    Exists (λ device, sameId id device = true) (devices school) ∧
    p = composeResponse sc id school.
Proof.
  intros Hok Hp.
  destruct (flat_postGetHosts_Placed_valid _ _ _ _ _ Hp)
    as (sc' & d & [= <-] & [= <-] & Hsc & Hid).
  pose proof (flat_postGetHosts_outcome σ sc id now Hsc Hid) as Hout.
  rewrite Hp in Hout.
  remember (postGetHosts σ (Some sc) (Some id) now).1 as σ' eqn:Hσ'. clear Hσ' Hp.
  inversion Hout as [|school Hlook Hex Hst|school Hserv Hschool Hall Hst]; subst.
  - exists school. split_and!; [done | by eapply Hok | done | done].
  - eexists. simpl. rewrite lookup_insert_eq. split_and!; [done | | | done].
    + apply flat_addDevice_ok; [done | by apply flat_schoolOrNew_ok].
    + simpl. apply Exists_app. right. constructor. apply flat_sameId_self.
Qed.

Lemma flat_role_by_index σ sc id now p :
  reachable σ →
  (postGetHosts σ (Some sc) (Some id) now).2 = Placed p →
  ∃ school i,
    schoolData (postGetHosts σ (Some sc) (Some id) now).1 !! sc = Some school ∧
    firstIndex (sameId id) (devices school) i ∧
    position p = (Z.of_nat i + 1)%Z ∧
    (role p, hostDeviceId p, host2DeviceId p, host3DeviceId p)
      = roleTable i id (hosts school) ∧
    p_hosts p = {| host1 := hosts school !! 0;
                   host2 := hosts school !! 1;
                   host3 := hosts school !! 2 |}.
Proof.
  intros Hok%flat_reachable_storeOk Hp.
  destruct (flat_postGetHosts_Placed σ sc id now p Hok Hp)
    as (school & Hlook & Hsok & Hex & ->).
  destruct (findIndex_present (sameId id) (devices school) Hex) as (i & Hfind & Hfirst).
  exists school, i. simpl. rewrite Hfind.
  split_and!; try done.
  - apply flat_roleFields_table.
  - by rewrite !orNull_lookup by by apply flat_schoolOk_hosts_nonempty.
Qed.

Lemma flat_frame σ r sc :
  target r ≠ Some sc →
  schoolData (handle σ r).1 !! sc = schoolData σ !! sc.
Proof.
  intros Htarget.
  destruct r as [schoolCode deviceId now|sc'|sc'|now|now]; simpl in *; try done.
  - destruct (flat_postGetHosts_validation σ schoolCode deviceId now)
      as [[-> _]|(sc' & d & -> & -> & Hsc & Hd)]; [done|].
    assert (sc' ≠ sc) as Hne by congruence.
    destruct (flat_postGetHosts_outcome σ sc' d now Hsc Hd); simpl; try done.
    by rewrite lookup_insert_ne.
  - unfold deleteSchool. destruct (Js.truthy _); [|done]. simpl.
    rewrite lookup_delete_ne; [done | congruence].
Qed.

End FlatRoles.


(** ** Idempotence of placement *)

Section ObjReplace.
Context {A : Type}.

Lemma objGet_replace (k key : string) (pre post : list (string * A)) (v v' : A) :
  key ∉ pre.*1 →
  Js.objGet k (pre ++ (key, v') :: post) =
    if String.eqb key k then Some v' else Js.objGet k (pre ++ (key, v) :: post).
Proof.
  induction pre as [|[k0 w] pre IH]; simpl.
  - intros _. by destruct (String.eqb key k).
  - rewrite not_elem_of_cons. intros [Hne Hpre].
    destruct (String.eqb_spec k0 k) as [->|Hk0].
    + by destruct (String.eqb_spec key k).
    + by apply IH.
Qed.

Lemma objGet_snoc (k key : string) (obj : list (string * A)) (v : A) :
  key ∉ obj.*1 →
  Js.objGet k (obj ++ [(key, v)]) =
    if String.eqb key k then Some v else Js.objGet k obj.
Proof.
  induction obj as [|[k0 w] obj IH]; simpl.
  - done.
  - rewrite not_elem_of_cons. intros [Hne Hobj].
    destruct (String.eqb_spec k0 k) as [->|Hk0].
    + by destruct (String.eqb_spec key k).
    + by apply IH.
Qed.

End ObjReplace.

Section ClusteredIdempotence.
Import Clustered ClusteredInv.
Implicit Types (σ : Store) (s school : School) (c : Cluster)
  (cs pre post : list (string * Cluster)) (id sc : string).

(** A device that some cluster of the stored school lists is answered
    from that cluster, and nothing changes. *)
Lemma postGetHosts_known σ sc id u now school pre name c post :
  sc ≠ "" → id ≠ "" →
  schoolData σ !! sc = Some school →
  clusters school = pre ++ (name, c) :: post →
  Forall (lacks id) pre → hasDevice id c = true →
  postGetHosts σ (Some sc) (Some id) u now
  = (σ, Placed (composeResponse sc id name c (totalDevices school))).
Proof.
  intros Hsc Hid Hlook Hsplit Hpre Hc. unfold postGetHosts.
  rewrite !truthyField_Some by done. simpl.
  unfold findOrCreateCluster. rewrite (initSchool_own _ _ _ Hlook).
  rewrite (getSchool_own _ _ _ Hlook). unfold findOrCreateIn.
  rewrite Hsplit, (findExisting_app _ _ _ _ _ Hpre Hc). simpl.
  by rewrite Hlook.
Qed.

(** What is inherited under a truthy key does not depend on what the
    program added to the prototype. *)
Lemma prototypeGet_truthy_extras (e1 e2 : list string) (key : string) (i : Js.Inherited) :
  Js.prototypeGet e1 key = Some i → i ≠ Js.NotANumber →
  Js.prototypeGet e2 key = Some i.
Proof.
  unfold Js.prototypeGet.
  destruct (String.eqb key "__proto__"); [done|].
  destruct (Js.isMember key Js.objectPrototypeFunctions); [done|].
  destruct (Js.isMember key e1); [by intros [= <-] | done].
Qed.

Lemma getSchool_FromPrototype_inv σ sc i :
  getSchool σ sc = Js.FromPrototype i →
  schoolData σ !! sc = None ∧ Js.prototypeGet (prototypeExtras σ) sc = Some i.
Proof.
  unfold getSchool, Js.get. destruct (schoolData σ !! sc); [done|].
  destruct (Js.prototypeGet _ _); [by intros [= ->] | done].
Qed.

(** A code that reads as a function or as [Object.prototype]: the call
    throws, and only the prototype can have changed. *)
Lemma postGetHosts_not_a_school σ sc id u now i :
  sc ≠ "" → id ≠ "" →
  getSchool σ sc = Js.FromPrototype i → i ≠ Js.NotANumber →
  postGetHosts σ (Some sc) (Some id) u now
  = ({| schoolData := schoolData σ;
        protoLastClusterNumber :=
          match i with
          | Js.ObjectPrototype => true
          | _ => protoLastClusterNumber σ
          end |}, InternalError).
Proof.
  intros Hsc Hid Hget Hi. unfold postGetHosts.
  rewrite !truthyField_Some by done. simpl.
  unfold findOrCreateCluster, initSchool. rewrite Hget.
  destruct i; simpl; rewrite ?Hget; simpl; try done.
  by rewrite store_eta.
Qed.

(** A stored school that does not know the device, on a runtime whose
    prototype carries an enumerable key: the first loop throws. *)
Lemma postGetHosts_inherited_key σ sc id u now school :
  sc ≠ "" → id ≠ "" →
  schoolData σ !! sc = Some school →
  Forall (lacks id) (clusters school) →
  inheritedKeys σ school ≠ [] →
  postGetHosts σ (Some sc) (Some id) u now = (σ, InternalError).
Proof.
  intros Hsc Hid Hlook Hlacks Hinh. unfold postGetHosts.
  rewrite !truthyField_Some by done. simpl.
  unfold findOrCreateCluster. rewrite (initSchool_own _ _ _ Hlook).
  rewrite (getSchool_own _ _ _ Hlook). unfold findOrCreateIn.
  apply findExisting_None in Hlacks. rewrite Hlacks.
  by destruct (inheritedKeys σ school).
Qed.

Lemma initSchool_lookup σ sc :
  servable σ sc → schoolData (initSchool σ sc) !! sc = Some (schoolOrNew σ sc).
Proof.
  unfold servable, initSchool, schoolOrNew. intros [[school Hlook]|Hfalsy].
  - rewrite (getSchool_own _ _ _ Hlook). simpl. by rewrite Hlook.
  - rewrite Hfalsy. simpl. rewrite lookup_insert_eq.
    destruct (schoolData σ !! sc) as [school|] eqn:Hlook; [|done].
    by rewrite (getSchool_own _ _ _ Hlook) in Hfalsy.
Qed.

Lemma schoolOrNew_initSchool σ sc :
  servable σ sc → schoolOrNew (initSchool σ sc) sc = schoolOrNew σ sc.
Proof.
  intros Hserv. unfold schoolOrNew at 1. by rewrite (initSchool_lookup _ _ Hserv).
Qed.

Lemma schoolOrNew_putSchool σ sc school :
  schoolOrNew (putSchool σ sc school) sc = school.
Proof. unfold schoolOrNew, putSchool. simpl. by rewrite lookup_insert_eq. Qed.

(** One placement: the outcome, what a repeat does, and how the device
    lists grew. *)
Lemma PostOutcome_repeat σ sc id u now σ1 r1 u' now' :
  storeOk σ → sc ≠ "" → id ≠ "" →
  PostOutcome σ sc id u now σ1 r1 →
  postGetHosts σ1 (Some sc) (Some id) u' now' = (σ1, r1) ∧
  ∀ name, length (deviceList σ1 sc name) ≤ length (deviceList σ sc name) + 1.
Proof.
  intros Hok Hsc Hid Hout.
  destruct Hout as
    [i Hget Hi
    |Hserv Hlacks Hinh
    |school pre name c post Hlook Hsplit Hpre Hc
    |school pre name c post Hlook Hsplit Hlacks Hinh Hfull Hlen
    |school n name c Hserv Hschool Hlacks Hinh Hfull Hn Hname Hc].
  - split; [|intros name; unfold deviceList, schoolOrNew; simpl; lia].
    apply getSchool_FromPrototype_inv in Hget as [Hlook Hproto].
    rewrite (postGetHosts_not_a_school _ sc id u' now' i); simpl; try done.
    + by destruct i.
    + unfold getSchool, Js.get. simpl. rewrite Hlook.
      by rewrite (prototypeGet_truthy_extras _ _ _ _ Hproto Hi).
  - split.
    + apply (postGetHosts_inherited_key _ _ _ _ _ (schoolOrNew σ sc)); try done.
      * by apply initSchool_lookup.
      * unfold initSchool. by destruct (Js.truthy _).
    + intros name. unfold deviceList. rewrite schoolOrNew_initSchool by done. lia.
  - split; [by eapply postGetHosts_known | intros; lia].
  - destruct (Hok _ _ Hlook) as (Hnd & _). rewrite Hsplit in Hnd.
    apply NoDup_split_fresh in Hnd.
    split.
    + apply (postGetHosts_known _ _ _ _ _
               {| clusters := pre ++ (name, addDevice id now c) :: post;
                  totalDevices := (totalDevices school + 1)%Z;
                  lastClusterNumber := lastClusterNumber school |}
               pre name (addDevice id now c) post);
        [done | done | | done | | ].
      * unfold putSchool. simpl. by rewrite lookup_insert_eq.
      * rewrite Hsplit in Hlacks. by apply Forall_app in Hlacks as [? _].
      * apply hasDevice_addDevice.
    + intros k. unfold deviceList. rewrite schoolOrNew_putSchool. simpl.
      unfold schoolOrNew. rewrite Hlook. simpl. rewrite Hsplit.
      rewrite (objGet_replace k name pre post c) by done.
      destruct (String.eqb_spec name k) as [<-|Hk].
      * rewrite objGet_app_fresh by done. simpl. rewrite length_app. simpl. lia.
      * lia.
  - pose proof (schoolOrNew_ok σ sc Hok) as (_ & Hcs & _). rewrite <-Hschool in Hcs.
    assert (name ∉ (clusters school).*1) as Hfresh
      by (subst name; eapply fresh_name; [done | lia]).
    split.
    + apply (postGetHosts_known _ _ _ _ _
               {| clusters := clusters school ++ [(name, c)];
                  totalDevices := (totalDevices school + 1)%Z;
                  lastClusterNumber := n |}
               (clusters school) name c []);
        [done | done | | done | done | ].
      * unfold putSchool. simpl. by rewrite lookup_insert_eq.
      * subst c. apply hasDevice_addDevice.
    + intros k. unfold deviceList. rewrite schoolOrNew_putSchool. simpl.
      rewrite <-Hschool. rewrite objGet_snoc by done.
      destruct (String.eqb_spec name k) as [<-|Hk].
      * apply objGet_None in Hfresh. rewrite Hfresh. subst c. simpl. lia.
      * lia.
Qed.

Lemma clustered_idempotent σ sc id u1 now1 u2 now2 :
  reachable σ → sc ≠ "" → id ≠ "" →
  postGetHosts (postGetHosts σ (Some sc) (Some id) u1 now1).1 (Some sc) (Some id) u2 now2
  = postGetHosts σ (Some sc) (Some id) u1 now1 ∧
  ∀ name,
    length (deviceList (postGetHosts σ (Some sc) (Some id) u1 now1).1 sc name)
    ≤ length (deviceList σ sc name) + 1.
Proof.
  intros Hok%reachable_storeOk Hsc Hid.
  pose proof (postGetHosts_outcome σ sc id u1 now1 Hok Hsc Hid) as Hout.
  destruct (PostOutcome_repeat _ _ _ _ _ _ _ u2 now2 Hok Hsc Hid Hout) as [Hrep Hlen].
  split; [|done]. rewrite Hrep. by destruct (postGetHosts σ _ _ u1 now1).
Qed.

End ClusteredIdempotence.

Section FlatIdempotence.
Import Flat FlatInv.
Implicit Types (σ : Store) (school : School) (id sc : string).

Lemma flat_postGetHosts_known σ sc id now school :
  sc ≠ "" → id ≠ "" →
  schoolData σ !! sc = Some school →
  Exists (λ device, sameId id device = true) (devices school) →
  postGetHosts σ (Some sc) (Some id) now
  = (σ, Placed (composeResponse sc id school)).
Proof.
  intros Hsc Hid Hlook Hex. unfold postGetHosts.
  rewrite !truthyField_Some by done. simpl. unfold initSchool.
  rewrite (flat_getSchool_own _ _ _ Hlook). simpl.
  rewrite (flat_getSchool_own _ _ _ Hlook).
  destruct (flat_findIndex_cases id school) as [[_ Hall]|[-> _]]; [|done].
  apply Exists_exists in Hex as (x & Hx & Hpx).
  rewrite Forall_forall in Hall. rewrite (Hall x Hx) in Hpx. done.
Qed.

Lemma flat_postGetHosts_not_a_school σ sc id now i :
  sc ≠ "" → id ≠ "" →
  getSchool σ sc = Js.FromPrototype i →
  postGetHosts σ (Some sc) (Some id) now = (σ, InternalError).
Proof.
  intros Hsc Hid Hget. unfold postGetHosts.
  rewrite !truthyField_Some by done. simpl. unfold initSchool.
  assert (Js.truthy (getSchool σ sc) = true) as ->.
  { unfold getSchool, Js.get in *.
    destruct (schoolData σ !! sc); [done|].
    destruct (Js.prototypeGet [] sc) as [j|] eqn:Hproto; [|done].
    injection Hget as <-. by apply (prototypeGet_nil_truthy sc). }
  by rewrite Hget.
Qed.

Lemma flat_idempotent σ sc id now1 now2 :
  sc ≠ "" → id ≠ "" →
  postGetHosts (postGetHosts σ (Some sc) (Some id) now1).1 (Some sc) (Some id) now2
  = postGetHosts σ (Some sc) (Some id) now1 ∧
  length (deviceList (postGetHosts σ (Some sc) (Some id) now1).1 sc)
  ≤ length (deviceList σ sc) + 1.
Proof.
  intros Hsc Hid.
  pose proof (flat_postGetHosts_outcome σ sc id now1 Hsc Hid) as Hout.
  destruct (postGetHosts σ (Some sc) (Some id) now1) as [σ1 r1]. simpl in *.
  destruct Hout as [i Hget|school Hlook Hex|school Hserv Hschool Hall].
  - split; [by eapply flat_postGetHosts_not_a_school | lia].
  - split; [by apply flat_postGetHosts_known | lia].
  - split.
    + apply flat_postGetHosts_known; [done | done | |].
      * unfold putSchool. simpl. by rewrite lookup_insert_eq.
      * simpl. apply Exists_app. right. constructor. apply flat_sameId_self.
    + unfold deviceList at 1, schoolOrNew at 1, putSchool. simpl.
      rewrite lookup_insert_eq. simpl. rewrite length_app. simpl.
      unfold deviceList. rewrite <-Hschool. lia.
Qed.

End FlatIdempotence.


(** ** Placement on an intact prototype, as a function of the school *)

Section ClusteredServed.
Import Clustered ClusteredInv.
Implicit Types (σ : Store) (s school : School) (c : Cluster)
  (cs pre post : list (string * Cluster)) (id sc : string).

Lemma inheritedKeys_intact σ school :
  protoLastClusterNumber σ = false → inheritedKeys σ school = [].
Proof. intros Hflag. unfold inheritedKeys, prototypeExtras. by rewrite Hflag. Qed.

Lemma prototypeGet_intact σ sc :
  protoLastClusterNumber σ = false →
  Js.prototypeGet (prototypeExtras σ) sc = Js.prototypeGet [] sc.
Proof. intros Hflag. unfold prototypeExtras. by rewrite Hflag. Qed.

(** The school is stored: known device, room in a cluster, or a new
    cluster. *)
Lemma postGetHosts_stored σ sc id u now school :
  sc ≠ "" → id ≠ "" →
  schoolData σ !! sc = Some school →
  protoLastClusterNumber σ = false →
  postGetHosts σ (Some sc) (Some id) u now =
    match findExisting id (clusters school) with
    | Some (name, c) =>
        (σ, Placed (composeResponse sc id name c (totalDevices school)))
    | None =>
        match findSpace (clusters school) with
        | Some (name, c) =>
            (putSchool σ sc
               {| clusters := Js.objSet name (addDevice id now c) (clusters school);
                  totalDevices := (totalDevices school + 1)%Z;
                  lastClusterNumber := lastClusterNumber school |},
             Placed (composeResponse sc id name (addDevice id now c)
                       (totalDevices school + 1)%Z))
        | None =>
            let n := (lastClusterNumber school + 1)%N in
            let name := sc +:+ "_" +:+ pretty n in
            let c := {| clusterNumber := n; devices := []; hosts := [];
                        frequency := getRandomFrequency u; createdAt := now |} in
            (putSchool σ sc
               {| clusters := Js.objSet name (addDevice id now c)
                                (Js.objSet name c (clusters school));
                  totalDevices := (totalDevices school + 1)%Z;
                  lastClusterNumber := n |},
             Placed (composeResponse sc id name (addDevice id now c)
                       (totalDevices school + 1)%Z))
        end
    end.
Proof.
  intros Hsc Hid Hlook Hflag. unfold postGetHosts.
  rewrite !truthyField_Some by done. simpl.
  unfold findOrCreateCluster. rewrite (initSchool_own _ _ _ Hlook).
  rewrite (getSchool_own _ _ _ Hlook). unfold findOrCreateIn.
  destruct (findExisting id (clusters school)) as [[name c]|]; simpl.
  { by rewrite Hlook. }
  rewrite (inheritedKeys_intact _ _ Hflag).
  destruct (findSpace (clusters school)) as [[name c]|]; simpl.
  { by rewrite Hlook. }
  rewrite lookup_insert_eq. simpl.
  unfold putSchool, withSchoolData. simpl. by rewrite insert_insert_eq.
Qed.

(** No school is stored and the code is not a key of the prototype: the
    school and its first cluster are created. *)
Lemma postGetHosts_absent σ sc id u now :
  sc ≠ "" → id ≠ "" →
  schoolData σ !! sc = None →
  Js.prototypeGet [] sc = None →
  protoLastClusterNumber σ = false →
  postGetHosts σ (Some sc) (Some id) u now =
    (putSchool σ sc
       {| clusters :=
            [(sc +:+ "_1",
              {| clusterNumber := 1;
                 devices := [{| deviceId := id; registeredAt := now |}];
                 hosts := [id];
                 frequency := getRandomFrequency u;
                 createdAt := now |})];
          totalDevices := 1;
          lastClusterNumber := 1 |},
     Placed
       {| p_schoolCode := sc;
          p_clusterName := sc +:+ "_1";
          p_clusterNumber := 1;
          p_deviceId := id;
          positionInCluster := 1;
          totalDevicesInCluster := 1;
          totalDevicesInSchool := 1;
          maxDevicesPerCluster := MAX_DEVICES_PER_CLUSTER;
          p_frequency := getRandomFrequency u;
          hostDeviceId := Some id;
          host2DeviceId := None;
          host3DeviceId := None;
          role := "host1";
          message := "You are the primary host for cluster " +:+ sc +:+ "_1";
          clusterHosts := {| host1 := Some id; host2 := None; host3 := None |};
          clusterDevices := [id] |}).
Proof.
  intros Hsc Hid Hlook Hproto Hflag. unfold postGetHosts.
  rewrite !truthyField_Some by done. simpl.
  unfold findOrCreateCluster, initSchool, getSchool, Js.get.
  rewrite Hlook, (prototypeGet_intact _ _ Hflag), Hproto. simpl.
  rewrite lookup_insert_eq.
  unfold findOrCreateIn. simpl.
  rewrite inheritedKeys_intact by done. simpl.
  rewrite lookup_insert_eq. simpl. rewrite !String.eqb_refl.
  unfold putSchool, withSchoolData. simpl. rewrite !insert_insert_eq.
  unfold composeResponse, Js.findIndex, sameId, addDevice. simpl.
  rewrite String.eqb_refl. simpl.
  destruct (String.eqb_spec id ""); [done|].
  change (pretty (0 + 1)%N) with "1". done.
Qed.

End ClusteredServed.

Section FlatServed.
Import Flat FlatInv.
Implicit Types (σ : Store) (school : School) (id sc : string).

Lemma flat_postGetHosts_stored σ sc id now school :
  sc ≠ "" → id ≠ "" →
  schoolData σ !! sc = Some school →
  postGetHosts σ (Some sc) (Some id) now =
    if (Js.findIndex (sameId id) (devices school) =? -1)%Z then
      (putSchool σ sc (addDevice id now school),
       Placed (composeResponse sc id (addDevice id now school)))
    else (σ, Placed (composeResponse sc id school)).
Proof.
  intros Hsc Hid Hlook. unfold postGetHosts.
  rewrite !truthyField_Some by done. simpl. unfold initSchool.
  rewrite (flat_getSchool_own _ _ _ Hlook). simpl.
  by rewrite (flat_getSchool_own _ _ _ Hlook).
Qed.

Lemma flat_postGetHosts_absent σ sc id now :
  sc ≠ "" → id ≠ "" →
  schoolData σ !! sc = None →
  Js.prototypeGet [] sc = None →
  postGetHosts σ (Some sc) (Some id) now =
    (putSchool σ sc
       {| devices := [{| deviceId := id; registeredAt := now |}]; hosts := [id] |},
     Placed
       {| p_schoolCode := sc;
          p_deviceId := id;
          position := 1;
          totalDevices := 1;
          hostDeviceId := Some id;
          host2DeviceId := None;
          host3DeviceId := None;
          role := "host1";
          message := "You are the primary host";
          p_hosts := {| host1 := Some id; host2 := None; host3 := None |} |}).
Proof.
  intros Hsc Hid Hlook Hproto. unfold postGetHosts.
  rewrite !truthyField_Some by done. simpl.
  unfold initSchool, getSchool, Js.get. rewrite Hlook, Hproto. simpl.
  rewrite lookup_insert_eq. simpl.
  unfold putSchool. rewrite insert_insert_eq.
  unfold composeResponse, Js.findIndex, sameId, addDevice. simpl.
  rewrite String.eqb_refl. simpl.
  by destruct (String.eqb_spec id "").
Qed.

End FlatServed.

(** ** The ABC scenario *)

Section Scenario.

Lemma clustered_scenario σ u1 now1 u2 now2 u3 now3 :
  Clustered.schoolData σ !! "ABC" = None →
  Clustered.protoLastClusterNumber σ = false →
  ∃ σ1 σ2 p1 p2 p3,
    Clustered.postGetHosts σ (Some "ABC") (Some "d1") u1 now1
      = (σ1, Clustered.Placed p1) ∧
    Clustered.postGetHosts σ1 (Some "ABC") (Some "d2") u2 now2
      = (σ2, Clustered.Placed p2) ∧
    (Clustered.postGetHosts σ2 (Some "ABC") (Some "d4") u3 now3).2
      = Clustered.Placed p3 ∧
    (Clustered.role p1, Clustered.positionInCluster p1, Clustered.hostDeviceId p1)
      = ("host1", 1%Z, Some "d1") ∧
    (Clustered.role p2, Clustered.positionInCluster p2,
     Clustered.hostDeviceId p2, Clustered.host2DeviceId p2)
      = ("host2", 2%Z, Some "d1", Some "d2") ∧
    (Clustered.role p3, Clustered.positionInCluster p3,
     Clustered.hostDeviceId p3, Clustered.host2DeviceId p3, Clustered.host3DeviceId p3)
      = ("host3", 3%Z, Some "d1", Some "d2", Some "d4") ∧
    Clustered.clusterHosts p3 =
      {| Clustered.host1 := Some "d1";
         Clustered.host2 := Some "d2";
         Clustered.host3 := Some "d4" |}.
Proof.
  intros Hlook Hflag.
  eexists _, _, _, _, _.
  split; [by apply postGetHosts_absent|].
  split.
  { erewrite postGetHosts_stored;
      [|done|done|apply lookup_insert_eq|exact Hflag].
    simpl. reflexivity. }
  split.
  { erewrite postGetHosts_stored;
      [|done|done|apply lookup_insert_eq|exact Hflag].
    simpl. reflexivity. }
  by split_and!.
Qed.

Lemma flat_scenario σ now1 now2 now3 :
  Flat.schoolData σ !! "ABC" = None →
  ∃ σ1 σ2 p1 p2 p3,
    Flat.postGetHosts σ (Some "ABC") (Some "d1") now1 = (σ1, Flat.Placed p1) ∧
    Flat.postGetHosts σ1 (Some "ABC") (Some "d2") now2 = (σ2, Flat.Placed p2) ∧
    (Flat.postGetHosts σ2 (Some "ABC") (Some "d4") now3).2 = Flat.Placed p3 ∧
    (Flat.role p1, Flat.position p1, Flat.hostDeviceId p1) = ("host1", 1%Z, Some "d1") ∧
    (Flat.role p2, Flat.position p2, Flat.hostDeviceId p2, Flat.host2DeviceId p2)
      = ("host2", 2%Z, Some "d1", Some "d2") ∧
    (Flat.role p3, Flat.position p3,
     Flat.hostDeviceId p3, Flat.host2DeviceId p3, Flat.host3DeviceId p3)
      = ("host3", 3%Z, Some "d1", Some "d2", Some "d4") ∧
    Flat.p_hosts p3 =
      {| Flat.host1 := Some "d1"; Flat.host2 := Some "d2"; Flat.host3 := Some "d4" |}.
Proof.
  intros Hlook.
  eexists _, _, _, _, _.
  split; [by apply flat_postGetHosts_absent|].
  split.
  { erewrite flat_postGetHosts_stored; [|done|done|apply lookup_insert_eq].
    simpl. reflexivity. }
  split.
  { erewrite flat_postGetHosts_stored; [|done|done|apply lookup_insert_eq].
    simpl. reflexivity. }
  by split_and!.
Qed.

End Scenario.


(** ** Cluster numbers and frequencies over time *)

Section ClusteredSteps.
Import Clustered ClusteredInv.
Implicit Types (σ : Store) (s school : School) (c : Cluster)
  (cs pre post : list (string * Cluster)) (id sc : string).

Lemma handle_SchoolStep σ r sc s s' :
  storeOk σ →
  schoolData σ !! sc = Some s →
  schoolData (handle σ r).1 !! sc = Some s' →
  SchoolStep sc s s'.
Proof.
  intros Hok Hlook Hlook'.
  assert (schoolData σ !! sc = Some s' → SchoolStep sc s s') as Hsame.
  { rewrite Hlook. intros [= <-]. constructor. }
  destruct r as [schoolCode deviceId u now|sc'|sc' number|sc'|sc' number|now];
    simpl in Hlook'; try by apply Hsame.
  - destruct (postGetHosts_validation σ schoolCode deviceId u now)
      as [[Heq _]|(sc' & d & -> & -> & Hsc & Hd)].
    { rewrite Heq in Hlook'. by apply Hsame. }
    destruct (decide (sc' = sc)) as [->|Hne].
    2:{ apply Hsame. rewrite <-Hlook'. symmetry.
        apply (clustered_frame_ok σ (PostGetHosts (Some sc') (Some d) u now) sc Hok).
        simpl. congruence. }
    pose proof (postGetHosts_outcome σ sc d u now Hok Hsc Hd) as Hout.
    destruct (postGetHosts σ (Some sc) (Some d) u now) as [σ' resp]. simpl in *.
    destruct Hout as
      [i Hget Hi
      |Hserv Hlacks Hinh
      |school pre name c post Hlook1 Hsplit Hpre Hc
      |school pre name c post Hlook1 Hsplit Hlacks Hinh Hfull Hlen
      |school n name c Hserv Hschool Hlacks Hinh Hfull Hn Hname Hc].
    + by apply Hsame.
    + rewrite (initSchool_own _ _ _ Hlook) in Hlook'. by apply Hsame.
    + by apply Hsame.
    + assert (school = s) as -> by congruence.
      simpl in Hlook'. rewrite lookup_insert_eq in Hlook'. injection Hlook' as <-.
      apply step_add_device; [done|].
      destruct (Hok _ _ Hlook) as (Hnd & _). rewrite Hsplit in Hnd.
      by eapply NoDup_split_fresh.
    + assert (school = s) as -> by (subst school; unfold schoolOrNew; by rewrite Hlook).
      simpl in Hlook'. rewrite lookup_insert_eq in Hlook'. injection Hlook' as <-.
      subst. apply step_new_cluster.
  - unfold deleteSchool in Hlook'. destruct (Js.truthy _); [|by apply Hsame].
    simpl in Hlook'. apply lookup_delete_Some in Hlook' as [_ Hlook']. by apply Hsame.
  - destruct (deleteCluster_cases σ sc' number)
      as [(school & pre & c & post & Hlook1 & Hsplit & Hpre & _ & Heq)|[Heq _]];
      rewrite Heq in Hlook'; [|by apply Hsame].
    simpl in Hlook'. destruct (decide (sc' = sc)) as [->|Hne].
    + rewrite lookup_insert_eq in Hlook'. injection Hlook' as <-.
      assert (school = s) as -> by congruence.
      by eapply step_delete_cluster.
    + rewrite lookup_insert_ne in Hlook' by done. by apply Hsame.
Qed.

Lemma SchoolStep_last sc s s' :
  SchoolStep sc s s' →
  (lastClusterNumber s ≤ lastClusterNumber s')%N ∧
  lastClusterNumber s' =
    (lastClusterNumber s
     + N.of_nat (length (clusters s') - length (clusters s)))%N.
Proof.
  destruct 1 as [|pre name c post id now Hsplit Hpre|id u now
                 |pre name c post Hsplit Hpre]; simpl.
  - rewrite Nat.sub_diag. lia.
  - rewrite Hsplit, !length_app. simpl. lia.
  - rewrite length_app. simpl. lia.
  - rewrite Hsplit, !length_app. simpl. lia.
Qed.

Lemma SchoolStep_retired sc (n : N) s s' :
  retired sc n s → SchoolStep sc s s' → retired sc n s'.
Proof.
  intros [Hle Hall] Hstep.
  destruct Hstep as [|pre name c post id now Hsplit Hpre|id u now
                     |pre name c post Hsplit Hpre]; unfold retired; simpl.
  - done.
  - split; [done|]. rewrite Hsplit in Hall.
    apply Forall_app in Hall as [Hp [Hc Hq]%Forall_cons].
    apply Forall_app. split; [done|]. by constructor.
  - split; [lia|]. apply Forall_app. split; [done|].
    constructor; [|done]. simpl. split; [lia|].
    intros Heq. apply (inj (String.app sc)), (inj (String.app "_")), (inj pretty) in Heq.
    lia.
  - split; [done|]. rewrite Hsplit in Hall.
    apply Forall_app in Hall as [Hp [Hc Hq]%Forall_cons].
    by apply Forall_app.
Qed.

Lemma handle_stays_stored σ r sc s :
  storeOk σ → schoolData σ !! sc = Some s → r ≠ DeleteSchool sc →
  is_Some (schoolData (handle σ r).1 !! sc).
Proof.
  intros Hok Hlook Hr.
  destruct (decide (target r = Some sc)) as [Ht|Ht].
  2:{ rewrite (clustered_frame_ok σ r sc Hok Ht). by eexists. }
  destruct r as [schoolCode deviceId u now|sc'|sc' number|sc'|sc' number|now];
    simpl in *; try (by eexists).
  - subst schoolCode.
    destruct (postGetHosts_validation σ (Some sc) deviceId u now)
      as [[-> _]|(sc' & d & [= <-] & -> & Hsc & Hd)]; [by eexists|].
    destruct (postGetHosts_outcome σ sc d u now Hok Hsc Hd); simpl;
      rewrite ?lookup_insert_eq; try (by eexists).
    rewrite (initSchool_own _ _ _ Hlook). by eexists.
  - congruence.
  - injection Ht as ->.
    destruct (deleteCluster_cases σ sc number)
      as [(school & pre & c & post & _ & _ & _ & _ & ->)|[-> _]]; [|by eexists].
    simpl. rewrite lookup_insert_eq. by eexists.
Qed.

Lemma run_retired σ rs sc (n : N) s :
  storeOk σ → schoolData σ !! sc = Some s → retired sc n s →
  Forall (λ r, r ≠ DeleteSchool sc) rs →
  ∃ s', schoolData (run σ rs) !! sc = Some s' ∧ retired sc n s'.
Proof.
  revert σ s. induction rs as [|r rs IH]; intros σ s Hok Hlook Hret Hrs; simpl.
  - by exists s.
  - apply Forall_cons in Hrs as [Hr Hrs].
    destruct (handle_stays_stored σ r sc s Hok Hlook Hr) as [s1 Hlook1].
    apply (IH _ s1); [by apply handle_storeOk | done | | done].
    eapply SchoolStep_retired; [done|]. by eapply handle_SchoolStep.
Qed.

(** What a successful cluster reset leaves behind retires the number of
    the cluster it removed. *)
Lemma deleteCluster_retires σ sc number s c :
  storeOk σ → schoolData σ !! sc = Some s →
  Js.objGet (sc +:+ "_" +:+ number) (clusters s) = Some c →
  ∃ s', schoolData (deleteCluster σ sc number).1 !! sc = Some s' ∧
        lastClusterNumber s' = lastClusterNumber s ∧
        number = pretty (clusterNumber c) ∧
        retired sc (clusterNumber c) s'.
Proof.
  intros Hok Hlook Hget.
  destruct (Hok _ _ Hlook) as (Hnd & Hcs & _).
  destruct (deleteCluster_cases σ sc number)
    as [(school & pre & c' & post & Hlook1 & Hsplit & Hpre & _ & Heq)|[_ Hne]].
  2:{ exfalso. unfold deleteCluster, getCluster, Js.get in Hne.
      rewrite (getSchool_own _ _ _ Hlook), Hget in Hne. by eapply Hne. }
  assert (school = s) as -> by congruence.
  assert (c' = c) as ->.
  { rewrite Hsplit, objGet_app_fresh in Hget by done. congruence. }
  rewrite Heq. simpl. rewrite lookup_insert_eq. eexists. split; [done|].
  rewrite Hsplit in Hnd, Hcs.
  apply Forall_app in Hcs as [Hcpre [Hc Hcpost]%Forall_cons].
  destruct Hc as (Hname & [_ Hle] & _). simpl in Hname, Hle.
  assert (number = pretty (clusterNumber c)) as Hnumber
    by (by apply (inj (String.app sc)), (inj (String.app "_")) in Hname).
  split; [done|]. split; [done|].
  split; [done|]. simpl.
  rewrite fmap_app, fmap_cons in Hnd. simpl in Hnd.
  apply NoDup_app in Hnd as (_ & Hdisj & [Hpost _]%NoDup_cons).
  assert (∀ e, e ∈ pre ++ post → e.1 ≠ sc +:+ "_" +:+ number) as Hfresh.
  { intros e [He|He]%elem_of_app Heq'.
    - apply Hpre. rewrite <-Heq'. apply list_elem_of_fmap. by exists e.
    - apply Hpost. rewrite <-Heq'. apply list_elem_of_fmap. by exists e. }
  assert (Forall (clusterOk sc (lastClusterNumber s)) (pre ++ post)) as Hall
    by (by apply Forall_app).
  rewrite Forall_forall in Hall. apply Forall_forall. intros e He.
  destruct (Hall e He) as (Hename & _).
  pose proof (Hfresh e He) as Hne. rewrite <-Hnumber.
  split; [|done]. intros Hnum. apply Hne. by rewrite Hename, Hnum, Hnumber.
Qed.

End ClusteredSteps.


Section ClusteredFrequency.
Import Clustered ClusteredInv.
Implicit Types (σ : Store) (s school : School) (c : Cluster)
  (cs pre post : list (string * Cluster)) (id sc : string).

Lemma objGet_app_Some {A : Type} (k : string) (l l' : list (string * A)) (v : A) :
  Js.objGet k l = Some v → Js.objGet k (l ++ l') = Some v.
Proof.
  induction l as [|[k0 w] l IH]; simpl; [done|].
  by destruct (String.eqb k0 k).
Qed.

Lemma SchoolStep_frequency sc s s' name c c' :
  NoDup (clusters s).*1 →
  SchoolStep sc s s' →
  Js.objGet name (clusters s) = Some c →
  Js.objGet name (clusters s') = Some c' →
  frequency c' = frequency c.
Proof.
  intros Hnd Hstep Hc Hc'.
  destruct Hstep as [|pre n0 c0 post id now Hsplit Hpre|id u now
                     |pre n0 c0 post Hsplit Hpre]; simpl in Hc'.
  - congruence.
  - rewrite (objGet_replace name n0 pre post c0) in Hc' by done.
    rewrite <-Hsplit in Hc'.
    destruct (String.eqb_spec n0 name) as [->|Hne]; [|congruence].
    rewrite Hsplit, objGet_app_fresh in Hc by done.
    injection Hc as <-. by injection Hc' as <-.
  - rewrite (objGet_app_Some _ _ _ _ Hc) in Hc'. congruence.
  - rewrite <-(objDelete_split n0 pre c0 post Hpre), <-Hsplit in Hc'.
    destruct (decide (name = n0)) as [->|Hne].
    + by rewrite objGet_objDelete_eq in Hc'.
    + rewrite objGet_objDelete_ne in Hc' by done. congruence.
Qed.

Lemma getSchoolInfo_frequency σ sc i name summary :
  storeOk σ →
  getSchoolInfo σ sc = SchoolFound i →
  (name, summary) ∈ si_clusters i →
  ∃ school c,
    schoolData σ !! sc = Some school ∧
    Js.objGet name (clusters school) = Some c ∧
    cs_frequency summary = frequency c.
Proof.
  intros Hok Hinfo Hin. unfold getSchoolInfo in Hinfo.
  destruct (getSchool σ sc) as [school|j|] eqn:Hget;
    [|by destruct (Js.truthy _)..].
  apply getSchool_Own_inv in Hget.
  destruct (inheritedKeys σ school); [|done]. injection Hinfo as <-. simpl in Hin.
  apply list_elem_of_fmap in Hin as ([name' c] & [= -> ->] & Hin).
  exists school, c. split; [done|]. split; [|done].
  destruct (Hok _ _ Hget) as (Hnd & _). by apply objGet_NoDup.
Qed.

Lemma getClusterInfo_frequency σ sc number i :
  getClusterInfo σ sc number = ClusterFound i →
  ∃ school c,
    schoolData σ !! sc = Some school ∧
    Js.objGet (ci_clusterName i) (clusters school) = Some c ∧
    ci_frequency i = frequency c.
Proof.
  unfold getClusterInfo. intros Hinfo.
  destruct (getSchool σ sc) as [school|j|] eqn:Hget;
    [|by destruct (Js.truthy _)..].
  apply getSchool_Own_inv in Hget.
  unfold getCluster, Js.get in Hinfo.
  destruct (Js.objGet _ (clusters school)) as [c|] eqn:Hc.
  - injection Hinfo as <-. by exists school, c.
  - destruct (Js.prototypeGet _ _) as [j|]; simpl in Hinfo; by repeat case_match.
Qed.

End ClusteredFrequency.


(** ** Validation and the codes the servers cannot serve *)

Section Validation.

Lemma truthyField_false (f : option string) :
  Js.truthyField f = false ↔ f = None ∨ f = Some "".
Proof.
  destruct f as [x|]; simpl.
  - destruct (String.eqb_spec x "") as [->|Hne]; simpl.
    + split; [by right | done].
    + split; [done | intros [?|[= ?]]; done].
  - split; [by left | done].
Qed.

Lemma clustered_rejected_iff σ (schoolCode deviceId : option string) u now :
  (Clustered.postGetHosts σ schoolCode deviceId u now).2 = Clustered.BadRequest ↔
  schoolCode = None ∨ schoolCode = Some "" ∨ deviceId = None ∨ deviceId = Some "".
Proof.
  pose proof (truthyField_false schoolCode) as Hs.
  pose proof (truthyField_false deviceId) as Hd.
  unfold Clustered.postGetHosts.
  destruct (Js.truthyField schoolCode); simpl; [|split; [tauto | done]].
  destruct (Js.truthyField deviceId); simpl; [|split; [tauto | done]].
  split; [|intros Hmissing; exfalso;
            assert (true = false) by tauto; done].
  unfold Clustered.afterFind.
  destruct (Clustered.findOrCreateCluster _ _ _ _ _) as [σ1 [f|]]; [|done].
  destruct (Clustered.schoolData σ1 !! _); [|done].
  by destruct (Clustered.isExisting f).
Qed.

Lemma flat_rejected_iff σ (schoolCode deviceId : option string) now :
  (Flat.postGetHosts σ schoolCode deviceId now).2 = Flat.BadRequest ↔
  schoolCode = None ∨ schoolCode = Some "" ∨ deviceId = None ∨ deviceId = Some "".
Proof.
  pose proof (truthyField_false schoolCode) as Hs.
  pose proof (truthyField_false deviceId) as Hd.
  unfold Flat.postGetHosts.
  destruct (Js.truthyField schoolCode); simpl; [|split; [tauto | done]].
  destruct (Js.truthyField deviceId); simpl; [|split; [tauto | done]].
  split; [|intros Hmissing; exfalso;
            assert (true = false) by tauto; done].
  destruct (Flat.getSchool _ _); [|done..].
  by destruct (_ =? _)%Z.
Qed.

End Validation.

(** Every stored school code is one the prototype does not answer for. *)
Section StoredKeys.

Lemma prototypeGet_falsy (extra : list string) (key : string) :
  Js.prototypeGet extra key = None ∨ Js.prototypeGet extra key = Some Js.NotANumber →
  Js.prototypeGet [] key = None.
Proof.
  unfold Js.prototypeGet.
  destruct (String.eqb key "__proto__"); [by intros [?|?]|].
  destruct (Js.isMember key Js.objectPrototypeFunctions); [by intros [?|?]|done].
Qed.

Lemma clustered_servable_key σ sc :
  (∀ k s, Clustered.schoolData σ !! k = Some s → Js.prototypeGet [] k = None) →
  ClusteredInv.servable σ sc → Js.prototypeGet [] sc = None.
Proof.
  intros Hkeys [[s Hs]|Hfalsy]; [by eapply Hkeys|].
  unfold Clustered.getSchool, Js.get in Hfalsy.
  destruct (Clustered.schoolData σ !! sc); [done|].
  apply (prototypeGet_falsy (Clustered.prototypeExtras σ)).
  destruct (Js.prototypeGet _ sc) as [[| |]|]; simpl in Hfalsy; auto; done.
Qed.

Lemma clustered_stored_keys σ sc s :
  Clustered.reachable σ →
  Clustered.schoolData σ !! sc = Some s → Js.prototypeGet [] sc = None.
Proof.
  intros Hreach. revert sc s.
  induction Hreach as [|σ r Hreach IH]; intros sc s.
  { simpl. by rewrite lookup_empty. }
  pose proof (reachable_storeOk σ Hreach) as Hok.
  destruct r as [schoolCode deviceId u now|sc'|sc' number|sc'|sc' number|now];
    simpl; try by apply IH.
  - destruct (postGetHosts_validation σ schoolCode deviceId u now)
      as [[-> _]|(sc' & d & -> & -> & Hsc & Hd)]; [by apply IH|].
    pose proof (clustered_servable_key σ sc' IH) as Hserv.
    destruct (postGetHosts_outcome σ sc' d u now Hok Hsc Hd); simpl;
      try (by apply IH).
    + unfold Clustered.initSchool. destruct (Js.truthy _) eqn:Htruthy; [by apply IH|].
      simpl. rewrite lookup_insert. case_decide; [|by apply IH].
      subst. intros _. apply Hserv. by right.
    + rewrite lookup_insert. case_decide; [|by apply IH].
      subst. intros _. by eapply IH.
    + rewrite lookup_insert. case_decide; [|by apply IH].
      subst. intros _. by apply Hserv.
  - unfold Clustered.deleteSchool. destruct (Js.truthy _); [|by apply IH].
    simpl. intros [_ ?]%lookup_delete_Some. by eapply IH.
  - destruct (deleteCluster_cases σ sc' number)
      as [(school & pre & c & post & Hlook & _ & _ & _ & ->)|[-> _]]; [|by apply IH].
    simpl. rewrite lookup_insert. case_decide; [|by apply IH].
    subst. intros _. by eapply IH.
Qed.

Lemma flat_servable_key σ sc :
  (∀ k s, Flat.schoolData σ !! k = Some s → Js.prototypeGet [] k = None) →
  FlatInv.servable σ sc → Js.prototypeGet [] sc = None.
Proof.
  intros Hkeys [[s Hs]|Hfalsy]; [by eapply Hkeys|].
  unfold Flat.getSchool, Js.get in Hfalsy.
  destruct (Flat.schoolData σ !! sc); [done|].
  apply (prototypeGet_falsy []).
  destruct (Js.prototypeGet _ sc) as [[| |]|]; simpl in Hfalsy; auto; done.
Qed.

Lemma flat_stored_keys σ sc s :
  Flat.reachable σ →
  Flat.schoolData σ !! sc = Some s → Js.prototypeGet [] sc = None.
Proof.
  intros Hreach. revert sc s.
  induction Hreach as [|σ r Hreach IH]; intros sc s.
  { simpl. by rewrite lookup_empty. }
  destruct r as [schoolCode deviceId now|sc'|sc'|now|now]; simpl; try by apply IH.
  - destruct (flat_postGetHosts_validation σ schoolCode deviceId now)
      as [[-> _]|(sc' & d & -> & -> & Hsc & Hd)]; [by apply IH|].
    pose proof (flat_servable_key σ sc' IH) as Hserv.
    destruct (flat_postGetHosts_outcome σ sc' d now Hsc Hd); simpl;
      try (by apply IH).
    rewrite lookup_insert. case_decide; [|by apply IH].
    subst. intros _. by apply Hserv.
  - unfold Flat.deleteSchool. destruct (Js.truthy _); [|by apply IH].
    simpl. intros [_ ?]%lookup_delete_Some. by eapply IH.
Qed.

End StoredKeys.

Section Served.

Lemma clustered_served σ sc id u now :
  Clustered.reachable σ → sc ≠ "" → id ≠ "" →
  Js.prototypeGet [] sc = None →
  Clustered.protoLastClusterNumber σ = false →
  ∃ p, (Clustered.postGetHosts σ (Some sc) (Some id) u now).2 = Clustered.Placed p.
Proof.
  intros Hok%reachable_storeOk Hsc Hid Hproto Hflag.
  destruct (postGetHosts_outcome σ sc id u now Hok Hsc Hid)
    as [i Hget Hi|Hserv Hlacks Hinh| | |]; try by eexists.
  - apply getSchool_FromPrototype_inv in Hget as [_ Hget].
    rewrite (prototypeGet_intact _ _ Hflag) in Hget. congruence.
  - by rewrite inheritedKeys_intact in Hinh.
Qed.

Lemma clustered_known_served σ sc id u now school :
  sc ≠ "" → id ≠ "" →
  Clustered.schoolData σ !! sc = Some school →
  ClusteredInv.knows id school = true →
  ∃ p, Clustered.postGetHosts σ (Some sc) (Some id) u now
       = (σ, Clustered.Placed p).
Proof.
  intros Hsc Hid Hlook Hknows.
  destruct (Clustered.findExisting id (Clustered.clusters school))
    as [[name c]|] eqn:Hex.
  - apply findExisting_Some in Hex as (pre & post & Hsplit & Hc & Hpre).
    eexists. by eapply postGetHosts_known.
  - apply findExisting_None, knows_false in Hex. congruence.
Qed.

Lemma clustered_not_served σ sc id u now i :
  sc ≠ "" → id ≠ "" →
  Clustered.schoolData σ !! sc = None →
  Js.prototypeGet [] sc = Some i →
  (Clustered.postGetHosts σ (Some sc) (Some id) u now).2 = Clustered.InternalError.
Proof.
  intros Hsc Hid Hlook Hproto.
  assert (i ≠ Js.NotANumber) as Hi.
  { intros ->. unfold Js.prototypeGet in Hproto. simpl in Hproto.
    by repeat case_match. }
  rewrite (postGetHosts_not_a_school σ sc id u now i); try done.
  unfold Clustered.getSchool, Js.get. rewrite Hlook.
  by rewrite (prototypeGet_truthy_extras [] _ _ _ Hproto Hi).
Qed.

Lemma flat_served σ sc id now :
  sc ≠ "" → id ≠ "" → Js.prototypeGet [] sc = None →
  ∃ p, (Flat.postGetHosts σ (Some sc) (Some id) now).2 = Flat.Placed p.
Proof.
  intros Hsc Hid Hproto.
  destruct (flat_postGetHosts_outcome σ sc id now Hsc Hid)
    as [i Hget| |]; try by eexists.
  unfold Flat.getSchool, Js.get in Hget.
  destruct (Flat.schoolData σ !! sc); [done|]. by rewrite Hproto in Hget.
Qed.

Lemma flat_not_served σ sc id now i :
  sc ≠ "" → id ≠ "" →
  Flat.schoolData σ !! sc = None →
  Js.prototypeGet [] sc = Some i →
  (Flat.postGetHosts σ (Some sc) (Some id) now).2 = Flat.InternalError.
Proof.
  intros Hsc Hid Hlook Hproto.
  rewrite (flat_postGetHosts_not_a_school σ sc id now i); try done.
  unfold Flat.getSchool, Js.get. by rewrite Hlook, Hproto.
Qed.

End Served.


(** ** School reset *)

Section Reset.

Lemma clustered_getSchool_falsy σ sc :
  Clustered.schoolData σ !! sc = None → Js.prototypeGet [] sc = None →
  Js.truthy (Clustered.getSchool σ sc) = false ∧
  ∀ s, Clustered.getSchool σ sc ≠ Js.Own s.
Proof.
  intros Hlook Hproto. unfold Clustered.getSchool, Js.get. rewrite Hlook.
  unfold Js.prototypeGet in *.
  destruct (String.eqb sc "__proto__"); [done|].
  destruct (Js.isMember sc Js.objectPrototypeFunctions); [done|].
  destruct (Js.isMember sc (Clustered.prototypeExtras σ)); simpl; by split.
Qed.

Lemma clustered_reset_stored σ sc s :
  Clustered.schoolData σ !! sc = Some s →
  Clustered.deleteSchool σ sc
  = (Clustered.withSchoolData σ (delete sc (Clustered.schoolData σ)),
     Clustered.ResetDone ("School " +:+ sc +:+ " data reset successfully")).
Proof.
  intros Hlook. unfold Clustered.deleteSchool.
  by rewrite (getSchool_own _ _ _ Hlook).
Qed.

Lemma clustered_reset_absent σ sc :
  Clustered.schoolData σ !! sc = None → Js.prototypeGet [] sc = None →
  Clustered.deleteSchool σ sc = (σ, Clustered.NotFound "School not found").
Proof.
  intros Hlook Hproto. unfold Clustered.deleteSchool.
  by destruct (clustered_getSchool_falsy σ sc Hlook Hproto) as [-> _].
Qed.

Lemma clustered_query_absent σ sc :
  Clustered.schoolData σ !! sc = None → Js.prototypeGet [] sc = None →
  Clustered.getSchoolInfo σ sc = Clustered.NotFound "School not found".
Proof.
  intros Hlook Hproto. unfold Clustered.getSchoolInfo.
  destruct (clustered_getSchool_falsy σ sc Hlook Hproto) as [Hfalsy Hown].
  destruct (Clustered.getSchool σ sc) as [s|i|]; simpl in *; [|by rewrite Hfalsy|done].
  by destruct (Hown s).
Qed.

Lemma flat_getSchool_undefined σ sc :
  Flat.schoolData σ !! sc = None → Js.prototypeGet [] sc = None →
  Flat.getSchool σ sc = Js.Undefined.
Proof. intros Hlook Hproto. unfold Flat.getSchool, Js.get. by rewrite Hlook, Hproto. Qed.

Lemma flat_reset_stored σ sc s :
  Flat.schoolData σ !! sc = Some s →
  Flat.deleteSchool σ sc
  = ({| Flat.schoolData := delete sc (Flat.schoolData σ) |},
     Flat.ResetDone ("School " +:+ sc +:+ " data reset successfully")).
Proof.
  intros Hlook. unfold Flat.deleteSchool.
  by rewrite (flat_getSchool_own _ _ _ Hlook).
Qed.

Lemma flat_reset_absent σ sc :
  Flat.schoolData σ !! sc = None → Js.prototypeGet [] sc = None →
  Flat.deleteSchool σ sc = (σ, Flat.NotFound "School not found").
Proof.
  intros Hlook Hproto. unfold Flat.deleteSchool.
  by rewrite (flat_getSchool_undefined _ _ Hlook Hproto).
Qed.

Lemma flat_query_absent σ sc :
  Flat.schoolData σ !! sc = None → Js.prototypeGet [] sc = None →
  Flat.getSchoolInfo σ sc = Flat.NotFound "School not found".
Proof.
  intros Hlook Hproto. unfold Flat.getSchoolInfo.
  by rewrite (flat_getSchool_undefined _ _ Hlook Hproto).
Qed.

End Reset.


(** ** Capacity routing *)

Section Capacity.
Import Clustered ClusteredInv.
Implicit Types (σ : Store) (s school : School) (c : Cluster)
  (cs pre post : list (string * Cluster)) (id sc : string).

Lemma PostOutcome_routing σ sc id u now σ' p :
  storeOk σ →
  knows id (schoolOrNew σ sc) = false →
  PostOutcome σ sc id u now σ' (Placed p) →
  ((∃ pre name c post,
       clusters (schoolOrNew σ sc) = pre ++ (name, c) :: post ∧
       Forall full pre ∧
       length (devices c) < MAX_DEVICES_PER_CLUSTER ∧
       p_clusterName p = name ∧
       p_clusterNumber p = clusterNumber c ∧
       lastClusterNumber (schoolOrNew σ' sc) = lastClusterNumber (schoolOrNew σ sc) ∧
       deviceList σ' sc name
       = devices c ++ [{| deviceId := id; registeredAt := now |}]) ∨
   (Forall full (clusters (schoolOrNew σ sc)) ∧
    p_clusterNumber p = (lastClusterNumber (schoolOrNew σ sc) + 1)%N ∧
    p_clusterName p
    = sc +:+ "_" +:+ pretty (lastClusterNumber (schoolOrNew σ sc) + 1)%N ∧
    lastClusterNumber (schoolOrNew σ' sc)
    = (lastClusterNumber (schoolOrNew σ sc) + 1)%N ∧
    deviceList σ sc (p_clusterName p) = [] ∧
    deviceList σ' sc (p_clusterName p)
    = [{| deviceId := id; registeredAt := now |}])) ∧
  ∀ k, k ≠ p_clusterName p → deviceList σ' sc k = deviceList σ sc k.
Proof.
  intros Hok Hknows Hout.
  inversion Hout as
    [|
    |school pre name c post Hlook Hsplit Hpre Hc Hst
    |school pre name c post Hlook Hsplit Hlacks Hinh Hfull Hlen Hst
    |school n name c Hserv Hschool Hlacks Hinh Hfull Hn Hname Hc Hst]; subst.
  - unfold schoolOrNew in Hknows. rewrite Hlook in Hknows. simpl in Hknows.
    by rewrite (knows_true_split _ _ _ _ _ _ Hsplit Hc) in Hknows.
  - destruct (Hok _ _ Hlook) as (Hnd & _). rewrite Hsplit in Hnd.
    apply NoDup_split_fresh in Hnd.
    assert (schoolOrNew σ sc = school) as Hs
      by (unfold schoolOrNew; by rewrite Hlook).
    rewrite Hs. unfold deviceList. rewrite schoolOrNew_putSchool, Hs. simpl.
    split.
    + left. exists pre, name, c, post.
      split_and!; try done. by rewrite objGet_app_fresh.
    + intros k Hk. rewrite Hsplit.
      rewrite (objGet_replace k name pre post c) by done.
      by destruct (String.eqb_spec name k).
  - pose proof (schoolOrNew_ok σ sc Hok) as (_ & Hcs & _).
    set (school := schoolOrNew σ sc) in *.
    set (n := (lastClusterNumber school + 1)%N) in *.
    assert ((sc +:+ "_" +:+ pretty n) ∉ (clusters school).*1) as Hfresh
      by (eapply fresh_name; [done | lia]).
    unfold deviceList. rewrite schoolOrNew_putSchool. simpl.
    fold school.
    split.
    + right. split_and!; try done.
      * apply objGet_None in Hfresh. by rewrite Hfresh.
      * rewrite objGet_snoc by done. by rewrite String.eqb_refl.
    + intros k Hk. rewrite objGet_snoc by done.
      by destruct (String.eqb_spec (sc +:+ "_" +:+ pretty n) k).
Qed.

End Capacity.


(** ** Listings: no device twice, cluster numbers in order *)

Section Listing.
Import Clustered ClusteredInv.
Implicit Types (σ : Store) (s school : School) (c : Cluster)
  (cs pre post : list (string * Cluster)) (id sc : string).

Lemma lacks_ids id (e : string * Cluster) :
  lacks id e ↔ id ∉ deviceId <$> devices e.2.
Proof.
  unfold lacks. rewrite hasDevice_false, Forall_forall, list_elem_of_fmap. split.
  - intros H (d & -> & Hd). specialize (H d Hd). unfold sameId in H.
    by rewrite String.eqb_refl in H.
  - intros H d Hd. unfold sameId.
    destruct (String.eqb_spec (deviceId d) id) as [<-|]; [|done].
    destruct H. by exists d.
Qed.

Lemma lacks_all_ids id cs :
  Forall (lacks id) cs ↔ id ∉ cs ≫= λ e, deviceId <$> devices e.2.
Proof.
  rewrite Forall_forall, list_elem_of_bind. split.
  - intros H (e & Hid & He). exact (proj1 (lacks_ids id e) (H e He) Hid).
  - intros H e He. apply lacks_ids. intros Hid. apply H. by exists e.
Qed.

Lemma listingOk_new : listingOk newSchool.
Proof. split; [apply NoDup_nil_2 | constructor]. Qed.

Lemma listingOk_add s pre name c post id now :
  clusters s = pre ++ (name, c) :: post →
  Forall (lacks id) (clusters s) →
  listingOk s →
  listingOk {| clusters := pre ++ (name, addDevice id now c) :: post;
               totalDevices := (totalDevices s + 1)%Z;
               lastClusterNumber := lastClusterNumber s |}.
Proof.
  intros Hsplit Hlacks [Hnd Hsorted].
  unfold listingOk, clusteredDeviceIds, clusterNumbers in *. simpl.
  apply lacks_all_ids in Hlacks. rewrite Hsplit in *. split.
  - rewrite bind_app, bind_cons in *. simpl.
    rewrite fmap_app. simpl.
    assert (∀ (a b d : list string),
              (a ++ (b ++ [id]) ++ d) ≡ₚ id :: (a ++ b ++ d)) as Hperm.
    { intros a b d. rewrite <-(assoc_L (++) b). simpl.
      by rewrite !Permutation_middle. }
    rewrite Hperm. by apply NoDup_cons.
  - by rewrite fmap_app, fmap_cons in *.
Qed.

Lemma listingOk_new_cluster sc s name c id :
  Forall (clusterOk sc (lastClusterNumber s)) (clusters s) →
  Forall (lacks id) (clusters s) →
  deviceId <$> devices c = [id] →
  clusterNumber c = (lastClusterNumber s + 1)%N →
  listingOk s →
  listingOk {| clusters := clusters s ++ [(name, c)];
               totalDevices := (totalDevices s + 1)%Z;
               lastClusterNumber := (lastClusterNumber s + 1)%N |}.
Proof.
  intros Hcs Hlacks Hdev Hnum [Hnd Hsorted].
  unfold listingOk, clusteredDeviceIds, clusterNumbers in *. simpl.
  apply lacks_all_ids in Hlacks. split.
  - rewrite bind_app, bind_singleton. simpl. rewrite Hdev.
    rewrite <-Permutation_cons_append. by apply NoDup_cons.
  - rewrite fmap_app. simpl. apply StronglySorted_app_2; [|done|repeat constructor].
    intros x1 x2 Hx1 ->%list_elem_of_singleton.
    apply list_elem_of_fmap in Hx1 as (e & -> & He).
    rewrite Forall_forall in Hcs. destruct (Hcs e He) as (_ & Hrange & _). lia.
Qed.

Lemma listingOk_delete s pre name c post :
  clusters s = pre ++ (name, c) :: post →
  listingOk s →
  listingOk {| clusters := pre ++ post;
               totalDevices := (totalDevices s - Z.of_nat (length (devices c)))%Z;
               lastClusterNumber := lastClusterNumber s |}.
Proof.
  intros Hsplit [Hnd Hsorted].
  unfold listingOk, clusteredDeviceIds, clusterNumbers in *. simpl.
  rewrite Hsplit in *. split.
  - rewrite bind_app, bind_cons in Hnd. rewrite bind_app.
    eapply sublist_NoDup; [exact Hnd|].
    apply sublist_app; [done|]. by apply sublist_inserts_l.
  - rewrite fmap_app, fmap_cons in Hsorted. rewrite fmap_app.
    apply StronglySorted_app in Hsorted as (Hlt & Hpre & Hpost).
    apply StronglySorted_inv in Hpost as [Hpost _].
    apply StronglySorted_app_2; [|done..].
    intros x1 x2 Hx1 Hx2. apply Hlt; [done|]. by apply list_elem_of_further.
Qed.

Lemma storeListingOk_putSchool σ sc s :
  storeListingOk σ → listingOk s → storeListingOk (putSchool σ sc s).
Proof.
  intros Hok Hs sc' s'. simpl. rewrite lookup_insert. case_decide.
  - by intros [= <-].
  - apply Hok.
Qed.

Lemma PostOutcome_listingOk σ sc id u now σ' r :
  storeOk σ → storeListingOk σ → PostOutcome σ sc id u now σ' r → storeListingOk σ'.
Proof.
  intros Hok Hl Hout. destruct Hout as
    [i Hget Hi
    |Hserv Hlacks Hinh
    |school pre name c post Hlook Hsplit Hpre Hc
    |school pre name c post Hlook Hsplit Hlacks Hinh Hfull Hlen
    |school n name c Hserv Hschool Hlacks Hinh Hfull Hn Hname Hc].
  - done.
  - unfold initSchool. destruct (Js.truthy _); [done|].
    apply storeListingOk_putSchool; [done | apply listingOk_new].
  - done.
  - apply storeListingOk_putSchool; [done|].
    eapply (listingOk_add school); eauto.
  - apply storeListingOk_putSchool; [done|].
    assert (listingOk school) as Hs.
    { subst school. unfold schoolOrNew.
      destruct (schoolData σ !! sc) as [s|] eqn:Hlook; simpl;
        [by eapply Hl | apply listingOk_new]. }
    pose proof (schoolOrNew_ok σ sc Hok) as (_ & Hcs & _). rewrite <-Hschool in Hcs.
    subst n. eapply (listingOk_new_cluster sc school); eauto; by subst c.
Qed.

Lemma handle_listingOk σ r :
  storeOk σ → storeListingOk σ → storeListingOk (handle σ r).1.
Proof.
  intros Hok Hl.
  destruct r as [schoolCode deviceId u now|sc'|sc' number|sc'|sc' number|now];
    simpl; try done.
  - destruct (postGetHosts_validation σ schoolCode deviceId u now)
      as [[-> _]|(sc & d & -> & -> & Hsc & Hd)]; [done|].
    eapply PostOutcome_listingOk; [done..|]. by apply postGetHosts_outcome.
  - unfold deleteSchool. destruct (Js.truthy _); [|done].
    intros k s. simpl. rewrite lookup_delete. case_decide; [done | apply Hl].
  - destruct (deleteCluster_cases σ sc' number)
      as [(school & pre & c & post & Hlook & Hsplit & Hpre & _ & ->)|[-> _]]; [|done].
    simpl. apply storeListingOk_putSchool; [done|].
    eapply listingOk_delete; [done|]. by eapply Hl.
Qed.

Lemma reachable_listingOk σ : reachable σ → storeListingOk σ.
Proof.
  induction 1 as [|σ r Hr IH]; [done|].
  apply handle_listingOk; [by apply reachable_storeOk | done].
Qed.

Lemma listing_unique s pre name c post id :
  listingOk s →
  clusters s = pre ++ (name, c) :: post →
  hasDevice id c = true →
  Forall (lacks id) pre ∧ Forall (lacks id) post.
Proof.
  intros [Hnd _] Hsplit Hhas. unfold clusteredDeviceIds in Hnd.
  rewrite Hsplit, bind_app, bind_cons in Hnd. simpl in Hnd.
  assert (id ∈ deviceId <$> devices c) as Hin.
  { destruct (decide (id ∈ deviceId <$> devices c)) as [|Hnot]; [done|].
    apply (lacks_ids id (name, c)) in Hnot. unfold lacks in Hnot. simpl in Hnot.
    congruence. }
  apply NoDup_app in Hnd as (_ & Hpre & Hrest).
  apply NoDup_app in Hrest as (_ & Hpost & _).
  split; apply lacks_all_ids.
  - intros Hid. apply (Hpre id Hid). apply elem_of_app. by left.
  - by apply Hpost.
Qed.

Lemma listing_cluster_NoDup s name c :
  listingOk s → (name, c) ∈ clusters s → NoDup (deviceId <$> devices c).
Proof.
  intros [Hnd _] Hin. unfold clusteredDeviceIds in Hnd.
  apply list_elem_of_split in Hin as (pre & post & Hsplit).
  rewrite Hsplit, bind_app, bind_cons in Hnd. simpl in Hnd.
  apply NoDup_app in Hnd as (_ & _ & Hrest).
  by apply NoDup_app in Hrest as (? & _).
Qed.

Lemma StronglySorted_lookup_lt {A : Type} (R : relation A) (l : list A) i j x y :
  StronglySorted R l → i < j → l !! i = Some x → l !! j = Some y → R x y.
Proof.
  intros Hs. revert i j. induction Hs as [|a l Hs IH Hall]; intros i j Hij Hi Hj.
  - done.
  - destruct j as [|j]; [lia|]. simpl in Hj. destruct i as [|i]; simpl in Hi.
    + injection Hi as ->. rewrite Forall_forall in Hall.
      apply Hall. by eapply list_elem_of_lookup_2.
    + apply (IH i j); [lia|done..].
Qed.

End Listing.

Section FlatListing.
Import Flat FlatInv.
Implicit Types (σ : Store) (school : School) (id sc : string).

Lemma flat_lacks_ids id school :
  Forall (λ device, sameId id device = false) (devices school) ↔
  id ∉ flatDeviceIds school.
Proof.
  unfold flatDeviceIds. rewrite Forall_forall, list_elem_of_fmap. split.
  - intros H (d & -> & Hd). specialize (H d Hd). unfold sameId in H.
    by rewrite String.eqb_refl in H.
  - intros H d Hd. unfold sameId.
    destruct (String.eqb_spec (deviceId d) id) as [<-|]; [|done].
    destruct H. by exists d.
Qed.

Lemma flat_handle_NoDup σ r :
  (∀ sc school, schoolData σ !! sc = Some school → NoDup (flatDeviceIds school)) →
  ∀ sc school, schoolData (handle σ r).1 !! sc = Some school →
    NoDup (flatDeviceIds school).
Proof.
  intros Hnd. destruct r as [schoolCode deviceId now|sc'|sc'|now|now]; simpl; try done.
  - destruct (flat_postGetHosts_validation σ schoolCode deviceId now)
      as [[-> _]|(sc & d & -> & -> & Hsc & Hd)]; [done|].
    pose proof (flat_postGetHosts_outcome σ sc d now Hsc Hd) as Hout.
    destruct (postGetHosts σ (Some sc) (Some d) now) as [σ' resp]. simpl in *.
    destruct Hout as [i Hget|school Hlook Hex|school Hserv Hschool Hall]; [done..|].
    intros k s. simpl. rewrite lookup_insert. case_decide; [|apply Hnd].
    intros [= <-]. unfold flatDeviceIds. simpl. rewrite fmap_app. simpl.
    rewrite <-Permutation_cons_append. apply NoDup_cons. split.
    + by apply flat_lacks_ids.
    + subst school. unfold schoolOrNew.
      destruct (schoolData σ !! sc) as [s0|] eqn:Hlook; simpl;
        [by eapply Hnd | apply NoDup_nil_2].
  - unfold deleteSchool. destruct (Js.truthy _); [|done].
    intros k s. simpl. rewrite lookup_delete. case_decide; [done | apply Hnd].
Qed.

Lemma flat_reachable_NoDup σ sc school :
  reachable σ → schoolData σ !! sc = Some school → NoDup (flatDeviceIds school).
Proof.
  intros Hr. revert sc school. induction Hr as [|σ r Hr IH]; [done|].
  by apply flat_handle_NoDup.
Qed.

End FlatListing.

(** ** The shape of a placement response *)

Section Shape.

Lemma roleTable_fromList (n : nat) (id : string) (ids : list string) :
  ids !! n = Some id →
  roleTable n id (take 3 ids) = rolesFromList (Z.of_nat n + 1) ids.
Proof.
  intros Hn. unfold rolesFromList.
  destruct n as [|[|[|n]]].
  - simpl. by rewrite Hn.
  - simpl. rewrite lookup_take_lt by lia. by rewrite Hn.
  - simpl. rewrite !lookup_take_lt by lia. by rewrite Hn.
  - unfold roleTable. rewrite !lookup_take_lt by lia.
    destruct (Z.eqb_spec (Z.of_nat (S (S (S n))) + 1) 1) as [|_]; [lia|].
    destruct (Z.eqb_spec (Z.of_nat (S (S (S n))) + 1) 2) as [|_]; [lia|].
    destruct (Z.eqb_spec (Z.of_nat (S (S (S n))) + 1) 3) as [|_]; [lia|].
    done.
Qed.

Lemma firstIndex_lookup_id {A : Type} (f : A → string) (id : string)
    (l : list A) (n : nat) :
  firstIndex (λ x, String.eqb (f x) id) l n →
  (f <$> l) !! n = Some id ∧ n < length l.
Proof.
  intros [(x & Hx & Hp) _]. apply String.eqb_eq in Hp. split.
  - rewrite list_lookup_fmap, Hx. simpl. by rewrite Hp.
  - by eapply lookup_lt_Some.
Qed.

End Shape.

Section ClusteredShape.
Import Clustered ClusteredInv.
Implicit Types (σ : Store) (s school : School) (c : Cluster)
  (cs pre post : list (string * Cluster)) (id sc : string).

Lemma countDevices_nonneg cs : (0 ≤ countDevices cs)%Z.
Proof. induction cs as [|[name c] cs IH]; [done|]. rewrite countDevices_cons. lia. Qed.

Lemma countDevices_member cs name c :
  (name, c) ∈ cs → (Z.of_nat (length (devices c)) ≤ countDevices cs)%Z.
Proof.
  intros (pre & post & ->)%list_elem_of_split.
  rewrite countDevices_app, countDevices_cons.
  pose proof (countDevices_nonneg pre). pose proof (countDevices_nonneg post). lia.
Qed.

Lemma clustered_shape σ sc id u now p :
  reachable σ →
  (postGetHosts σ (Some sc) (Some id) u now).2 = Placed p →
  p_schoolCode p = sc ∧ p_deviceId p = id ∧
  p_clusterName p = sc +:+ "_" +:+ pretty (p_clusterNumber p) ∧
  (1 ≤ p_clusterNumber p)%N ∧
  maxDevicesPerCluster p = 10 ∧
  (1 ≤ positionInCluster p ≤ Z.of_nat (totalDevicesInCluster p))%Z ∧
  totalDevicesInCluster p ≤ 10 ∧
  (Z.of_nat (totalDevicesInCluster p) ≤ totalDevicesInSchool p)%Z ∧
  length (clusterDevices p) = totalDevicesInCluster p ∧
  NoDup (clusterDevices p) ∧
  clusterDevices p !! Z.to_nat (positionInCluster p - 1) = Some id ∧
  (role p, hostDeviceId p, host2DeviceId p, host3DeviceId p)
    = rolesFromList (positionInCluster p) (clusterDevices p) ∧
  clusterHosts p = {| host1 := clusterDevices p !! 0;
                      host2 := clusterDevices p !! 1;
                      host3 := clusterDevices p !! 2 |}.
Proof.
  intros Hreach Hp. pose proof (reachable_storeOk σ Hreach) as Hok.
  destruct (postGetHosts_Placed_valid _ _ _ _ _ _ Hp)
    as (sc' & d & [= <-] & [= <-] & Hsc & Hid).
  assert (storeListingOk (postGetHosts σ (Some sc) (Some id) u now).1) as Hl'.
  { apply (reachable_listingOk _
             (reachable_step σ (PostGetHosts (Some sc) (Some id) u now) Hreach)). }
  destruct (postGetHosts_Placed σ sc id u now p Hok Hsc Hid Hp)
    as (school & pre & name & c & post & Hlook & Hsok & Hsplit & Hpre & Hc & Hget & ->).
  destruct (findIndex_present (sameId id) (devices c)) as (i & Hfind & Hfirst);
    [by apply hasDevice_true|].
  assert ((name, c) ∈ clusters school) as Hin.
  { rewrite Hsplit. apply elem_of_app. right. apply list_elem_of_here. }
  destruct Hsok as (_ & Hcs & Htot). rewrite Forall_forall in Hcs.
  destruct (Hcs _ Hin) as (Hname & Hrange & Hlen & Hhosts & _ & Hne). simpl in *.
  destruct (firstIndex_lookup_id deviceId id (devices c) i Hfirst) as [Hi Hilen].
  rewrite Hfind.
  assert (Z.to_nat (Z.of_nat i + 1 - 1) = i) as -> by lia.
  rewrite length_fmap, Hhosts, fmap_take.
  split_and!; try done; try lia.
  - rewrite Htot. by eapply countDevices_member.
  - eapply listing_cluster_NoDup; [by eapply Hl' | done].
  - rewrite <-(roleTable_fromList i id _ Hi). apply clustered_roleFields_table.
  - assert (Forall (λ h, h ≠ "") (deviceId <$> devices c)) as Hne'.
    { by apply Forall_fmap. }
    rewrite !orNull_lookup by (by apply Forall_take).
    destruct (decide (0 < length (devices c))); f_equal.
    all: try (rewrite lookup_take_lt by lia; done).
Qed.

Lemma position_addDevice sc id name c now total :
  hasDevice id c = false →
  positionInCluster (composeResponse sc id name (addDevice id now c) total)
  = Z.of_nat (totalDevicesInCluster
                (composeResponse sc id name (addDevice id now c) total)).
Proof.
  intros Hlacks. apply hasDevice_false in Hlacks. simpl.
  destruct (findIndex_app_new (sameId id) (devices c)
              {| deviceId := id; registeredAt := now |} Hlacks (sameId_self id now))
    as [-> _].
  rewrite length_app. simpl. lia.
Qed.

Lemma PostOutcome_appended σ sc id u now σ' p :
  knows id (schoolOrNew σ sc) = false →
  PostOutcome σ sc id u now σ' (Placed p) →
  positionInCluster p = Z.of_nat (totalDevicesInCluster p).
Proof.
  intros Hknows Hout.
  inversion Hout as
    [|
    |school pre name c post Hlook Hsplit Hpre Hc Hst
    |school pre name c post Hlook Hsplit Hlacks Hinh Hfull Hlen Hst
    |school n name c Hserv Hschool Hlacks Hinh Hfull Hn Hname Hc Hst]; subst.
  - unfold schoolOrNew in Hknows. rewrite Hlook in Hknows. simpl in Hknows.
    by rewrite (knows_true_split _ _ _ _ _ _ Hsplit Hc) in Hknows.
  - apply position_addDevice. rewrite Hsplit in Hlacks.
    apply Forall_app in Hlacks as [_ [Hc _]%Forall_cons]. exact Hc.
  - by apply position_addDevice.
Qed.

Lemma clustered_appended σ sc id u now p :
  reachable σ →
  knows id (schoolOrNew σ sc) = false →
  (postGetHosts σ (Some sc) (Some id) u now).2 = Placed p →
  positionInCluster p = Z.of_nat (totalDevicesInCluster p).
Proof.
  intros Hreach Hknows Hp. pose proof (reachable_storeOk σ Hreach) as Hok.
  destruct (postGetHosts_Placed_valid _ _ _ _ _ _ Hp)
    as (sc' & d & [= <-] & [= <-] & Hsc & Hid).
  pose proof (postGetHosts_outcome σ sc id u now Hok Hsc Hid) as Hout.
  rewrite Hp in Hout. by eapply PostOutcome_appended.
Qed.

End ClusteredShape.

Section FlatShape.
Import Flat FlatInv.
Implicit Types (σ : Store) (school : School) (id sc : string).

Lemma flat_shape σ sc id now p :
  reachable σ →
  (postGetHosts σ (Some sc) (Some id) now).2 = Placed p →
  ∃ school,
    schoolData (postGetHosts σ (Some sc) (Some id) now).1 !! sc = Some school ∧
    p_schoolCode p = sc ∧ p_deviceId p = id ∧
    totalDevices p = length (flatDeviceIds school) ∧
    (1 ≤ position p ≤ Z.of_nat (totalDevices p))%Z ∧
    flatDeviceIds school !! Z.to_nat (position p - 1) = Some id ∧
    (role p, hostDeviceId p, host2DeviceId p, host3DeviceId p)
      = rolesFromList (position p) (flatDeviceIds school) ∧
    p_hosts p = {| host1 := flatDeviceIds school !! 0;
                   host2 := flatDeviceIds school !! 1;
                   host3 := flatDeviceIds school !! 2 |}.
Proof.
  intros Hreach Hp. pose proof (flat_reachable_storeOk σ Hreach) as Hok.
  destruct (flat_postGetHosts_Placed_valid _ _ _ _ _ Hp)
    as (sc' & d & [= <-] & [= <-] & Hsc & Hid).
  destruct (flat_postGetHosts_Placed σ sc id now p Hok Hp)
    as (school & Hlook & [Hhosts Hne] & Hex & ->).
  destruct (findIndex_present (sameId id) (devices school) Hex) as (i & Hfind & Hfirst).
  destruct (firstIndex_lookup_id deviceId id (devices school) i Hfirst) as [Hi Hilen].
  exists school. unfold flatDeviceIds. simpl. rewrite Hfind.
  assert (Z.to_nat (Z.of_nat i + 1 - 1) = i) as -> by lia.
  rewrite length_fmap, Hhosts, fmap_take.
  split_and!; try done; try lia.
  - rewrite <-(roleTable_fromList i id _ Hi). apply flat_roleFields_table.
  - assert (Forall (λ h, h ≠ "") (deviceId <$> devices school)) as Hne'.
    { by apply Forall_fmap. }
    rewrite !orNull_lookup by (by apply Forall_take).
    destruct (decide (0 < length (devices school))); f_equal.
    all: try (rewrite lookup_take_lt by lia; done).
Qed.

Lemma flat_PostOutcome_appended σ sc id now σ' p :
  id ∉ flatDeviceIds (schoolOrNew σ sc) →
  PostOutcome σ sc id now σ' (Placed p) →
  position p = Z.of_nat (totalDevices p).
Proof.
  intros Hnew Hout. apply flat_lacks_ids in Hnew.
  inversion Hout as [|school Hlook Hex Hst|school Hserv Hschool Hall Hst]; subst.
  - unfold schoolOrNew in Hnew. rewrite Hlook in Hnew. simpl in Hnew.
    apply Exists_exists in Hex as (x & Hx & Htrue).
    rewrite Forall_forall in Hnew. specialize (Hnew x Hx). congruence.
  - simpl.
    destruct (findIndex_app_new (sameId id) (devices (schoolOrNew σ sc))
                {| deviceId := id; registeredAt := now |} Hnew
                (flat_sameId_self id now))
      as [-> _].
    rewrite length_app. simpl. lia.
Qed.

Lemma flat_appended σ sc id now p :
  id ∉ flatDeviceIds (schoolOrNew σ sc) →
  (postGetHosts σ (Some sc) (Some id) now).2 = Placed p →
  position p = Z.of_nat (totalDevices p).
Proof.
  intros Hnew Hp.
  destruct (flat_postGetHosts_Placed_valid _ _ _ _ _ Hp)
    as (sc' & d & [= <-] & [= <-] & Hsc & Hid).
  pose proof (flat_postGetHosts_outcome σ sc id now Hsc Hid) as Hout.
  rewrite Hp in Hout. by eapply flat_PostOutcome_appended.
Qed.

End FlatShape.

(** ** Cluster names and the keys of [Object.prototype] *)

Section ClusterNames.

Lemma string_app_cons (x : Ascii.ascii) (a b : string) :
  String x a +:+ b = String x (a +:+ b).
Proof. reflexivity. Qed.

Lemma string_app_assoc (a b c : string) : (a +:+ b) +:+ c = a +:+ (b +:+ c).
Proof.
  induction a as [|x a IH]; [done|].
  by rewrite !string_app_cons, IH.
Qed.

Lemma pretty_N_go_suffix (x : N) (s : string) : ∃ t, pretty_N_go x s = t +:+ s.
Proof.
  revert s. induction (N.lt_wf_0 x) as [x _ IH]; intros s.
  destruct (decide (x = 0%N)) as [->|Hx].
  - exists "". by rewrite pretty_N_go_0.
  - rewrite pretty_N_go_step by lia.
    destruct (IH (x `div` 10)%N) with (s := String (pretty_N_char (x `mod` 10)) s)
      as [t Ht]; [apply N.div_lt; lia|].
    exists (t +:+ String (pretty_N_char (x `mod` 10)) "").
    by rewrite Ht, string_app_assoc.
Qed.

Lemma pretty_N_last (n : N) :
  ∃ t x, pretty n = t +:+ String (pretty_N_char x) "".
Proof.
  unfold pretty, pretty_N. destruct (decide (n = 0%N)) as [->|Hn].
  - by exists "", 0%N.
  - rewrite pretty_N_go_step by lia.
    destruct (pretty_N_go_suffix (n `div` 10) (String (pretty_N_char (n `mod` 10)) ""))
      as [t Ht].
    by exists t, (n `mod` 10)%N.
Qed.

Lemma cluster_name_last (sc : string) (n : N) :
  ∃ t x, sc +:+ "_" +:+ pretty n = t +:+ String (pretty_N_char x) "".
Proof.
  destruct (pretty_N_last n) as (t & x & ->).
  exists (sc +:+ "_" +:+ t), x. by rewrite !string_app_assoc.
Qed.

Lemma endsInDigit_snoc (t : string) (d : Ascii.ascii) :
  endsInDigit (t +:+ String d "") = bool_decide (is_Some (Ascii.is_nat d)).
Proof.
  induction t as [|x t IH]; [done|].
  rewrite string_app_cons. destruct t as [|y t]; [done|].
  rewrite string_app_cons in *. exact IH.
Qed.

Lemma pretty_N_char_digit (x : N) : is_Some (Ascii.is_nat (pretty_N_char x)).
Proof. unfold pretty_N_char. repeat case_match; by eexists. Qed.

(** A name built by [`${schoolCode}_${number}`] from a number ends in a
    digit. *)
Lemma cluster_name_digit (sc : string) (n : N) :
  endsInDigit (sc +:+ "_" +:+ pretty n) = true.
Proof.
  destruct (cluster_name_last sc n) as (t & x & ->).
  rewrite endsInDigit_snoc. apply bool_decide_eq_true, pretty_N_char_digit.
Qed.

Lemma isMember_digit (name : string) (keys : list string) :
  endsInDigit name = true →
  Forall (λ k, endsInDigit k = false) keys →
  Js.isMember name keys = false.
Proof.
  intros Hname. unfold Js.isMember. induction 1 as [|k keys Hk _ IH]; [done|].
  simpl. rewrite IH, orb_false_r. apply String.eqb_neq. congruence.
Qed.

(** ... so it is none of the keys of [Object.prototype]. *)
Lemma prototypeGet_digit (extra : list string) (name : string) :
  endsInDigit name = true →
  Forall (λ k, endsInDigit k = false) extra →
  Js.prototypeGet extra name = None.
Proof.
  intros Hname Hextra. unfold Js.prototypeGet.
  destruct (String.eqb_spec name "__proto__") as [->|_]; [done|].
  rewrite (isMember_digit name Js.objectPrototypeFunctions Hname)
    by (repeat constructor).
  by rewrite (isMember_digit name extra Hname Hextra).
Qed.

End ClusterNames.

Section ClusteredNames.
Import Clustered ClusteredInv.
Implicit Types (σ : Store) (s school : School) (c : Cluster)
  (cs pre post : list (string * Cluster)) (id sc : string).

Lemma prototypeExtras_letters σ :
  Forall (λ k, endsInDigit k = false) (prototypeExtras σ).
Proof.
  unfold prototypeExtras. destruct (protoLastClusterNumber σ); repeat constructor.
Qed.

Lemma cluster_name_own σ sc (n : N) :
  Js.prototypeGet (prototypeExtras σ) (sc +:+ "_" +:+ pretty n) = None.
Proof.
  apply prototypeGet_digit; [apply cluster_name_digit | apply prototypeExtras_letters].
Qed.

(** Once [Object.prototype.lastClusterNumber] exists, the loops over a
    stored school's clusters visit it. *)
Lemma inheritedKeys_polluted σ sc school :
  protoLastClusterNumber σ = true →
  Forall (clusterOk sc (lastClusterNumber school)) (clusters school) →
  inheritedKeys σ school = ["lastClusterNumber"].
Proof.
  intros Hflag Hcs. unfold inheritedKeys, prototypeExtras. rewrite Hflag.
  rewrite filter_cons_True; [done|].
  destruct (Js.isMember _ _) eqn:Hmem; [|done]. exfalso.
  unfold Js.isMember in Hmem. apply existsb_exists in Hmem as (k & Hk & Heq).
  apply String.eqb_eq in Heq. subst k.
  apply list_elem_of_In, list_elem_of_fmap in Hk as ([name c] & Hname & Hin).
  rewrite Forall_forall in Hcs. destruct (Hcs _ Hin) as (Hn & _). simpl in *.
  pose proof (cluster_name_digit sc (clusterNumber c)) as Hd.
  rewrite <-Hn, <-Hname in Hd. done.
Qed.

End ClusteredNames.

(** ** Queries *)

Section ClusteredQueries.
Import Clustered ClusteredInv.
Implicit Types (σ : Store) (s school : School) (c : Cluster)
  (cs pre post : list (string * Cluster)) (id sc : string).

Lemma isFull_at_most_ten c :
  length (devices c) ≤ MAX_DEVICES_PER_CLUSTER →
  isFull c = bool_decide (length (devices c) = 10).
Proof.
  unfold isFull, MAX_DEVICES_PER_CLUSTER. intros Hle.
  destruct (Nat.leb_spec 10 (length (devices c))).
  - symmetry. apply bool_decide_eq_true. lia.
  - symmetry. apply bool_decide_eq_false. lia.
Qed.

Lemma countDevices_sum cs :
  countDevices cs = Z.of_nat (sum_list ((λ e, length (devices e.2)) <$> cs)).
Proof.
  induction cs as [|[name c] cs IH]; [done|].
  rewrite countDevices_cons, IH. cbn. lia.
Qed.

Lemma getSchoolInfo_found σ sc i :
  getSchoolInfo σ sc = SchoolFound i →
  ∃ school,
    schoolData σ !! sc = Some school ∧
    inheritedKeys σ school = [] ∧
    i = {| si_schoolCode := sc;
           si_totalDevices := totalDevices school;
           si_totalClusters := length (clusters school);
           si_lastClusterNumber := lastClusterNumber school;
           si_maxDevicesPerCluster := MAX_DEVICES_PER_CLUSTER;
           si_clusters := prod_map id summarize <$> clusters school |}.
Proof.
  unfold getSchoolInfo. intros Hfound.
  destruct (getSchool σ sc) as [school|k|] eqn:Hget;
    [|by destruct (Js.truthy _)..].
  apply getSchool_Own_inv in Hget. exists school.
  destruct (inheritedKeys σ school) as [|k ks]; [|done].
  by injection Hfound as <-.
Qed.

Lemma getSchoolInfo_stored σ sc school :
  schoolData σ !! sc = Some school →
  inheritedKeys σ school = [] →
  ∃ i, getSchoolInfo σ sc = SchoolFound i.
Proof.
  intros Hlook Hinh. unfold getSchoolInfo.
  rewrite (getSchool_own _ _ _ Hlook), Hinh. by eexists.
Qed.

Lemma getSchoolInfo_polluted σ sc school :
  storeOk σ →
  schoolData σ !! sc = Some school →
  protoLastClusterNumber σ = true →
  getSchoolInfo σ sc = InternalError.
Proof.
  intros Hok Hlook Hflag. unfold getSchoolInfo.
  rewrite (getSchool_own _ _ _ Hlook).
  destruct (Hok _ _ Hlook) as (_ & Hcs & _).
  by rewrite (inheritedKeys_polluted σ sc school Hflag Hcs).
Qed.

Lemma clustered_summary σ sc i :
  reachable σ →
  getSchoolInfo σ sc = SchoolFound i →
  si_schoolCode i = sc ∧
  si_maxDevicesPerCluster i = 10 ∧
  si_totalClusters i = length (si_clusters i) ∧
  si_totalDevices i
  = Z.of_nat (sum_list ((λ e, cs_totalDevices e.2) <$> si_clusters i)) ∧
  NoDup (si_clusters i ≫= λ e, cs_devices e.2) ∧
  (∀ name summary,
      (name, summary) ∈ si_clusters i →
      name = sc +:+ "_" +:+ pretty (cs_clusterNumber summary) ∧
      (1 ≤ cs_clusterNumber summary ≤ si_lastClusterNumber i)%N ∧
      cs_totalDevices summary = length (cs_devices summary) ∧
      cs_totalDevices summary ≤ 10 ∧
      cs_hosts summary = take 3 (cs_devices summary) ∧
      cs_isFull summary = bool_decide (cs_totalDevices summary = 10)) ∧
  (∀ j k ej ek,
      j < k → si_clusters i !! j = Some ej → si_clusters i !! k = Some ek →
      (cs_clusterNumber ej.2 < cs_clusterNumber ek.2)%N).
Proof.
  intros Hreach Hfound.
  destruct (getSchoolInfo_found σ sc i Hfound) as (school & Hlook & _ & ->).
  destruct (reachable_storeOk σ Hreach _ _ Hlook) as (Hnd & Hcs & Htot).
  destruct (reachable_listingOk σ Hreach _ _ Hlook) as (Hids & Hsorted).
  simpl. split_and!; try done.
  - by rewrite length_fmap.
  - rewrite Htot, countDevices_sum, <-list_fmap_compose. done.
  - rewrite list_fmap_bind. exact Hids.
  - intros name summary ([name' c] & [= -> ->] & Hin)%list_elem_of_fmap.
    rewrite Forall_forall in Hcs.
    destruct (Hcs _ Hin) as (Hname & Hrange & Hlen & Hhosts & _). simpl in *.
    rewrite length_fmap, Hhosts, fmap_take.
    split_and!; try done; try lia. by apply isFull_at_most_ten.
  - intros j k ej ek Hjk Hj Hk.
    rewrite list_lookup_fmap in Hj, Hk.
    destruct (clusters school !! j) as [[nj cj]|] eqn:Hcj; [|done].
    destruct (clusters school !! k) as [[nk ck]|] eqn:Hck; [|done].
    injection Hj as <-. injection Hk as <-. simpl.
    apply (StronglySorted_lookup_lt N.lt (clusterNumbers school) j k); [done..| |];
      unfold clusterNumbers; rewrite list_lookup_fmap.
    + by rewrite Hcj.
    + by rewrite Hck.
Qed.

(** *** One cluster *)

Lemma getCluster_stored σ school name c :
  Js.objGet name (clusters school) = Some c → getCluster σ school name = Js.Own c.
Proof. intros Hget. unfold getCluster, Js.get. by rewrite Hget. Qed.

Lemma stored_cluster σ sc school name c :
  storeOk σ →
  schoolData σ !! sc = Some school →
  Js.objGet name (clusters school) = Some c →
  (name, c) ∈ clusters school ∧ clusterOk sc (lastClusterNumber school) (name, c).
Proof.
  intros Hok Hlook Hget. destruct (Hok _ _ Hlook) as (_ & Hcs & _).
  apply objGet_split in Hget as (pre & post & Hsplit & _).
  assert ((name, c) ∈ clusters school) as Hin.
  { rewrite Hsplit. apply elem_of_app. right. apply list_elem_of_here. }
  split; [done|]. rewrite Forall_forall in Hcs. by apply Hcs.
Qed.

Lemma stored_cluster_numeral σ sc school number c :
  storeOk σ →
  schoolData σ !! sc = Some school →
  Js.objGet (sc +:+ "_" +:+ number) (clusters school) = Some c →
  number = pretty (clusterNumber c).
Proof.
  intros Hok Hlook Hget.
  destruct (stored_cluster σ sc school _ c Hok Hlook Hget) as (_ & Hname & _).
  simpl in Hname. by apply (inj (String.append sc)), (inj (String.append "_")) in Hname.
Qed.

Lemma member_cluster σ sc school name c :
  storeOk σ →
  schoolData σ !! sc = Some school →
  (name, c) ∈ clusters school →
  name = sc +:+ "_" +:+ pretty (clusterNumber c) ∧
  Js.objGet (sc +:+ "_" +:+ pretty (clusterNumber c)) (clusters school) = Some c.
Proof.
  intros Hok Hlook Hin. destruct (Hok _ _ Hlook) as (Hnd & Hcs & _).
  rewrite Forall_forall in Hcs. destruct (Hcs _ Hin) as (Hname & _). simpl in Hname.
  split; [done|]. rewrite <-Hname. by apply objGet_NoDup.
Qed.

Lemma getClusterInfo_cases σ sc number school :
  schoolData σ !! sc = Some school →
  getClusterInfo σ sc number =
    match Js.objGet (sc +:+ "_" +:+ number) (clusters school) with
    | Some c => ClusterFound (clusterInfoOf sc number c)
    | None =>
        match Js.prototypeGet [] (sc +:+ "_" +:+ number) with
        | Some _ => InternalError
        | None => NotFound "Cluster not found"
        end
    end.
Proof.
  intros Hlook. unfold getClusterInfo. rewrite (getSchool_own _ _ _ Hlook).
  unfold getCluster, Js.get.
  destruct (Js.objGet _ (clusters school)) as [c|]; [done|].
  destruct (Js.prototypeGet [] _) as [k|] eqn:Hk.
  - assert (k ≠ Js.NotANumber) as Hnan.
    { unfold Js.prototypeGet in Hk. simpl in Hk. by repeat case_match; simplify_eq. }
    rewrite (prototypeGet_truthy_extras [] _ _ k Hk Hnan). by destruct k.
  - destruct (Js.prototypeGet (prototypeExtras σ) _) as [k|] eqn:Hk'; [|done].
    destruct k; try done;
      by rewrite (prototypeGet_truthy_extras _ [] _ _ Hk') in Hk.
Qed.

Lemma deleteCluster_absent σ sc number school :
  schoolData σ !! sc = Some school →
  Js.objGet (sc +:+ "_" +:+ number) (clusters school) = None →
  deleteCluster σ sc number =
    (σ, match Js.prototypeGet [] (sc +:+ "_" +:+ number) with
        | Some _ => InternalError
        | None => NotFound "Cluster not found"
        end).
Proof.
  intros Hlook Hnone. unfold deleteCluster. rewrite (getSchool_own _ _ _ Hlook).
  unfold getCluster, Js.get. rewrite Hnone.
  destruct (Js.prototypeGet [] _) as [k|] eqn:Hk.
  - assert (k ≠ Js.NotANumber) as Hnan.
    { unfold Js.prototypeGet in Hk. simpl in Hk. by repeat case_match; simplify_eq. }
    rewrite (prototypeGet_truthy_extras [] _ _ k Hk Hnan). by destruct k.
  - destruct (Js.prototypeGet (prototypeExtras σ) _) as [k|] eqn:Hk'; [|done].
    destruct k; try done;
      by rewrite (prototypeGet_truthy_extras _ [] _ _ Hk') in Hk.
Qed.

End ClusteredQueries.

Section FlatQueries.
Import Flat FlatInv.
Implicit Types (σ : Store) (school : School) (id sc : string).

Lemma flat_summary σ sc i :
  reachable σ →
  getSchoolInfo σ sc = SchoolFound i →
  ∃ school,
    schoolData σ !! sc = Some school ∧
    si_schoolCode i = sc ∧
    si_devices i = devices school ∧
    si_totalDevices i = length (si_devices i) ∧
    si_hosts i = deviceId <$> take 3 (si_devices i) ∧
    NoDup (deviceId <$> si_devices i).
Proof.
  intros Hreach Hfound. unfold getSchoolInfo in Hfound.
  destruct (getSchool σ sc) as [school|k|] eqn:Hget;
    [|by destruct (Js.truthy _)..].
  unfold getSchool, Js.get in Hget.
  destruct (schoolData σ !! sc) as [school0|] eqn:Hlook; [|by repeat case_match].
  injection Hget as ->. injection Hfound as <-. simpl.
  exists school. destruct (flat_reachable_storeOk σ Hreach _ _ Hlook) as [Hhosts _].
  split_and!; try done.
  by apply (flat_reachable_NoDup σ sc school).
Qed.

Lemma flat_summary_stored σ sc school :
  schoolData σ !! sc = Some school →
  ∃ i, getSchoolInfo σ sc = SchoolFound i.
Proof.
  intros Hlook. unfold getSchoolInfo. rewrite (flat_getSchool_own _ _ _ Hlook).
  by eexists.
Qed.

End FlatQueries.

(** ** Cluster resets, failed requests and the written prototype *)

Section Failures.
Import Clustered ClusteredInv.
Implicit Types (σ : Store) (s school : School) (c : Cluster)
  (cs pre post : list (string * Cluster)) (id sc : string).

Lemma initSchool_cases σ sc :
  initSchool σ sc = σ ∨
  (schoolData σ !! sc = None ∧ initSchool σ sc = putSchool σ sc newSchool).
Proof.
  unfold initSchool. destruct (Js.truthy (getSchool σ sc)) eqn:Htruthy; [by left|].
  right. split; [|done].
  destruct (schoolData σ !! sc) as [s|] eqn:Hlook; [|done].
  by rewrite (getSchool_own _ _ _ Hlook) in Htruthy.
Qed.

(** What a request that is not answered 200 leaves behind. *)
Lemma clustered_failure_effect σ r :
  storeOk σ →
  match (handle σ r).2 with
  | BadRequest | NotFound _ | SchoolFound _ | ClusterFound _ | Healthy _ =>
      (handle σ r).1 = σ
  | InternalError =>
      (∀ k s, schoolData σ !! k = Some s → schoolData (handle σ r).1 !! k = Some s) ∧
      (∀ k s, schoolData (handle σ r).1 !! k = Some s →
              schoolData σ !! k = Some s ∨ (target r = Some k ∧ s = newSchool))
  | Placed _ | ResetDone _ => True
  end.
Proof.
  intros Hok.
  destruct r as [schoolCode deviceId u now|sc'|sc' number|sc'|sc' number|now]; simpl.
  - destruct (postGetHosts_validation σ schoolCode deviceId u now)
      as [[-> _]|(sc & d & -> & -> & Hsc & Hd)]; [done|].
    pose proof (postGetHosts_outcome σ sc d u now Hok Hsc Hd) as Hout.
    destruct (postGetHosts σ (Some sc) (Some d) u now) as [σ' resp]. simpl in *.
    destruct Hout as
      [i Hget Hi
      |Hserv Hlacks Hinh
      |school pre name c post Hlook Hsplit Hpre Hc
      |school pre name c post Hlook Hsplit Hlacks Hinh Hfull Hlen
      |school n name c Hserv Hschool Hlacks Hinh Hfull Hn Hname Hc]; try done.
    + simpl. split; intros k s Hk; [done | by left].
    + destruct (initSchool_cases σ sc) as [->|[Hnone ->]].
      * split; intros k s Hk; [done | by left].
      * simpl. split; intros k s Hk.
        -- rewrite lookup_insert_ne; [done|]. congruence.
        -- rewrite lookup_insert in Hk. case_decide; [|by left].
           right. split; congruence.
  - destruct (getSchoolInfo σ sc'); try done.
    split; intros k s Hk; [done | by left].
  - destruct (getClusterInfo σ sc' number); try done.
    split; intros k s Hk; [done | by left].
  - unfold deleteSchool. by destruct (Js.truthy _).
  - destruct (deleteCluster_cases σ sc' number)
      as [(school & pre & c & post & _ & _ & _ & _ & ->)|[Heq Hno]]; [done|].
    destruct (deleteCluster σ sc' number) as [σ' resp]. simpl in *. subst σ'.
    destruct resp; try done. split; intros k s Hk; [done | by left].
  - done.
Qed.

Lemma flat_failure_effect (σ : Flat.Store) (r : Flat.Request) :
  (∀ p, (Flat.handle σ r).2 ≠ Flat.Placed p) →
  (∀ msg, (Flat.handle σ r).2 ≠ Flat.ResetDone msg) →
  (Flat.handle σ r).1 = σ.
Proof.
  intros Hp Hr. destruct r as [schoolCode deviceId now|sc'|sc'|now|now]; simpl in *;
    try done.
  - destruct (flat_postGetHosts_validation σ schoolCode deviceId now)
      as [[-> _]|(sc & d & -> & -> & Hsc & Hd)]; [done|].
    pose proof (flat_postGetHosts_outcome σ sc d now Hsc Hd) as Hout.
    destruct (Flat.postGetHosts σ (Some sc) (Some d) now) as [σ' resp]. simpl in *.
    destruct Hout as [i Hget|school Hlook Hex|school Hserv Hschool Hall]; [done|..];
      by destruct (Hp _ eq_refl).
  - unfold Flat.deleteSchool in *. destruct (Js.truthy _); [|done].
    by destruct (Hr _ eq_refl).
Qed.

End Failures.

Section Pollution.
Import Clustered ClusteredInv.
Implicit Types (σ : Store) (s school : School) (c : Cluster)
  (cs pre post : list (string * Cluster)) (id sc : string).

Lemma initSchool_flag σ sc :
  protoLastClusterNumber (initSchool σ sc) = protoLastClusterNumber σ.
Proof. unfold initSchool. by destruct (Js.truthy _). Qed.

(** How the flag moves across a request: it is never cleared, and only a
    well-formed registration for the school code __proto__ sets it. *)
Lemma handle_flag σ r :
  storeOk σ →
  protoLastClusterNumber (handle σ r).1 = protoLastClusterNumber σ ∨
  (protoLastClusterNumber (handle σ r).1 = true ∧
   ∃ id u now, r = PostGetHosts (Some "__proto__") (Some id) u now ∧ id ≠ "").
Proof.
  intros Hok.
  destruct r as [schoolCode deviceId u now|sc'|sc' number|sc'|sc' number|now]; simpl;
    try by left.
  - destruct (postGetHosts_validation σ schoolCode deviceId u now)
      as [[-> _]|(sc & d & -> & -> & Hsc & Hd)]; [by left|].
    pose proof (postGetHosts_outcome σ sc d u now Hok Hsc Hd) as Hout.
    destruct (postGetHosts σ (Some sc) (Some d) u now) as [σ' resp]. simpl in *.
    destruct Hout as
      [i Hget Hi
      |Hserv Hlacks Hinh
      |school pre name c post Hlook Hsplit Hpre Hc
      |school pre name c post Hlook Hsplit Hlacks Hinh Hfull Hlen
      |school n name c Hserv Hschool Hlacks Hinh Hfull Hn Hname Hc];
      try (by left).
    + destruct i; try (by left). right. split; [done|].
      exists d, u, now. split; [|done].
      apply getSchool_FromPrototype_inv in Hget as [_ Hget].
      unfold Js.prototypeGet in Hget.
      destruct (String.eqb_spec sc "__proto__") as [->|_]; [done|].
      by repeat case_match.
    + left. apply initSchool_flag.
  - left. unfold deleteSchool. by destruct (Js.truthy _).
  - left. destruct (deleteCluster_cases σ sc' number)
      as [(school & pre & c & post & _ & _ & _ & _ & ->)|[-> _]]; done.
Qed.

Lemma handle_flag_stays σ r :
  storeOk σ → protoLastClusterNumber σ = true →
  protoLastClusterNumber (handle σ r).1 = true.
Proof.
  intros Hok Hflag. destruct (handle_flag σ r Hok) as [->|[-> _]]; done.
Qed.

Lemma run_flag_stays σ rs :
  reachable σ → protoLastClusterNumber σ = true →
  protoLastClusterNumber (run σ rs) = true.
Proof.
  revert σ. induction rs as [|r rs IH]; intros σ Hreach Hflag; simpl; [done|].
  apply IH; [by constructor|]. apply handle_flag_stays; [|done].
  by apply reachable_storeOk.
Qed.

Lemma proto_registration σ id u now :
  reachable σ → id ≠ "" →
  (postGetHosts σ (Some "__proto__") (Some id) u now).2 = InternalError ∧
  protoLastClusterNumber (postGetHosts σ (Some "__proto__") (Some id) u now).1 = true ∧
  schoolData (postGetHosts σ (Some "__proto__") (Some id) u now).1 = schoolData σ.
Proof.
  intros Hreach Hid.
  assert (schoolData σ !! "__proto__" = None) as Hnone.
  { destruct (schoolData σ !! "__proto__") as [s|] eqn:Hlook; [|done].
    by pose proof (clustered_stored_keys σ _ s Hreach Hlook). }
  rewrite (postGetHosts_not_a_school σ "__proto__" id u now Js.ObjectPrototype);
    [done..| |done].
  unfold getSchool, Js.get. by rewrite Hnone.
Qed.

Lemma polluted_registration σ sc id u now :
  storeOk σ → protoLastClusterNumber σ = true →
  sc ≠ "" → id ≠ "" →
  knows id (schoolOrNew σ sc) = false →
  (postGetHosts σ (Some sc) (Some id) u now).2 = InternalError.
Proof.
  intros Hok Hflag Hsc Hid Hknows.
  pose proof (postGetHosts_outcome σ sc id u now Hok Hsc Hid) as Hout.
  destruct (postGetHosts σ (Some sc) (Some id) u now) as [σ' resp]. simpl in *.
  pose proof (schoolOrNew_ok σ sc Hok) as (_ & Hcs & _).
  pose proof (inheritedKeys_polluted σ sc _ Hflag Hcs) as Hinh'.
  destruct Hout as
    [i Hget Hi
    |Hserv Hlacks Hinh
    |school pre name c post Hlook Hsplit Hpre Hc
    |school pre name c post Hlook Hsplit Hlacks Hinh Hfull Hlen
    |school n name c Hserv Hschool Hlacks Hinh Hfull Hn Hname Hc]; try done.
  - unfold schoolOrNew in Hknows. rewrite Hlook in Hknows. simpl in Hknows.
    by rewrite (knows_true_split _ _ _ _ _ _ Hsplit Hc) in Hknows.
  - unfold schoolOrNew in Hinh'. rewrite Hlook in Hinh'. simpl in Hinh'. congruence.
  - subst school. congruence.
Qed.

End Pollution.

(** ** Roles over time *)

Section Prefixes.

Lemma findIndexFrom_app_present {A : Type} (p : A → bool) (i : Z) (l ext : list A) :
  Exists (λ x, p x = true) l →
  Js.findIndexFrom p i (l ++ ext) = Js.findIndexFrom p i l.
Proof.
  intros Hex. revert i. induction Hex as [x l Hx|x l Hex IH]; intros i; simpl.
  - by rewrite Hx.
  - destruct (p x); [done | apply IH].
Qed.

Lemma rolesFromList_prefix (position : Z) (ids ext : list string) :
  (1 ≤ position ≤ Z.of_nat (length ids))%Z →
  rolesFromList position (ids ++ ext) = rolesFromList position ids.
Proof.
  intros Hpos. unfold rolesFromList.
  destruct (Z.eqb_spec position 1) as [->|H1].
  { by rewrite lookup_app_l by lia. }
  destruct (Z.eqb_spec position 2) as [->|H2].
  { by rewrite !lookup_app_l by lia. }
  destruct (Z.eqb_spec position 3) as [->|H3].
  { by rewrite !lookup_app_l by lia. }
  by rewrite !lookup_app_l by lia.
Qed.

End Prefixes.

Section ClusteredStability.
Import Clustered ClusteredInv.
Implicit Types (σ : Store) (s school : School) (c : Cluster)
  (cs pre post : list (string * Cluster)) (id sc : string).

(** A cluster survives every request that resets neither it nor its
    school, and its device list only grows at the end. *)
Lemma handle_keeps_cluster σ r sc number s c :
  storeOk σ →
  schoolData σ !! sc = Some s →
  Js.objGet (sc +:+ "_" +:+ number) (clusters s) = Some c →
  r ≠ DeleteSchool sc → r ≠ DeleteCluster sc number →
  ∃ s' c',
    schoolData (handle σ r).1 !! sc = Some s' ∧
    Js.objGet (sc +:+ "_" +:+ number) (clusters s') = Some c' ∧
    devices c `prefix_of` devices c' ∧
    clusterNumber c' = clusterNumber c ∧
    frequency c' = frequency c.
Proof.
  intros Hok Hlook Hget Hr1 Hr2.
  set (name := sc +:+ "_" +:+ number) in *.
  assert (∀ σ', schoolData σ' !! sc = schoolData σ !! sc →
            ∃ s' c', schoolData σ' !! sc = Some s' ∧
              Js.objGet name (clusters s') = Some c' ∧
              devices c `prefix_of` devices c' ∧
              clusterNumber c' = clusterNumber c ∧ frequency c' = frequency c) as Hsame.
  { intros σ' Heq. exists s, c. rewrite Heq. by split_and!. }
  destruct (decide (target r = Some sc)) as [Htarget|Htarget].
  2:{ apply Hsame. by apply clustered_frame_ok. }
  destruct r as [schoolCode deviceId u now|sc'|sc' number'|sc'|sc' number'|now];
    simpl in Htarget; simplify_eq; simpl; try (by apply Hsame).
  - destruct (postGetHosts_validation σ (Some sc) deviceId u now)
      as [[-> _]|(sc' & d & [= <-] & -> & Hsc & Hd)]; [by apply Hsame|].
    pose proof (postGetHosts_outcome σ sc d u now Hok Hsc Hd) as Hout.
    destruct (postGetHosts σ (Some sc) (Some d) u now) as [σ' resp]. simpl in *.
    destruct Hout as
      [i Hgs Hi
      |Hserv Hlacks Hinh
      |school pre name0 c0 post Hlook0 Hsplit Hpre Hc
      |school pre name0 c0 post Hlook0 Hsplit Hlacks Hinh Hfull Hlen
      |school n name0 c0 Hserv Hschool Hlacks Hinh Hfull Hn Hname Hc].
    + by apply Hsame.
    + apply Hsame. by rewrite (initSchool_own _ _ _ Hlook).
    + by apply Hsame.
    + assert (school = s) as -> by congruence.
      destruct (Hok _ _ Hlook) as (Hnd & _). rewrite Hsplit in Hnd.
      apply NoDup_split_fresh in Hnd.
      pose proof (objGet_replace name name0 pre post c0 (addDevice d now c0) Hnd) as Hrep.
      rewrite <-Hsplit, Hget in Hrep.
      destruct (String.eqb_spec name0 name) as [->|Hne].
      * rewrite Hsplit, objGet_app_fresh in Hget by done. injection Hget as ->.
        eexists _, (addDevice d now c). simpl. rewrite lookup_insert_eq.
        split_and!; [done..| |done|done]. simpl. by apply prefix_app_r.
      * eexists _, c. simpl. rewrite lookup_insert_eq. by split_and!.
    + assert (school = s) as -> by (subst school; unfold schoolOrNew; by rewrite Hlook).
      eexists _, c. simpl. rewrite lookup_insert_eq. split; [done|]. simpl.
      split_and!; [|done..]. by apply objGet_app_Some.
  - destruct (deleteCluster_cases σ sc number')
      as [(school & pre & c0 & post & Hlook0 & Hsplit & Hpre & Hdel & ->)|[-> _]];
      [|by apply Hsame].
    assert (school = s) as -> by congruence.
    eexists _, c. simpl. rewrite lookup_insert_eq. split; [done|]. simpl.
    split_and!; [|done..].
    rewrite <-Hdel, objGet_objDelete_ne; [done|].
    intros Heq. apply (inj (String.append sc)), (inj (String.append "_")) in Heq.
    congruence.
Qed.

Lemma run_keeps_cluster σ rs sc number s c :
  reachable σ →
  schoolData σ !! sc = Some s →
  Js.objGet (sc +:+ "_" +:+ number) (clusters s) = Some c →
  Forall (λ r, r ≠ DeleteSchool sc ∧ r ≠ DeleteCluster sc number) rs →
  ∃ s' c',
    schoolData (run σ rs) !! sc = Some s' ∧
    Js.objGet (sc +:+ "_" +:+ number) (clusters s') = Some c' ∧
    devices c `prefix_of` devices c' ∧
    clusterNumber c' = clusterNumber c ∧
    frequency c' = frequency c.
Proof.
  intros Hreach Hlook Hget Hrs. revert σ s c Hreach Hlook Hget.
  induction Hrs as [|r rs [Hr1 Hr2] _ IH]; intros σ s c Hreach Hlook Hget; simpl.
  - exists s, c. by split_and!.
  - destruct (handle_keeps_cluster σ r sc number s c
                (reachable_storeOk σ Hreach) Hlook Hget Hr1 Hr2)
      as (s1 & c1 & Hlook1 & Hget1 & Hpre1 & Hnum1 & Hfreq1).
    destruct (IH (handle σ r).1 s1 c1 (reachable_step σ r Hreach) Hlook1 Hget1)
      as (s' & c' & Hlook' & Hget' & Hpre' & Hnum' & Hfreq').
    exists s', c'. split_and!; [done..| |congruence|congruence].
    by etrans.
Qed.

Lemma clustered_stable σ sc id u now p rs u' now' :
  reachable σ →
  (postGetHosts σ (Some sc) (Some id) u now).2 = Placed p →
  Forall (λ r, r ≠ DeleteSchool sc ∧
               r ≠ DeleteCluster sc (pretty (p_clusterNumber p))) rs →
  ∃ p',
    postGetHosts (run (postGetHosts σ (Some sc) (Some id) u now).1 rs)
      (Some sc) (Some id) u' now'
    = (run (postGetHosts σ (Some sc) (Some id) u now).1 rs, Placed p') ∧
    (role p', positionInCluster p', hostDeviceId p', host2DeviceId p', host3DeviceId p')
    = (role p, positionInCluster p, hostDeviceId p, host2DeviceId p, host3DeviceId p) ∧
    (p_clusterName p', p_clusterNumber p', p_frequency p')
    = (p_clusterName p, p_clusterNumber p, p_frequency p) ∧
    clusterDevices p `prefix_of` clusterDevices p'.
Proof.
  intros Hreach Hp Hrs.
  pose proof (reachable_storeOk σ Hreach) as Hok.
  destruct (postGetHosts_Placed_valid _ _ _ _ _ _ Hp)
    as (sc' & d & [= <-] & [= <-] & Hsc & Hid).
  pose proof (reachable_step σ (PostGetHosts (Some sc) (Some id) u now) Hreach)
    as Hreach1.
  simpl in Hreach1.
  pose proof (clustered_shape σ sc id u now p Hreach Hp)
    as (_ & _ & Hname & _ & _ & Hpos & _ & _ & Hlen & _ & _ & Hroles & _).
  destruct (postGetHosts_Placed σ sc id u now p Hok Hsc Hid Hp)
    as (school & pre & name & c & post & Hlook & Hsok & Hsplit & Hpre & Hc & Hget & Heq).
  set (σ1 := (postGetHosts σ (Some sc) (Some id) u now).1) in *.
  assert (name = sc +:+ "_" +:+ pretty (p_clusterNumber p)) as Hname'.
  { rewrite <-Hname. by subst p. }
  rewrite Hname' in Hget.
  destruct (run_keeps_cluster σ1 rs sc _ school c Hreach1 Hlook Hget Hrs)
    as (s' & c' & Hlook' & Hget' & [ext Hext] & Hnum' & Hfreq').
  pose proof (run_reachable σ1 rs Hreach1) as Hreach2.
  set (σ2 := run σ1 rs) in *.
  assert (hasDevice id c' = true) as Hc'.
  { apply hasDevice_true. rewrite Hext. apply Exists_app. left. by apply hasDevice_true. }
  destruct (objGet_split _ _ _ Hget') as (pre' & post' & Hsplit' & _).
  destruct (listing_unique s' pre' _ c' post' id
              (reachable_listingOk σ2 Hreach2 _ _ Hlook') Hsplit' Hc') as [Hpre' _].
  pose proof (postGetHosts_known σ2 sc id u' now' s' pre' _ c' post'
                Hsc Hid Hlook' Hsplit' Hpre' Hc') as Hsecond.
  eexists. split; [exact Hsecond|].
  pose proof (clustered_shape σ2 sc id u' now' _ Hreach2 (f_equal snd Hsecond))
    as (_ & _ & _ & _ & _ & _ & _ & _ & _ & _ & _ & Hroles' & _).
  assert (positionInCluster
            (composeResponse sc id (sc +:+ "_" +:+ pretty (p_clusterNumber p)) c'
               (totalDevices s'))
          = positionInCluster p) as Hsamepos.
  { subst p. simpl. unfold Js.findIndex. rewrite Hext.
    rewrite findIndexFrom_app_present; [done | by apply hasDevice_true]. }
  assert (clusterDevices
            (composeResponse sc id (sc +:+ "_" +:+ pretty (p_clusterNumber p)) c'
               (totalDevices s'))
          = clusterDevices p ++ (deviceId <$> ext)) as Hdevs.
  { subst p. simpl. by rewrite Hext, fmap_app. }
  assert ((p_clusterName
             (composeResponse sc id (sc +:+ "_" +:+ pretty (p_clusterNumber p)) c'
                (totalDevices s')),
           p_clusterNumber
             (composeResponse sc id (sc +:+ "_" +:+ pretty (p_clusterNumber p)) c'
                (totalDevices s')),
           p_frequency
             (composeResponse sc id (sc +:+ "_" +:+ pretty (p_clusterNumber p)) c'
                (totalDevices s')))
          = (p_clusterName p, p_clusterNumber p, p_frequency p)) as Hsamecluster.
  { rewrite Hname. subst p. simpl in *. by rewrite Hnum', Hfreq'. }
  rewrite Hdevs, Hsamepos, rolesFromList_prefix in Hroles' by lia.
  rewrite <-Hroles in Hroles'.
  remember (composeResponse sc id (sc +:+ "_" +:+ pretty (p_clusterNumber p)) c'
              (totalDevices s')) as p' eqn:Hp'.
  split_and!.
  - rewrite Hsamepos. injection Hroles' as H1 H2 H3 H4. by rewrite H1, H2, H3, H4.
  - done.
  - rewrite Hdevs. by apply prefix_app_r.
Qed.

End ClusteredStability.

Section FlatStability.
Import Flat FlatInv.
Implicit Types (σ : Store) (school : School) (id sc : string).

Lemma flat_handle_keeps_devices σ r sc s :
  schoolData σ !! sc = Some s → r ≠ DeleteSchool sc →
  ∃ s', schoolData (handle σ r).1 !! sc = Some s' ∧ devices s `prefix_of` devices s'.
Proof.
  intros Hlook Hr.
  assert (∀ σ', schoolData σ' !! sc = schoolData σ !! sc →
            ∃ s', schoolData σ' !! sc = Some s' ∧ devices s `prefix_of` devices s')
    as Hsame.
  { intros σ' Heq. exists s. by rewrite Heq. }
  destruct (decide (target r = Some sc)) as [Htarget|Htarget].
  2:{ apply Hsame. by apply flat_frame. }
  destruct r as [schoolCode deviceId now|sc'|sc'|now|now];
    simpl in Htarget; simplify_eq; simpl; try (by apply Hsame).
  destruct (flat_postGetHosts_validation σ (Some sc) deviceId now)
    as [[-> _]|(sc' & d & [= <-] & -> & Hsc & Hd)]; [by apply Hsame|].
  rewrite (flat_postGetHosts_stored σ sc d now s Hsc Hd Hlook).
  destruct (_ =? _)%Z; [|by apply Hsame].
  eexists. simpl. rewrite lookup_insert_eq. split; [done|]. simpl.
  by apply prefix_app_r.
Qed.

Lemma flat_run_keeps_devices σ rs sc s :
  schoolData σ !! sc = Some s →
  Forall (λ r, r ≠ DeleteSchool sc) rs →
  ∃ s', schoolData (run σ rs) !! sc = Some s' ∧ devices s `prefix_of` devices s'.
Proof.
  intros Hlook Hrs. revert σ s Hlook.
  induction Hrs as [|r rs Hr _ IH]; intros σ s Hlook; simpl.
  - by exists s.
  - destruct (flat_handle_keeps_devices σ r sc s Hlook Hr) as (s1 & Hlook1 & Hpre1).
    destruct (IH _ _ Hlook1) as (s' & Hlook' & Hpre').
    exists s'. split; [done | by etrans].
Qed.

Lemma flat_stable σ sc id now p rs now' :
  reachable σ →
  (postGetHosts σ (Some sc) (Some id) now).2 = Placed p →
  Forall (λ r, r ≠ DeleteSchool sc) rs →
  ∃ p',
    postGetHosts (run (postGetHosts σ (Some sc) (Some id) now).1 rs)
      (Some sc) (Some id) now'
    = (run (postGetHosts σ (Some sc) (Some id) now).1 rs, Placed p') ∧
    (role p', position p', hostDeviceId p', host2DeviceId p', host3DeviceId p')
    = (role p, position p, hostDeviceId p, host2DeviceId p, host3DeviceId p).
Proof.
  intros Hreach Hp Hrs.
  destruct (flat_postGetHosts_Placed_valid _ _ _ _ _ Hp)
    as (sc' & d & [= <-] & [= <-] & Hsc & Hid).
  pose proof (reachable_step σ (PostGetHosts (Some sc) (Some id) now) Hreach) as Hreach1.
  simpl in Hreach1.
  destruct (flat_shape σ sc id now p Hreach Hp)
    as (school & Hlook & _ & _ & Htot & Hpos & _ & Hroles & _).
  destruct (flat_postGetHosts_Placed σ sc id now p (flat_reachable_storeOk σ Hreach) Hp)
    as (school0 & Hlook0 & _ & Hex & Heq).
  assert (school0 = school) as -> by congruence.
  set (σ1 := (postGetHosts σ (Some sc) (Some id) now).1) in *.
  destruct (flat_run_keeps_devices σ1 rs sc school Hlook Hrs)
    as (s' & Hlook' & [ext Hext]).
  pose proof (flat_run_reachable σ1 rs Hreach1) as Hreach2.
  set (σ2 := run σ1 rs) in *.
  assert (Exists (λ device, sameId id device = true) (devices s')) as Hex'.
  { rewrite Hext. apply Exists_app. by left. }
  pose proof (flat_postGetHosts_known σ2 sc id now' s' Hsc Hid Hlook' Hex') as Hsecond.
  eexists. split; [exact Hsecond|].
  destruct (flat_shape σ2 sc id now' _ Hreach2 (f_equal snd Hsecond))
    as (school2 & Hlook2 & _ & _ & _ & _ & _ & Hroles' & _).
  rewrite Hsecond in Hlook2. simpl in Hlook2.
  assert (school2 = s') as -> by congruence.
  assert (position (composeResponse sc id s') = position p) as Hsamepos.
  { subst p. simpl. unfold Js.findIndex. rewrite Hext.
    by rewrite findIndexFrom_app_present. }
  assert (flatDeviceIds s' = flatDeviceIds school ++ (deviceId <$> ext)) as Hdevs.
  { unfold flatDeviceIds. by rewrite Hext, fmap_app. }
  rewrite Hdevs, Hsamepos, rolesFromList_prefix in Hroles' by lia.
  rewrite <-Hroles in Hroles'.
  remember (composeResponse sc id s') as p' eqn:Hp'.
  rewrite Hsamepos. injection Hroles' as H1 H2 H3 H4. by rewrite H1, H2, H3, H4.
Qed.

End FlatStability.

(** ** The data file *)

Section PersistentLemmas.
Import Clustered ClusteredInv Persistent.
Implicit Types (s : Server) (e : Event) (r : Request) (w : WriteResult).

Lemma serve_memory s r w : memory (serve s r w).1 = (handle (memory s) r).1.
Proof.
  unfold serve. simpl. destruct (saves _); [|done]. by destruct w.
Qed.

Lemma serve_response s r w : (serve s r w).2 = (handle (memory s) r).2.
Proof. done. Qed.

Lemma serve_file_saved s r w :
  saves (handle (memory s) r).2 = true →
  file (serve s r Written).1 = Snapshot (schoolData (handle (memory s) r).1).
Proof. intros Hs. unfold serve. simpl. by rewrite Hs. Qed.

Lemma serve_file_kept s r w :
  saves (handle (memory s) r).2 = false → file (serve s r w).1 = file s.
Proof. intros Hs. unfold serve. simpl. by rewrite Hs. Qed.

(** The memory and what the file holds satisfy the store invariant. *)
Lemma step_storeOk s e :
  storeOk (memory s) →
  (∀ k school, loadData (file s) !! k = Some school → schoolOk k school) →
  storeOk (memory (step s e)) ∧
  (∀ k school, loadData (file (step s e)) !! k = Some school → schoolOk k school).
Proof.
  intros Hmem Hfile. destruct e as [r w|]; unfold step.
  - rewrite serve_memory. split; [by apply handle_storeOk|].
    unfold serve. simpl. destruct (saves _); [|done].
    destruct w; simpl; [|done..].
    intros k school. apply (handle_storeOk _ r Hmem).
  - by split.
Qed.

Lemma step_upToDate s e :
  storeOk (memory s) →
  match e with Serve _ w => w = Written | Restart => True end →
  upToDate s → upToDate (step s e).
Proof.
  intros Hok Hw Hup. destruct e as [r w|]; unfold step.
  - subst w. intros k. rewrite serve_memory.
    pose proof (clustered_failure_effect (memory s) r Hok) as Heff.
    destruct (saves (handle (memory s) r).2) eqn:Hsaves.
    { rewrite (serve_file_saved s r Written Hsaves). by left. }
    rewrite (serve_file_kept s r Written Hsaves).
    destruct (handle (memory s) r) as [σ' resp]. simpl in *.
    destruct resp; try done; try (rewrite Heff; apply Hup).
    destruct Heff as [Hkeep Hnew]. destruct (Hup k) as [Heq|[Hnone Hsome]].
    + destruct (schoolData (memory s) !! k) as [school|] eqn:Hk.
      * left. rewrite Heq. symmetry. by apply Hkeep.
      * destruct (schoolData σ' !! k) as [school|] eqn:Hk'; [|by left].
        destruct (Hnew _ _ Hk') as [?|[_ ->]]; [congruence|]. by right.
    + right. split; [done|]. by apply Hkeep.
  - intros k. by left.
Qed.

Lemma runEvents_invariants (es : list Event) s :
  storeOk (memory s) →
  (∀ k school, loadData (file s) !! k = Some school → schoolOk k school) →
  upToDate s → writesSucceed es →
  storeOk (memory (runEvents s es)) ∧ upToDate (runEvents s es).
Proof.
  intros Hmem Hfile Hup Hes. revert s Hmem Hfile Hup.
  induction Hes as [|e es He _ IH]; intros s Hmem Hfile Hup; simpl; [done|].
  destruct (step_storeOk s e Hmem Hfile) as [Hmem' Hfile'].
  apply IH; [done..|]. by apply step_upToDate.
Qed.

Lemma fresh_invariants (es : list Event) :
  writesSucceed es →
  storeOk (memory (runEvents (startServer NoFile) es)) ∧
  upToDate (runEvents (startServer NoFile) es).
Proof.
  apply runEvents_invariants; try done. intros k. by left.
Qed.

Lemma served_when_intact σ sc id u now :
  storeOk σ → sc ≠ "" → id ≠ "" →
  Js.prototypeGet [] sc = None →
  protoLastClusterNumber σ = false →
  ∃ p, (postGetHosts σ (Some sc) (Some id) u now).2 = Placed p.
Proof.
  intros Hok Hsc Hid Hproto Hflag.
  destruct (postGetHosts_outcome σ sc id u now Hok Hsc Hid)
    as [i Hget Hi|Hserv Hlacks Hinh| | |]; try by eexists.
  - apply getSchool_FromPrototype_inv in Hget as [_ Hget].
    rewrite (prototypeGet_intact _ _ Hflag) in Hget. congruence.
  - by rewrite inheritedKeys_intact in Hinh.
Qed.

Lemma known_response σ1 σ2 sc id u1 now1 u2 now2 school :
  sc ≠ "" → id ≠ "" →
  schoolData σ1 !! sc = Some school →
  schoolData σ2 !! sc = Some school →
  knows id school = true →
  (postGetHosts σ1 (Some sc) (Some id) u1 now1).2
  = (postGetHosts σ2 (Some sc) (Some id) u2 now2).2 ∧
  ∃ p, (postGetHosts σ1 (Some sc) (Some id) u1 now1).2 = Placed p.
Proof.
  intros Hsc Hid Hlook1 Hlook2 Hknows.
  destruct (findExisting id (clusters school)) as [[name c]|] eqn:Hex.
  - apply findExisting_Some in Hex as (pre & post & Hsplit & Hc & Hpre).
    rewrite (postGetHosts_known σ1 sc id u1 now1 school pre name c post) by done.
    rewrite (postGetHosts_known σ2 sc id u2 now2 school pre name c post) by done.
    split; [done | by eexists].
  - apply findExisting_None, knows_false in Hex. congruence.
Qed.

End PersistentLemmas.

Section FlatPersistentLemmas.
Import Flat FlatInv FlatPersistent.
Implicit Types (s : Server) (e : Event) (r : Request) (w : WriteResult).

Lemma flat_step_inSync s e :
  match e with Serve _ w => w = Written | Restart => True end →
  loadData (file s) = schoolData (memory s) →
  loadData (file (step s e)) = schoolData (memory (step s e)).
Proof.
  intros Hw Hsync. destruct e as [r w|]; unfold step; [|done].
  subst w. unfold serve.
  pose proof (flat_failure_effect (memory s) r) as Heff.
  destruct (handle (memory s) r) as [σ' resp]. simpl in *.
  destruct resp; simpl; try done; by rewrite Heff.
Qed.

Lemma flat_runEvents_inSync (es : list Event) s :
  writesSucceed es →
  loadData (file s) = schoolData (memory s) →
  loadData (file (runEvents s es)) = schoolData (memory (runEvents s es)).
Proof.
  intros Hes. revert s. induction Hes as [|e es He _ IH]; intros s Hsync; simpl; [done|].
  apply IH. by apply flat_step_inSync.
Qed.

Lemma flat_restart_identity (es : list Event) :
  writesSucceed es →
  memory (step (runEvents (startServer NoFile) es) Restart)
  = memory (runEvents (startServer NoFile) es).
Proof.
  intros Hes. simpl. rewrite (flat_runEvents_inSync es (startServer NoFile) Hes eq_refl).
  by destruct (memory _).
Qed.

End FlatPersistentLemmas.

Section PersistentInvariants.
Import Clustered ClusteredInv Persistent.
Implicit Types (s : Server) (e : Event) (r : Request) (w : WriteResult).

(** The invariants of the memory hold of what the file holds too, and
    both survive every event, whatever the writes do. *)
Lemma step_wellFormed s e :
  storeOk (memory s) → storeListingOk (memory s) →
  (∀ k school, loadData (file s) !! k = Some school →
               schoolOk k school ∧ listingOk school) →
  storeOk (memory (step s e)) ∧ storeListingOk (memory (step s e)) ∧
  (∀ k school, loadData (file (step s e)) !! k = Some school →
               schoolOk k school ∧ listingOk school).
Proof.
  intros Hok Hl Hfile. destruct e as [r w|]; unfold step.
  - rewrite serve_memory.
    pose proof (handle_storeOk _ r Hok) as Hok'.
    pose proof (handle_listingOk _ r Hok Hl) as Hl'.
    split_and!; [done..|].
    unfold serve. simpl. destruct (saves _); [|done].
    destruct w; simpl; [|done..].
    intros k school Hk. split; [by apply Hok' | by eapply Hl'].
  - split_and!; [| |done].
    + intros k school Hk. by apply Hfile.
    + intros k school Hk. by apply (Hfile k).
Qed.

Lemma runEvents_wellFormed (es : list Event) s :
  storeOk (memory s) → storeListingOk (memory s) →
  (∀ k school, loadData (file s) !! k = Some school →
               schoolOk k school ∧ listingOk school) →
  storeOk (memory (runEvents s es)) ∧ storeListingOk (memory (runEvents s es)).
Proof.
  revert s. induction es as [|e es IH]; intros s Hok Hl Hfile; simpl; [done|].
  destruct (step_wellFormed s e Hok Hl Hfile) as (Hok' & Hl' & Hfile').
  by apply IH.
Qed.

End PersistentInvariants.

Section FlatPersistentInvariants.
Import Flat FlatInv FlatPersistent.
Implicit Types (s : Server) (e : Event) (r : Request) (w : WriteResult).

Lemma flat_step_wellFormed s e :
  (∀ k school, schoolData (memory s) !! k = Some school →
               schoolOk school ∧ NoDup (flatDeviceIds school)) →
  (∀ k school, loadData (file s) !! k = Some school →
               schoolOk school ∧ NoDup (flatDeviceIds school)) →
  (∀ k school, schoolData (memory (step s e)) !! k = Some school →
               schoolOk school ∧ NoDup (flatDeviceIds school)) ∧
  (∀ k school, loadData (file (step s e)) !! k = Some school →
               schoolOk school ∧ NoDup (flatDeviceIds school)).
Proof.
  intros Hmem Hfile. destruct e as [r w|]; unfold step; [|done].
  assert (∀ k school, schoolData (handle (memory s) r).1 !! k = Some school →
                      schoolOk school ∧ NoDup (flatDeviceIds school)) as Hmem'.
  { intros k school Hk. split.
    - apply (flat_handle_storeOk (memory s) r (λ k0 x Hx, proj1 (Hmem k0 x Hx)) k school Hk).
    - apply (flat_handle_NoDup (memory s) r (λ k0 x Hx, proj2 (Hmem k0 x Hx)) k school Hk). }
  unfold serve. simpl. destruct (saves _); [|done].
  by destruct w.
Qed.

Lemma flat_runEvents_wellFormed (es : list Event) s :
  (∀ k school, schoolData (memory s) !! k = Some school →
               schoolOk school ∧ NoDup (flatDeviceIds school)) →
  (∀ k school, loadData (file s) !! k = Some school →
               schoolOk school ∧ NoDup (flatDeviceIds school)) →
  ∀ k school, schoolData (memory (runEvents s es)) !! k = Some school →
              schoolOk school ∧ NoDup (flatDeviceIds school).
Proof.
  revert s. induction es as [|e es IH]; intros s Hmem Hfile; simpl; [done|].
  destruct (flat_step_wellFormed s e Hmem Hfile) as [Hmem' Hfile'].
  by apply IH.
Qed.

End FlatPersistentInvariants.

(** ** Filling order *)

Section FillOrder.
Import Clustered ClusteredInv.
Implicit Types (σ : Store) (s school : School) (c : Cluster)
  (cs pre post : list (string * Cluster)) (id sc : string).

Lemma compact_new : compact newSchool.
Proof. split; [done|]. intros i e Hi. simpl in Hi. by rewrite lookup_nil in Hi. Qed.

Lemma countDevices_tens cs :
  Forall (λ e, length (devices e.2) = 10) cs →
  countDevices cs = (10 * Z.of_nat (length cs))%Z.
Proof.
  induction 1 as [|[name c] cs Hc _ IH]; [done|].
  rewrite countDevices_cons, IH. simpl in *. lia.
Qed.

(** In a compact school the clusters before a cluster with room are
    exactly full and nothing follows it. *)
Lemma compact_room s pre name c post :
  compact s →
  clusters s = pre ++ (name, c) :: post →
  length (devices c) < MAX_DEVICES_PER_CLUSTER →
  post = [] ∧
  Forall (λ e, length (devices e.2) = 10) pre ∧
  clusterNumber c = N.of_nat (S (length pre)) ∧
  1 ≤ length (devices c).
Proof.
  intros [Hlast Hall] Hsplit Hlen. unfold MAX_DEVICES_PER_CLUSTER in Hlen.
  assert (clusters s !! length pre = Some (name, c)) as Hc.
  { rewrite Hsplit. by apply list_lookup_middle. }
  destruct (Hall _ _ Hc) as (Hnum & Hpos & Hfull). simpl in *.
  split_and!; [|  |done..].
  - destruct post as [|e post]; [done|]. exfalso.
    rewrite Hsplit, length_app in Hfull. simpl in Hfull. lia.
  - apply Forall_lookup. intros i e Hi.
    assert (clusters s !! i = Some e) as Hi'.
    { rewrite Hsplit. by apply lookup_app_l_Some. }
    destruct (Hall _ _ Hi') as (_ & _ & Hten). apply Hten.
    apply lookup_lt_Some in Hi. rewrite Hsplit, length_app. simpl. lia.
Qed.

Lemma compact_full sc s :
  schoolOk sc s → compact s → Forall full (clusters s) →
  Forall (λ e, length (devices e.2) = 10) (clusters s).
Proof.
  intros (_ & Hcs & _) _ Hfull. rewrite Forall_forall in *.
  intros e He. destruct (Hcs e He) as (_ & _ & Hle & _). specialize (Hfull e He).
  unfold full, MAX_DEVICES_PER_CLUSTER in *. lia.
Qed.

Lemma compact_add s pre name c id now :
  compact s →
  clusters s = pre ++ [(name, c)] →
  compact {| clusters := pre ++ [(name, addDevice id now c)];
             totalDevices := (totalDevices s + 1)%Z;
             lastClusterNumber := lastClusterNumber s |}.
Proof.
  intros [Hlast Hall] Hsplit. split; simpl.
  - rewrite Hlast, Hsplit, !length_app. done.
  - intros i e Hi. rewrite length_app. simpl.
    destruct (decide (i < length pre)) as [Hlt|Hge].
    + rewrite lookup_app_l in Hi by done.
      assert (clusters s !! i = Some e) as Hi'.
      { rewrite Hsplit. by apply lookup_app_l_Some. }
      destruct (Hall _ _ Hi') as (Hnum & Hpos & Hten).
      rewrite Hsplit, length_app in Hten. simpl in Hten. done.
    + rewrite lookup_app_r in Hi by lia.
      destruct (i - length pre) as [|k] eqn:Hk; [|by destruct k].
      simpl in Hi. injection Hi as <-. simpl.
      assert (i = length pre) as -> by lia.
      assert (clusters s !! length pre = Some (name, c)) as Hc.
      { rewrite Hsplit. by apply list_lookup_middle. }
      destruct (Hall _ _ Hc) as (Hnum & Hpos & _). simpl in *.
      rewrite length_app. simpl. split_and!; [done|lia|lia].
Qed.

Lemma compact_new_cluster s name c :
  compact s →
  Forall (λ e, length (devices e.2) = 10) (clusters s) →
  clusterNumber c = (lastClusterNumber s + 1)%N →
  length (devices c) = 1 →
  compact {| clusters := clusters s ++ [(name, c)];
             totalDevices := (totalDevices s + 1)%Z;
             lastClusterNumber := (lastClusterNumber s + 1)%N |}.
Proof.
  intros [Hlast Hall] Hfull Hnum Hone. split; simpl.
  - rewrite Hlast, length_app. simpl. lia.
  - intros i e Hi. rewrite length_app. simpl.
    destruct (decide (i < length (clusters s))) as [Hlt|Hge].
    + rewrite lookup_app_l in Hi by done.
      destruct (Hall _ _ Hi) as (Hn & Hpos & _).
      split_and!; [done..|]. intros _.
      rewrite Forall_forall in Hfull. apply Hfull. by eapply list_elem_of_lookup_2.
    + rewrite lookup_app_r in Hi by lia.
      destruct (i - length (clusters s)) as [|k] eqn:Hk; [|by destruct k].
      simpl in Hi. injection Hi as <-. simpl.
      assert (i = length (clusters s)) as -> by lia.
      rewrite Hnum, Hlast, Hone. split_and!; [lia|lia|lia].
Qed.

Lemma storeCompact_putSchool σ sc s :
  storeCompact σ → compact s → storeCompact (putSchool σ sc s).
Proof.
  intros Hok Hs sc' s'. simpl. rewrite lookup_insert. case_decide.
  - by intros [= <-].
  - apply Hok.
Qed.

Lemma schoolOrNew_compact σ sc : storeCompact σ → compact (schoolOrNew σ sc).
Proof.
  intros Hc. unfold schoolOrNew.
  destruct (schoolData σ !! sc) as [s|] eqn:Hlook; simpl;
    [by eapply Hc | apply compact_new].
Qed.

Lemma PostOutcome_compact σ sc id u now σ' r :
  storeOk σ → storeCompact σ → PostOutcome σ sc id u now σ' r → storeCompact σ'.
Proof.
  intros Hok Hc Hout. destruct Hout as
    [i Hget Hi
    |Hserv Hlacks Hinh
    |school pre name c post Hlook Hsplit Hpre Hc'
    |school pre name c post Hlook Hsplit Hlacks Hinh Hfull Hlen
    |school n name c Hserv Hschool Hlacks Hinh Hfull Hn Hname Hc'].
  - done.
  - unfold initSchool. destruct (Js.truthy _); [done|].
    apply storeCompact_putSchool; [done | apply compact_new].
  - done.
  - apply storeCompact_putSchool; [done|].
    destruct (compact_room school pre name c post (Hc _ _ Hlook) Hsplit Hlen)
      as (-> & _).
    by apply compact_add; [eapply Hc|].
  - apply storeCompact_putSchool; [done|].
    pose proof (schoolOrNew_compact σ sc Hc) as Hs. rewrite <-Hschool in Hs.
    pose proof (schoolOrNew_ok σ sc Hok) as Hsok. rewrite <-Hschool in Hsok.
    subst n. apply compact_new_cluster; [done| |by subst c..].
    by eapply compact_full.
Qed.

Lemma handle_compact σ r :
  storeOk σ → storeCompact σ →
  (∀ sc number, r ≠ DeleteCluster sc number) →
  storeCompact (handle σ r).1.
Proof.
  intros Hok Hc Hr.
  destruct r as [schoolCode deviceId u now|sc'|sc' number|sc'|sc' number|now];
    simpl; try done.
  - destruct (postGetHosts_validation σ schoolCode deviceId u now)
      as [[-> _]|(sc & d & -> & -> & Hsc & Hd)]; [done|].
    eapply PostOutcome_compact; [done..|]. by apply postGetHosts_outcome.
  - unfold deleteSchool. destruct (Js.truthy _); [|done].
    intros k s. simpl. rewrite lookup_delete. case_decide; [done | apply Hc].
  - by destruct (Hr sc' number).
Qed.

Lemma run_compact σ rs :
  reachable σ → storeCompact σ →
  Forall (λ r, ∀ sc number, r ≠ DeleteCluster sc number) rs →
  storeCompact (run σ rs).
Proof.
  intros Hreach Hc Hrs. revert σ Hreach Hc.
  induction Hrs as [|r rs Hr _ IH]; intros σ Hreach Hc; simpl; [done|].
  apply IH; [by constructor|].
  apply handle_compact; [by apply reachable_storeOk | done..].
Qed.

Lemma PostOutcome_fill σ sc id u now σ' p :
  storeOk σ → compact (schoolOrNew σ sc) →
  knows id (schoolOrNew σ sc) = false →
  PostOutcome σ sc id u now σ' (Placed p) →
  (0 ≤ totalDevices (schoolOrNew σ sc))%Z ∧
  totalDevicesInSchool p = (totalDevices (schoolOrNew σ sc) + 1)%Z ∧
  Z.of_N (p_clusterNumber p) = (totalDevices (schoolOrNew σ sc) `div` 10 + 1)%Z ∧
  positionInCluster p = (totalDevices (schoolOrNew σ sc) `mod` 10 + 1)%Z.
Proof.
  intros Hok Hcompact Hknows Hout.
  pose proof (schoolOrNew_ok σ sc Hok) as Hsok.
  inversion Hout as
    [|
    |school pre name c post Hlook Hsplit Hpre Hc Hst
    |school pre name c post Hlook Hsplit Hlacks Hinh Hfull Hlen Hst
    |school n name c Hserv Hschool Hlacks Hinh Hfull Hn Hname Hc Hst]; subst.
  - unfold schoolOrNew in Hknows. rewrite Hlook in Hknows. simpl in Hknows.
    by rewrite (knows_true_split _ _ _ _ _ _ Hsplit Hc) in Hknows.
  - assert (schoolOrNew σ sc = school) as Hs
      by (unfold schoolOrNew; by rewrite Hlook).
    rewrite Hs in *.
    destruct (compact_room school pre name c post Hcompact Hsplit Hlen)
      as (-> & Hten & Hnum & Hpos).
    destruct Hsok as (_ & _ & Htot).
    rewrite Hsplit, countDevices_app, (countDevices_tens pre Hten),
      countDevices_cons in Htot. simpl in Htot.
    unfold MAX_DEVICES_PER_CLUSTER in Hlen.
    rewrite position_addDevice.
    2:{ rewrite Hsplit in Hlacks.
        by apply Forall_app in Hlacks as [_ [? _]%Forall_cons]. }
    simpl. rewrite length_app. simpl.
    rewrite <-(Z.div_unique (totalDevices school) 10 (Z.of_nat (length pre))
               (Z.of_nat (length (devices c)))) by lia.
    rewrite <-(Z.mod_unique (totalDevices school) 10 (Z.of_nat (length pre))
               (Z.of_nat (length (devices c)))) by lia.
    split_and!; lia.
  - set (school := schoolOrNew σ sc) in *.
    pose proof (compact_full sc school Hsok Hcompact Hfull) as Hten.
    destruct Hsok as (_ & _ & Htot). destruct Hcompact as [Hlast _].
    rewrite (countDevices_tens _ Hten) in Htot.
    rewrite position_addDevice by done. simpl.
    rewrite <-(Z.div_unique (totalDevices school) 10
               (Z.of_nat (length (clusters school))) 0) by lia.
    rewrite <-(Z.mod_unique (totalDevices school) 10
               (Z.of_nat (length (clusters school))) 0) by lia.
    split_and!; lia.
Qed.

End FillOrder.

(** ** A placement, then a query *)

Section PlacementThenQuery.
Import Clustered ClusteredInv.
Implicit Types (σ : Store) (s school : School) (c : Cluster)
  (cs pre post : list (string * Cluster)) (id sc : string).

Lemma placed_cluster_query σ sc id u now p :
  reachable σ →
  (postGetHosts σ (Some sc) (Some id) u now).2 = Placed p →
  ∃ info,
    getClusterInfo (postGetHosts σ (Some sc) (Some id) u now).1 sc
      (pretty (p_clusterNumber p)) = ClusterFound info ∧
    (ci_schoolCode info, ci_clusterName info, ci_clusterNumber info, ci_frequency info)
    = (p_schoolCode p, p_clusterName p, p_clusterNumber p, p_frequency p) ∧
    ci_totalDevices info = totalDevicesInCluster p ∧
    deviceId <$> ci_devices info = clusterDevices p ∧
    clusterHosts p = {| host1 := ci_hosts info !! 0;
                        host2 := ci_hosts info !! 1;
                        host3 := ci_hosts info !! 2 |}.
Proof.
  intros Hreach Hp. pose proof (reachable_storeOk σ Hreach) as Hok.
  destruct (postGetHosts_Placed_valid _ _ _ _ _ _ Hp)
    as (sc' & d & [= <-] & [= <-] & Hsc & Hid).
  destruct (postGetHosts_Placed σ sc id u now p Hok Hsc Hid Hp)
    as (school & pre & name & c & post & Hlook & Hsok & Hsplit & Hpre & Hc & Hget & ->).
  assert ((name, c) ∈ clusters school) as Hin.
  { rewrite Hsplit. apply elem_of_app. right. apply list_elem_of_here. }
  destruct Hsok as (_ & Hcs & _). rewrite Forall_forall in Hcs.
  pose proof (Hcs _ Hin) as Hcok.
  pose proof (clusterOk_hosts_nonempty _ _ _ Hcok) as Hne.
  destruct Hcok as (Hname & _). simpl in *.
  rewrite (getClusterInfo_cases _ sc _ school Hlook), <-Hname, Hget.
  eexists. split; [done|]. simpl. rewrite <-Hname.
  split_and!; try done. by rewrite !orNull_lookup.
Qed.

Lemma placed_school_query σ sc id u now p :
  reachable σ →
  (postGetHosts σ (Some sc) (Some id) u now).2 = Placed p →
  protoLastClusterNumber (postGetHosts σ (Some sc) (Some id) u now).1 = false →
  ∃ i summary,
    getSchoolInfo (postGetHosts σ (Some sc) (Some id) u now).1 sc = SchoolFound i ∧
    si_totalDevices i = totalDevicesInSchool p ∧
    (p_clusterName p, summary) ∈ si_clusters i ∧
    cs_clusterNumber summary = p_clusterNumber p ∧
    cs_totalDevices summary = totalDevicesInCluster p ∧
    cs_devices summary = clusterDevices p ∧
    cs_frequency summary = p_frequency p.
Proof.
  intros Hreach Hp Hflag. pose proof (reachable_storeOk σ Hreach) as Hok.
  destruct (postGetHosts_Placed_valid _ _ _ _ _ _ Hp)
    as (sc' & d & [= <-] & [= <-] & Hsc & Hid).
  destruct (postGetHosts_Placed σ sc id u now p Hok Hsc Hid Hp)
    as (school & pre & name & c & post & Hlook & Hsok & Hsplit & Hpre & Hc & Hget & ->).
  assert ((name, c) ∈ clusters school) as Hin.
  { rewrite Hsplit. apply elem_of_app. right. apply list_elem_of_here. }
  unfold getSchoolInfo. rewrite (getSchool_own _ _ _ Hlook).
  rewrite (inheritedKeys_intact _ school Hflag).
  eexists _, (summarize c). split; [done|]. simpl. split_and!; try done.
  apply list_elem_of_fmap. by exists (name, c).
Qed.

End PlacementThenQuery.

Section FlatPlacementThenQuery.
Import Flat FlatInv.
Implicit Types (σ : Store) (school : School) (id sc : string).

Lemma flat_placed_school_query σ sc id now p :
  reachable σ →
  (postGetHosts σ (Some sc) (Some id) now).2 = Placed p →
  ∃ i,
    getSchoolInfo (postGetHosts σ (Some sc) (Some id) now).1 sc = SchoolFound i ∧
    si_totalDevices i = totalDevices p ∧
    (deviceId <$> si_devices i) !! Z.to_nat (position p - 1) = Some id ∧
    p_hosts p = {| host1 := si_hosts i !! 0;
                   host2 := si_hosts i !! 1;
                   host3 := si_hosts i !! 2 |}.
Proof.
  intros Hreach Hp.
  destruct (flat_shape σ sc id now p Hreach Hp)
    as (school & Hlook & _ & _ & Htot & _ & Hat & _ & Hhosts).
  destruct (flat_reachable_storeOk _
              (reachable_step σ (PostGetHosts (Some sc) (Some id) now) Hreach)
              _ _ Hlook) as [Hprefix _].
  unfold getSchoolInfo. rewrite (flat_getSchool_own _ _ _ Hlook).
  eexists. split; [done|]. simpl. unfold flatDeviceIds in *.
  rewrite length_fmap in Htot. split_and!; try done.
  rewrite Hhosts, Hprefix, fmap_take. by rewrite !lookup_take_lt by lia.
Qed.

End FlatPlacementThenQuery.

(** ** Schools do not interfere *)

Section Locality.
Import Clustered ClusteredInv.
Implicit Types (σ : Store) (s school : School) (c : Cluster)
  (cs pre post : list (string * Cluster)) (id sc : string).

Lemma findOrCreateIn_local σ1 σ2 sc id school u now :
  agreeOn sc σ1 σ2 →
  (findOrCreateIn σ1 sc id school u now).2 = (findOrCreateIn σ2 sc id school u now).2 ∧
  agreeOn sc (findOrCreateIn σ1 sc id school u now).1
             (findOrCreateIn σ2 sc id school u now).1.
Proof.
  intros [Hentry Hflag]. unfold agreeOn, findOrCreateIn, inheritedKeys, prototypeExtras.
  rewrite Hflag.
  destruct (findExisting id (clusters school)) as [[name c]|]; [by auto|].
  destruct (filter _ _); [|by auto].
  destruct (findSpace (clusters school)) as [[name c]|]; [by auto|].
  simpl. by rewrite !lookup_insert_eq.
Qed.

Lemma afterFind_local σ1 σ2 sc id now (f : Js.Completion Found) :
  agreeOn sc σ1 σ2 →
  (afterFind sc id now (σ1, f)).2 = (afterFind sc id now (σ2, f)).2 ∧
  agreeOn sc (afterFind sc id now (σ1, f)).1 (afterFind sc id now (σ2, f)).1.
Proof.
  intros [Hentry Hflag]. unfold agreeOn, afterFind. destruct f as [f|]; [|done].
  rewrite Hentry. destruct (schoolData σ2 !! sc) as [school|] eqn:Hlook;
    [|simpl; split_and!; congruence].
  destruct (isExisting f); simpl; [split_and!; congruence|].
  by rewrite !lookup_insert_eq.
Qed.

Lemma findOrCreateCluster_local σ1 σ2 sc id u now :
  agreeOn sc σ1 σ2 →
  (findOrCreateCluster σ1 sc id u now).2 = (findOrCreateCluster σ2 sc id u now).2 ∧
  agreeOn sc (findOrCreateCluster σ1 sc id u now).1
             (findOrCreateCluster σ2 sc id u now).1.
Proof.
  intros [Hentry Hflag].
  unfold findOrCreateCluster, initSchool, getSchool, prototypeExtras.
  rewrite Hflag, Hentry.
  destruct (schoolData σ2 !! sc) as [school|] eqn:Hlook2; simpl.
  - rewrite Hentry, Hlook2. simpl. apply findOrCreateIn_local. split; congruence.
  - destruct (Js.prototypeGet _ sc) as [[| |]|] eqn:Hproto; simpl;
      rewrite ?Hentry, ?Hlook2, ?lookup_insert_eq, ?Hflag; simpl; rewrite ?Hproto;
      try (unfold agreeOn; simpl; split_and!; congruence);
      (apply findOrCreateIn_local; split; [|done]; simpl; by rewrite !lookup_insert_eq).
Qed.

Lemma postGetHosts_local σ1 σ2 (schoolCode deviceId : option string) u now sc :
  schoolCode = Some sc → agreeOn sc σ1 σ2 →
  (postGetHosts σ1 schoolCode deviceId u now).2
  = (postGetHosts σ2 schoolCode deviceId u now).2 ∧
  agreeOn sc (postGetHosts σ1 schoolCode deviceId u now).1
             (postGetHosts σ2 schoolCode deviceId u now).1.
Proof.
  intros -> Hagree. unfold postGetHosts.
  destruct (negb (Js.truthyField (Some sc)) || negb (Js.truthyField deviceId)); [done|].
  simpl.
  destruct (findOrCreateCluster_local σ1 σ2 sc (default "" deviceId) u now Hagree)
    as [Hresp Hagree'].
  destruct (findOrCreateCluster σ1 sc (default "" deviceId) u now) as [σ1' f1].
  destruct (findOrCreateCluster σ2 sc (default "" deviceId) u now) as [σ2' f2].
  simpl in *. subst f2. by apply afterFind_local.
Qed.

(** A request for [sc] reads the entry under [sc] and the prototype, and
    nothing else. *)
Lemma handle_local σ1 σ2 r sc :
  target r = Some sc → agreeOn sc σ1 σ2 →
  (handle σ1 r).2 = (handle σ2 r).2 ∧ agreeOn sc (handle σ1 r).1 (handle σ2 r).1.
Proof.
  intros Htarget Hagree.
  destruct r as [schoolCode deviceId u now|sc'|sc' number|sc'|sc' number|now];
    simpl in *; simplify_eq.
  - by apply postGetHosts_local.
  - split; [|done]. destruct Hagree as [Hentry Hflag].
    unfold getSchoolInfo, getSchool, inheritedKeys, prototypeExtras.
    by rewrite Hentry, Hflag.
  - split; [|done]. destruct Hagree as [Hentry Hflag].
    unfold getClusterInfo, getSchool, getCluster, prototypeExtras.
    by rewrite Hentry, Hflag.
  - destruct Hagree as [Hentry Hflag].
    unfold agreeOn, deleteSchool, getSchool, prototypeExtras. rewrite Hentry, Hflag.
    destruct (Js.truthy _); simpl; [|done]. by rewrite !lookup_delete_eq.
  - destruct Hagree as [Hentry Hflag].
    unfold agreeOn, deleteCluster, getSchool, getCluster, prototypeExtras.
    rewrite Hentry, Hflag.
    destruct (Js.get _ (schoolData σ2 !! sc) sc) as [school|i|]; simpl; [|done..].
    destruct (Js.get _ (Js.objGet _ (clusters school)) _) as [c|i|]; simpl; [|done..].
    by rewrite !lookup_insert_eq.
Qed.

(** A request that names neither [sc] nor the key [__proto__] changes
    nothing a request for [sc] can read. *)
Lemma handle_elsewhere σ r sc :
  storeOk σ → target r ≠ Some sc → target r ≠ Some "__proto__" →
  agreeOn sc (handle σ r).1 σ.
Proof.
  intros Hok Hsc Hproto. split; [by apply clustered_frame_ok|].
  destruct (handle_flag σ r Hok) as [Hsame|[_ (id & u & now & -> & _)]]; done.
Qed.

Lemma answers_local σ1 σ2 sc rs :
  reachable σ1 → agreeOn sc σ1 σ2 →
  Forall (λ r, target r ≠ Some "__proto__") rs →
  clusteredAnswersTo sc σ1 rs
  = clusteredAnswersTo sc σ2 (filter (λ r, target r = Some sc) rs) ∧
  agreeOn sc (run σ1 rs) (run σ2 (filter (λ r, target r = Some sc) rs)).
Proof.
  intros Hreach Hagree Hrs. revert σ1 σ2 Hreach Hagree.
  induction Hrs as [|r rs Hr Hrs IH]; intros σ1 σ2 Hreach Hagree; [done|].
  rewrite filter_cons. simpl.
  destruct (decide (target r = Some sc)) as [Ht|Ht]; simpl.
  - rewrite decide_True by done.
    destruct (handle_local σ1 σ2 r sc Ht Hagree) as [-> Hagree'].
    destruct (IH (handle σ1 r).1 (handle σ2 r).1) as [-> Hfinal];
      [by constructor|done..].
  - apply IH; [by constructor|].
    destruct (handle_elsewhere σ1 r sc) as [Hentry Hflag];
      [by apply reachable_storeOk|done..|].
    destruct Hagree as [Hentry' Hflag']. split; congruence.
Qed.

End Locality.

Section FlatLocality.
Import Flat FlatInv.
Implicit Types (σ : Store) (school : School) (sc : string).

Lemma flat_handle_local σ1 σ2 r sc :
  target r = Some sc → schoolData σ1 !! sc = schoolData σ2 !! sc →
  (handle σ1 r).2 = (handle σ2 r).2 ∧
  schoolData (handle σ1 r).1 !! sc = schoolData (handle σ2 r).1 !! sc.
Proof.
  intros Htarget Hentry.
  destruct r as [schoolCode deviceId now|sc'|sc'|now|now]; simpl in *; simplify_eq.
  - unfold postGetHosts.
    destruct (negb (Js.truthyField (Some sc)) || negb (Js.truthyField deviceId));
      [done|].
    simpl. unfold initSchool, getSchool. rewrite Hentry.
    destruct (schoolData σ2 !! sc) as [school|] eqn:Hlook; simpl.
    + rewrite Hentry, Hlook. simpl.
      destruct (_ =? _)%Z; simpl; [by rewrite !lookup_insert_eq|].
      split; congruence.
    + destruct (Js.prototypeGet _ sc) as [[| |]|] eqn:Hproto; simpl;
        rewrite ?Hentry, ?Hlook, ?lookup_insert_eq; simpl; rewrite ?Hproto;
        try (simpl; split; congruence);
        by rewrite !lookup_insert_eq.
  - split; [|done]. unfold getSchoolInfo, getSchool. by rewrite Hentry.
  - unfold deleteSchool, getSchool. rewrite Hentry.
    destruct (Js.truthy _); simpl; [|done]. by rewrite !lookup_delete_eq.
Qed.

Lemma flat_answers_local σ1 σ2 sc rs :
  schoolData σ1 !! sc = schoolData σ2 !! sc →
  flatAnswersTo sc σ1 rs
  = flatAnswersTo sc σ2 (filter (λ r, target r = Some sc) rs) ∧
  schoolData (run σ1 rs) !! sc
  = schoolData (run σ2 (filter (λ r, target r = Some sc) rs)) !! sc.
Proof.
  revert σ1 σ2. induction rs as [|r rs IH]; intros σ1 σ2 Hentry; [done|].
  rewrite filter_cons. simpl.
  destruct (decide (target r = Some sc)) as [Ht|Ht]; simpl.
  - rewrite decide_True by done.
    destruct (flat_handle_local σ1 σ2 r sc Ht Hentry) as [-> Hentry'].
    by destruct (IH (handle σ1 r).1 (handle σ2 r).1 Hentry') as [-> Hfinal].
  - apply IH. by rewrite flat_frame.
Qed.

End FlatLocality.

(** ** Roles by arrival *)

Section Arrival.
Import Clustered ClusteredInv.
Implicit Types (σ : Store) (s school : School) (c : Cluster)
  (cs pre post : list (string * Cluster)) (id sc : string).

(** No school is stored under the empty school code. *)
Lemma clustered_stored_nonempty σ sc s :
  reachable σ → schoolData σ !! sc = Some s → sc ≠ "".
Proof.
  intros Hreach. revert sc s.
  induction Hreach as [|σ r Hreach IH]; intros sc s.
  { simpl. by rewrite lookup_empty. }
  pose proof (reachable_storeOk σ Hreach) as Hok.
  destruct r as [schoolCode deviceId u now|sc'|sc' number|sc'|sc' number|now];
    simpl; try by apply IH.
  - destruct (postGetHosts_validation σ schoolCode deviceId u now)
      as [[-> _]|(sc' & d & -> & -> & Hsc & Hd)]; [by apply IH|].
    destruct (postGetHosts_outcome σ sc' d u now Hok Hsc Hd); simpl;
      try (by apply IH).
    + unfold initSchool. destruct (Js.truthy _); [by apply IH|].
      simpl. rewrite lookup_insert. case_decide; [by subst|by apply IH].
    + rewrite lookup_insert. case_decide; [by subst|by apply IH].
    + rewrite lookup_insert. case_decide; [by subst|by apply IH].
  - unfold deleteSchool. destruct (Js.truthy _); [|by apply IH].
    simpl. intros [_ ?]%lookup_delete_Some. by eapply IH.
  - destruct (deleteCluster_cases σ sc' number)
      as [(school & pre & c & post & Hlook & _ & _ & _ & ->)|[-> _]]; [|by apply IH].
    simpl. rewrite lookup_insert. case_decide; [|by apply IH].
    subst. intros _. by eapply IH.
Qed.

(** A device the school does not list is added at the end of the list
    of the cluster it is placed in. *)
Lemma PostOutcome_snoc σ sc id u now σ' p :
  storeOk σ →
  knows id (schoolOrNew σ sc) = false →
  PostOutcome σ sc id u now σ' (Placed p) →
  clusterDevices p = (deviceId <$> deviceList σ sc (p_clusterName p)) ++ [id].
Proof.
  intros Hok Hknows Hout.
  inversion Hout as
    [|
    |school pre name c post Hlook Hsplit Hpre Hc Hst
    |school pre name c post Hlook Hsplit Hlacks Hinh Hfull Hlen Hst
    |school n name c Hserv Hschool Hlacks Hinh Hfull Hn Hname Hc Hst]; subst.
  - unfold schoolOrNew in Hknows. rewrite Hlook in Hknows. simpl in Hknows.
    by rewrite (knows_true_split _ _ _ _ _ _ Hsplit Hc) in Hknows.
  - simpl. unfold deviceList, schoolOrNew. rewrite Hlook. simpl. rewrite Hsplit.
    destruct (Hok _ _ Hlook) as (Hnd & _). rewrite Hsplit in Hnd.
    rewrite objGet_app_fresh by by eapply NoDup_split_fresh.
    by rewrite fmap_app.
  - simpl. unfold deviceList.
    destruct (schoolOrNew_ok σ sc Hok) as (_ & Hcs & _).
    rewrite (proj2 (objGet_None _ _)); [done|].
    apply (fresh_name sc (lastClusterNumber (schoolOrNew σ sc))); [done|lia].
Qed.

Lemma clustered_new_index σ sc id u now p :
  reachable σ →
  knows id (schoolOrNew σ sc) = false →
  (postGetHosts σ (Some sc) (Some id) u now).2 = Placed p →
  clusterDevices p = (deviceId <$> deviceList σ sc (p_clusterName p)) ++ [id] ∧
  positionInCluster p
  = (Z.of_nat (length (deviceList σ sc (p_clusterName p))) + 1)%Z ∧
  (role p, hostDeviceId p, host2DeviceId p, host3DeviceId p)
  = roleTable (length (deviceList σ sc (p_clusterName p))) id
      (take 3 (clusterDevices p)).
Proof.
  intros Hreach Hknows Hp. pose proof (reachable_storeOk σ Hreach) as Hok.
  destruct (postGetHosts_Placed_valid _ _ _ _ _ _ Hp)
    as (sc' & d & [= <-] & [= <-] & Hsc & Hid).
  pose proof (postGetHosts_outcome σ sc id u now Hok Hsc Hid) as Hout.
  rewrite Hp in Hout.
  pose proof (PostOutcome_snoc _ _ _ _ _ _ _ Hok Hknows Hout) as Hsnoc.
  pose proof (clustered_appended σ sc id u now p Hreach Hknows Hp) as Hlast.
  destruct (clustered_shape σ sc id u now p Hreach Hp)
    as (_ & _ & _ & _ & _ & _ & _ & _ & Hlen & _ & _ & Hroles & _).
  assert (totalDevicesInCluster p = length (deviceList σ sc (p_clusterName p)) + 1)
    as Htotal.
  { rewrite <-Hlen, Hsnoc, length_app, length_fmap. simpl. lia. }
  split; [done|]. split; [lia|].
  rewrite Hroles, Hlast, Htotal.
  rewrite roleTable_fromList.
  - f_equal. lia.
  - rewrite Hsnoc at 1. rewrite lookup_app_r by by rewrite length_fmap.
    by rewrite length_fmap, Nat.sub_diag.
Qed.

(** A listed device is answered from the cluster that lists it, at the
    index it has there. *)
Lemma clustered_repeat σ sc id u now school name c i :
  reachable σ →
  schoolData σ !! sc = Some school →
  (name, c) ∈ clusters school →
  (deviceId <$> devices c) !! i = Some id →
  ∃ p,
    postGetHosts σ (Some sc) (Some id) u now = (σ, Placed p) ∧
    p_clusterName p = name ∧
    clusterDevices p = deviceId <$> devices c ∧
    positionInCluster p = (Z.of_nat i + 1)%Z ∧
    (role p, hostDeviceId p, host2DeviceId p, host3DeviceId p)
    = roleTable i id (take 3 (deviceId <$> devices c)).
Proof.
  intros Hreach Hlook Hin Hi. pose proof (reachable_storeOk σ Hreach) as Hok.
  pose proof (clustered_stored_nonempty σ sc school Hreach Hlook) as Hsc.
  destruct (Hok _ _ Hlook) as (_ & Hcs & _). rewrite Forall_forall in Hcs.
  destruct (Hcs _ Hin) as (_ & _ & _ & Hhosts & _ & Hids). simpl in *.
  assert (id ≠ "") as Hid.
  { apply list_lookup_fmap_Some in Hi as (device & -> & Hdev).
    rewrite Forall_forall in Hids. apply Hids. by eapply list_elem_of_lookup_2. }
  assert (hasDevice id c = true) as Hhas.
  { apply hasDevice_true, Exists_exists.
    apply list_lookup_fmap_Some in Hi as (device & -> & Hdev).
    exists device. split; [by eapply list_elem_of_lookup_2|].
    unfold sameId. by apply String.eqb_eq. }
  apply list_elem_of_split in Hin as Hsplit. destruct Hsplit as (pre & post & Hsplit).
  pose proof (reachable_listingOk σ Hreach _ _ Hlook) as Hlisting.
  destruct (listing_unique school pre name c post id Hlisting Hsplit Hhas)
    as [Hpre _].
  eexists. split.
  { by apply (postGetHosts_known σ sc id u now school pre name c post). }
  destruct (findIndex_present (sameId id) (devices c)) as (n & Hfind & Hfirst);
    [by apply hasDevice_true|].
  assert (n = i) as ->.
  { destruct (firstIndex_lookup_id deviceId id (devices c) n Hfirst) as [Hn _].
    eapply NoDup_lookup; [|exact Hn|exact Hi].
    by apply (listing_cluster_NoDup school name). }
  simpl. rewrite Hfind. split_and!; [done..|lia|].
  rewrite Hhosts, fmap_take. apply clustered_roleFields_table.
Qed.

(** Requests that name neither [sc] nor the key [__proto__] change
    nothing a request for [sc] can read. *)
Lemma run_elsewhere σ rs sc :
  reachable σ →
  Forall (λ r, target r ≠ Some sc ∧ target r ≠ Some "__proto__") rs →
  agreeOn sc (run σ rs) σ.
Proof.
  intros Hreach Hrs. revert σ Hreach.
  induction Hrs as [|r rs [Hsc Hproto] Hrs IH]; intros σ Hreach; [done|].
  simpl. destruct (IH (handle σ r).1) as [Hentry Hflag]; [by constructor|].
  destruct (handle_elsewhere σ r sc) as [Hentry' Hflag'];
    [by apply reachable_storeOk|done..|].
  split; congruence.
Qed.

Lemma clustered_interleaved σ rs r sc :
  reachable σ →
  Forall (λ r', target r' ≠ Some sc ∧ target r' ≠ Some "__proto__") rs →
  target r = Some sc →
  (handle (run σ rs) r).2 = (handle σ r).2.
Proof.
  intros Hreach Hrs Hr.
  by destruct (handle_local (run σ rs) σ r sc Hr (run_elsewhere σ rs sc Hreach Hrs)).
Qed.

End Arrival.

Section FlatArrival.
Import Flat FlatInv.
Implicit Types (σ : Store) (school : School) (id sc : string).

Lemma flat_stored_nonempty σ sc s :
  reachable σ → schoolData σ !! sc = Some s → sc ≠ "".
Proof.
  intros Hreach. revert sc s.
  induction Hreach as [|σ r Hreach IH]; intros sc s.
  { simpl. by rewrite lookup_empty. }
  destruct r as [schoolCode deviceId now|sc'|sc'|now|now]; simpl; try by apply IH.
  - destruct (flat_postGetHosts_validation σ schoolCode deviceId now)
      as [[-> _]|(sc' & d & -> & -> & Hsc & Hd)]; [by apply IH|].
    destruct (flat_postGetHosts_outcome σ sc' d now Hsc Hd); simpl;
      try (by apply IH).
    rewrite lookup_insert. case_decide; [by subst|by apply IH].
  - unfold deleteSchool. destruct (Js.truthy _); [|by apply IH].
    simpl. intros [_ ?]%lookup_delete_Some. by eapply IH.
Qed.

Lemma flat_new_index σ sc id now p :
  reachable σ →
  id ∉ flatDeviceIds (schoolOrNew σ sc) →
  (postGetHosts σ (Some sc) (Some id) now).2 = Placed p →
  position p = (Z.of_nat (length (deviceList σ sc)) + 1)%Z ∧
  (role p, hostDeviceId p, host2DeviceId p, host3DeviceId p)
  = roleTable (length (deviceList σ sc)) id
      (take 3 (flatDeviceIds (schoolOrNew σ sc) ++ [id])).
Proof.
  intros Hreach Hnew Hp.
  destruct (flat_postGetHosts_Placed_valid _ _ _ _ _ Hp)
    as (sc' & d & [= <-] & [= <-] & Hsc & Hid).
  pose proof (flat_postGetHosts_outcome σ sc id now Hsc Hid) as Hout.
  destruct (postGetHosts σ (Some sc) (Some id) now) as [σ' resp].
  simpl in Hp, Hout. subst resp.
  pose proof (flat_reachable_storeOk σ Hreach) as Hok.
  inversion Hout as [|school Hlook Hex Hst|school Hserv Hschool Hall Hst]; subst.
  - apply flat_lacks_ids in Hnew.
    unfold schoolOrNew in Hnew. rewrite Hlook in Hnew. simpl in Hnew.
    apply Exists_exists in Hex as (x & Hx & Htrue).
    rewrite Forall_forall in Hnew. specialize (Hnew x Hx). congruence.
  - simpl. unfold deviceList.
    destruct (findIndex_app_new (sameId id) (devices (schoolOrNew σ sc))
                {| deviceId := id; registeredAt := now |} Hall
                (flat_sameId_self id now))
      as [-> _].
    split; [done|].
    destruct (flat_addDevice_ok id now (schoolOrNew σ sc)) as [Hhosts _];
      [done|by apply flat_schoolOrNew_ok|].
    simpl in Hhosts. rewrite Hhosts, fmap_take, fmap_app. simpl.
    apply flat_roleFields_table.
Qed.

Lemma flat_repeat σ sc id now school i :
  reachable σ →
  schoolData σ !! sc = Some school →
  flatDeviceIds school !! i = Some id →
  ∃ p,
    postGetHosts σ (Some sc) (Some id) now = (σ, Placed p) ∧
    position p = (Z.of_nat i + 1)%Z ∧
    (role p, hostDeviceId p, host2DeviceId p, host3DeviceId p)
    = roleTable i id (take 3 (flatDeviceIds school)).
Proof.
  intros Hreach Hlook Hi. pose proof (flat_reachable_storeOk σ Hreach) as Hok.
  pose proof (flat_stored_nonempty σ sc school Hreach Hlook) as Hsc.
  destruct (Hok _ _ Hlook) as [Hhosts Hids].
  unfold flatDeviceIds in Hi.
  assert (id ≠ "") as Hid.
  { apply list_lookup_fmap_Some in Hi as (device & -> & Hdev).
    rewrite Forall_forall in Hids. apply Hids. by eapply list_elem_of_lookup_2. }
  assert (Exists (λ device, sameId id device = true) (devices school)) as Hex.
  { apply Exists_exists.
    apply list_lookup_fmap_Some in Hi as (device & -> & Hdev).
    exists device. split; [by eapply list_elem_of_lookup_2|].
    unfold sameId. by apply String.eqb_eq. }
  eexists. split; [by apply flat_postGetHosts_known|].
  destruct (findIndex_present (sameId id) (devices school) Hex) as (n & Hfind & Hfirst).
  assert (n = i) as ->.
  { destruct (firstIndex_lookup_id deviceId id (devices school) n Hfirst) as [Hn _].
    eapply NoDup_lookup; [|exact Hn|exact Hi].
    by apply (flat_reachable_NoDup σ sc school). }
  simpl. rewrite Hfind. split; [done|].
  rewrite Hhosts. unfold flatDeviceIds. rewrite fmap_take. apply flat_roleFields_table.
Qed.

Lemma flat_run_elsewhere σ rs sc :
  Forall (λ r, target r ≠ Some sc) rs →
  schoolData (run σ rs) !! sc = schoolData σ !! sc.
Proof.
  intros Hrs. revert σ. induction Hrs as [|r rs Hr Hrs IH]; intros σ; [done|].
  simpl. rewrite IH. by apply flat_frame.
Qed.

Lemma flat_interleaved σ rs r sc :
  Forall (λ r', target r' ≠ Some sc) rs →
  target r = Some sc →
  (handle (run σ rs) r).2 = (handle σ r).2.
Proof.
  intros Hrs Hr.
  by destruct (flat_handle_local (run σ rs) σ r sc Hr (flat_run_elsewhere σ rs sc Hrs)).
Qed.

End FlatArrival.

(** ** Main results *)

(** C1, the failing input — device d1 registers for school ABC on a
    fresh clustered server, one registration arrives for the school code
    __proto__, and then d2 registers for ABC.  Without the call in
    between, d2 is the second device of ABC and is answered as host2 at
    position 2, with d1 as host1.  With it, both stores are reachable and
    hold the same schools, and yet d2 is answered 500 and registered
    nowhere: a call for another school code has changed what the second
    device of ABC is told. *)
Theorem role_determinism_blocked :
  Clustered.reachable (Sample.clustered ["d1"]) ∧
  Clustered.reachable
    (Clustered.handle (Sample.clustered ["d1"]) (Sample.place "__proto__" "x")).1 ∧
  Clustered.schoolData
    (Clustered.handle (Sample.clustered ["d1"]) (Sample.place "__proto__" "x")).1
  = Clustered.schoolData (Sample.clustered ["d1"]) ∧
  (∃ p,
      (Clustered.handle (Sample.clustered ["d1"]) (Sample.place "ABC" "d2")).2
      = Clustered.Placed p ∧
      Clustered.role p = "host2" ∧
      Clustered.positionInCluster p = 2%Z ∧
      Clustered.hostDeviceId p = Some "d1" ∧
      Clustered.host2DeviceId p = Some "d2") ∧
  Clustered.handle
    (Clustered.handle (Sample.clustered ["d1"]) (Sample.place "__proto__" "x")).1
    (Sample.place "ABC" "d2")
  = ((Clustered.handle (Sample.clustered ["d1"]) (Sample.place "__proto__" "x")).1,
     Clustered.InternalError).
Proof.
  split; [apply run_reachable, Clustered.reachable_empty|].
  split.
  { apply Clustered.reachable_step, run_reachable, Clustered.reachable_empty. }
  split; [by vm_compute|].
  split; [eexists; split; [vm_compute; reflexivity | by split_and!]|].
  by vm_compute.
Qed.

(** C2 — idempotence of placement.  For both servers, for every
    reachable store and every pair of non-empty strings, a second
    placement call made right after the first returns the same response
    (role, position, hosts and every other field) and leaves the store
    exactly as the first call left it, so membership, order and length of
    every device list are unchanged by it; across the two calls no device
    list grows by more than one entry.  The values the handler reads from
    its environment (random channel index, clock) may differ between the
    calls. *)
Theorem placement_idempotent :
  (∀ σ sc id u1 now1 u2 now2,
      Clustered.reachable σ → sc ≠ "" → id ≠ "" →
      Clustered.postGetHosts
        (Clustered.postGetHosts σ (Some sc) (Some id) u1 now1).1
        (Some sc) (Some id) u2 now2
      = Clustered.postGetHosts σ (Some sc) (Some id) u1 now1 ∧
      ∀ name,
        length (ClusteredInv.deviceList
                  (Clustered.postGetHosts σ (Some sc) (Some id) u1 now1).1 sc name)
        ≤ length (ClusteredInv.deviceList σ sc name) + 1) ∧
  (∀ σ sc id now1 now2,
      Flat.reachable σ → sc ≠ "" → id ≠ "" →
      Flat.postGetHosts
        (Flat.postGetHosts σ (Some sc) (Some id) now1).1 (Some sc) (Some id) now2
      = Flat.postGetHosts σ (Some sc) (Some id) now1 ∧
      length (FlatInv.deviceList (Flat.postGetHosts σ (Some sc) (Some id) now1).1 sc)
      ≤ length (FlatInv.deviceList σ sc) + 1).
Proof.
  split.
  - intros σ sc id u1 now1 u2 now2. apply clustered_idempotent.
  - intros σ sc id now1 now2 _. apply flat_idempotent.
Qed.

Lemma placement_idempotent_witness :
  (Clustered.postGetHosts
     (Clustered.postGetHosts (Sample.clustered Sample.four)
        (Some "ABC") (Some "d5") 3%fin Sample.clock).1
     (Some "ABC") (Some "d5") 7%fin "2025-01-01T00:00:05.000Z"
   = Clustered.postGetHosts (Sample.clustered Sample.four)
       (Some "ABC") (Some "d5") 3%fin Sample.clock ∧
   ∀ name,
     length (ClusteredInv.deviceList
               (Clustered.postGetHosts (Sample.clustered Sample.four)
                  (Some "ABC") (Some "d5") 3%fin Sample.clock).1 "ABC" name)
     ≤ length (ClusteredInv.deviceList (Sample.clustered Sample.four) "ABC" name) + 1) ∧
  (Flat.postGetHosts
     (Flat.postGetHosts (Sample.flat Sample.four)
        (Some "ABC") (Some "d5") Sample.clock).1
     (Some "ABC") (Some "d5") "2025-01-01T00:00:05.000Z"
   = Flat.postGetHosts (Sample.flat Sample.four) (Some "ABC") (Some "d5") Sample.clock ∧
   length (FlatInv.deviceList
             (Flat.postGetHosts (Sample.flat Sample.four)
                (Some "ABC") (Some "d5") Sample.clock).1 "ABC")
   ≤ length (FlatInv.deviceList (Sample.flat Sample.four) "ABC") + 1).
Proof.
  split.
  - apply (proj1 placement_idempotent);
      [apply run_reachable, Clustered.reachable_empty | done | done].
  - apply (proj2 placement_idempotent);
      [apply flat_run_reachable, Flat.reachable_empty | done | done].
Defined.

(** C3, the failing input — ten devices fill cluster ABC_1, one
    registration arrives for the school code __proto__, and then the
    eleventh distinct device of ABC registers.  The store is reachable,
    school ABC holds one full cluster and does not know d11, and the
    registration is answered 500: d11 is placed nowhere, no cluster 2 is
    created and the store is unchanged.  The same happens to d1 of a
    school XYZ that was never seen, except that an empty school entry is
    left behind. *)
Theorem capacity_routing_blocked :
  Clustered.reachable Sample.fullThenProto ∧
  (∃ school c,
      Clustered.schoolData Sample.fullThenProto !! "ABC" = Some school ∧
      Clustered.clusters school = [("ABC_1", c)] ∧
      length (Clustered.devices c) = 10 ∧
      Clustered.lastClusterNumber school = 1%N ∧
      ClusteredInv.knows "d11" school = false) ∧
  Clustered.handle Sample.fullThenProto (Sample.place "ABC" "d11")
  = (Sample.fullThenProto, Clustered.InternalError) ∧
  (Clustered.handle Sample.fullThenProto (Sample.place "XYZ" "d1")).2
  = Clustered.InternalError ∧
  Clustered.schoolData
    (Clustered.handle Sample.fullThenProto (Sample.place "XYZ" "d1")).1 !! "XYZ"
  = Some Clustered.newSchool.
Proof.
  split; [apply run_reachable, Clustered.reachable_empty|].
  split; [eexists _, _; split; [vm_compute; reflexivity | by split_and!]|].
  split_and!; by vm_compute.
Qed.

(** Capacity routing, where registrations are served.  In every reachable
    store no cluster lists more than ten devices.  When a registration of
    a device the school does not know is answered with a placement, the
    device was appended either to the first cluster, in creation order,
    that listed fewer than ten devices, or — every cluster being full —
    to a new cluster whose number is one more than [lastClusterNumber];
    no other cluster's device list changed. *)
Theorem capacity_routing :
  (∀ σ sc school name c,
      Clustered.reachable σ →
      Clustered.schoolData σ !! sc = Some school →
      (name, c) ∈ Clustered.clusters school →
      length (Clustered.devices c) ≤ Clustered.MAX_DEVICES_PER_CLUSTER) ∧
  (∀ σ sc id u now p,
      Clustered.reachable σ →
      ClusteredInv.knows id (ClusteredInv.schoolOrNew σ sc) = false →
      (Clustered.postGetHosts σ (Some sc) (Some id) u now).2 = Clustered.Placed p →
      ((∃ pre name c post,
           Clustered.clusters (ClusteredInv.schoolOrNew σ sc)
           = pre ++ (name, c) :: post ∧
           Forall ClusteredInv.full pre ∧
           length (Clustered.devices c) < Clustered.MAX_DEVICES_PER_CLUSTER ∧
           Clustered.p_clusterName p = name ∧
           Clustered.p_clusterNumber p = Clustered.clusterNumber c ∧
           Clustered.lastClusterNumber
             (ClusteredInv.schoolOrNew
                (Clustered.postGetHosts σ (Some sc) (Some id) u now).1 sc)
           = Clustered.lastClusterNumber (ClusteredInv.schoolOrNew σ sc) ∧
           ClusteredInv.deviceList
             (Clustered.postGetHosts σ (Some sc) (Some id) u now).1 sc name
           = Clustered.devices c ++
               [{| Clustered.deviceId := id; Clustered.registeredAt := now |}]) ∨
       (Forall ClusteredInv.full (Clustered.clusters (ClusteredInv.schoolOrNew σ sc)) ∧
        Clustered.p_clusterNumber p
        = (Clustered.lastClusterNumber (ClusteredInv.schoolOrNew σ sc) + 1)%N ∧
        Clustered.p_clusterName p
        = sc +:+ "_" +:+
            pretty (Clustered.lastClusterNumber (ClusteredInv.schoolOrNew σ sc) + 1)%N ∧
        Clustered.lastClusterNumber
          (ClusteredInv.schoolOrNew
             (Clustered.postGetHosts σ (Some sc) (Some id) u now).1 sc)
        = (Clustered.lastClusterNumber (ClusteredInv.schoolOrNew σ sc) + 1)%N ∧
        ClusteredInv.deviceList σ sc (Clustered.p_clusterName p) = [] ∧
        ClusteredInv.deviceList
          (Clustered.postGetHosts σ (Some sc) (Some id) u now).1 sc
          (Clustered.p_clusterName p)
        = [{| Clustered.deviceId := id; Clustered.registeredAt := now |}])) ∧
      ∀ k, k ≠ Clustered.p_clusterName p →
           ClusteredInv.deviceList
             (Clustered.postGetHosts σ (Some sc) (Some id) u now).1 sc k
           = ClusteredInv.deviceList σ sc k).
Proof.
  split.
  - intros σ sc school name c Hok%reachable_storeOk Hlook Hin.
    destruct (Hok _ _ Hlook) as (_ & Hcs & _). rewrite Forall_forall in Hcs.
    by destruct (Hcs _ Hin) as (_ & _ & ? & _).
  - intros σ sc id u now p Hok%reachable_storeOk Hknows Hp.
    destruct (postGetHosts_Placed_valid _ _ _ _ _ _ Hp)
      as (sc' & d & [= <-] & [= <-] & Hsc & Hid).
    pose proof (postGetHosts_outcome σ sc id u now Hok Hsc Hid) as Hout.
    rewrite Hp in Hout. by apply (PostOutcome_routing σ sc id u now).
Qed.

Lemma capacity_routing_witness :
  ∃ p,
    (Clustered.postGetHosts (Sample.clustered Sample.ten)
       (Some "ABC") (Some "d11") 0%fin Sample.clock).2 = Clustered.Placed p ∧
    Clustered.p_clusterName p = "ABC_2" ∧
    Clustered.p_clusterNumber p = 2%N ∧
    ∀ k, k ≠ Clustered.p_clusterName p →
         ClusteredInv.deviceList
           (Clustered.postGetHosts (Sample.clustered Sample.ten)
              (Some "ABC") (Some "d11") 0%fin Sample.clock).1 "ABC" k
         = ClusteredInv.deviceList (Sample.clustered Sample.ten) "ABC" k.
Proof.
  eexists. split; [vm_compute; reflexivity|].
  split; [reflexivity|]. split; [reflexivity|].
  apply (proj2 capacity_routing (Sample.clustered Sample.ten) "ABC" "d11"
           0%fin Sample.clock).
  - apply run_reachable, Clustered.reachable_empty.
  - by vm_compute.
  - vm_compute. reflexivity.
Defined.

(** C4 — host-prefix invariant.  In every store reachable from the empty
    one by any sequence of requests (placements, queries, resets), the
    host list of every cluster of the clustered server, and of every
    school of the flat server, is the list of device identifiers of the
    first [min 3 (length devices)] devices in arrival order; hence it
    never has more than three entries, however long the flat device list
    grows. *)
Theorem host_prefix_invariant :
  (∀ σ sc school name c,
      Clustered.reachable σ →
      Clustered.schoolData σ !! sc = Some school →
      (name, c) ∈ Clustered.clusters school →
      Clustered.hosts c =
        Clustered.deviceId <$>
          take (3 `min` length (Clustered.devices c)) (Clustered.devices c) ∧
      length (Clustered.hosts c) ≤ 3) ∧
  (∀ σ sc school,
      Flat.reachable σ →
      Flat.schoolData σ !! sc = Some school →
      Flat.hosts school =
        Flat.deviceId <$>
          take (3 `min` length (Flat.devices school)) (Flat.devices school) ∧
      length (Flat.hosts school) ≤ 3).
Proof.
  split.
  - intros σ sc school name c. apply clustered_hosts_prefix.
  - intros σ sc school. apply flat_hosts_prefix.
Qed.

Lemma host_prefix_invariant_witness :
  (∃ c, Clustered.hosts c = ["d1"; "d2"; "d3"] ∧
        length (Clustered.devices c) = 4 ∧
        Clustered.hosts c =
          Clustered.deviceId <$>
            take (3 `min` length (Clustered.devices c)) (Clustered.devices c) ∧
        length (Clustered.hosts c) ≤ 3) ∧
  (∃ school, Flat.hosts school = ["d1"; "d2"; "d3"] ∧
        length (Flat.devices school) = 4 ∧
        Flat.hosts school =
          Flat.deviceId <$>
            take (3 `min` length (Flat.devices school)) (Flat.devices school) ∧
        length (Flat.hosts school) ≤ 3).
Proof.
  split.
  - destruct (Clustered.schoolData (Sample.clustered Sample.four) !! "ABC")
      as [school|] eqn:Hlook; [|by vm_compute in Hlook].
    destruct (Clustered.clusters school) as [|[name c] rest] eqn:Hcs.
    { vm_compute in Hlook. injection Hlook as <-. discriminate Hcs. }
    exists c.
    assert (Clustered.hosts c = ["d1"; "d2"; "d3"] ∧
            length (Clustered.devices c) = 4) as [Hh Hd].
    { vm_compute in Hlook. injection Hlook as <-.
      injection Hcs as <- <- <-. by split. }
    split; [done|]. split; [done|].
    apply (proj1 host_prefix_invariant (Sample.clustered Sample.four)
             "ABC" school name c).
    + apply run_reachable, Clustered.reachable_empty.
    + exact Hlook.
    + rewrite Hcs. apply list_elem_of_here.
  - destruct (Flat.schoolData (Sample.flat Sample.four) !! "ABC")
      as [school|] eqn:Hlook; [|by vm_compute in Hlook].
    exists school.
    assert (Flat.hosts school = ["d1"; "d2"; "d3"] ∧
            length (Flat.devices school) = 4) as [Hh Hd].
    { vm_compute in Hlook. injection Hlook as <-. by split. }
    split; [done|]. split; [done|].
    apply (proj2 host_prefix_invariant (Sample.flat Sample.four) "ABC" school).
    + apply flat_run_reachable, Flat.reachable_empty.
    + exact Hlook.
Defined.

(** C5 — count consistency of the clustered server.  In every reachable
    store, and again after any further request, [totalDevices] of every
    school is the sum of the device-list lengths of its clusters.  A
    successful placement leaves the counter one higher when the school did
    not know the device and unchanged when it did, and reports it; a
    successful cluster reset lowers it by the device count of the cluster
    it removes. *)
Theorem count_consistency (σ : Clustered.Store) :
  Clustered.reachable σ →
  (∀ sc school,
      Clustered.schoolData σ !! sc = Some school →
      Clustered.totalDevices school =
        ClusteredInv.countDevices (Clustered.clusters school)) ∧
  (∀ r sc school,
      Clustered.schoolData (Clustered.handle σ r).1 !! sc = Some school →
      Clustered.totalDevices school =
        ClusteredInv.countDevices (Clustered.clusters school)) ∧
  (∀ sc id u now p,
      (Clustered.postGetHosts σ (Some sc) (Some id) u now).2 = Clustered.Placed p →
      ∃ school',
        Clustered.schoolData
          (Clustered.postGetHosts σ (Some sc) (Some id) u now).1 !! sc = Some school' ∧
        Clustered.totalDevices school' =
          (Clustered.totalDevices (ClusteredInv.schoolOrNew σ sc) +
           (if ClusteredInv.knows id (ClusteredInv.schoolOrNew σ sc) then 0 else 1))%Z ∧
        Clustered.totalDevicesInSchool p = Clustered.totalDevices school') ∧
  (∀ sc number msg,
      (Clustered.deleteCluster σ sc number).2 = Clustered.ResetDone msg →
      ∃ school c school',
        Clustered.schoolData σ !! sc = Some school ∧
        Js.objGet (sc +:+ "_" +:+ number) (Clustered.clusters school) = Some c ∧
        Clustered.schoolData (Clustered.deleteCluster σ sc number).1 !! sc
          = Some school' ∧
        Clustered.clusters school' =
          Js.objDelete (sc +:+ "_" +:+ number) (Clustered.clusters school) ∧
        Clustered.totalDevices school' =
          (Clustered.totalDevices school
           - Z.of_nat (length (Clustered.devices c)))%Z).
Proof.
  intros Hreach. pose proof (reachable_storeOk σ Hreach) as Hok.
  split_and!.
  - intros sc school Hlook. by destruct (Hok _ _ Hlook) as (_ & _ & ?).
  - intros r sc school Hlook.
    by destruct (handle_storeOk σ r Hok _ _ Hlook) as (_ & _ & ?).
  - intros sc id u now p. by apply placement_count.
  - intros sc number msg Hmsg.
    destruct (deleteCluster_cases σ sc number)
      as [(school & pre & c & post & Hlook & Hsplit & Hpre & Hdel & Heq)|[_ Hne]];
      [|by destruct (Hne msg)].
    exists school, c. rewrite Heq. simpl. rewrite lookup_insert_eq.
    eexists. split_and!; [done| |done|by rewrite Hdel|done].
    rewrite Hsplit. by apply objGet_app_fresh.
Qed.

Lemma count_consistency_witness :
  (∀ school,
      Clustered.schoolData (Sample.clustered Sample.eleven) !! "ABC" = Some school →
      Clustered.totalDevices school = 11%Z ∧
      ClusteredInv.countDevices (Clustered.clusters school) = 11%Z) ∧
  (∀ school,
      Clustered.schoolData
        (Clustered.handle (Sample.clustered Sample.eleven)
           (Clustered.DeleteCluster "ABC" "1")).1 !! "ABC" = Some school →
      Clustered.totalDevices school = 1%Z ∧
      ClusteredInv.countDevices (Clustered.clusters school) = 1%Z).
Proof.
  assert (Clustered.reachable (Sample.clustered Sample.eleven)) as Hreach
    by apply run_reachable, Clustered.reachable_empty.
  destruct (count_consistency (Sample.clustered Sample.eleven) Hreach)
    as (Hnow & Hnext & _ & _).
  split.
  - intros school Hlook. rewrite <-(Hnow "ABC" school Hlook).
    vm_compute in Hlook. injection Hlook as <-. by split.
  - intros school Hlook.
    rewrite <-(Hnext (Clustered.DeleteCluster "ABC" "1") "ABC" school Hlook).
    vm_compute in Hlook. injection Hlook as <-. by split.
Defined.

(** C6, as stated, fails — the third call of the scenario, for device d4
    with d3 never registered, does not return role client with a null
    third host: d4 is the third distinct device of the school, so both
    servers make it host3 and report it in the third host slot. *)
Lemma scenario_abc_counterexample :
  (∃ p,
      (Clustered.handle
         (Clustered.run Clustered.emptyStore
            [Sample.place "ABC" "d1"; Sample.place "ABC" "d2"])
         (Sample.place "ABC" "d4")).2 = Clustered.Placed p ∧
      Clustered.role p = "host3" ∧ Clustered.role p ≠ "client" ∧
      Clustered.host3DeviceId p = Some "d4" ∧
      Clustered.host3 (Clustered.clusterHosts p) = Some "d4" ∧
      Clustered.host3 (Clustered.clusterHosts p) ≠ None) ∧
  (∃ p,
      (Flat.handle
         (Flat.run Flat.emptyStore
            [Sample.flatPlace "ABC" "d1"; Sample.flatPlace "ABC" "d2"])
         (Sample.flatPlace "ABC" "d4")).2 = Flat.Placed p ∧
      Flat.role p = "host3" ∧ Flat.role p ≠ "client" ∧
      Flat.host3DeviceId p = Some "d4" ∧
      Flat.host3 (Flat.p_hosts p) = Some "d4" ∧
      Flat.host3 (Flat.p_hosts p) ≠ None).
Proof.
  split; (eexists; split; [vm_compute; reflexivity|]); by split_and!.
Qed.

(** C6, amended — the ABC scenario.  Starting from a store with no school
    ABC (and, for the clustered server, a prototype no earlier request has
    written to), placing d1 returns role host1, position 1 and
    hostDeviceId d1; placing d2 next returns role host2 with the first
    host still d1; placing d4 next, d3 never having been registered,
    returns role host3 at position 3 with host3DeviceId d4, the three
    hosts being d1, d2 and d4. *)
Theorem scenario_abc :
  (∀ σ u1 now1 u2 now2 u3 now3,
      Clustered.schoolData σ !! "ABC" = None →
      Clustered.protoLastClusterNumber σ = false →
      ∃ σ1 σ2 p1 p2 p3,
        Clustered.postGetHosts σ (Some "ABC") (Some "d1") u1 now1
          = (σ1, Clustered.Placed p1) ∧
        Clustered.postGetHosts σ1 (Some "ABC") (Some "d2") u2 now2
          = (σ2, Clustered.Placed p2) ∧
        (Clustered.postGetHosts σ2 (Some "ABC") (Some "d4") u3 now3).2
          = Clustered.Placed p3 ∧
        (Clustered.role p1, Clustered.positionInCluster p1, Clustered.hostDeviceId p1)
          = ("host1", 1%Z, Some "d1") ∧
        (Clustered.role p2, Clustered.positionInCluster p2,
         Clustered.hostDeviceId p2, Clustered.host2DeviceId p2)
          = ("host2", 2%Z, Some "d1", Some "d2") ∧
        (Clustered.role p3, Clustered.positionInCluster p3,
         Clustered.hostDeviceId p3, Clustered.host2DeviceId p3,
         Clustered.host3DeviceId p3)
          = ("host3", 3%Z, Some "d1", Some "d2", Some "d4") ∧
        Clustered.clusterHosts p3 =
          {| Clustered.host1 := Some "d1";
             Clustered.host2 := Some "d2";
             Clustered.host3 := Some "d4" |}) ∧
  (∀ σ now1 now2 now3,
      Flat.schoolData σ !! "ABC" = None →
      ∃ σ1 σ2 p1 p2 p3,
        Flat.postGetHosts σ (Some "ABC") (Some "d1") now1 = (σ1, Flat.Placed p1) ∧
        Flat.postGetHosts σ1 (Some "ABC") (Some "d2") now2 = (σ2, Flat.Placed p2) ∧
        (Flat.postGetHosts σ2 (Some "ABC") (Some "d4") now3).2 = Flat.Placed p3 ∧
        (Flat.role p1, Flat.position p1, Flat.hostDeviceId p1)
          = ("host1", 1%Z, Some "d1") ∧
        (Flat.role p2, Flat.position p2, Flat.hostDeviceId p2, Flat.host2DeviceId p2)
          = ("host2", 2%Z, Some "d1", Some "d2") ∧
        (Flat.role p3, Flat.position p3,
         Flat.hostDeviceId p3, Flat.host2DeviceId p3, Flat.host3DeviceId p3)
          = ("host3", 3%Z, Some "d1", Some "d2", Some "d4") ∧
        Flat.p_hosts p3 =
          {| Flat.host1 := Some "d1";
             Flat.host2 := Some "d2";
             Flat.host3 := Some "d4" |}).
Proof.
  split.
  - intros σ u1 now1 u2 now2 u3 now3. apply clustered_scenario.
  - intros σ now1 now2 now3. apply flat_scenario.
Qed.

Lemma scenario_abc_witness :
  (∃ σ1 σ2 p1 p2 p3,
      Clustered.postGetHosts Clustered.emptyStore (Some "ABC") (Some "d1")
        0%fin Sample.clock = (σ1, Clustered.Placed p1) ∧
      Clustered.postGetHosts σ1 (Some "ABC") (Some "d2") 1%fin Sample.clock
        = (σ2, Clustered.Placed p2) ∧
      (Clustered.postGetHosts σ2 (Some "ABC") (Some "d4") 2%fin Sample.clock).2
        = Clustered.Placed p3 ∧
      (Clustered.role p1, Clustered.positionInCluster p1, Clustered.hostDeviceId p1)
        = ("host1", 1%Z, Some "d1") ∧
      (Clustered.role p2, Clustered.positionInCluster p2,
       Clustered.hostDeviceId p2, Clustered.host2DeviceId p2)
        = ("host2", 2%Z, Some "d1", Some "d2") ∧
      (Clustered.role p3, Clustered.positionInCluster p3,
       Clustered.hostDeviceId p3, Clustered.host2DeviceId p3,
       Clustered.host3DeviceId p3)
        = ("host3", 3%Z, Some "d1", Some "d2", Some "d4") ∧
      Clustered.clusterHosts p3 =
        {| Clustered.host1 := Some "d1";
           Clustered.host2 := Some "d2";
           Clustered.host3 := Some "d4" |}) ∧
  (∃ σ1 σ2 p1 p2 p3,
      Flat.postGetHosts Flat.emptyStore (Some "ABC") (Some "d1") Sample.clock
        = (σ1, Flat.Placed p1) ∧
      Flat.postGetHosts σ1 (Some "ABC") (Some "d2") Sample.clock
        = (σ2, Flat.Placed p2) ∧
      (Flat.postGetHosts σ2 (Some "ABC") (Some "d4") Sample.clock).2 = Flat.Placed p3 ∧
      (Flat.role p1, Flat.position p1, Flat.hostDeviceId p1)
        = ("host1", 1%Z, Some "d1") ∧
      (Flat.role p2, Flat.position p2, Flat.hostDeviceId p2, Flat.host2DeviceId p2)
        = ("host2", 2%Z, Some "d1", Some "d2") ∧
      (Flat.role p3, Flat.position p3,
       Flat.hostDeviceId p3, Flat.host2DeviceId p3, Flat.host3DeviceId p3)
        = ("host3", 3%Z, Some "d1", Some "d2", Some "d4") ∧
      Flat.p_hosts p3 =
        {| Flat.host1 := Some "d1";
           Flat.host2 := Some "d2";
           Flat.host3 := Some "d4" |}).
Proof.
  split.
  - apply (proj1 scenario_abc Clustered.emptyStore); reflexivity.
  - apply (proj2 scenario_abc Flat.emptyStore); reflexivity.
Defined.

(** C7, the failing inputs — a well-formed registration whose school code
    is the name of a property that every plain object inherits is not
    served.  On a fresh server, both servers answer 500 for the school
    code constructor and for the school code __proto__; nothing is
    stored, and on the clustered server the second one leaves
    [Object.prototype.lastClusterNumber] written. *)
Theorem registration_inherited_code :
  Clustered.postGetHosts Clustered.emptyStore
    (Some "constructor") (Some "d1") 0%fin Sample.clock
  = (Clustered.emptyStore, Clustered.InternalError) ∧
  Clustered.postGetHosts Clustered.emptyStore
    (Some "__proto__") (Some "d1") 0%fin Sample.clock
  = ({| Clustered.schoolData := ∅; Clustered.protoLastClusterNumber := true |},
     Clustered.InternalError) ∧
  Flat.postGetHosts Flat.emptyStore (Some "constructor") (Some "d1") Sample.clock
  = (Flat.emptyStore, Flat.InternalError) ∧
  Flat.postGetHosts Flat.emptyStore (Some "__proto__") (Some "d1") Sample.clock
  = (Flat.emptyStore, Flat.InternalError).
Proof. by split_and!. Qed.

(** X2 — validation of string fields.  For a body that [express.json]
    parsed to an object whose [schoolCode] and [deviceId] are each absent
    or a string: the registration is answered 400 exactly when one of the
    two is absent or the empty string, on both servers and in every
    store.  Fields holding other JSON values, and bodies that do not
    parse to an object, are outside the embedding. *)
Theorem registration_rejected_iff :
  (∀ σ (schoolCode deviceId : option string) u now,
      (Clustered.postGetHosts σ schoolCode deviceId u now).2 = Clustered.BadRequest ↔
      schoolCode = None ∨ schoolCode = Some "" ∨
      deviceId = None ∨ deviceId = Some "") ∧
  (∀ σ (schoolCode deviceId : option string) now,
      (Flat.postGetHosts σ schoolCode deviceId now).2 = Flat.BadRequest ↔
      schoolCode = None ∨ schoolCode = Some "" ∨
      deviceId = None ∨ deviceId = Some "").
Proof.
  split.
  - intros σ schoolCode deviceId u now. apply clustered_rejected_iff.
  - intros σ schoolCode deviceId now. apply flat_rejected_iff.
Qed.

(** X3 — which registrations with string fields are served.  Both
    fields are non-empty strings, and the stores are those reached by
    requests with string fields.  With a school code that is not the
    name of a property of [Object.prototype], the flat server always
    answers with a placement, and so does the clustered server in every
    reachable store whose prototype is as the runtime made it; a device
    whose identifier a stored school already lists is answered whatever
    the prototype holds, and the store stays as it is.  A school code
    that is such a name and is not stored is answered 500. *)
Theorem registration_served :
  (∀ σ sc id u now,
      Clustered.reachable σ → sc ≠ "" → id ≠ "" →
      Js.prototypeGet [] sc = None →
      Clustered.protoLastClusterNumber σ = false →
      ∃ p, (Clustered.postGetHosts σ (Some sc) (Some id) u now).2
           = Clustered.Placed p) ∧
  (∀ σ sc id u now school,
      sc ≠ "" → id ≠ "" →
      Clustered.schoolData σ !! sc = Some school →
      ClusteredInv.knows id school = true →
      ∃ p, Clustered.postGetHosts σ (Some sc) (Some id) u now
           = (σ, Clustered.Placed p)) ∧
  (∀ σ sc id u now i,
      sc ≠ "" → id ≠ "" →
      Clustered.schoolData σ !! sc = None →
      Js.prototypeGet [] sc = Some i →
      (Clustered.postGetHosts σ (Some sc) (Some id) u now).2
      = Clustered.InternalError) ∧
  (∀ σ sc id now,
      sc ≠ "" → id ≠ "" → Js.prototypeGet [] sc = None →
      ∃ p, (Flat.postGetHosts σ (Some sc) (Some id) now).2 = Flat.Placed p) ∧
  (∀ σ sc id now i,
      sc ≠ "" → id ≠ "" →
      Flat.schoolData σ !! sc = None →
      Js.prototypeGet [] sc = Some i →
      (Flat.postGetHosts σ (Some sc) (Some id) now).2 = Flat.InternalError).
Proof.
  split_and!.
  - intros σ sc id u now. apply clustered_served.
  - intros σ sc id u now school. apply clustered_known_served.
  - intros σ sc id u now i. apply clustered_not_served.
  - intros σ sc id now. apply flat_served.
  - intros σ sc id now i. apply flat_not_served.
Qed.

Lemma registration_served_witness :
  (∃ p, (Clustered.postGetHosts (Sample.clustered Sample.eleven)
           (Some "ABC") (Some "d12") 0%fin Sample.clock).2 = Clustered.Placed p) ∧
  (∃ p, (Flat.postGetHosts (Sample.flat Sample.four)
           (Some "ABC") (Some "d5") Sample.clock).2 = Flat.Placed p).
Proof.
  destruct registration_served as (Hclustered & _ & _ & Hflat & _).
  split.
  - apply Hclustered; try done. apply run_reachable, Clustered.reachable_empty.
  - by apply Hflat.
Defined.

(** C8, the failing input — resetting a school code that is the name of a
    property every plain object inherits.  On a fresh server no school
    constructor is stored, yet both servers answer the reset with 200 and
    the success message instead of 404; the query for the same code is
    answered 500. *)
Theorem reset_inherited_code :
  Clustered.schoolData Clustered.emptyStore !! "constructor" = None ∧
  Clustered.deleteSchool Clustered.emptyStore "constructor"
  = (Clustered.emptyStore,
     Clustered.ResetDone "School constructor data reset successfully") ∧
  Clustered.getSchoolInfo Clustered.emptyStore "constructor"
  = Clustered.InternalError ∧
  Flat.schoolData Flat.emptyStore !! "constructor" = None ∧
  Flat.deleteSchool Flat.emptyStore "constructor"
  = (Flat.emptyStore, Flat.ResetDone "School constructor data reset successfully") ∧
  Flat.getSchoolInfo Flat.emptyStore "constructor" = Flat.InternalError.
Proof. by split_and!. Qed.

(** School reset, where it works.  A reset of a stored school removes the
    whole entry and answers 200; in a reachable store the query for that
    code is then answered 404, and the next device registered under it —
    on the clustered server, with the prototype as the runtime made it —
    is placed first: role host1, position 1, its own identifier as host.
    A reset of a code that is neither stored nor the name of a property
    of [Object.prototype] is answered 404 and changes nothing. *)
Theorem reset_school :
  (∀ σ sc s id u now,
      Clustered.reachable σ →
      Clustered.schoolData σ !! sc = Some s →
      sc ≠ "" → id ≠ "" →
      ∃ σ',
        Clustered.deleteSchool σ sc
        = (σ', Clustered.ResetDone ("School " +:+ sc +:+ " data reset successfully")) ∧
        Clustered.schoolData σ' = delete sc (Clustered.schoolData σ) ∧
        Clustered.getSchoolInfo σ' sc = Clustered.NotFound "School not found" ∧
        (Clustered.protoLastClusterNumber σ = false →
         ∃ p, (Clustered.postGetHosts σ' (Some sc) (Some id) u now).2
              = Clustered.Placed p ∧
              (Clustered.role p, Clustered.positionInCluster p,
               Clustered.hostDeviceId p, Clustered.clusterDevices p)
              = ("host1", 1%Z, Some id, [id]))) ∧
  (∀ σ sc,
      Clustered.schoolData σ !! sc = None → Js.prototypeGet [] sc = None →
      Clustered.deleteSchool σ sc = (σ, Clustered.NotFound "School not found")) ∧
  (∀ σ sc s id now,
      Flat.reachable σ →
      Flat.schoolData σ !! sc = Some s →
      sc ≠ "" → id ≠ "" →
      ∃ σ',
        Flat.deleteSchool σ sc
        = (σ', Flat.ResetDone ("School " +:+ sc +:+ " data reset successfully")) ∧
        Flat.schoolData σ' = delete sc (Flat.schoolData σ) ∧
        Flat.getSchoolInfo σ' sc = Flat.NotFound "School not found" ∧
        ∃ p, (Flat.postGetHosts σ' (Some sc) (Some id) now).2 = Flat.Placed p ∧
             (Flat.role p, Flat.position p, Flat.hostDeviceId p)
             = ("host1", 1%Z, Some id)) ∧
  (∀ σ sc,
      Flat.schoolData σ !! sc = None → Js.prototypeGet [] sc = None →
      Flat.deleteSchool σ sc = (σ, Flat.NotFound "School not found")).
Proof.
  split_and!.
  - intros σ sc s id u now Hreach Hlook Hsc Hid.
    pose proof (clustered_stored_keys σ sc s Hreach Hlook) as Hproto.
    eexists. split; [by eapply clustered_reset_stored|]. simpl.
    assert (delete sc (Clustered.schoolData σ) !! sc = None) as Hgone
      by apply lookup_delete_eq.
    split; [done|]. split; [by apply clustered_query_absent|].
    intros Hflag. eexists.
    rewrite postGetHosts_absent by done. by split.
  - intros σ sc. apply clustered_reset_absent.
  - intros σ sc s id now Hreach Hlook Hsc Hid.
    pose proof (flat_stored_keys σ sc s Hreach Hlook) as Hproto.
    eexists. split; [by eapply flat_reset_stored|]. simpl.
    assert (delete sc (Flat.schoolData σ) !! sc = None) as Hgone
      by apply lookup_delete_eq.
    split; [done|]. split; [by apply flat_query_absent|].
    eexists. rewrite flat_postGetHosts_absent by done. by split.
  - intros σ sc. apply flat_reset_absent.
Qed.

Lemma reset_school_witness :
  (∃ σ',
      Clustered.deleteSchool (Sample.clustered Sample.four) "ABC"
      = (σ', Clustered.ResetDone ("School " +:+ "ABC" +:+ " data reset successfully")) ∧
      Clustered.schoolData σ'
      = delete "ABC" (Clustered.schoolData (Sample.clustered Sample.four)) ∧
      Clustered.getSchoolInfo σ' "ABC" = Clustered.NotFound "School not found" ∧
      (Clustered.protoLastClusterNumber (Sample.clustered Sample.four) = false →
       ∃ p, (Clustered.postGetHosts σ' (Some "ABC") (Some "d9") 0%fin Sample.clock).2
            = Clustered.Placed p ∧
            (Clustered.role p, Clustered.positionInCluster p,
             Clustered.hostDeviceId p, Clustered.clusterDevices p)
            = ("host1", 1%Z, Some "d9", ["d9"]))) ∧
  (∃ σ',
      Flat.deleteSchool (Sample.flat Sample.four) "ABC"
      = (σ', Flat.ResetDone ("School " +:+ "ABC" +:+ " data reset successfully")) ∧
      Flat.schoolData σ' = delete "ABC" (Flat.schoolData (Sample.flat Sample.four)) ∧
      Flat.getSchoolInfo σ' "ABC" = Flat.NotFound "School not found" ∧
      ∃ p, (Flat.postGetHosts σ' (Some "ABC") (Some "d9") Sample.clock).2
           = Flat.Placed p ∧
           (Flat.role p, Flat.position p, Flat.hostDeviceId p)
           = ("host1", 1%Z, Some "d9")).
Proof.
  destruct reset_school as (Hclustered & _ & Hflat & _).
  split.
  - destruct (Clustered.schoolData (Sample.clustered Sample.four) !! "ABC")
      as [s|] eqn:Hlook; [|by vm_compute in Hlook].
    apply (Hclustered _ "ABC" s "d9" 0%fin Sample.clock); try done.
    apply run_reachable, Clustered.reachable_empty.
  - destruct (Flat.schoolData (Sample.flat Sample.four) !! "ABC")
      as [s|] eqn:Hlook; [|by vm_compute in Hlook].
    apply (Hflat _ "ABC" s "d9" Sample.clock); try done.
    apply flat_run_reachable, Flat.reachable_empty.
Defined.

(** C9 — cluster numbers are never reused while a school exists.  Across
    any request, [lastClusterNumber] of a school stored before and after
    it does not decrease: it grows by exactly the number of clusters the
    request adds (one when a cluster is created, none otherwise) and a
    cluster reset leaves it as it was.  Once a cluster reset has removed a
    cluster, then after any further requests that do not reset the whole
    school, the school is still stored and none of its clusters carries
    the removed cluster's name or number.  A school that is not stored
    starts again at cluster number 1. *)
Theorem cluster_numbers_never_reused :
  (∀ σ r sc s s',
      Clustered.reachable σ →
      Clustered.schoolData σ !! sc = Some s →
      Clustered.schoolData (Clustered.handle σ r).1 !! sc = Some s' →
      (Clustered.lastClusterNumber s ≤ Clustered.lastClusterNumber s')%N ∧
      Clustered.lastClusterNumber s' =
        (Clustered.lastClusterNumber s
         + N.of_nat (length (Clustered.clusters s') - length (Clustered.clusters s)))%N) ∧
  (∀ σ sc number s c rs,
      Clustered.reachable σ →
      Clustered.schoolData σ !! sc = Some s →
      Js.objGet (sc +:+ "_" +:+ number) (Clustered.clusters s) = Some c →
      Forall (λ r, r ≠ Clustered.DeleteSchool sc) rs →
      (∃ s1, Clustered.schoolData (Clustered.deleteCluster σ sc number).1 !! sc = Some s1 ∧
             Clustered.lastClusterNumber s1 = Clustered.lastClusterNumber s) ∧
      ∃ s',
        Clustered.schoolData
          (Clustered.run (Clustered.deleteCluster σ sc number).1 rs) !! sc = Some s' ∧
        (Clustered.clusterNumber c ≤ Clustered.lastClusterNumber s')%N ∧
        Forall (λ e, e.1 ≠ sc +:+ "_" +:+ number ∧
                     Clustered.clusterNumber e.2 ≠ Clustered.clusterNumber c)
          (Clustered.clusters s')) ∧
  (∀ σ sc id u now p,
      Clustered.reachable σ →
      Clustered.schoolData σ !! sc = None →
      (Clustered.postGetHosts σ (Some sc) (Some id) u now).2 = Clustered.Placed p →
      Clustered.p_clusterNumber p = 1%N ∧ Clustered.p_clusterName p = sc +:+ "_1").
Proof.
  split_and!.
  - intros σ r sc s s' Hok%reachable_storeOk Hlook Hlook'.
    apply (SchoolStep_last sc). by eapply handle_SchoolStep.
  - intros σ sc number s c rs Hok%reachable_storeOk Hlook Hget Hrs.
    destruct (deleteCluster_retires σ sc number s c Hok Hlook Hget)
      as (s1 & Hlook1 & Hlast & Hnumber & Hret).
    split; [by exists s1|].
    destruct (run_retired _ rs sc (Clustered.clusterNumber c) s1
                (deleteCluster_storeOk σ sc number Hok) Hlook1 Hret Hrs)
      as (s' & Hlook' & Hle & Hall).
    exists s'. split_and!; [done..|].
    eapply Forall_impl; [done|]. intros e [? ?]. by rewrite Hnumber.
  - intros σ sc id u now p Hok%reachable_storeOk Hlook Hp.
    destruct (postGetHosts_Placed_valid _ _ _ _ _ _ Hp)
      as (sc' & d & [= <-] & [= <-] & Hsc & Hid).
    pose proof (postGetHosts_outcome σ sc id u now Hok Hsc Hid) as Hout.
    rewrite Hp in Hout.
    inversion Hout as
      [|
      |school pre name c post Hlook1 Hsplit Hpre Hc Hst
      |school pre name c post Hlook1 Hsplit Hlacks Hinh Hfull Hlen Hst
      |school n name c Hserv Hschool Hlacks Hinh Hfull Hn Hname Hc Hst];
      [congruence..|].
    subst. unfold ClusteredInv.schoolOrNew. rewrite Hlook. by simpl.
Qed.

Lemma cluster_numbers_never_reused_witness :
  ∃ s',
    Clustered.schoolData
      (Clustered.run
         (Clustered.deleteCluster (Sample.clustered Sample.eleven) "ABC" "1").1
         [Sample.place "ABC" "d12"; Sample.place "XYZ" "e1"]) !! "ABC" = Some s' ∧
    (1 ≤ Clustered.lastClusterNumber s')%N ∧
    Forall (λ e, e.1 ≠ "ABC" +:+ "_" +:+ "1" ∧ Clustered.clusterNumber e.2 ≠ 1%N)
      (Clustered.clusters s').
Proof.
  assert (Clustered.reachable (Sample.clustered Sample.eleven)) as Hreach
    by apply run_reachable, Clustered.reachable_empty.
  destruct (Clustered.schoolData (Sample.clustered Sample.eleven) !! "ABC")
    as [s|] eqn:Hlook; [|by vm_compute in Hlook].
  destruct (Js.objGet ("ABC" +:+ "_" +:+ "1") (Clustered.clusters s))
    as [c|] eqn:Hget.
  2:{ vm_compute in Hlook. injection Hlook as <-. by vm_compute in Hget. }
  assert (Clustered.clusterNumber c = 1%N) as Hone.
  { vm_compute in Hlook. injection Hlook as <-.
    vm_compute in Hget. by injection Hget as <-. }
  rewrite <-Hone.
  apply (proj1 (proj2 cluster_numbers_never_reused)
           (Sample.clustered Sample.eleven) "ABC" "1" s c
           [Sample.place "ABC" "d12"; Sample.place "XYZ" "e1"] Hreach Hlook Hget).
  by repeat constructor.
Defined.

(** C10 — a cluster's frequency is written once.  In every reachable
    store the frequency of every cluster is one of the 25 channels.  No
    request changes it: a cluster that is stored under the same name in
    the same school before and after a request has the same frequency
    after as before.  A successful placement, the school summary and the
    cluster detail all report the frequency stored in the cluster they
    name. *)
Theorem frequency_write_once :
  (∀ σ sc school name c,
      Clustered.reachable σ →
      Clustered.schoolData σ !! sc = Some school →
      (name, c) ∈ Clustered.clusters school →
      Clustered.frequency c ∈ vec_to_list Clustered.FREQUENCY_CHANNELS) ∧
  (∀ σ r sc s s' name c c',
      Clustered.reachable σ →
      Clustered.schoolData σ !! sc = Some s →
      Clustered.schoolData (Clustered.handle σ r).1 !! sc = Some s' →
      Js.objGet name (Clustered.clusters s) = Some c →
      Js.objGet name (Clustered.clusters s') = Some c' →
      Clustered.frequency c' = Clustered.frequency c) ∧
  (∀ σ sc id u now p,
      Clustered.reachable σ →
      (Clustered.postGetHosts σ (Some sc) (Some id) u now).2 = Clustered.Placed p →
      ∃ school c,
        Clustered.schoolData
          (Clustered.postGetHosts σ (Some sc) (Some id) u now).1 !! sc = Some school ∧
        Js.objGet (Clustered.p_clusterName p) (Clustered.clusters school) = Some c ∧
        Clustered.p_frequency p = Clustered.frequency c) ∧
  (∀ σ sc i name summary,
      Clustered.reachable σ →
      Clustered.getSchoolInfo σ sc = Clustered.SchoolFound i →
      (name, summary) ∈ Clustered.si_clusters i →
      ∃ school c,
        Clustered.schoolData σ !! sc = Some school ∧
        Js.objGet name (Clustered.clusters school) = Some c ∧
        Clustered.cs_frequency summary = Clustered.frequency c) ∧
  (∀ σ sc number i,
      Clustered.reachable σ →
      Clustered.getClusterInfo σ sc number = Clustered.ClusterFound i →
      ∃ school c,
        Clustered.schoolData σ !! sc = Some school ∧
        Js.objGet (Clustered.ci_clusterName i) (Clustered.clusters school) = Some c ∧
        Clustered.ci_frequency i = Clustered.frequency c).
Proof.
  split_and!.
  - intros σ sc school name c Hok%reachable_storeOk Hlook Hin.
    destruct (Hok _ _ Hlook) as (_ & Hcs & _). rewrite Forall_forall in Hcs.
    by destruct (Hcs _ Hin) as (_ & _ & _ & _ & ? & _).
  - intros σ r sc s s' name c c' Hok%reachable_storeOk Hlook Hlook'.
    destruct (Hok _ _ Hlook) as (Hnd & _).
    apply (SchoolStep_frequency sc); [done|]. by eapply handle_SchoolStep.
  - intros σ sc id u now p Hok%reachable_storeOk Hp.
    destruct (postGetHosts_Placed_valid _ _ _ _ _ _ Hp)
      as (sc' & d & [= <-] & [= <-] & Hsc & Hid).
    destruct (postGetHosts_Placed σ sc id u now p Hok Hsc Hid Hp)
      as (school & pre & name & c & post & Hlook & _ & _ & _ & _ & Hget & ->).
    by exists school, c.
  - intros σ sc i name summary Hok%reachable_storeOk. by apply getSchoolInfo_frequency.
  - intros σ sc number i _. apply getClusterInfo_frequency.
Qed.

Lemma frequency_write_once_witness :
  ∃ s s' c c',
    Clustered.schoolData (Sample.clustered Sample.four) !! "ABC" = Some s ∧
    Clustered.schoolData
      (Clustered.handle (Sample.clustered Sample.four)
         (Clustered.PostGetHosts (Some "ABC") (Some "d5") 7%fin Sample.clock)).1
      !! "ABC" = Some s' ∧
    Js.objGet "ABC_1" (Clustered.clusters s) = Some c ∧
    Js.objGet "ABC_1" (Clustered.clusters s') = Some c' ∧
    length (Clustered.devices c') = 5 ∧
    Clustered.frequency c = 5180%Z ∧
    Clustered.frequency c' = Clustered.frequency c.
Proof.
  eexists _, _, _, _.
  split; [vm_compute; reflexivity|].
  split; [vm_compute; reflexivity|].
  split; [vm_compute; reflexivity|].
  split; [vm_compute; reflexivity|].
  split; [reflexivity|]. split; [reflexivity|].
  eapply (proj1 (proj2 frequency_write_once)
            (Sample.clustered Sample.four)
            (Clustered.PostGetHosts (Some "ABC") (Some "d5") 7%fin Sample.clock)
            "ABC" _ _ "ABC_1").
  - apply run_reachable, Clustered.reachable_empty.
  - vm_compute. reflexivity.
  - vm_compute. reflexivity.
  - vm_compute. reflexivity.
  - vm_compute. reflexivity.
Defined.

(** ** Further results *)

(** X5 — a string identifier is registered at most once per school.
    Device identifiers are strings here, and the reachable stores are
    those reached by requests whose [schoolCode] and [deviceId] are
    strings; on strings [===] compares contents.  In every such store of
    the clustered server the identifiers listed by the clusters of a
    school are pairwise distinct: no device is listed twice in one
    cluster or in two clusters, so when a cluster lists a device no
    cluster before or after it does.  In every such store of the flat
    server the identifiers of a school's device list are pairwise
    distinct. *)
Theorem device_registered_once :
  (∀ σ sc school,
      Clustered.reachable σ →
      Clustered.schoolData σ !! sc = Some school →
      NoDup (clusteredDeviceIds school) ∧
      ∀ pre name c post id,
        Clustered.clusters school = pre ++ (name, c) :: post →
        Clustered.hasDevice id c = true →
        Forall (ClusteredInv.lacks id) pre ∧ Forall (ClusteredInv.lacks id) post) ∧
  (∀ σ sc school,
      Flat.reachable σ →
      Flat.schoolData σ !! sc = Some school →
      NoDup (flatDeviceIds school)).
Proof.
  split.
  - intros σ sc school Hreach Hlook.
    pose proof (reachable_listingOk σ Hreach _ _ Hlook) as Hl.
    split; [apply Hl|]. intros pre name c post id. by apply listing_unique.
  - intros σ sc school. apply flat_reachable_NoDup.
Qed.

Lemma device_registered_once_witness :
  (∃ school,
      Clustered.schoolData (Sample.clustered Sample.eleven) !! "ABC" = Some school ∧
      clusteredDeviceIds school = Sample.eleven ∧
      NoDup (clusteredDeviceIds school)) ∧
  (∃ school,
      Flat.schoolData (Sample.flat Sample.four) !! "ABC" = Some school ∧
      flatDeviceIds school = Sample.four ∧
      NoDup (flatDeviceIds school)).
Proof.
  split.
  - eexists. split; [vm_compute; reflexivity|]. split; [vm_compute; reflexivity|].
    refine (proj1 (proj1 device_registered_once
                     (Sample.clustered Sample.eleven) "ABC" _ _ _)).
    + apply run_reachable, Clustered.reachable_empty.
    + vm_compute. reflexivity.
  - eexists. split; [vm_compute; reflexivity|]. split; [vm_compute; reflexivity|].
    refine (proj2 device_registered_once (Sample.flat Sample.four) "ABC" _ _ _).
    + apply flat_run_reachable, Flat.reachable_empty.
    + vm_compute. reflexivity.
Defined.

(** X6 — clusters are named after their numbers and listed in number
    order.  In every reachable store, every cluster of a school is stored
    under the name made of the school code, an underscore and the decimal
    numeral of its [clusterNumber]; the number lies between 1 and the
    school's [lastClusterNumber]; the name is not a key of
    [Object.prototype]; no two clusters share a name; and along the
    enumeration order of [clusters] the numbers strictly increase. *)
Theorem clusters_in_number_order
    (σ : Clustered.Store) (sc : string) (school : Clustered.School) :
  Clustered.reachable σ →
  Clustered.schoolData σ !! sc = Some school →
  (∀ name c,
      (name, c) ∈ Clustered.clusters school →
      name = sc +:+ "_" +:+ pretty (Clustered.clusterNumber c) ∧
      (1 ≤ Clustered.clusterNumber c ≤ Clustered.lastClusterNumber school)%N ∧
      Js.prototypeGet (Clustered.prototypeExtras σ) name = None) ∧
  NoDup (Clustered.clusters school).*1 ∧
  (∀ i j ei ej,
      i < j →
      Clustered.clusters school !! i = Some ei →
      Clustered.clusters school !! j = Some ej →
      (Clustered.clusterNumber ei.2 < Clustered.clusterNumber ej.2)%N).
Proof.
  intros Hreach Hlook.
  destruct (reachable_storeOk σ Hreach _ _ Hlook) as (Hnd & Hcs & _).
  destruct (reachable_listingOk σ Hreach _ _ Hlook) as (_ & Hsorted).
  split_and!; [|done|].
  - intros name c Hin. rewrite Forall_forall in Hcs.
    destruct (Hcs _ Hin) as (Hname & [Hlo Hhi] & _). simpl in *.
    split_and!; [done..|]. rewrite Hname. apply cluster_name_own.
  - intros i j ei ej Hij Hi Hj.
    apply (StronglySorted_lookup_lt N.lt (clusterNumbers school) i j); [done..| |];
      unfold clusterNumbers; rewrite list_lookup_fmap.
    + by rewrite Hi.
    + by rewrite Hj.
Qed.

Lemma clusters_in_number_order_witness :
  ∃ school,
    Clustered.schoolData (Sample.clustered Sample.eleven) !! "ABC" = Some school ∧
    (Clustered.clusters school).*1 = ["ABC_1"; "ABC_2"] ∧
    clusterNumbers school = [1%N; 2%N] ∧
    NoDup (Clustered.clusters school).*1.
Proof.
  eexists. split; [vm_compute; reflexivity|].
  split; [vm_compute; reflexivity|]. split; [vm_compute; reflexivity|].
  refine (proj1 (proj2 (clusters_in_number_order
                          (Sample.clustered Sample.eleven) "ABC" _ _ _))).
  - apply run_reachable, Clustered.reachable_empty.
  - vm_compute. reflexivity.
Defined.

(** X7 — the shape of a placement response, for string fields.  The
    registration carries strings as [schoolCode] and [deviceId], and the
    store was reached by such requests.  Whenever the registration is
    answered with a placement, the response echoes
    the school code and the device identifier; the position is between 1
    and the size of the resolved device list, at which the list holds the
    device; the role and the top-level host fields are those of
    [rolesFromList] at that position (host1, host2, host3 for positions
    1, 2, 3 and client beyond, each told the hosts up to its own
    position), and the hosts object holds the first three identifiers of
    the list.  On the clustered server the cluster name is the school
    code, an underscore and the numeral of the cluster number, the
    cluster holds at most ten devices, no more than the school in total,
    and [clusterDevices] lists them without repetition.  A device the
    school did not list before is last in its list. *)
Theorem placement_response_shape :
  (∀ σ sc id u now p,
      Clustered.reachable σ →
      (Clustered.postGetHosts σ (Some sc) (Some id) u now).2 = Clustered.Placed p →
      Clustered.p_schoolCode p = sc ∧
      Clustered.p_deviceId p = id ∧
      Clustered.p_clusterName p
      = sc +:+ "_" +:+ pretty (Clustered.p_clusterNumber p) ∧
      (1 ≤ Clustered.p_clusterNumber p)%N ∧
      Clustered.maxDevicesPerCluster p = 10 ∧
      (1 ≤ Clustered.positionInCluster p
         ≤ Z.of_nat (Clustered.totalDevicesInCluster p))%Z ∧
      Clustered.totalDevicesInCluster p ≤ 10 ∧
      (Z.of_nat (Clustered.totalDevicesInCluster p)
       ≤ Clustered.totalDevicesInSchool p)%Z ∧
      length (Clustered.clusterDevices p) = Clustered.totalDevicesInCluster p ∧
      NoDup (Clustered.clusterDevices p) ∧
      Clustered.clusterDevices p !! Z.to_nat (Clustered.positionInCluster p - 1)
      = Some id ∧
      (Clustered.role p, Clustered.hostDeviceId p,
       Clustered.host2DeviceId p, Clustered.host3DeviceId p)
      = rolesFromList (Clustered.positionInCluster p) (Clustered.clusterDevices p) ∧
      Clustered.clusterHosts p
      = {| Clustered.host1 := Clustered.clusterDevices p !! 0;
           Clustered.host2 := Clustered.clusterDevices p !! 1;
           Clustered.host3 := Clustered.clusterDevices p !! 2 |} ∧
      (ClusteredInv.knows id (ClusteredInv.schoolOrNew σ sc) = false →
       Clustered.positionInCluster p
       = Z.of_nat (Clustered.totalDevicesInCluster p))) ∧
  (∀ σ sc id now p,
      Flat.reachable σ →
      (Flat.postGetHosts σ (Some sc) (Some id) now).2 = Flat.Placed p →
      ∃ school,
        Flat.schoolData (Flat.postGetHosts σ (Some sc) (Some id) now).1 !! sc
        = Some school ∧
        Flat.p_schoolCode p = sc ∧
        Flat.p_deviceId p = id ∧
        Flat.totalDevices p = length (flatDeviceIds school) ∧
        (1 ≤ Flat.position p ≤ Z.of_nat (Flat.totalDevices p))%Z ∧
        flatDeviceIds school !! Z.to_nat (Flat.position p - 1) = Some id ∧
        (Flat.role p, Flat.hostDeviceId p, Flat.host2DeviceId p, Flat.host3DeviceId p)
        = rolesFromList (Flat.position p) (flatDeviceIds school) ∧
        Flat.p_hosts p
        = {| Flat.host1 := flatDeviceIds school !! 0;
             Flat.host2 := flatDeviceIds school !! 1;
             Flat.host3 := flatDeviceIds school !! 2 |} ∧
        (id ∉ flatDeviceIds (FlatInv.schoolOrNew σ sc) →
         Flat.position p = Z.of_nat (Flat.totalDevices p))).
Proof.
  split.
  - intros σ sc id u now p Hreach Hp.
    destruct (clustered_shape σ sc id u now p Hreach Hp)
      as (H1 & H2 & H3 & H4 & H5 & [H6 H7] & H8 & H9 & H10 & H11 & H12 & H13 & H14).
    split_and!; try done. intros Hknows. by eapply clustered_appended.
  - intros σ sc id now p Hreach Hp.
    destruct (flat_shape σ sc id now p Hreach Hp)
      as (school & H1 & H2 & H3 & H4 & [H5 H6] & H7 & H8 & H9).
    exists school. split_and!; try done. intros Hnew. by eapply flat_appended.
Qed.

Lemma placement_response_shape_witness :
  (∃ p,
      (Clustered.postGetHosts (Sample.clustered Sample.four)
         (Some "ABC") (Some "d5") 0%fin Sample.clock).2 = Clustered.Placed p ∧
      Clustered.clusterDevices p = ["d1"; "d2"; "d3"; "d4"; "d5"] ∧
      Clustered.positionInCluster p = 5%Z ∧
      (Clustered.role p, Clustered.hostDeviceId p,
       Clustered.host2DeviceId p, Clustered.host3DeviceId p)
      = rolesFromList (Clustered.positionInCluster p) (Clustered.clusterDevices p)) ∧
  (∃ p school,
      (Flat.postGetHosts (Sample.flat Sample.four)
         (Some "ABC") (Some "d2") Sample.clock).2 = Flat.Placed p ∧
      Flat.schoolData
        (Flat.postGetHosts (Sample.flat Sample.four)
           (Some "ABC") (Some "d2") Sample.clock).1 !! "ABC" = Some school ∧
      Flat.position p = 2%Z ∧
      (Flat.role p, Flat.hostDeviceId p, Flat.host2DeviceId p, Flat.host3DeviceId p)
      = rolesFromList (Flat.position p) (flatDeviceIds school)).
Proof.
  split.
  - eexists. split; [vm_compute; reflexivity|].
    split; [vm_compute; reflexivity|]. split; [vm_compute; reflexivity|].
    refine (proj1 (proj2 (proj2 (proj2 (proj2 (proj2 (proj2 (proj2 (proj2 (proj2
      (proj2 (proj2
        (proj1 placement_response_shape (Sample.clustered Sample.four)
           "ABC" "d5" 0%fin Sample.clock _ _ _))))))))))))).
    + apply run_reachable, Clustered.reachable_empty.
    + vm_compute. reflexivity.
  - destruct (proj2 placement_response_shape (Sample.flat Sample.four)
                "ABC" "d2" Sample.clock
                (Flat.composeResponse "ABC" "d2"
                   (default Flat.newSchool
                      (Flat.schoolData (Sample.flat Sample.four) !! "ABC"))))
      as (school & Hlook & _ & _ & _ & _ & _ & Hroles & _).
    + apply flat_run_reachable, Flat.reachable_empty.
    + vm_compute. reflexivity.
    + eexists _, school. split; [vm_compute; reflexivity|]. split; [exact Hlook|].
      split; [vm_compute; reflexivity|]. exact Hroles.
Defined.

(** X8 — a device with a string identifier keeps its role.  All
    requests carry strings as [schoolCode] and [deviceId].  Once a
    registration has been answered with a placement, then after any
    further requests that reset neither
    the school nor (clustered server) the cluster the device was placed
    in, registering the device again is answered with a placement that
    leaves the store unchanged and reports the same role, position and
    top-level host fields; on the clustered server also the same cluster
    name, number and frequency, with the earlier [clusterDevices] as a
    prefix of the later.  Registrations of other devices, requests for
    other schools and resets of other clusters may come in between, and
    the prototype may have been written. *)
Theorem role_stability :
  (∀ σ sc id u now p rs u' now',
      Clustered.reachable σ →
      (Clustered.postGetHosts σ (Some sc) (Some id) u now).2 = Clustered.Placed p →
      Forall (λ r, r ≠ Clustered.DeleteSchool sc ∧
                   r ≠ Clustered.DeleteCluster sc
                         (pretty (Clustered.p_clusterNumber p))) rs →
      ∃ p',
        Clustered.postGetHosts
          (Clustered.run (Clustered.postGetHosts σ (Some sc) (Some id) u now).1 rs)
          (Some sc) (Some id) u' now'
        = (Clustered.run (Clustered.postGetHosts σ (Some sc) (Some id) u now).1 rs,
           Clustered.Placed p') ∧
        (Clustered.role p', Clustered.positionInCluster p', Clustered.hostDeviceId p',
         Clustered.host2DeviceId p', Clustered.host3DeviceId p')
        = (Clustered.role p, Clustered.positionInCluster p, Clustered.hostDeviceId p,
           Clustered.host2DeviceId p, Clustered.host3DeviceId p) ∧
        (Clustered.p_clusterName p', Clustered.p_clusterNumber p',
         Clustered.p_frequency p')
        = (Clustered.p_clusterName p, Clustered.p_clusterNumber p,
           Clustered.p_frequency p) ∧
        Clustered.clusterDevices p `prefix_of` Clustered.clusterDevices p') ∧
  (∀ σ sc id now p rs now',
      Flat.reachable σ →
      (Flat.postGetHosts σ (Some sc) (Some id) now).2 = Flat.Placed p →
      Forall (λ r, r ≠ Flat.DeleteSchool sc) rs →
      ∃ p',
        Flat.postGetHosts
          (Flat.run (Flat.postGetHosts σ (Some sc) (Some id) now).1 rs)
          (Some sc) (Some id) now'
        = (Flat.run (Flat.postGetHosts σ (Some sc) (Some id) now).1 rs,
           Flat.Placed p') ∧
        (Flat.role p', Flat.position p', Flat.hostDeviceId p',
         Flat.host2DeviceId p', Flat.host3DeviceId p')
        = (Flat.role p, Flat.position p, Flat.hostDeviceId p,
           Flat.host2DeviceId p, Flat.host3DeviceId p)).
Proof.
  split.
  - intros σ sc id u now p rs u' now'. apply clustered_stable.
  - intros σ sc id now p rs now'. apply flat_stable.
Qed.

Lemma role_stability_witness :
  (∃ p,
      (Clustered.postGetHosts (Sample.clustered Sample.four)
         (Some "ABC") (Some "d2") 0%fin Sample.clock).2 = Clustered.Placed p ∧
      Clustered.role p = "host2" ∧
      ∃ p',
        Clustered.postGetHosts
          (Clustered.run
             (Clustered.postGetHosts (Sample.clustered Sample.four)
                (Some "ABC") (Some "d2") 0%fin Sample.clock).1
             [Sample.place "ABC" "d5"; Sample.place "__proto__" "x";
              Sample.place "XYZ" "e1"; Clustered.DeleteCluster "ABC" "2";
              Clustered.DeleteSchool "XYZ"])
          (Some "ABC") (Some "d2") 7%fin "2025-01-02T00:00:00.000Z"
        = (Clustered.run
             (Clustered.postGetHosts (Sample.clustered Sample.four)
                (Some "ABC") (Some "d2") 0%fin Sample.clock).1
             [Sample.place "ABC" "d5"; Sample.place "__proto__" "x";
              Sample.place "XYZ" "e1"; Clustered.DeleteCluster "ABC" "2";
              Clustered.DeleteSchool "XYZ"],
           Clustered.Placed p') ∧
        (Clustered.role p', Clustered.positionInCluster p', Clustered.hostDeviceId p',
         Clustered.host2DeviceId p', Clustered.host3DeviceId p')
        = (Clustered.role p, Clustered.positionInCluster p, Clustered.hostDeviceId p,
           Clustered.host2DeviceId p, Clustered.host3DeviceId p) ∧
        (Clustered.p_clusterName p', Clustered.p_clusterNumber p',
         Clustered.p_frequency p')
        = (Clustered.p_clusterName p, Clustered.p_clusterNumber p,
           Clustered.p_frequency p) ∧
        Clustered.clusterDevices p `prefix_of` Clustered.clusterDevices p') ∧
  (∃ p,
      (Flat.postGetHosts (Sample.flat Sample.four)
         (Some "ABC") (Some "d4") Sample.clock).2 = Flat.Placed p ∧
      Flat.role p = "client" ∧
      ∃ p',
        Flat.postGetHosts
          (Flat.run
             (Flat.postGetHosts (Sample.flat Sample.four)
                (Some "ABC") (Some "d4") Sample.clock).1
             [Sample.flatPlace "ABC" "d5"; Flat.DeleteSchool "XYZ";
              Flat.GetSchool "ABC"])
          (Some "ABC") (Some "d4") "2025-01-02T00:00:00.000Z"
        = (Flat.run
             (Flat.postGetHosts (Sample.flat Sample.four)
                (Some "ABC") (Some "d4") Sample.clock).1
             [Sample.flatPlace "ABC" "d5"; Flat.DeleteSchool "XYZ";
              Flat.GetSchool "ABC"],
           Flat.Placed p') ∧
        (Flat.role p', Flat.position p', Flat.hostDeviceId p',
         Flat.host2DeviceId p', Flat.host3DeviceId p')
        = (Flat.role p, Flat.position p, Flat.hostDeviceId p,
           Flat.host2DeviceId p, Flat.host3DeviceId p)).
Proof.
  split.
  - eexists. split; [vm_compute; reflexivity|]. split; [vm_compute; reflexivity|].
    apply (proj1 role_stability (Sample.clustered Sample.four) "ABC" "d2"
             0%fin Sample.clock).
    + apply run_reachable, Clustered.reachable_empty.
    + vm_compute. reflexivity.
    + repeat constructor; discriminate.
  - eexists. split; [vm_compute; reflexivity|]. split; [vm_compute; reflexivity|].
    apply (proj2 role_stability (Sample.flat Sample.four) "ABC" "d4" Sample.clock).
    + apply flat_run_reachable, Flat.reachable_empty.
    + vm_compute. reflexivity.
    + repeat constructor; discriminate.
Defined.

(** X9 — filling order.  As long as no cluster has been reset, the
    clusters of a school fill one after the other: when a server that
    was started empty and has since handled any requests other than
    cluster resets places a device the school does not list, and the
    school counts [t] devices, the device is placed in cluster number
    [t / 10 + 1] at position [t mod 10 + 1], and the response reports
    [t + 1] devices for the school. *)
Theorem fill_order (rs : list Clustered.Request) (sc id : string)
    (u : fin 25) (now : string) (p : Clustered.Placement) :
  Forall (λ r, ∀ sc' number, r ≠ Clustered.DeleteCluster sc' number) rs →
  ClusteredInv.knows id
    (ClusteredInv.schoolOrNew (Clustered.run Clustered.emptyStore rs) sc) = false →
  (Clustered.postGetHosts (Clustered.run Clustered.emptyStore rs)
     (Some sc) (Some id) u now).2 = Clustered.Placed p →
  (0 ≤ Clustered.totalDevices
         (ClusteredInv.schoolOrNew (Clustered.run Clustered.emptyStore rs) sc))%Z ∧
  Clustered.totalDevicesInSchool p
  = (Clustered.totalDevices
       (ClusteredInv.schoolOrNew (Clustered.run Clustered.emptyStore rs) sc) + 1)%Z ∧
  Z.of_N (Clustered.p_clusterNumber p)
  = (Clustered.totalDevices
       (ClusteredInv.schoolOrNew (Clustered.run Clustered.emptyStore rs) sc)
     `div` 10 + 1)%Z ∧
  Clustered.positionInCluster p
  = (Clustered.totalDevices
       (ClusteredInv.schoolOrNew (Clustered.run Clustered.emptyStore rs) sc)
     `mod` 10 + 1)%Z.
Proof.
  intros Hrs Hknows Hp.
  pose proof (run_reachable Clustered.emptyStore rs Clustered.reachable_empty) as Hreach.
  pose proof (reachable_storeOk _ Hreach) as Hok.
  assert (storeCompact (Clustered.run Clustered.emptyStore rs)) as Hc.
  { apply run_compact; [apply Clustered.reachable_empty | done | done]. }
  destruct (postGetHosts_Placed_valid _ _ _ _ _ _ Hp)
    as (sc' & d & [= <-] & [= <-] & Hsc & Hid).
  pose proof (postGetHosts_outcome _ sc id u now Hok Hsc Hid) as Hout.
  rewrite Hp in Hout.
  eapply PostOutcome_fill; [done| |done..]. by apply schoolOrNew_compact.
Qed.

Lemma fill_order_witness :
  ∃ p,
    (Clustered.postGetHosts
       (Clustered.run Clustered.emptyStore
          ((Sample.place "ABC" <$> Sample.eleven) ++
           [Clustered.DeleteSchool "XYZ"; Sample.place "ABC" "d3"]))
       (Some "ABC") (Some "d12") 0%fin Sample.clock).2 = Clustered.Placed p ∧
    Clustered.totalDevices
      (ClusteredInv.schoolOrNew
         (Clustered.run Clustered.emptyStore
            ((Sample.place "ABC" <$> Sample.eleven) ++
             [Clustered.DeleteSchool "XYZ"; Sample.place "ABC" "d3"])) "ABC")
    = 11%Z ∧
    Clustered.totalDevicesInSchool p = 12%Z ∧
    Clustered.p_clusterNumber p = 2%N ∧
    Clustered.positionInCluster p = 2%Z.
Proof.
  eexists. split; [vm_compute; reflexivity|]. split; [vm_compute; reflexivity|].
  destruct (fill_order
              ((Sample.place "ABC" <$> Sample.eleven) ++
               [Clustered.DeleteSchool "XYZ"; Sample.place "ABC" "d3"])
              "ABC" "d12" 0%fin Sample.clock
              (Clustered.composeResponse "ABC" "d12" "ABC_2"
                 {| Clustered.clusterNumber := 2;
                    Clustered.devices :=
                      [{| Clustered.deviceId := "d11";
                          Clustered.registeredAt := Sample.clock |};
                       {| Clustered.deviceId := "d12";
                          Clustered.registeredAt := Sample.clock |}];
                    Clustered.hosts := ["d11"; "d12"];
                    Clustered.frequency := 5180;
                    Clustered.createdAt := Sample.clock |} 12))
    as (_ & Htotal & Hnumber & Hposition).
  - repeat constructor; discriminate.
  - vm_compute. reflexivity.
  - vm_compute. reflexivity.
  - split; [exact Htotal|]. split; vm_compute; reflexivity.
Defined.

(** X10 — the school summary is consistent, in the stores reached by
    requests whose [schoolCode] and [deviceId] are strings.  On the
    clustered server a stored school is summarised (200) in every such
    store whose prototype no request has written.  Whenever the summary is returned,
    it is that of the stored school: [totalClusters] is the number of
    clusters listed, in creation order and in increasing number order;
    [totalDevices] is the sum of the clusters' [totalDevices]; every
    summary is listed under the name made of the school code and its
    number, which is at most [lastClusterNumber]; its [totalDevices] is
    the length of its device list and at most ten; [isFull] holds exactly
    at ten; its hosts are the first three devices; and no device appears
    twice across the summaries.  On the flat server a stored school is
    always summarised, with [totalDevices] the length of the device list,
    the hosts its first three identifiers, and no identifier twice. *)
Theorem school_summary_consistent :
  (∀ σ sc school,
      Clustered.reachable σ →
      Clustered.schoolData σ !! sc = Some school →
      Clustered.protoLastClusterNumber σ = false →
      ∃ i, Clustered.getSchoolInfo σ sc = Clustered.SchoolFound i) ∧
  (∀ σ sc i,
      Clustered.reachable σ →
      Clustered.getSchoolInfo σ sc = Clustered.SchoolFound i →
      (∃ school,
          Clustered.schoolData σ !! sc = Some school ∧
          Clustered.si_totalDevices i = Clustered.totalDevices school ∧
          Clustered.si_lastClusterNumber i = Clustered.lastClusterNumber school ∧
          (Clustered.si_clusters i).*1 = (Clustered.clusters school).*1) ∧
      Clustered.si_schoolCode i = sc ∧
      Clustered.si_maxDevicesPerCluster i = 10 ∧
      Clustered.si_totalClusters i = length (Clustered.si_clusters i) ∧
      Clustered.si_totalDevices i
      = Z.of_nat (sum_list ((λ e, Clustered.cs_totalDevices e.2)
                              <$> Clustered.si_clusters i)) ∧
      NoDup (Clustered.si_clusters i ≫= λ e, Clustered.cs_devices e.2) ∧
      (∀ name summary,
          (name, summary) ∈ Clustered.si_clusters i →
          name = sc +:+ "_" +:+ pretty (Clustered.cs_clusterNumber summary) ∧
          (1 ≤ Clustered.cs_clusterNumber summary
             ≤ Clustered.si_lastClusterNumber i)%N ∧
          Clustered.cs_totalDevices summary = length (Clustered.cs_devices summary) ∧
          Clustered.cs_totalDevices summary ≤ 10 ∧
          Clustered.cs_hosts summary = take 3 (Clustered.cs_devices summary) ∧
          Clustered.cs_isFull summary
          = bool_decide (Clustered.cs_totalDevices summary = 10)) ∧
      (∀ j k ej ek,
          j < k →
          Clustered.si_clusters i !! j = Some ej →
          Clustered.si_clusters i !! k = Some ek →
          (Clustered.cs_clusterNumber ej.2 < Clustered.cs_clusterNumber ek.2)%N)) ∧
  (∀ σ sc school,
      Flat.schoolData σ !! sc = Some school →
      ∃ i, Flat.getSchoolInfo σ sc = Flat.SchoolFound i) ∧
  (∀ σ sc i,
      Flat.reachable σ →
      Flat.getSchoolInfo σ sc = Flat.SchoolFound i →
      ∃ school,
        Flat.schoolData σ !! sc = Some school ∧
        Flat.si_schoolCode i = sc ∧
        Flat.si_devices i = Flat.devices school ∧
        Flat.si_totalDevices i = length (Flat.si_devices i) ∧
        Flat.si_hosts i = Flat.deviceId <$> take 3 (Flat.si_devices i) ∧
        NoDup (Flat.deviceId <$> Flat.si_devices i)).
Proof.
  split_and!.
  - intros σ sc school Hreach Hlook Hflag.
    apply (getSchoolInfo_stored σ sc school Hlook).
    exact (inheritedKeys_intact σ school Hflag).
  - intros σ sc i Hreach Hfound.
    split; [|exact (clustered_summary σ sc i Hreach Hfound)].
    destruct (getSchoolInfo_found σ sc i Hfound) as (school & Hlook & _ & ->).
    exists school. simpl. split_and!; [done..|].
    rewrite <-list_fmap_compose. by apply list_fmap_ext; intros ? [? ?].
  - intros σ sc school. apply flat_summary_stored.
  - intros σ sc i. apply flat_summary.
Qed.

Lemma school_summary_consistent_witness :
  (∃ i,
      Clustered.getSchoolInfo (Sample.clustered Sample.eleven) "ABC"
      = Clustered.SchoolFound i ∧
      Clustered.si_totalClusters i = 2 ∧
      Clustered.si_totalDevices i = 11%Z ∧
      Clustered.si_totalDevices i
      = Z.of_nat (sum_list ((λ e, Clustered.cs_totalDevices e.2)
                              <$> Clustered.si_clusters i))) ∧
  (∃ i,
      Flat.getSchoolInfo (Sample.flat Sample.four) "ABC" = Flat.SchoolFound i ∧
      Flat.si_totalDevices i = 4 ∧
      Flat.si_hosts i = ["d1"; "d2"; "d3"] ∧
      ∃ school,
        Flat.schoolData (Sample.flat Sample.four) !! "ABC" = Some school ∧
        Flat.si_schoolCode i = "ABC" ∧
        Flat.si_devices i = Flat.devices school ∧
        Flat.si_totalDevices i = length (Flat.si_devices i) ∧
        Flat.si_hosts i = Flat.deviceId <$> take 3 (Flat.si_devices i) ∧
        NoDup (Flat.deviceId <$> Flat.si_devices i)).
Proof.
  split.
  - eexists. split; [vm_compute; reflexivity|].
    split; [vm_compute; reflexivity|]. split; [vm_compute; reflexivity|].
    refine (proj1 (proj2 (proj2 (proj2 (proj2
      (proj1 (proj2 school_summary_consistent)
         (Sample.clustered Sample.eleven) "ABC" _ _ _)))))).
    + apply run_reachable, Clustered.reachable_empty.
    + vm_compute. reflexivity.
  - eexists. split; [vm_compute; reflexivity|].
    split; [vm_compute; reflexivity|]. split; [vm_compute; reflexivity|].
    apply (proj2 (proj2 (proj2 school_summary_consistent))
             (Sample.flat Sample.four) "ABC").
    + apply flat_run_reachable, Flat.reachable_empty.
    + vm_compute. reflexivity.
Defined.

(** X11 — a cluster is looked up by the text of its number.  In a
    store reached by requests whose [schoolCode] and [deviceId] are
    strings, for a stored school: the cluster query with the
    decimal numeral of a stored cluster's number returns that cluster's
    record; whenever the query returns a cluster, the text given is the
    numeral of that cluster's number, the cluster is stored under the name
    made of the school code and that text, [totalDevices] is the length
    of the device list and at most ten, [isFull] holds exactly at ten, the
    hosts are the first three devices and no device is listed twice; and
    a text that is the numeral of no stored cluster's number is answered
    404 Cluster not found, unless the name made of it is a key of
    [Object.prototype], when the answer is 500. *)
Theorem cluster_lookup_by_number
    (σ : Clustered.Store) (sc : string) (school : Clustered.School) :
  Clustered.reachable σ →
  Clustered.schoolData σ !! sc = Some school →
  (∀ name c,
      (name, c) ∈ Clustered.clusters school →
      Clustered.getClusterInfo σ sc (pretty (Clustered.clusterNumber c))
      = Clustered.ClusterFound
          (clusterInfoOf sc (pretty (Clustered.clusterNumber c)) c)) ∧
  (∀ number i,
      Clustered.getClusterInfo σ sc number = Clustered.ClusterFound i →
      ∃ c,
        (sc +:+ "_" +:+ number, c) ∈ Clustered.clusters school ∧
        number = pretty (Clustered.clusterNumber c) ∧
        i = clusterInfoOf sc number c ∧
        Clustered.ci_totalDevices i = length (Clustered.ci_devices i) ∧
        Clustered.ci_totalDevices i ≤ 10 ∧
        Clustered.ci_isFull i = bool_decide (Clustered.ci_totalDevices i = 10) ∧
        Clustered.ci_hosts i
        = Clustered.deviceId <$> take 3 (Clustered.ci_devices i) ∧
        NoDup (Clustered.deviceId <$> Clustered.ci_devices i)) ∧
  (∀ number,
      (∀ name c, (name, c) ∈ Clustered.clusters school →
                 number ≠ pretty (Clustered.clusterNumber c)) →
      Clustered.getClusterInfo σ sc number
      = match Js.prototypeGet [] (sc +:+ "_" +:+ number) with
        | Some _ => Clustered.InternalError
        | None => Clustered.NotFound "Cluster not found"
        end).
Proof.
  intros Hreach Hlook. pose proof (reachable_storeOk σ Hreach) as Hok.
  split_and!.
  - intros name c Hin.
    destruct (member_cluster σ sc school name c Hok Hlook Hin) as [_ Hget].
    by rewrite (getClusterInfo_cases σ sc _ school Hlook), Hget.
  - intros number i Hfound.
    rewrite (getClusterInfo_cases σ sc number school Hlook) in Hfound.
    destruct (Js.objGet _ (Clustered.clusters school)) as [c|] eqn:Hget;
      [|by destruct (Js.prototypeGet _ _)].
    injection Hfound as <-. exists c.
    destruct (stored_cluster σ sc school _ c Hok Hlook Hget)
      as (Hin & _ & _ & Hlen & Hhosts & _).
    simpl in *. split_and!; try done.
    + by eapply stored_cluster_numeral.
    + by apply isFull_at_most_ten.
    + eapply listing_cluster_NoDup; [|done]. by eapply reachable_listingOk.
  - intros number Hnone.
    rewrite (getClusterInfo_cases σ sc number school Hlook).
    destruct (Js.objGet _ (Clustered.clusters school)) as [c|] eqn:Hget; [|done].
    destruct (stored_cluster σ sc school _ c Hok Hlook Hget) as (Hin & _).
    destruct (Hnone _ _ Hin). by eapply stored_cluster_numeral.
Qed.

Lemma cluster_lookup_by_number_witness :
  (∃ i,
      Clustered.getClusterInfo (Sample.clustered Sample.four) "ABC" "1"
      = Clustered.ClusterFound i ∧
      Clustered.ci_totalDevices i = 4) ∧
  Clustered.getClusterInfo (Sample.clustered Sample.four) "ABC" "01"
  = Clustered.NotFound "Cluster not found" ∧
  Clustered.getClusterInfo
    (Clustered.run Clustered.emptyStore [Sample.place "_" "d1"]) "_" "proto__"
  = Clustered.InternalError.
Proof.
  assert (∀ σ sc number school,
            Clustered.reachable σ →
            Clustered.schoolData σ !! sc = Some school →
            (∀ name c, (name, c) ∈ Clustered.clusters school →
                       number ≠ pretty (Clustered.clusterNumber c)) →
            Clustered.getClusterInfo σ sc number
            = match Js.prototypeGet [] (sc +:+ "_" +:+ number) with
              | Some _ => Clustered.InternalError
              | None => Clustered.NotFound "Cluster not found"
              end) as Hmissing.
  { intros σ sc number school Hreach Hlook.
    apply (proj2 (proj2 (cluster_lookup_by_number σ sc school Hreach Hlook))). }
  split_and!.
  - eexists. split; vm_compute; reflexivity.
  - erewrite Hmissing.
    + vm_compute. reflexivity.
    + apply run_reachable, Clustered.reachable_empty.
    + vm_compute. reflexivity.
    + simpl. intros name c [= -> ->]%list_elem_of_singleton. by vm_compute.
  - erewrite Hmissing.
    + vm_compute. reflexivity.
    + apply run_reachable, Clustered.reachable_empty.
    + vm_compute. reflexivity.
    + simpl. intros name c [= -> ->]%list_elem_of_singleton. by vm_compute.
Defined.

(** X12 — what a cluster reset does.  In a reachable store, resetting a
    stored cluster is answered 200 with the cluster's name in the
    message; the school stays stored, with the other clusters unchanged
    and in the same order; the prototype and the other schools are not
    touched; the devices of the removed cluster are no longer listed by
    any cluster of the school; and right afterwards both the query and a
    second reset of the same cluster are answered 404 Cluster not found,
    the second reset leaving the store as it is. *)
Theorem cluster_reset_effect (σ : Clustered.Store) (sc number : string)
    (school : Clustered.School) (c : Clustered.Cluster) :
  Clustered.reachable σ →
  Clustered.schoolData σ !! sc = Some school →
  Js.objGet (sc +:+ "_" +:+ number) (Clustered.clusters school) = Some c →
  ∃ σ' school',
    Clustered.deleteCluster σ sc number
    = (σ', Clustered.ResetDone
             ("Cluster " +:+ (sc +:+ "_" +:+ number) +:+ " reset successfully")) ∧
    Clustered.schoolData σ' = <[sc := school']> (Clustered.schoolData σ) ∧
    Clustered.protoLastClusterNumber σ' = Clustered.protoLastClusterNumber σ ∧
    Clustered.clusters school' `sublist_of` Clustered.clusters school ∧
    length (Clustered.clusters school') + 1 = length (Clustered.clusters school) ∧
    Js.objGet (sc +:+ "_" +:+ number) (Clustered.clusters school') = None ∧
    (∀ k, k ≠ sc +:+ "_" +:+ number →
          Js.objGet k (Clustered.clusters school')
          = Js.objGet k (Clustered.clusters school)) ∧
    (∀ d, d ∈ Clustered.devices c →
          ClusteredInv.knows (Clustered.deviceId d) school' = false) ∧
    Clustered.getClusterInfo σ' sc number = Clustered.NotFound "Cluster not found" ∧
    Clustered.deleteCluster σ' sc number
    = (σ', Clustered.NotFound "Cluster not found").
Proof.
  intros Hreach Hlook Hget.
  pose proof (reachable_storeOk σ Hreach) as Hok.
  pose proof (reachable_listingOk σ Hreach _ _ Hlook) as Hl.
  pose proof (stored_cluster_numeral σ sc school number c Hok Hlook Hget) as Hnum.
  destruct (Hok _ _ Hlook) as (Hnd & _).
  destruct (deleteCluster_cases σ sc number)
    as [(school0 & pre & c0 & post & Hlook0 & Hsplit & Hpre & Hdel & Heq)|[_ Hno]].
  2:{ exfalso. unfold Clustered.deleteCluster in Hno.
      rewrite (getSchool_own _ _ _ Hlook) in Hno.
      rewrite (getCluster_stored σ school _ c Hget) in Hno. by eapply Hno. }
  assert (school0 = school) as -> by congruence.
  assert (c0 = c) as ->.
  { rewrite Hsplit, objGet_app_fresh in Hget by done. congruence. }
  set (name := sc +:+ "_" +:+ number) in *.
  set (school' :=
         {| Clustered.clusters := pre ++ post;
            Clustered.totalDevices :=
              (Clustered.totalDevices school
               - Z.of_nat (length (Clustered.devices c)))%Z;
            Clustered.lastClusterNumber := Clustered.lastClusterNumber school |}).
  assert (Js.objGet name (pre ++ post) = None) as Hgone.
  { rewrite <-Hdel. by apply objGet_objDelete_eq. }
  assert (Js.prototypeGet [] name = None) as Hproto.
  { unfold name. rewrite Hnum.
    apply prototypeGet_digit; [apply cluster_name_digit | done]. }
  assert (Clustered.schoolData (ClusteredInv.putSchool σ sc school') !! sc
          = Some school') as Hlook'.
  { simpl. by rewrite lookup_insert_eq. }
  exists (ClusteredInv.putSchool σ sc school'), school'. split_and!; try done.
  - simpl. rewrite Hsplit. apply sublist_app; [done|]. by apply sublist_cons.
  - simpl. rewrite Hsplit, !length_app. simpl. lia.
  - intros k Hk. simpl. rewrite <-Hdel. by apply objGet_objDelete_ne.
  - intros d Hd. apply knows_false. simpl.
    destruct (listing_unique school pre name c post (Clustered.deviceId d) Hl Hsplit)
      as [Hpre' Hpost'].
    { apply hasDevice_true, Exists_exists. exists d. split; [done|].
      apply String.eqb_refl. }
    by apply Forall_app.
  - rewrite (getClusterInfo_cases _ sc number school' Hlook'). simpl.
    fold name. by rewrite Hgone, Hproto.
  - rewrite (deleteCluster_absent _ sc number school' Hlook') by done.
    fold name. by rewrite Hproto.
Qed.

Lemma cluster_reset_effect_witness :
  ∃ σ',
    Clustered.deleteCluster (Sample.clustered Sample.eleven) "ABC" "1"
    = (σ', Clustered.ResetDone ("Cluster " +:+ ("ABC" +:+ "_" +:+ "1")
                                 +:+ " reset successfully")) ∧
    Clustered.getClusterInfo σ' "ABC" "1" = Clustered.NotFound "Cluster not found" ∧
    Clustered.deleteCluster σ' "ABC" "1"
    = (σ', Clustered.NotFound "Cluster not found") ∧
    ∃ i, Clustered.getSchoolInfo σ' "ABC" = Clustered.SchoolFound i ∧
         Clustered.si_totalClusters i = 1 ∧ Clustered.si_totalDevices i = 1%Z.
Proof.
  assert (∃ school c,
            Clustered.schoolData (Sample.clustered Sample.eleven) !! "ABC"
            = Some school ∧
            Js.objGet ("ABC" +:+ "_" +:+ "1") (Clustered.clusters school) = Some c)
    as (school & c & Hlook & Hget).
  { eexists _, _. split; vm_compute; reflexivity. }
  destruct (cluster_reset_effect (Sample.clustered Sample.eleven) "ABC" "1" school c)
    as (σ' & school' & Hreset & _ & _ & _ & _ & _ & _ & _ & Hquery & Hagain);
    [apply run_reachable, Clustered.reachable_empty | done | done|].
  exists σ'. split_and!; [done..|].
  assert (σ' = (Clustered.deleteCluster (Sample.clustered Sample.eleven) "ABC" "1").1)
    as -> by (by rewrite Hreset).
  eexists. split; [vm_compute; reflexivity|]. split; vm_compute; reflexivity.
Defined.

(** X13 — a request that fails changes no school.  On the clustered
    server, in a reachable store, a request that is answered neither with
    a placement nor with a reset confirmation leaves every stored school
    exactly as it was, and leaves the whole store as it was unless the
    answer is 500; after a 500 the only entry that can be new is an
    empty school record under the school code of the request.  On the
    flat server such a request leaves the store as it was.  In
    particular no query changes the store. *)
Theorem failed_requests_keep_schools :
  (∀ σ r,
      Clustered.reachable σ →
      (∀ p, (Clustered.handle σ r).2 ≠ Clustered.Placed p) →
      (∀ msg, (Clustered.handle σ r).2 ≠ Clustered.ResetDone msg) →
      (∀ k s, Clustered.schoolData σ !! k = Some s →
              Clustered.schoolData (Clustered.handle σ r).1 !! k = Some s) ∧
      (∀ k s, Clustered.schoolData (Clustered.handle σ r).1 !! k = Some s →
              Clustered.schoolData σ !! k = Some s ∨
              ((Clustered.handle σ r).2 = Clustered.InternalError ∧
               ClusteredInv.target r = Some k ∧ s = Clustered.newSchool)) ∧
      ((Clustered.handle σ r).2 ≠ Clustered.InternalError →
       (Clustered.handle σ r).1 = σ)) ∧
  (∀ σ r,
      (∀ p, (Flat.handle σ r).2 ≠ Flat.Placed p) →
      (∀ msg, (Flat.handle σ r).2 ≠ Flat.ResetDone msg) →
      (Flat.handle σ r).1 = σ).
Proof.
  split.
  - intros σ r Hreach Hp Hr.
    pose proof (clustered_failure_effect σ r (reachable_storeOk σ Hreach)) as Heff.
    destruct (Clustered.handle σ r) as [σ' resp]. simpl in *.
    destruct resp; try (by destruct (Hp _ eq_refl)); try (by destruct (Hr _ eq_refl));
      try (subst σ'; split_and!; [done | by left | done]).
    destruct Heff as [Hkeep Hnew]. split_and!; [done| |done].
    intros k s Hk. destruct (Hnew k s Hk) as [?|[? ?]]; [by left | by right].
  - apply flat_failure_effect.
Qed.

Lemma failed_requests_keep_schools_witness :
  (Clustered.handle Sample.fullThenProto (Sample.place "XYZ" "d1")).2
  = Clustered.InternalError ∧
  Clustered.schoolData Sample.fullThenProto !! "XYZ" = None ∧
  (∀ k s, Clustered.schoolData Sample.fullThenProto !! k = Some s →
          Clustered.schoolData
            (Clustered.handle Sample.fullThenProto (Sample.place "XYZ" "d1")).1 !! k
          = Some s) ∧
  (∀ k s, Clustered.schoolData
            (Clustered.handle Sample.fullThenProto (Sample.place "XYZ" "d1")).1 !! k
          = Some s →
          Clustered.schoolData Sample.fullThenProto !! k = Some s ∨
          ((Clustered.handle Sample.fullThenProto (Sample.place "XYZ" "d1")).2
           = Clustered.InternalError ∧
           ClusteredInv.target (Sample.place "XYZ" "d1") = Some k ∧
           s = Clustered.newSchool)) ∧
  (Flat.handle (Sample.flat Sample.four) (Flat.GetSchool "XYZ")).1
  = Sample.flat Sample.four.
Proof.
  split; [vm_compute; reflexivity|]. split; [vm_compute; reflexivity|].
  destruct (proj1 failed_requests_keep_schools
              Sample.fullThenProto (Sample.place "XYZ" "d1")) as (Hkeep & Hnew & _).
  - apply run_reachable, Clustered.reachable_empty.
  - intros p. vm_compute. discriminate.
  - intros msg. vm_compute. discriminate.
  - split; [exact Hkeep|]. split; [exact Hnew|].
    apply (proj2 failed_requests_keep_schools).
    + intros p. vm_compute. discriminate.
    + intros msg. vm_compute. discriminate.
Defined.

(** X14 — a written prototype stays written.  In a reachable store of
    the clustered server a registration with a non-empty device
    identifier for the school code __proto__ is answered 500, stores
    nothing and leaves [Object.prototype.lastClusterNumber] written; no
    other request writes it; and no request removes it.  While it is
    written, the summary of every stored school is answered 500, and so
    is every well-formed registration of a device that the school named
    does not list, whatever the school code. *)
Theorem pollution_is_permanent :
  (∀ σ id u now,
      Clustered.reachable σ → id ≠ "" →
      (Clustered.postGetHosts σ (Some "__proto__") (Some id) u now).2
      = Clustered.InternalError ∧
      Clustered.protoLastClusterNumber
        (Clustered.postGetHosts σ (Some "__proto__") (Some id) u now).1 = true ∧
      Clustered.schoolData
        (Clustered.postGetHosts σ (Some "__proto__") (Some id) u now).1
      = Clustered.schoolData σ) ∧
  (∀ σ r,
      Clustered.reachable σ →
      Clustered.protoLastClusterNumber σ = false →
      Clustered.protoLastClusterNumber (Clustered.handle σ r).1 = true →
      ∃ id u now,
        r = Clustered.PostGetHosts (Some "__proto__") (Some id) u now ∧ id ≠ "") ∧
  (∀ σ rs,
      Clustered.reachable σ →
      Clustered.protoLastClusterNumber σ = true →
      Clustered.protoLastClusterNumber (Clustered.run σ rs) = true) ∧
  (∀ σ sc school,
      Clustered.reachable σ →
      Clustered.protoLastClusterNumber σ = true →
      Clustered.schoolData σ !! sc = Some school →
      Clustered.getSchoolInfo σ sc = Clustered.InternalError) ∧
  (∀ σ sc id u now,
      Clustered.reachable σ →
      Clustered.protoLastClusterNumber σ = true →
      sc ≠ "" → id ≠ "" →
      ClusteredInv.knows id (ClusteredInv.schoolOrNew σ sc) = false →
      (Clustered.postGetHosts σ (Some sc) (Some id) u now).2
      = Clustered.InternalError).
Proof.
  split_and!.
  - intros σ id u now. apply proto_registration.
  - intros σ r Hreach Hfalse Htrue.
    destruct (handle_flag σ r (reachable_storeOk σ Hreach)) as [Heq|[_ Hr]]; [|done].
    congruence.
  - intros σ rs. apply run_flag_stays.
  - intros σ sc school Hreach Hflag Hlook.
    by apply (getSchoolInfo_polluted σ sc school (reachable_storeOk σ Hreach)).
  - intros σ sc id u now Hreach. apply polluted_registration.
    by apply reachable_storeOk.
Qed.

Lemma pollution_is_permanent_witness :
  Clustered.protoLastClusterNumber (Sample.clustered Sample.ten) = false ∧
  Clustered.protoLastClusterNumber Sample.fullThenProto = true ∧
  Clustered.protoLastClusterNumber
    (Clustered.run Sample.fullThenProto
       [Clustered.DeleteSchool "__proto__"; Clustered.DeleteSchool "ABC";
        Sample.place "ABC" "d1"]) = true ∧
  Clustered.getSchoolInfo Sample.fullThenProto "ABC" = Clustered.InternalError ∧
  (Clustered.postGetHosts Sample.fullThenProto (Some "ABC") (Some "d11")
     0%fin Sample.clock).2 = Clustered.InternalError.
Proof.
  assert (Clustered.reachable Sample.fullThenProto) as Hreach
    by apply run_reachable, Clustered.reachable_empty.
  assert (Clustered.protoLastClusterNumber Sample.fullThenProto = true) as Hflag
    by (vm_compute; reflexivity).
  destruct pollution_is_permanent as (_ & _ & Hstays & Hquery & Hplace).
  split; [vm_compute; reflexivity|]. split; [exact Hflag|].
  split; [by apply Hstays|].
  split.
  - eapply Hquery; [done..|]. vm_compute. reflexivity.
  - apply Hplace; [done..| |]; [by vm_compute.. | vm_compute; reflexivity].
Defined.

(** X15 — what a restart restores.  Take a server started without a data
    file that has since handled any sequence of requests and restarts,
    every write of the file having succeeded and finished before the next
    request.  Right after a request answered with a placement or a reset
    confirmation the file holds exactly the schools in memory.  At any
    time, a restart brings back a subset of the schools in memory, each
    unchanged; on the clustered server it brings back every school except
    empty records, which only failed registrations leave behind, and it
    starts with a prototype nothing has written: a device that a school
    listed before the restart is answered afterwards as it would have
    been before, and every registration with non-empty fields and a
    school code that is not a key of [Object.prototype] is answered with
    a placement again.  On the flat server the memory after the restart
    is the memory before it. *)
Theorem restart_restores :
  (∀ es,
      Persistent.writesSucceed es →
      let s := Persistent.runEvents (Persistent.startServer Persistent.NoFile) es in
      let s' := Persistent.step s Persistent.Restart in
      (∀ r,
          Persistent.saves (Persistent.serve s r Written).2 = true →
          Persistent.loadData (Persistent.file (Persistent.serve s r Written).1)
          = Clustered.schoolData (Persistent.memory (Persistent.serve s r Written).1)) ∧
      (∀ k school,
          Clustered.schoolData (Persistent.memory s') !! k = Some school →
          Clustered.schoolData (Persistent.memory s) !! k = Some school) ∧
      (∀ k school,
          Clustered.schoolData (Persistent.memory s) !! k = Some school →
          school ≠ Clustered.newSchool →
          Clustered.schoolData (Persistent.memory s') !! k = Some school) ∧
      Clustered.protoLastClusterNumber (Persistent.memory s') = false ∧
      (∀ sc id school u now u' now' w w',
          sc ≠ "" → id ≠ "" →
          Clustered.schoolData (Persistent.memory s) !! sc = Some school →
          ClusteredInv.knows id school = true →
          (Persistent.serve s' (Clustered.PostGetHosts (Some sc) (Some id) u' now') w').2
          = (Persistent.serve s (Clustered.PostGetHosts (Some sc) (Some id) u now) w).2 ∧
          ∃ p, (Persistent.serve s
                  (Clustered.PostGetHosts (Some sc) (Some id) u now) w).2
               = Clustered.Placed p) ∧
      (∀ sc id u now w,
          sc ≠ "" → id ≠ "" → Js.prototypeGet [] sc = None →
          ∃ p, (Persistent.serve s'
                  (Clustered.PostGetHosts (Some sc) (Some id) u now) w).2
               = Clustered.Placed p)) ∧
  (∀ es,
      FlatPersistent.writesSucceed es →
      FlatPersistent.memory
        (FlatPersistent.step
           (FlatPersistent.runEvents
              (FlatPersistent.startServer FlatPersistent.NoFile) es)
           FlatPersistent.Restart)
      = FlatPersistent.memory
          (FlatPersistent.runEvents
             (FlatPersistent.startServer FlatPersistent.NoFile) es)).
Proof.
  split; [|apply flat_restart_identity].
  intros es Hes s s'.
  destruct (fresh_invariants es Hes) as [Hok Hup]. fold s in Hok, Hup.
  assert (∀ k school,
            Clustered.schoolData (Persistent.memory s') !! k = Some school →
            Clustered.schoolData (Persistent.memory s) !! k = Some school) as Hsub.
  { intros k school Hk. simpl in Hk. destruct (Hup k) as [Heq|[Hnone _]]; congruence. }
  assert (ClusteredInv.storeOk (Persistent.memory s')) as Hok'.
  { intros k school Hk. apply Hok. by apply Hsub. }
  split_and!.
  - intros r Hsaves. rewrite serve_memory.
    by rewrite (serve_file_saved s r Written Hsaves).
  - exact Hsub.
  - intros k school Hk Hne. simpl. destruct (Hup k) as [Heq|[_ Hsome]]; congruence.
  - done.
  - intros sc id school u now u' now' w w' Hsc Hid Hlook Hknows.
    assert (Clustered.schoolData (Persistent.memory s') !! sc = Some school) as Hlook'.
    { simpl. destruct (Hup sc) as [Heq|[_ Hsome]]; [congruence|].
      rewrite Hlook in Hsome. injection Hsome as ->. done. }
    rewrite !serve_response. simpl.
    destruct (known_response (Persistent.memory s) (Persistent.memory s') sc id
                u now u' now' school Hsc Hid Hlook Hlook' Hknows) as [Heq Hp].
    split; [by symmetry | done].
  - intros sc id u now w Hsc Hid Hproto. rewrite serve_response. simpl.
    by apply served_when_intact.
Qed.

Lemma restart_restores_witness :
  (Persistent.serve
     (Persistent.runEvents (Persistent.startServer Persistent.NoFile)
        [Persistent.Serve (Sample.place "ABC" "d1") Written;
         Persistent.Serve (Sample.place "__proto__" "x") Written])
     (Sample.place "XYZ" "e1") Written).2 = Clustered.InternalError ∧
  (∃ p,
      (Persistent.serve
         (Persistent.step
            (Persistent.runEvents (Persistent.startServer Persistent.NoFile)
               [Persistent.Serve (Sample.place "ABC" "d1") Written;
                Persistent.Serve (Sample.place "__proto__" "x") Written])
            Persistent.Restart)
         (Clustered.PostGetHosts (Some "XYZ") (Some "e1") 0%fin Sample.clock)
         Written).2 = Clustered.Placed p) ∧
  FlatPersistent.memory
    (FlatPersistent.step
       (FlatPersistent.runEvents
          (FlatPersistent.startServer FlatPersistent.NoFile)
          [FlatPersistent.Serve (Sample.flatPlace "ABC" "d1") Written])
       FlatPersistent.Restart)
  = FlatPersistent.memory
      (FlatPersistent.runEvents
         (FlatPersistent.startServer FlatPersistent.NoFile)
         [FlatPersistent.Serve (Sample.flatPlace "ABC" "d1") Written]).
Proof.
  split; [vm_compute; reflexivity|]. split.
  - apply (proj1 restart_restores
             [Persistent.Serve (Sample.place "ABC" "d1") Written;
              Persistent.Serve (Sample.place "__proto__" "x") Written]);
      [repeat constructor | done | done | vm_compute; reflexivity].
  - apply (proj2 restart_restores). repeat constructor.
Defined.

(** X16 — a query right after a placement reports what the placement
    said.  On the clustered server, in a reachable store, after a
    registration was answered with a placement, the cluster query with
    the numeral of the reported cluster number returns the cluster of
    the reported name, number and frequency, whose device list has the
    reported size and the identifiers of [clusterDevices], and whose
    hosts are those of [clusterHosts]; and, if the prototype has not been
    written, the school summary reports the same school total and lists
    the cluster under the reported name with the same number, size,
    devices and frequency.  On the flat server the school query returns
    the reported total, a device list holding the device at the reported
    position, and the reported hosts. *)
Theorem placement_then_query :
  (∀ σ sc id u now p,
      Clustered.reachable σ →
      (Clustered.postGetHosts σ (Some sc) (Some id) u now).2 = Clustered.Placed p →
      ∃ info,
        Clustered.getClusterInfo (Clustered.postGetHosts σ (Some sc) (Some id) u now).1
          sc (pretty (Clustered.p_clusterNumber p)) = Clustered.ClusterFound info ∧
        (Clustered.ci_schoolCode info, Clustered.ci_clusterName info,
         Clustered.ci_clusterNumber info, Clustered.ci_frequency info)
        = (Clustered.p_schoolCode p, Clustered.p_clusterName p,
           Clustered.p_clusterNumber p, Clustered.p_frequency p) ∧
        Clustered.ci_totalDevices info = Clustered.totalDevicesInCluster p ∧
        Clustered.deviceId <$> Clustered.ci_devices info = Clustered.clusterDevices p ∧
        Clustered.clusterHosts p
        = {| Clustered.host1 := Clustered.ci_hosts info !! 0;
             Clustered.host2 := Clustered.ci_hosts info !! 1;
             Clustered.host3 := Clustered.ci_hosts info !! 2 |}) ∧
  (∀ σ sc id u now p,
      Clustered.reachable σ →
      (Clustered.postGetHosts σ (Some sc) (Some id) u now).2 = Clustered.Placed p →
      Clustered.protoLastClusterNumber
        (Clustered.postGetHosts σ (Some sc) (Some id) u now).1 = false →
      ∃ i summary,
        Clustered.getSchoolInfo (Clustered.postGetHosts σ (Some sc) (Some id) u now).1 sc
        = Clustered.SchoolFound i ∧
        Clustered.si_totalDevices i = Clustered.totalDevicesInSchool p ∧
        (Clustered.p_clusterName p, summary) ∈ Clustered.si_clusters i ∧
        Clustered.cs_clusterNumber summary = Clustered.p_clusterNumber p ∧
        Clustered.cs_totalDevices summary = Clustered.totalDevicesInCluster p ∧
        Clustered.cs_devices summary = Clustered.clusterDevices p ∧
        Clustered.cs_frequency summary = Clustered.p_frequency p) ∧
  (∀ σ sc id now p,
      Flat.reachable σ →
      (Flat.postGetHosts σ (Some sc) (Some id) now).2 = Flat.Placed p →
      ∃ i,
        Flat.getSchoolInfo (Flat.postGetHosts σ (Some sc) (Some id) now).1 sc
        = Flat.SchoolFound i ∧
        Flat.si_totalDevices i = Flat.totalDevices p ∧
        (Flat.deviceId <$> Flat.si_devices i) !! Z.to_nat (Flat.position p - 1)
        = Some id ∧
        Flat.p_hosts p
        = {| Flat.host1 := Flat.si_hosts i !! 0;
             Flat.host2 := Flat.si_hosts i !! 1;
             Flat.host3 := Flat.si_hosts i !! 2 |}).
Proof.
  split_and!.
  - intros σ sc id u now p. apply placed_cluster_query.
  - intros σ sc id u now p. apply placed_school_query.
  - intros σ sc id now p. apply flat_placed_school_query.
Qed.

Lemma placement_then_query_witness :
  (∃ p,
      (Clustered.postGetHosts (Sample.clustered Sample.ten)
         (Some "ABC") (Some "d11") 0%fin Sample.clock).2 = Clustered.Placed p ∧
      Clustered.p_clusterNumber p = 2%N ∧
      ∃ info,
        Clustered.getClusterInfo
          (Clustered.postGetHosts (Sample.clustered Sample.ten)
             (Some "ABC") (Some "d11") 0%fin Sample.clock).1
          "ABC" (pretty (Clustered.p_clusterNumber p)) = Clustered.ClusterFound info ∧
        (Clustered.ci_schoolCode info, Clustered.ci_clusterName info,
         Clustered.ci_clusterNumber info, Clustered.ci_frequency info)
        = (Clustered.p_schoolCode p, Clustered.p_clusterName p,
           Clustered.p_clusterNumber p, Clustered.p_frequency p) ∧
        Clustered.ci_totalDevices info = Clustered.totalDevicesInCluster p ∧
        Clustered.deviceId <$> Clustered.ci_devices info = Clustered.clusterDevices p ∧
        Clustered.clusterHosts p
        = {| Clustered.host1 := Clustered.ci_hosts info !! 0;
             Clustered.host2 := Clustered.ci_hosts info !! 1;
             Clustered.host3 := Clustered.ci_hosts info !! 2 |}) ∧
  (∃ p,
      (Flat.postGetHosts (Sample.flat Sample.four)
         (Some "ABC") (Some "d5") Sample.clock).2 = Flat.Placed p ∧
      ∃ i,
        Flat.getSchoolInfo
          (Flat.postGetHosts (Sample.flat Sample.four)
             (Some "ABC") (Some "d5") Sample.clock).1 "ABC" = Flat.SchoolFound i ∧
        Flat.si_totalDevices i = Flat.totalDevices p ∧
        (Flat.deviceId <$> Flat.si_devices i) !! Z.to_nat (Flat.position p - 1)
        = Some "d5" ∧
        Flat.p_hosts p
        = {| Flat.host1 := Flat.si_hosts i !! 0;
             Flat.host2 := Flat.si_hosts i !! 1;
             Flat.host3 := Flat.si_hosts i !! 2 |}).
Proof.
  split.
  - eexists. split; [vm_compute; reflexivity|]. split; [vm_compute; reflexivity|].
    apply (proj1 placement_then_query (Sample.clustered Sample.ten) "ABC" "d11"
             0%fin Sample.clock).
    + apply run_reachable, Clustered.reachable_empty.
    + vm_compute. reflexivity.
  - eexists. split; [vm_compute; reflexivity|].
    apply (proj2 (proj2 placement_then_query) (Sample.flat Sample.four) "ABC" "d5"
             Sample.clock).
    + apply flat_run_reachable, Flat.reachable_empty.
    + vm_compute. reflexivity.
Defined.

(** X17 — the invariants survive restarts and failed writes.  Take a
    server started without a data file that has handled any sequence of
    restarts and of requests whose [schoolCode] and [deviceId] are
    strings, whatever happened to the writes of the file.
    Every school in the memory of the clustered server counts in
    [totalDevices] the devices its clusters list; lists no device twice;
    stores every cluster under the name made of the school code and the
    cluster's number, which lies between 1 and [lastClusterNumber]; holds
    at most ten devices per cluster, its hosts being the first three; has
    a frequency from the channel table in every cluster; and enumerates
    its clusters in increasing number order.  Every school in the memory
    of the flat server has its first three devices as hosts and lists no
    device twice. *)
Theorem invariants_survive_restarts :
  (∀ es sc school,
      Clustered.schoolData
        (Persistent.memory
           (Persistent.runEvents (Persistent.startServer Persistent.NoFile) es)) !! sc
      = Some school →
      Clustered.totalDevices school
      = ClusteredInv.countDevices (Clustered.clusters school) ∧
      NoDup (clusteredDeviceIds school) ∧
      NoDup (Clustered.clusters school).*1 ∧
      (∀ name c,
          (name, c) ∈ Clustered.clusters school →
          name = sc +:+ "_" +:+ pretty (Clustered.clusterNumber c) ∧
          (1 ≤ Clustered.clusterNumber c ≤ Clustered.lastClusterNumber school)%N ∧
          length (Clustered.devices c) ≤ 10 ∧
          Clustered.hosts c = Clustered.deviceId <$> take 3 (Clustered.devices c) ∧
          Clustered.frequency c ∈ vec_to_list Clustered.FREQUENCY_CHANNELS) ∧
      (∀ i j ei ej,
          i < j →
          Clustered.clusters school !! i = Some ei →
          Clustered.clusters school !! j = Some ej →
          (Clustered.clusterNumber ei.2 < Clustered.clusterNumber ej.2)%N)) ∧
  (∀ es sc school,
      Flat.schoolData
        (FlatPersistent.memory
           (FlatPersistent.runEvents
              (FlatPersistent.startServer FlatPersistent.NoFile) es)) !! sc
      = Some school →
      Flat.hosts school = Flat.deviceId <$> take 3 (Flat.devices school) ∧
      NoDup (flatDeviceIds school)).
Proof.
  split.
  - intros es sc school Hlook.
    destruct (runEvents_wellFormed es (Persistent.startServer Persistent.NoFile))
      as [Hok Hl]; [done..|].
    destruct (Hok _ _ Hlook) as (Hnd & Hcs & Htot).
    destruct (Hl _ _ Hlook) as (Hids & Hsorted).
    split_and!; [done..| |].
    + intros name c Hin. rewrite Forall_forall in Hcs.
      destruct (Hcs _ Hin) as (Hname & [Hlo Hhi] & Hlen & Hhosts & Hfreq & _).
      by split_and!.
    + intros i j ei ej Hij Hi Hj.
      apply (StronglySorted_lookup_lt N.lt (clusterNumbers school) i j); [done..| |];
        unfold clusterNumbers; rewrite list_lookup_fmap.
      * by rewrite Hi.
      * by rewrite Hj.
  - intros es sc school Hlook.
    destruct (flat_runEvents_wellFormed es
                (FlatPersistent.startServer FlatPersistent.NoFile))
      with (k := sc) (school := school) as [[Hhosts _] Hnd]; done.
Qed.

Lemma invariants_survive_restarts_witness :
  (∃ school,
      Clustered.schoolData
        (Persistent.memory
           (Persistent.runEvents (Persistent.startServer Persistent.NoFile)
              [Persistent.Serve (Sample.place "ABC" "d1") FailedDamaged;
               Persistent.Restart;
               Persistent.Serve (Sample.place "ABC" "d2") Written;
               Persistent.Restart;
               Persistent.Serve (Sample.place "ABC" "d3") FailedUntouched])) !! "ABC"
      = Some school ∧
      clusteredDeviceIds school = ["d2"; "d3"] ∧
      Clustered.totalDevices school
      = ClusteredInv.countDevices (Clustered.clusters school)) ∧
  (∃ school,
      Flat.schoolData
        (FlatPersistent.memory
           (FlatPersistent.runEvents
              (FlatPersistent.startServer FlatPersistent.NoFile)
              [FlatPersistent.Serve (Sample.flatPlace "ABC" "d1") FailedDamaged;
               FlatPersistent.Restart;
               FlatPersistent.Serve (Sample.flatPlace "ABC" "d2") Written])) !! "ABC"
      = Some school ∧
      flatDeviceIds school = ["d2"] ∧
      NoDup (flatDeviceIds school)).
Proof.
  split.
  - eexists. split; [vm_compute; reflexivity|]. split; [vm_compute; reflexivity|].
    refine (proj1 (proj1 invariants_survive_restarts
                     [Persistent.Serve (Sample.place "ABC" "d1") FailedDamaged;
                      Persistent.Restart;
                      Persistent.Serve (Sample.place "ABC" "d2") Written;
                      Persistent.Restart;
                      Persistent.Serve (Sample.place "ABC" "d3") FailedUntouched]
                     "ABC" _ _)).
    vm_compute. reflexivity.
  - eexists. split; [vm_compute; reflexivity|]. split; [vm_compute; reflexivity|].
    refine (proj2 (proj2 invariants_survive_restarts
                     [FlatPersistent.Serve (Sample.flatPlace "ABC" "d1") FailedDamaged;
                      FlatPersistent.Restart;
                      FlatPersistent.Serve (Sample.flatPlace "ABC" "d2") Written]
                     "ABC" _ _)).
    vm_compute. reflexivity.
Defined.

(** X18 — schools do not interfere.  Serve any sequence of requests from
    a reachable store of the clustered server, none of them naming the
    school code [__proto__].  The requests that name a school [sc] are
    answered exactly as if the requests that name no school or another
    one had never been sent, and the entry stored under [sc] at the end
    is the same.  On the flat server this holds from every store and for
    every sequence. *)
Theorem schools_do_not_interfere :
  (∀ σ sc rs,
      Clustered.reachable σ →
      Forall (λ r, ClusteredInv.target r ≠ Some "__proto__") rs →
      clusteredAnswersTo sc σ rs
      = clusteredAnswersTo sc σ (filter (λ r, ClusteredInv.target r = Some sc) rs) ∧
      Clustered.schoolData (Clustered.run σ rs) !! sc
      = Clustered.schoolData
          (Clustered.run σ (filter (λ r, ClusteredInv.target r = Some sc) rs)) !! sc) ∧
  (∀ σ sc rs,
      flatAnswersTo sc σ rs
      = flatAnswersTo sc σ (filter (λ r, FlatInv.target r = Some sc) rs) ∧
      Flat.schoolData (Flat.run σ rs) !! sc
      = Flat.schoolData
          (Flat.run σ (filter (λ r, FlatInv.target r = Some sc) rs)) !! sc).
Proof.
  split.
  - intros σ sc rs Hreach Hrs.
    destruct (answers_local σ σ sc rs) as [Hanswers [Hentry _]]; done.
  - intros σ sc rs. by apply flat_answers_local.
Qed.

Lemma schools_do_not_interfere_witness :
  clusteredAnswersTo "ABC" Clustered.emptyStore
    [Sample.place "ABC" "d1"; Sample.place "XYZ" "e1"; Clustered.GetHealth Sample.clock;
     Sample.place "ABC" "d2"; Clustered.DeleteSchool "XYZ"; Clustered.GetSchool "ABC"]
  = clusteredAnswersTo "ABC" Clustered.emptyStore
      [Sample.place "ABC" "d1"; Sample.place "ABC" "d2"; Clustered.GetSchool "ABC"] ∧
  length (clusteredAnswersTo "ABC" Clustered.emptyStore
            [Sample.place "ABC" "d1"; Sample.place "ABC" "d2";
             Clustered.GetSchool "ABC"]) = 3.
Proof.
  split; [|vm_compute; reflexivity].
  refine (proj1 (proj1 schools_do_not_interfere Clustered.emptyStore "ABC"
                   [Sample.place "ABC" "d1"; Sample.place "XYZ" "e1";
                    Clustered.GetHealth Sample.clock; Sample.place "ABC" "d2";
                    Clustered.DeleteSchool "XYZ"; Clustered.GetSchool "ABC"] _ _)).
  - apply Clustered.reachable_empty.
  - repeat constructor; vm_compute; discriminate.
Defined.

(** X19 — roles follow arrival order.  For registrations whose
    [schoolCode] and [deviceId] are strings, in every store reached by
    such requests.  Whenever a registration is answered with a placement,
    the device is at a first index [i] of the resolved device list, the
    position is [i + 1], the role and the three host slots are those of
    the role table at [i], and the slots of the hosts object are the
    entries of the host list, null where it has none.  A device the
    school does not list is appended to the list it is placed in: when
    that list held [n] devices it is at index [n] and gets the role of
    the table at [n].  A device listed at index [i] of a cluster (of the
    school, on the flat server) is answered from that very list, with
    the store unchanged, position [i + 1] and the role of the table at
    [i].  Requests that name other school codes, served in between,
    change nothing of the answer to a registration; on the clustered
    server provided none of them names [__proto__]. *)
Theorem role_by_arrival :
  (∀ σ sc id u now p,
      Clustered.reachable σ →
      (Clustered.postGetHosts σ (Some sc) (Some id) u now).2 = Clustered.Placed p →
      ∃ school c i,
        Clustered.schoolData
          (Clustered.postGetHosts σ (Some sc) (Some id) u now).1 !! sc = Some school ∧
        Js.objGet (Clustered.p_clusterName p) (Clustered.clusters school) = Some c ∧
        firstIndex (Clustered.sameId id) (Clustered.devices c) i ∧
        Clustered.positionInCluster p = (Z.of_nat i + 1)%Z ∧
        (Clustered.role p, Clustered.hostDeviceId p,
         Clustered.host2DeviceId p, Clustered.host3DeviceId p)
        = roleTable i id (Clustered.hosts c) ∧
        Clustered.clusterHosts p
        = {| Clustered.host1 := Clustered.hosts c !! 0;
             Clustered.host2 := Clustered.hosts c !! 1;
             Clustered.host3 := Clustered.hosts c !! 2 |} ∧
        Clustered.clusterDevices p = Clustered.deviceId <$> Clustered.devices c) ∧
  (∀ σ sc id u now p,
      Clustered.reachable σ →
      ClusteredInv.knows id (ClusteredInv.schoolOrNew σ sc) = false →
      (Clustered.postGetHosts σ (Some sc) (Some id) u now).2 = Clustered.Placed p →
      Clustered.clusterDevices p
      = (Clustered.deviceId
           <$> ClusteredInv.deviceList σ sc (Clustered.p_clusterName p)) ++ [id] ∧
      Clustered.positionInCluster p
      = (Z.of_nat (length (ClusteredInv.deviceList σ sc (Clustered.p_clusterName p)))
         + 1)%Z ∧
      (Clustered.role p, Clustered.hostDeviceId p,
       Clustered.host2DeviceId p, Clustered.host3DeviceId p)
      = roleTable (length (ClusteredInv.deviceList σ sc (Clustered.p_clusterName p)))
          id (take 3 (Clustered.clusterDevices p))) ∧
  (∀ σ sc id u now school name c i,
      Clustered.reachable σ →
      Clustered.schoolData σ !! sc = Some school →
      (name, c) ∈ Clustered.clusters school →
      (Clustered.deviceId <$> Clustered.devices c) !! i = Some id →
      ∃ p,
        Clustered.postGetHosts σ (Some sc) (Some id) u now = (σ, Clustered.Placed p) ∧
        Clustered.p_clusterName p = name ∧
        Clustered.clusterDevices p = Clustered.deviceId <$> Clustered.devices c ∧
        Clustered.positionInCluster p = (Z.of_nat i + 1)%Z ∧
        (Clustered.role p, Clustered.hostDeviceId p,
         Clustered.host2DeviceId p, Clustered.host3DeviceId p)
        = roleTable i id (take 3 (Clustered.deviceId <$> Clustered.devices c))) ∧
  (∀ σ rs sc id u now,
      Clustered.reachable σ →
      Forall (λ r, ClusteredInv.target r ≠ Some sc ∧
                   ClusteredInv.target r ≠ Some "__proto__") rs →
      (Clustered.postGetHosts (Clustered.run σ rs) (Some sc) id u now).2
      = (Clustered.postGetHosts σ (Some sc) id u now).2) ∧
  (∀ σ sc id now p,
      Flat.reachable σ →
      (Flat.postGetHosts σ (Some sc) (Some id) now).2 = Flat.Placed p →
      ∃ school i,
        Flat.schoolData (Flat.postGetHosts σ (Some sc) (Some id) now).1 !! sc
        = Some school ∧
        firstIndex (Flat.sameId id) (Flat.devices school) i ∧
        Flat.position p = (Z.of_nat i + 1)%Z ∧
        (Flat.role p, Flat.hostDeviceId p, Flat.host2DeviceId p, Flat.host3DeviceId p)
        = roleTable i id (Flat.hosts school) ∧
        Flat.p_hosts p
        = {| Flat.host1 := Flat.hosts school !! 0;
             Flat.host2 := Flat.hosts school !! 1;
             Flat.host3 := Flat.hosts school !! 2 |}) ∧
  (∀ σ sc id now p,
      Flat.reachable σ →
      id ∉ flatDeviceIds (FlatInv.schoolOrNew σ sc) →
      (Flat.postGetHosts σ (Some sc) (Some id) now).2 = Flat.Placed p →
      Flat.position p = (Z.of_nat (length (FlatInv.deviceList σ sc)) + 1)%Z ∧
      (Flat.role p, Flat.hostDeviceId p, Flat.host2DeviceId p, Flat.host3DeviceId p)
      = roleTable (length (FlatInv.deviceList σ sc)) id
          (take 3 (flatDeviceIds (FlatInv.schoolOrNew σ sc) ++ [id]))) ∧
  (∀ σ sc id now school i,
      Flat.reachable σ →
      Flat.schoolData σ !! sc = Some school →
      flatDeviceIds school !! i = Some id →
      ∃ p,
        Flat.postGetHosts σ (Some sc) (Some id) now = (σ, Flat.Placed p) ∧
        Flat.position p = (Z.of_nat i + 1)%Z ∧
        (Flat.role p, Flat.hostDeviceId p, Flat.host2DeviceId p, Flat.host3DeviceId p)
        = roleTable i id (take 3 (flatDeviceIds school))) ∧
  (∀ σ rs sc id now,
      Forall (λ r, FlatInv.target r ≠ Some sc) rs →
      (Flat.postGetHosts (Flat.run σ rs) (Some sc) id now).2
      = (Flat.postGetHosts σ (Some sc) id now).2).
Proof.
  split_and!.
  - intros σ sc id u now p. apply clustered_role_by_index.
  - intros σ sc id u now p. apply clustered_new_index.
  - intros σ sc id u now school name c i. apply clustered_repeat.
  - intros σ rs sc id u now Hreach Hrs.
    by apply (clustered_interleaved σ rs (Clustered.PostGetHosts (Some sc) id u now) sc).
  - intros σ sc id now p. apply flat_role_by_index.
  - intros σ sc id now p. apply flat_new_index.
  - intros σ sc id now school i. apply flat_repeat.
  - intros σ rs sc id now Hrs.
    by apply (flat_interleaved σ rs (Flat.PostGetHosts (Some sc) id now) sc).
Qed.

Lemma role_by_arrival_witness :
  (Clustered.postGetHosts
     (Clustered.run (Sample.clustered ["d1"])
        [Sample.place "XYZ" "e1"; Clustered.DeleteSchool "XYZ";
         Sample.place "constructor" "x"])
     (Some "ABC") (Some "d2") 0%fin Sample.clock).2
  = (Clustered.postGetHosts (Sample.clustered ["d1"])
       (Some "ABC") (Some "d2") 0%fin Sample.clock).2 ∧
  ∃ p,
    (Clustered.postGetHosts (Sample.clustered ["d1"])
       (Some "ABC") (Some "d2") 0%fin Sample.clock).2 = Clustered.Placed p ∧
    Clustered.positionInCluster p = 2%Z ∧
    (Clustered.role p, Clustered.hostDeviceId p,
     Clustered.host2DeviceId p, Clustered.host3DeviceId p)
    = roleTable 1 "d2" (take 3 (Clustered.clusterDevices p)).
Proof.
  destruct role_by_arrival as (_ & Hnew & _ & Hinter & _).
  split.
  - apply Hinter; [apply run_reachable, Clustered.reachable_empty|].
    repeat constructor; vm_compute; discriminate.
  - eexists. split; [vm_compute; reflexivity|].
    destruct (Hnew (Sample.clustered ["d1"]) "ABC" "d2" 0%fin Sample.clock
                (Clustered.composeResponse "ABC" "d2" "ABC_1"
                   (Clustered.addDevice "d2" Sample.clock
                      {| Clustered.clusterNumber := 1;
                         Clustered.devices :=
                           [{| Clustered.deviceId := "d1";
                               Clustered.registeredAt := Sample.clock |}];
                         Clustered.hosts := ["d1"];
                         Clustered.frequency := Clustered.getRandomFrequency 0%fin;
                         Clustered.createdAt := Sample.clock |}) 2))
      as (_ & Hpos & Hroles).
    + apply run_reachable, Clustered.reachable_empty.
    + vm_compute. reflexivity.
    + vm_compute. reflexivity.
    + split; [exact Hpos | exact Hroles].
Defined.
